(** * Ambient declarations of the MediaWiki client runtime, as data

    The repository is a set of TypeScript declaration files, one JavaScript
    helper script and a package manifest.  Declarations have no run-time
    behaviour of their own, so the embedding keeps them as what they are:
    syntax trees of types, members and declarations, one value per source
    file, with the JSDoc comments that the declarations carry (the first
    paragraph and the block tags of each).  Line comments are left out.

    A file under src/ can hold several documents of the repository; each
    document is one file of the model, named by the file under src/ and its
    position there.

    The helper script is embedded twice: as a syntax tree (it is a file of
    the repository like the others) and, in [ParamScript], as the functions
    it computes. *)

From Stdlib Require Import String Ascii List Bool Arith.
Import ListNotations.
Open Scope string_scope.
Open Scope list_scope.

(** ** JSDoc comments *)

(** A block tag [@name {type} text]; [summary] is the first paragraph of
    the comment. *)
Record tag : Type := Tag { tag_name : string; tag_type : string; tag_text : string }.
Record jsdoc : Type := Doc { summary : string; tags : list tag }.

Definition nodoc : jsdoc := Doc EmptyString [].

(** The double quote character, for texts that contain one. *)
Definition dq : string := String (ascii_of_nat 34) EmptyString.

(** ** Types *)

Set Warnings "-register-all".

Inductive pkind : Type := Required | Optional | Rest | ThisParam.

Inductive ty : Type :=
| TKw (k : string)
| TLit (s : string)
| TRef (name : list string) (args : list ty)
| TArray (t : ty)
| TTuple (elems : list telem)
| TUnion (ts : list ty)
| TInter (ts : list ty)
| TFun (s : sig)
| TObj (ms : list member)
| TTypeof (name : list string)
| TKeyof (t : ty)
| TIndex (t i : ty)
| TCond (c e a b : ty)
| TInfer (n : string)
| TMapped (k : string) (src : ty) (as_clause : option ty) (required : bool) (v : ty)
| TTemplate (parts : list tpart)
with telem : Type := TElem (label : option string) (optional : bool) (t : ty)
with tpart : Type := PText (s : string) | PHole (t : ty)
with sig : Type := Sig (tps : list tparam) (ps : list param) (ret : ty)
with tparam : Type := TParam (n : string) (bound : option ty) (default : option ty)
with param : Type := Param (n : string) (k : pkind) (t : ty)
with member : Type :=
| MProp (n : string) (optional : bool) (t : ty) (d : jsdoc)
| MMethod (n : string) (s : sig) (d : jsdoc)
| MCall (s : sig) (d : jsdoc)
| MIndexSig (k : string) (kt : ty) (v : ty).

(** ** The helper script's JavaScript *)

Inductive pattern : Type :=
| PId (x : string)
| PObject (fields : list string).

Inductive expr : Type :=
| EId (x : string)
| EStr (s : string)
| ETemplate (parts : list epart)
| ERegex (source flags : string)
| EMember (e : expr) (prop : string)
| ECall (f : expr) (args : list expr)
| ENew (c : expr) (args : list expr)
| EAwait (e : expr)
| EArrow (params : list pattern) (result : expr)
| EArrowBlock (params : list pattern) (body : list stmt)
| EObject (props : list (string * expr))
| EArray (elems : list expr)
| ESpread (e : expr)
| EBinary (op : string) (l r : expr)
with epart : Type := EText (s : string) | EHole (e : expr)
with stmt : Type :=
| SConst (p : pattern) (e : expr)
| SAssign (x : string) (e : expr)
| SIf (c : expr) (thn els : list stmt)
| SReturn (e : expr)
| SThrow (e : expr)
| SExpr (e : expr).

(** ** Declarations *)

Inductive modifier : Type := Plain | Declared | Exported.
Inductive refkind : Type := RefPath | RefTypes.

Inductive cmember : Type :=
| CCtor (ps : list param) (d : jsdoc)
| CProp (private : bool) (n : string) (optional : bool) (t : ty) (d : jsdoc)
| CMethod (private : bool) (n : string) (s : sig) (d : jsdoc).

(** A top-level or namespace-level element of a source file.  [IFunction]
    is a signature, as declaration files have them; [IFunctionImpl] is a
    JavaScript function with its body; [IConst] has a type annotation, an
    initialiser, or both; [IStatement] is any other executable statement. *)
Inductive item : Type :=
| IReference (k : refkind) (target : string)
| IImport (module : string)
| IExportAssign (n : string)
| IExportAsNamespace (n : string)
| IExportEmpty
| INamespace (m : modifier) (name : list string) (body : list item) (d : jsdoc)
| IGlobal (body : list item)
| IInterface (n : string) (tps : list tparam) (extends : list ty) (ms : list member) (d : jsdoc)
| IClass (n : string) (ms : list cmember) (d : jsdoc)
| ITypeAlias (m : modifier) (n : string) (tps : list tparam) (t : ty) (d : jsdoc)
| IConst (m : modifier) (n : string) (t : option ty) (init : option expr) (d : jsdoc)
| IFunction (n : string) (s : sig) (d : jsdoc)
| IFunctionImpl (n : string) (params : list string) (body : list stmt) (d : jsdoc)
| IStatement (s : stmt).

(** ** The package manifest *)

Inductive json : Type :=
| JString (s : string)
| JArray (elems : list json)
| JObject (fields : list (string * json)).

(** ** Files *)

Inductive content : Type :=
| Source (items : list item)
| Manifest (j : json).

(** A file of the repository: the file under src/ that holds it and its
    position there (a file under src/ can hold several documents). *)
Record file : Type := File { src : string; part : nat; body : content }.

(** src/index.d.ts: the entry point. *)
Definition index_d_ts : list item := [
  IReference RefPath "mediawiki/index.d.ts";
  IReference RefTypes "./jquery";
  IReference RefTypes "./jquery.client";
  IReference RefTypes "./jquery.textSelection";
  IReference RefTypes "./mediawiki.api";
  IReference RefTypes "./mediawiki.cldr";
  IReference RefTypes "./mediawiki.cookie";
  IReference RefTypes "./mediawiki.experiments";
  IReference RefTypes "./mediawiki.ForeignApi";
  IReference RefTypes "./mediawiki.ForeignApi.core";
  IReference RefTypes "./mediawiki.jqueryMsg";
  IReference RefTypes "./mediawiki.language";
  IReference RefTypes "./mediawiki.language.months";
  IReference RefTypes "./mediawiki.libs.pluralruleparser";
  IReference RefTypes "./mediawiki.notification";
  IReference RefTypes "./mediawiki.storage";
  IReference RefTypes "./mediawiki.String";
  IReference RefTypes "./mediawiki.template";
  IReference RefTypes "./mediawiki.Title";
  IReference RefTypes "./mediawiki.Uri";
  IReference RefTypes "./mediawiki.user";
  IReference RefTypes "./mediawiki.util";
  IReference RefTypes "./mediawiki.visibleTimeout";
  IExportAssign "mw";
  IExportAsNamespace "mw"].

(** src/mediawiki/loader.d.ts: the module loader. *)
Definition mediawiki_loader_d_ts : list item := [
  INamespace Declared ["mw"] [
    INamespace Plain ["loader"] [
      IInterface "Module" [] [] [
        MProp "exports" false (TKw "any") nodoc]
        nodoc;
      ITypeAlias Plain "ModuleKey" [] (TTemplate [PHole (TKw "string"); PText "@"; PHole (TKw "string")]) nodoc;
      ITypeAlias Plain "ModuleState" [] (TUnion [TLit "error"; TLit "executing"; TLit "loaded"; TLit "loading"; TLit "missing"; TLit "ready"; TLit "registered"]) nodoc;
      ITypeAlias Plain "ModuleMessages" [] (TRef ["Record"] [TKw "string"; TKw "string"]) nodoc;
      ITypeAlias Plain "ModuleStyle" [] (TRef ["Record"] [TKw "string"; TKw "any"]) nodoc;
      ITypeAlias Plain "ModuleTemplates" [] (TRef ["Record"] [TKw "string"; TKw "any"]) nodoc;
      IInterface "ModuleDeclarator" [] [] [
        MCall (Sig [] [] (TTuple [TElem (Some "module") false (TKw "string"); TElem (Some "script") true (TUnion [TRef ["ModuleScript"] []; TKw "null"]); TElem (Some "style") true (TUnion [TRef ["ModuleStyle"] []; TKw "null"]); TElem (Some "messages") true (TUnion [TRef ["ModuleMessages"] []; TKw "null"]); TElem (Some "templates") true (TUnion [TRef ["ModuleTemplates"] []; TKw "null"]); TElem (Some "deprecationWarning") true (TUnion [TKw "string"; TKw "null"])])) nodoc]
        nodoc;
      IInterface "ModuleRequire" [] [] [
        MCall (Sig [] [Param "moduleName" Required (TKw "string")] (TKw "any"))
          (Doc "Get the exported value of a module." [
             Tag "param" EmptyString "moduleName Module name";
             Tag "returns" EmptyString "Exported value"])]
        nodoc;
      ITypeAlias Plain "ModuleScript" [] (TUnion [TArray (TKw "string"); TFun (Sig [] [Param "$" Required (TRef ["JQuery"] []); Param "jQuery" Required (TRef ["JQuery"] []); Param "require" Required (TRef ["ModuleRequire"] []); Param "module" Required (TRef ["Module"] [])] (TKw "void")); TObj [MProp "files" false (TObj [MIndexSig "key" (TKw "string") (TKw "any")]) nodoc; MProp "main" false (TKw "string") nodoc]; TKw "string"]) nodoc;
      IInterface "ModuleRegistryEntry" [] [] [
        MProp "declarator" true (TUnion [TRef ["ModuleDeclarator"] []; TKw "null"]) nodoc;
        MProp "dependencies" false (TArray (TKw "string")) nodoc;
        MProp "deprecationWarning" true (TUnion [TKw "string"; TKw "null"]) nodoc;
        MProp "group" false (TUnion [TKw "number"; TKw "null"]) nodoc;
        MProp "messages" true (TUnion [TRef ["ModuleMessages"] []; TKw "null"]) nodoc;
        MProp "module" false (TRef ["Module"] []) nodoc;
        MProp "packageExports" false (TKw "any") nodoc;
        MProp "skip" false (TUnion [TKw "string"; TKw "null"]) nodoc;
        MProp "source" false (TKw "string") nodoc;
        MProp "state" false (TUnion [TLit "error"; TLit "loaded"; TLit "missing"; TLit "registered"; TLit "ready"]) nodoc;
        MProp "version" false (TKw "string") nodoc]
        nodoc;
      IFunction "addStyleTag" (Sig [] [Param "text" Required (TKw "string"); Param "nextNode" Optional (TUnion [TRef ["Node"] []; TKw "null"])] (TRef ["HTMLStyleElement"] []))
        (Doc "Create a new style element and add it to the DOM." [
           Tag "param" "string" "text CSS text";
           Tag "param" "Node|null" "[nextNode] The element where the style tag should be inserted before";
           Tag "returns" "HTMLStyleElement" "Reference to the created style element";
           Tag "see" EmptyString "https://doc.wikimedia.org/mediawiki-core/master/js/#!/api/mw.loader-method-addStyleTag"]);
      IFunction "getState" (Sig [] [Param "module" Required (TKw "string")] (TUnion [TRef ["ModuleState"] []; TKw "null"]))
        (Doc "Get the state of a module." [
           Tag "param" "string" "module Name of module";
           Tag "returns" "string|null" "The state, or null if the module (or its state) is not in the registry.";
           Tag "see" EmptyString "https://doc.wikimedia.org/mediawiki-core/master/js/#!/api/mw.loader-method-getState"]);
      IFunction "impl" (Sig [] [Param "declarator" Required (TRef ["ModuleDeclarator"] [])] (TKw "void"))
        (Doc "Implement a module given a function which returns the components of the module" [
           Tag "param" "Function" "declarator"]);
      IFunction "implement" (Sig [] [Param "module" Required (TKw "string"); Param "script" Optional (TRef ["ModuleScript"] []); Param "style" Optional (TRef ["ModuleStyle"] []); Param "messages" Optional (TRef ["ModuleMessages"] []); Param "templates" Optional (TRef ["ModuleTemplates"] []); Param "deprecationWarning" Optional (TUnion [TKw "string"; TKw "null"])] (TKw "void"))
        (Doc "Implement a module given the components of the module." [
           Tag "param" "string" "module";
           Tag "param" "ModuleScript" ("[script] Module code. This can be a function, a list of URLs to load via `<script src>`, a string for `domEval()`, or an object like {" ++ dq ++ "files" ++ dq ++ ": {" ++ dq ++ "foo.js" ++ dq ++ ":function, " ++ dq ++ "bar.js" ++ dq ++ ": function, ...}, " ++ dq ++ "main" ++ dq ++ ": " ++ dq ++ "foo.js" ++ dq ++ "}. If an object is provided, the main file will be executed immediately, and the other files will only be executed if loaded via require(). If a function or string is provided, it will be executed/evaluated immediately. If an array is provided, all URLs in the array will be loaded immediately, and executed as soon as they arrive.");
           Tag "param" "ModuleStyle" "[style] Should follow one of the following patterns:";
           Tag "param" "ModuleMessages" "[messages] List of key/value pairs to be added to {@link mw.messages}.";
           Tag "param" "ModuleTemplates" "[templates] List of key/value pairs to be added to {@link mw.templates}.";
           Tag "param" "string|null" "[deprecationWarning] Deprecation warning if any";
           Tag "see" EmptyString "https://doc.wikimedia.org/mediawiki-core/master/js/#!/api/mw.loader-method-implement"]);
      IFunction "load" (Sig [] [Param "modules" Required (TUnion [TKw "string"; TArray (TKw "string")]); Param "type" Optional (TUnion [TLit "text/css"; TLit "text/javascript"])] (TKw "void"))
        (Doc "Load an external script or one or more modules." [
           Tag "param" "string|string[]" "modules Either the name of a module, array of modules, or a URL of an external script or style";
           Tag "param" "string" ("[type='text/javascript'] MIME type to use if calling with a URL of an external script or style; acceptable values are " ++ dq ++ "text/css" ++ dq ++ " and " ++ dq ++ "text/javascript" ++ dq ++ "; if no type is provided, text/javascript is assumed.");
           Tag "throws" "Error" "If type is invalid";
           Tag "see" EmptyString "https://doc.wikimedia.org/mediawiki-core/master/js/#!/api/mw.loader-method-load"]);
      IFunction "register" (Sig [] [Param "modules" Required (TKw "string"); Param "version" Optional (TUnion [TKw "string"; TKw "number"]); Param "dependencies" Optional (TArray (TKw "string")); Param "group" Optional (TUnion [TKw "string"; TKw "null"]); Param "source" Optional (TKw "string"); Param "skip" Optional (TUnion [TKw "string"; TKw "null"])] (TKw "void"))
        (Doc "Register a module, letting the system know about it and its properties." [
           Tag "param" "string|Array" "modules Module name or array of arrays, each containing a list of arguments compatible with this method";
           Tag "param" "string|number" "[version] Module version hash (falls backs to empty string) Can also be a number (timestamp) for compatibility with MediaWiki 1.25 and earlier.";
           Tag "param" "string[]" "[dependencies] Array of module names on which this module depends.";
           Tag "param" "string" "[group=null] Group which the module is in";
           Tag "param" "string" "[source='local'] Name of the source";
           Tag "param" "string" "[skip=null] Script body of the skip function";
           Tag "see" EmptyString "https://doc.wikimedia.org/mediawiki-core/master/js/#!/api/mw.loader-method-register"]);
      IFunction "register" (Sig [] [Param "modules" Required (TRef ["Array"] [TTuple [TElem (Some "module") false (TKw "string"); TElem (Some "version") true (TUnion [TKw "string"; TKw "number"]); TElem (Some "dependencies") true (TRef ["Array"] [TUnion [TKw "string"; TKw "number"]]); TElem (Some "group") true (TUnion [TKw "string"; TKw "null"]); TElem (Some "source") true (TKw "string"); TElem (Some "skip") true (TUnion [TKw "string"; TKw "null"])]])] (TKw "void")) nodoc;
      IFunction "state" (Sig [] [Param "states" Required (TRef ["Record"] [TKw "string"; TRef ["ModuleState"] []])] (TKw "void"))
        (Doc "Change the state of one or more modules." [
           Tag "param" "Object.<string, ModuleState>" "states Object of module name/state pairs";
           Tag "see" EmptyString "https://doc.wikimedia.org/mediawiki-core/master/js/#!/api/mw.loader-method-state"]);
      IConst Plain "maxQueryLength" (Some (TKw "number")) None
        (Doc "Exposed for testing and debugging only." [
           Tag "private" EmptyString EmptyString;
           Tag "see" EmptyString "https://doc.wikimedia.org/mediawiki-core/master/js/#!/api/mw.loader-property-maxQueryLength"]);
      IConst Plain "moduleRegistry" (Some (TRef ["Record"] [TKw "string"; TRef ["ModuleRegistryEntry"] []])) None
        (Doc "The module registry is exposed as an aid for debugging and inspecting page state; it is not a public interface for modifying the registry." [
           Tag "private" EmptyString EmptyString;
           Tag "see" EmptyString "https://doc.wikimedia.org/mediawiki-core/master/js/#!/api/mw.loader-property-moduleRegistry"]);
      IFunction "addLinkTag" (Sig [] [Param "url" Required (TKw "string"); Param "media" Optional (TKw "string"); Param "nextNode" Optional (TUnion [TRef ["Node"] []; TKw "null"])] (TRef ["HTMLLinkElement"] []))
        (Doc "Utility function for execute()" [
           Tag "private" EmptyString EmptyString;
           Tag "param" "string" "url URL";
           Tag "param" "string" "[media] Media attribute";
           Tag "param" "Node|null" "[nextNode]";
           Tag "returns" "HTMLLinkElement" EmptyString;
           Tag "see" EmptyString "https://doc.wikimedia.org/mediawiki-core/master/js/source/mediawiki.loader.html#global-method-addLinkTag"]);
      IFunction "addScriptTag" (Sig [] [Param "src" Required (TKw "string"); Param "callback" Optional (TFun (Sig [] [] (TKw "void"))); Param "modules" Optional (TArray (TKw "string"))] (TRef ["HTMLScriptElement"] []))
        (Doc "Load and execute a script." [
           Tag "private" EmptyString EmptyString;
           Tag "param" "string" "src URL to script, will be used as the src attribute in the script tag";
           Tag "param" "Function" "[callback] Callback to run after request resolution";
           Tag "param" "string[]" "[modules] List of modules being requested, for state to be marked as error in case the script fails to load";
           Tag "returns" "HTMLScriptElement" EmptyString;
           Tag "see" EmptyString "https://doc.wikimedia.org/mediawiki-core/master/js/source/mediawiki.loader.html#mw-loader-method-addScriptTag"]);
      IFunction "enqueue" (Sig [] [Param "dependencies" Required (TArray (TKw "string")); Param "ready" Optional (TFun (Sig [] [] (TKw "void"))); Param "error" Optional (TFun (Sig [] [Param "error" Required (TRef ["Error"] []); Param "args" Rest (TArray (TKw "any"))] (TKw "void")))] (TKw "void"))
        (Doc "Add one or more modules to the module load queue." [
           Tag "private" EmptyString EmptyString;
           Tag "param" "string[]" "dependencies Array of module names in the registry";
           Tag "param" "Function" "[ready] Callback to execute when all dependencies are ready";
           Tag "param" "Function" "[error] Callback to execute when any dependency fails";
           Tag "see" EmptyString "https://doc.wikimedia.org/mediawiki-core/master/js/#!/api/mw.loader-method-enqueue"]);
      IConst Plain "require" (Some (TRef ["ModuleRequire"] [])) None
        (Doc "Get the exported value of a module." [
           Tag "since" EmptyString "1.27";
           Tag "private" EmptyString EmptyString;
           Tag "see" EmptyString "https://doc.wikimedia.org/mediawiki-core/master/js/#!/api/mw.loader-method-require"]);
      IFunction "resolve" (Sig [TParam "T" (Some (TKw "string")) None; TParam "U" (Some (TRef ["T"] [])) (Some (TRef ["T"] []))] [Param "modules" Required (TArray (TRef ["U"] []))] (TArray (TRef ["T"] [])))
        (Doc "Get names of module that a module depends on, in their proper dependency order." [
           Tag "private" EmptyString EmptyString;
           Tag "param" "string[]" "modules Array of string module names";
           Tag "returns" "string[]" "List of dependencies, including 'module'.";
           Tag "throws" "Error" "If an unregistered module or a dependency loop is encountered";
           Tag "see" EmptyString "https://doc.wikimedia.org/mediawiki-core/master/js/#!/api/mw.loader-method-resolve"]);
      IFunction "work" (Sig [] [] (TKw "void"))
        (Doc "Start loading of all queued module dependencies." [
           Tag "private" EmptyString EmptyString;
           Tag "see" EmptyString "https://doc.wikimedia.org/mediawiki-core/master/js/#!/api/mw.loader-method-work"])]
      (Doc "Client for ResourceLoader server end point." [
         Tag "see" EmptyString "https://doc.wikimedia.org/mediawiki-core/master/js/#!/api/mw.loader"])]
    nodoc].

(** src/mediawiki/loader.store.d.ts, first document: the module store. *)
Definition mediawiki_loader_store_d_ts : list item := [
  INamespace Declared ["mw"; "loader"; "store"] [
    IInterface "Stats" [] [] [
      MProp "expired" false (TKw "number") nodoc;
      MProp "failed" false (TKw "number") nodoc;
      MProp "hits" false (TKw "number") nodoc;
      MProp "misses" false (TKw "number") nodoc]
      nodoc;
    IConst Plain "key" (Some (TKw "string")) None
      (Doc "The localStorage key for the entire module store. The key references $wgDBname to prevent clashes between wikis which share a common host." [
         Tag "property" "string" EmptyString;
         Tag "see" EmptyString "https://doc.wikimedia.org/mediawiki-core/master/js/#!/api/mw.loader.store-property-key"]);
    IConst Plain "vary" (Some (TKw "string")) None
      (Doc "A string containing various factors by which the module cache should vary." [
         Tag "property" "string" EmptyString;
         Tag "see" EmptyString "https://doc.wikimedia.org/mediawiki-core/master/js/#!/api/mw.loader.store-property-vary"]);
    IFunction "add" (Sig [] [Param "module" Required (TKw "string")] (TKw "void"))
      (Doc "Queue the name of a module that the next update should consider storing." [
         Tag "since" EmptyString "1.32";
         Tag "param" "string" "module Module name";
         Tag "see" EmptyString "https://doc.wikimedia.org/mediawiki-core/master/js/#!/api/mw.loader.store-method-add"]);
    IFunction "clear" (Sig [] [] (TKw "void"))
      (Doc "Clear the entire module store right now." [
         Tag "see" EmptyString "https://doc.wikimedia.org/mediawiki-core/master/js/#!/api/mw.loader.store-method-clear"]);
    IFunction "get" (Sig [] [Param "module" Required (TKw "string")] (TUnion [TKw "string"; TKw "false"]))
      (Doc "Retrieve a module from the store and update cache hit stats." [
         Tag "param" "string" "module Module name";
         Tag "returns" "string|boolean" "Module implementation or false if unavailable";
         Tag "see" EmptyString "https://doc.wikimedia.org/mediawiki-core/master/js/#!/api/mw.loader.store-method-get"]);
    IFunction "init" (Sig [] [] (TKw "void"))
      (Doc "Initialize the store." [
         Tag "see" EmptyString "https://doc.wikimedia.org/mediawiki-core/master/js/#!/api/mw.loader.store-method-init"]);
    IFunction "load" (Sig [] [] (TKw "void"))
      (Doc "Internal helper for {@link init()}. Separated for ease of testing." [
         Tag "see" EmptyString "https://doc.wikimedia.org/mediawiki-core/master/js/#!/api/mw.loader.store-method-load"]);
    IFunction "prune" (Sig [] [] (TKw "void"))
      (Doc "Iterate through the module store, removing any item that does not correspond (in name and version) to an item in the module registry." [
         Tag "see" EmptyString "https://doc.wikimedia.org/mediawiki-core/master/js/#!/api/mw.loader.store-method-prune"]);
    IFunction "toJSON" (Sig [] [] (TObj [MProp "items" false (TKw "string") nodoc; MProp "vary" false (TKw "string") nodoc; MProp "asOf" false (TKw "number") nodoc]))
      (Doc "Construct a JSON-serializable object representing the content of the store." [
         Tag "returns" "Object" "Module store contents.";
         Tag "see" EmptyString "https://doc.wikimedia.org/mediawiki-core/master/js/#!/api/mw.loader.store-method-toJSON"]);
    IConst Plain "enabled" (Some (TUnion [TKw "boolean"; TKw "null"])) None
      (Doc "Whether the store is in use on this page." [
         Tag "see" EmptyString "https://doc.wikimedia.org/mediawiki-core/master/js/source/mediawiki.loader.html"]);
    IConst Plain "items" (Some (TRef ["Record"] [TRef ["ModuleKey"] []; TKw "any"])) None
      (Doc "The contents of the store, mapping '[name]@[version]' keys to module implementations." [
         Tag "see" EmptyString "https://doc.wikimedia.org/mediawiki-core/master/js/source/mediawiki.loader.html"]);
    IConst Plain "queue" (Some (TArray (TKw "string"))) None
      (Doc "Names of modules to be stored during the next update." [
         Tag "see" EmptyString "https://doc.wikimedia.org/mediawiki-core/master/js/source/mediawiki.loader.html"]);
    IConst Plain "stats" (Some (TRef ["Stats"] [])) None
      (Doc "Cache hit stats" [
         Tag "see" EmptyString "https://doc.wikimedia.org/mediawiki-core/master/js/source/mediawiki.loader.html"]);
    IFunction "set" (Sig [] [Param "module" Required (TKw "string")] (TKw "void"))
      (Doc "Add the contents of the named module to the in-memory store." [
         Tag "private" EmptyString EmptyString;
         Tag "param" "string" "module Module name";
         Tag "see" EmptyString "https://doc.wikimedia.org/mediawiki-core/master/js/#!/api/mw.loader.store-method-set"]);
    IFunction "requestUpdate" (Sig [] [] (TKw "void"))
      (Doc "Request a sync of the in-memory store back to persisted localStorage." [
         Tag "private" EmptyString EmptyString;
         Tag "see" EmptyString "https://doc.wikimedia.org/mediawiki-core/master/js/#!/api/mw.loader.store-method-requestUpdate"])]
    (Doc EmptyString [
       Tag "see" EmptyString "https://doc.wikimedia.org/mediawiki-core/master/js/#!/api/mw.loader.store"])].

(** src/mediawiki/loader.store.d.ts, second document: the startup part of mw. *)
Definition mediawiki_loader_store_d_ts_2 : list item := [
  IConst Declared "mediaWiki" (Some (TTypeof ["mw"])) None
    (Doc "Base library for MediaWiki." [
       Tag "see" EmptyString "https://doc.wikimedia.org/mediawiki-core/master/js/#!/api/mw"]);
  INamespace Declared ["mw"] [
    ITypeAlias Plain "ObjectAnalyticEventData" [] (TRef ["Record"] [TKw "string"; TKw "any"]) nodoc;
    ITypeAlias Plain "AnalyticEventData" [] (TUnion [TRef ["ObjectAnalyticEventData"] []; TKw "number"; TKw "string"; TKw "undefined"]) nodoc;
    IInterface "ErrorAnalyticEventData" [] [TRef ["ObjectAnalyticEventData"] []] [
      MProp "exception" true (TKw "any") nodoc;
      MProp "module" true (TKw "string") nodoc;
      MProp "source" false (TKw "string") nodoc]
      nodoc;
    IInterface "AnalyticEvent" [] [] [
      MProp "topic" false (TKw "string") nodoc;
      MProp "data" false (TRef ["AnalyticEventData"] []) nodoc]
      nodoc;
    IFunction "now" (Sig [] [] (TKw "number"))
      (Doc "Get the current time, measured in milliseconds since January 1, 1970 (UTC)." [
         Tag "returns" "number" "Current time";
         Tag "see" EmptyString "https://doc.wikimedia.org/mediawiki-core/master/js/#!/api/mw-method-now"]);
    IFunction "requestIdleCallback" (Sig [] [Param "callback" Required (TFun (Sig [] [Param "args" Rest (TArray (TKw "any"))] (TKw "any"))); Param "options" Optional (TObj [MProp "timeout" true (TKw "number") nodoc])] (TKw "void"))
      (Doc "Schedule a deferred task to run in the background." [
         Tag "param" "Function" "callback";
         Tag "param" "Object" "[options]";
         Tag "param" "number" "[options.timeout] If set, the callback will be scheduled for immediate execution after this amount of time (in milliseconds) if it didn't run by that time.";
         Tag "see" EmptyString "https://doc.wikimedia.org/mediawiki-core/master/js/#!/api/mw-method-requestIdleCallback"]);
    IFunction "track" (Sig [] [Param "topic" Required (TKw "string"); Param "data" Optional (TRef ["AnalyticEventData"] [])] (TKw "void"))
      (Doc "Track an analytic event." [
         Tag "param" "string" "topic Topic name";
         Tag "param" "AnalyticEventData" "[data] Data describing the event.";
         Tag "see" EmptyString "https://doc.wikimedia.org/mediawiki-core/master/js/#!/api/mw-method-track"]);
    IFunction "trackError" (Sig [] [Param "topic" Required (TKw "string"); Param "data" Required (TRef ["ErrorAnalyticEventData"] [])] (TKw "void"))
      (Doc "Track an early error event via mw.track and send it to the window console." [
         Tag "private" EmptyString EmptyString;
         Tag "param" "string" "topic Topic name";
         Tag "param" "ErrorAnalyticEventData" "data Data describing the event, encoded as an object; see {@link errorLogger.logError}";
         Tag "see" EmptyString "https://doc.wikimedia.org/mediawiki-core/master/js/#!/api/mw-method-trackError"]);
    IConst Plain "trackQueue" (Some (TArray (TRef ["AnalyticEvent"] []))) None
      (Doc "List of all analytic events emitted so far." [
         Tag "private" EmptyString EmptyString;
         Tag "see" EmptyString "https://doc.wikimedia.org/mediawiki-core/master/js/#!/api/mw-property-trackQueue"])]
    (Doc "Base library for MediaWiki." [
       Tag "see" EmptyString "https://doc.wikimedia.org/mediawiki-core/master/js/#!/api/mw"])].

(** src/mediawiki/notification.d.ts: mw.notify and the Notification object. *)
Definition mediawiki_notification_d_ts : list item := [
  INamespace Declared ["mw"] [
    IFunction "notify" (Sig [] [Param "message" Required (TUnion [TKw "string"; TRef ["Message"] []; TRef ["JQuery"] []; TRef ["HTMLElement"] []; TArray (TRef ["HTMLElement"] [])]); Param "options" Optional (TRef ["Partial"] [TRef ["Notification"; "Options"] []])] (TRef ["JQuery"; "Promise"] [TRef ["Notification"] []]))
      (Doc "Display a notification message to the user." [
         Tag "param" "HTMLElement|HTMLElement[]|JQuery|Message|string" "message";
         Tag "param" "Partial<Notification.Options>" "[options] The options to use for the notification. See {@link Notification.Options defaults} for details.";
         Tag "returns" "JQuery.Promise<Notification>" "Notification object";
         Tag "see" EmptyString "https://doc.wikimedia.org/mediawiki-core/master/js/#!/api/mw-method-notify"]);
    IInterface "Notification" [] [] [
      MProp "$notification" false (TRef ["JQuery"] []) nodoc;
      MProp "autoHideSeconds" false (TKw "number") nodoc;
      MProp "isOpen" false (TKw "boolean") nodoc;
      MProp "isPaused" false (TKw "boolean") nodoc;
      MProp "options" false (TRef ["Partial"] [TRef ["Notification"; "Options"] []]) nodoc;
      MProp "timeout" false (TObj [MProp "set" false (TTypeof ["setTimeout"]) nodoc; MProp "clear" false (TTypeof ["clearTimeout"]) nodoc]) nodoc;
      MMethod "close" (Sig [] [] (TKw "void"))
        (Doc "Close the notification." [
           Tag "see" EmptyString "https://doc.wikimedia.org/mediawiki-core/master/js/#!/api/mw.Notification_-method-close"]);
      MMethod "pause" (Sig [] [] (TKw "void"))
        (Doc "Pause any running auto-hide timer for this notification" [
           Tag "see" EmptyString "https://doc.wikimedia.org/mediawiki-core/master/js/#!/api/mw.Notification_-method-pause"]);
      MMethod "resume" (Sig [] [] (TKw "void"))
        (Doc "Start autoHide timer if not already started. Does nothing if autoHide is disabled. Either to resume from pause or to make the first start." [
           Tag "see" EmptyString "https://doc.wikimedia.org/mediawiki-core/master/js/#!/api/mw.Notification_-method-resume"]);
      MMethod "start" (Sig [] [] (TKw "void"))
        (Doc "Start the notification. Called automatically by {@link mw.notification.notify} (possibly asynchronously on document-ready)." [
           Tag "private" EmptyString EmptyString;
           Tag "see" EmptyString "https://doc.wikimedia.org/mediawiki-core/master/js/#!/api/mw.Notification_-method-start"])]
      (Doc "A Notification object for 1 message." [
         Tag "see" EmptyString "https://doc.wikimedia.org/mediawiki-core/master/js/#!/api/mw.Notification_"]);
    INamespace Plain ["Notification"] [
      IInterface "Options" [] [] [
        MProp "autoHide" false (TKw "boolean")
          (Doc "A boolean indicating whether the notification should automatically be hidden after shown. Or if it should persist." []);
        MProp "autoHideSeconds" false (TUnion [TLit "long"; TLit "short"])
          (Doc "Key to {@link mw.notification.autoHideSeconds} for number of seconds for timeout of auto-hide notifications." []);
        MProp "tag" false (TUnion [TKw "string"; TKw "null"])
          (Doc "An optional string. When a notification is tagged only one message with that tag will be displayed. Trying to display a new notification with the same tag as one already being displayed will cause the other notification to be closed and this new notification to open up inside the same place as the previous notification." []);
        MProp "title" false (TUnion [TKw "string"; TKw "null"])
          (Doc "An optional title for the notification. Will be displayed above the content. Usually in bold." []);
        MProp "type" false (TUnion [TLit "error"; TLit "info"; TLit "success"; TLit "warn"; TKw "null"])
          (Doc "An optional string for the type of the message used for styling: Examples: 'info', 'warn', 'error', 'success'." []);
        MProp "visibleTimeout" false (TKw "boolean")
          (Doc "A boolean indicating if the autoHide timeout should be based on time the page was visible to user. Or if it should use wall clock time." []);
        MProp "id" false (TUnion [TKw "string"; TKw "false"])
          (Doc "HTML ID to set on the notification element." []);
        MProp "classes" false (TUnion [TKw "string"; TArray (TKw "string"); TKw "false"])
          (Doc "CSS class names in the form of a single string or array of strings, to be set on the notification element." [])]
        nodoc]
      nodoc]
    nodoc].

(** src/mediawiki.base/loader.d.ts, first document: the loader operations of mediawiki.base. *)
Definition mediawiki_base_loader_d_ts : list item := [
  INamespace Declared ["mw"; "loader"] [
    IFunction "getModuleNames" (Sig [] [] (TArray (TKw "string")))
      (Doc "Get the names of all registered ResourceLoader modules." [
         Tag "returns" "string[]" EmptyString;
         Tag "see" EmptyString "https://doc.wikimedia.org/mediawiki-core/master/js/#!/api/mw.loader-method-getModuleNames"]);
    IFunction "getScript" (Sig [] [Param "url" Required (TKw "string")] (TRef ["JQuery"; "Promise"] [TKw "any"]))
      (Doc "Load a script by URL." [
         Tag "param" "string" "url Script URL";
         Tag "returns" "JQuery.Promise" "Resolved when the script is loaded";
         Tag "see" EmptyString "https://doc.wikimedia.org/mediawiki-core/master/js/#!/api/mw.loader-method-getScript"]);
    IFunction "using" (Sig [] [Param "dependencies" Required (TUnion [TKw "string"; TArray (TKw "string")]); Param "ready" Optional (TFun (Sig [] [Param "require" Required (TRef ["ModuleRequire"] [])] (TKw "void"))); Param "error" Optional (TFun (Sig [] [Param "error" Required (TRef ["Error"] []); Param "args" Rest (TArray (TKw "any"))] (TKw "void")))] (TRef ["JQuery"; "Promise"] [TRef ["ModuleRequire"] []]))
      (Doc "Execute a function after one or more modules are ready." [
         Tag "param" "string|string[]" "dependencies Module name or array of modules names the callback depends on to be ready before executing";
         Tag "param" "Function" "[ready] Callback to execute when all dependencies are ready";
         Tag "param" "Function" "[error] Callback to execute if one or more dependencies failed";
         Tag "returns" "JQuery.Promise<ModuleRequire>" "With a `require` function";
         Tag "see" EmptyString "https://doc.wikimedia.org/mediawiki-core/master/js/#!/api/mw.loader-method-using"])]
    (Doc "Client for ResourceLoader server end point." [
       Tag "see" EmptyString "https://doc.wikimedia.org/mediawiki-core/master/js/#!/api/mw.loader"])].

(** src/mediawiki.base/loader.d.ts, second document: mw.user. *)
Definition mediawiki_base_loader_d_ts_2 : list item := [
  INamespace Declared ["mw"] [
    IConst Plain "user" (Some (TRef ["User"] [])) None
      (Doc EmptyString [
         Tag "see" EmptyString "https://doc.wikimedia.org/mediawiki-core/master/js/#!/api/mw.user"]);
    IInterface "User" [] [] [
      MProp "options" false (TRef ["Map"] [TRef ["User"; "Options"] []])
        (Doc EmptyString [
           Tag "see" EmptyString "https://doc.wikimedia.org/mediawiki-core/master/js/#!/api/mw.user-property-options"]);
      MProp "tokens" false (TRef ["Map"] [TRef ["User"; "Tokens"] []])
        (Doc EmptyString [
           Tag "see" EmptyString "https://doc.wikimedia.org/mediawiki-core/master/js/#!/api/mw.user-property-tokens"])]
      nodoc;
    INamespace Plain ["User"] [
      IInterface "Info" [] [] [
        MProp "groups" false (TArray (TKw "string"))
          (Doc "User groups that the user belongs to" []);
        MProp "rights" false (TArray (TKw "string"))
          (Doc "User's rights" [])]
        nodoc;
      IInterface "Options" [] [TRef ["Record"] [TKw "string"; TKw "any"]] []
        nodoc;
      IInterface "Tokens" [] [TRef ["Record"] [TKw "string"; TKw "string"]] []
        nodoc]
      nodoc]
    nodoc].

(** src/mediawiki.base/mw.d.ts, first document: the mediawiki.base part of mw. *)
Definition mediawiki_base_mw_d_ts : list item := [
  INamespace Declared ["mw"] [
    IInterface "AnalyticEventCallback" [] [] [
      MCall (Sig [] [Param "topic" Required (TKw "string"); Param "data" Required (TRef ["AnalyticEventData"] [])] (TKw "void")) nodoc]
      nodoc;
    IConst Plain "libs" (Some (TRef ["Record"] [TKw "string"; TKw "any"])) None
      (Doc "Empty object for third-party libraries, for cases where you don't want to add a new global, or the global is bad and needs containment or wrapping." [
         Tag "see" EmptyString "https://doc.wikimedia.org/mediawiki-core/master/js/#!/api/mw-property-libs"]);
    IConst Plain "widgets" (Some (TKw "any")) None
      (Doc "OOUI widgets specific to MediaWiki" [
         Tag "see" EmptyString "https://doc.wikimedia.org/mediawiki-core/master/js/source/mediawiki.base.html#mw-property-libs"]);
    IFunction "format" (Sig [] [Param "formatString" Required (TKw "string"); Param "parameters" Rest (TArray (TKw "string"))] (TKw "string"))
      (Doc "Format a string. Replace $1, $2 ... $N with positional arguments." [
         Tag "since" EmptyString "1.25";
         Tag "param" "string" "formatString Format string";
         Tag "param" "...string" "parameters Values for $N replacements";
         Tag "returns" "string" "Formatted string";
         Tag "see" EmptyString "https://doc.wikimedia.org/mediawiki-core/master/js/#!/api/mw-method-format"]);
    IFunction "message" (Sig [] [Param "key" Required (TKw "string"); Param "parameters" Rest (TArray (TKw "any"))] (TRef ["Message"] []))
      (Doc "Get a message object." [
         Tag "param" "string" "key Key of message to get";
         Tag "param" "...any" "parameters Values for $N replacements";
         Tag "returns" "Message" EmptyString;
         Tag "see" EmptyString "https://doc.wikimedia.org/mediawiki-core/master/js/#!/api/mw-method-message"]);
    IFunction "msg" (Sig [] [Param "key" Required (TKw "string"); Param "parameters" Rest (TArray (TKw "any"))] (TKw "string"))
      (Doc "Get a message string using the (default) 'text' format." [
         Tag "param" "string" "key Key of message to get";
         Tag "param" "...any" "parameters Values for $N replacements";
         Tag "returns" "string" EmptyString;
         Tag "see" EmptyString "https://doc.wikimedia.org/mediawiki-core/master/js/#!/api/mw-method-msg"]);
    IFunction "notify" (Sig [] [Param "message" Required (TUnion [TKw "string"; TRef ["Message"] []; TRef ["JQuery"] []; TRef ["HTMLElement"] []; TArray (TRef ["HTMLElement"] [])]); Param "options" Optional (TRef ["Partial"] [TRef ["Notification"; "Options"] []])] (TRef ["JQuery"; "Promise"] [TRef ["Notification"] []]))
      (Doc "Display a notification message to the user." [
         Tag "param" "HTMLElement|HTMLElement[]|JQuery|Message|string" "message";
         Tag "param" "Partial<Notification.Options>" "[options] The options to use for the notification. See {@link Notification.Options defaults} for details.";
         Tag "returns" "JQuery.Promise<Notification>" "Notification object";
         Tag "see" EmptyString "https://doc.wikimedia.org/mediawiki-core/master/js/#!/api/mw-method-notify"]);
    IFunction "trackSubscribe" (Sig [] [Param "topic" Required (TKw "string"); Param "callback" Required (TRef ["AnalyticEventCallback"] [])] (TKw "void"))
      (Doc "Register a handler for subset of analytic events, specified by topic." [
         Tag "param" "string" "topic Handle events whose name starts with this string prefix";
         Tag "param" "function(string, AnalyticEventData): void" "callback Handler to call for each matching tracked event";
         Tag "see" EmptyString "https://doc.wikimedia.org/mediawiki-core/master/js/#!/api/mw-method-trackSubscribe"]);
    IFunction "trackUnsubscribe" (Sig [] [Param "callback" Required (TRef ["AnalyticEventCallback"] [])] (TKw "void"))
      (Doc "Stop handling events for a particular handler" [
         Tag "param" "function(string, AnalyticEventData): void" "callback";
         Tag "see" EmptyString "https://doc.wikimedia.org/mediawiki-core/master/js/#!/api/mw-method-trackUnsubscribe"])]
    nodoc].

(** src/mediawiki.base/mw.d.ts, second document: mw.log. *)
Definition mediawiki_base_mw_d_ts_2 : list item := [
  INamespace Declared ["mw"; "log"] [
    IFunction "deprecate" (Sig [TParam "T" None None; TParam "K" (Some (TInter [TKw "string"; TKeyof (TRef ["T"] [])])) None] [Param "obj" Required (TRef ["T"] []); Param "key" Required (TRef ["K"] []); Param "val" Required (TIndex (TRef ["T"] []) (TRef ["K"] [])); Param "msg" Optional (TKw "string"); Param "logName" Optional (TKw "string")] (TKw "void"))
      (Doc "Create a property on a host object that, when accessed, will log a deprecation warning to the console." [
         Tag "param" "Object" "obj Host object of deprecated property";
         Tag "param" "string" "key Name of property to create in `obj`";
         Tag "param" "any" "val The value this property should return when accessed";
         Tag "param" "string" "[msg] Optional extra text to add to the deprecation warning";
         Tag "param" "string" "[logName] Name of the feature for deprecation tracker. Tracking is disabled by default, except for global variables on `window`.";
         Tag "see" EmptyString "https://doc.wikimedia.org/mediawiki-core/master/js/#!/api/mw-method-deprecate"]);
    IFunction "error" (Sig [] [Param "msg" Rest (TArray (TKw "any"))] (TKw "void"))
      (Doc "Write a message to the browser console's error channel." [
         Tag "since" EmptyString "1.26";
         Tag "param" "...any" "msg Messages to output to console";
         Tag "see" EmptyString "https://doc.wikimedia.org/mediawiki-core/master/js/#!/api/mw-method-error"]);
    IFunction "makeDeprecated" (Sig [] [Param "key" Required (TUnion [TKw "string"; TKw "null"]); Param "msg" Required (TKw "string")] (TFun (Sig [] [] (TKw "void"))))
      (Doc "Create a function that logs a deprecation warning when called." [
         Tag "since" EmptyString "1.38";
         Tag "param" "string|null" "key Name of the feature for deprecation tracker, or null for a console-only deprecation.";
         Tag "param" "string" "msg Deprecation warning.";
         Tag "returns" "Function" EmptyString;
         Tag "see" EmptyString "https://doc.wikimedia.org/mediawiki-core/master/js/#!/api/mw-method-makeDeprecated"])]
    nodoc].

(** src/mediawiki.ForeignApi.core/index.d.ts, first document: the module index. *)
Definition mediawiki_ForeignApi_core_index_d_ts : list item := [
  IImport "oojs";
  IImport "../mediawiki.api";
  IImport "../mediawiki.Uri";
  IImport "./ForeignApi.d.ts";
  IImport "./ForeignRest.d.ts";
  IConst Exported "ForeignApi" (Some (TTypeof ["mw"; "ForeignApi"])) None nodoc;
  IConst Exported "ForeignRest" (Some (TTypeof ["mw"; "ForeignRest"])) None nodoc].

(** src/mediawiki.ForeignApi.core/index.d.ts, second document: the jqueryMsg methods of Message. *)
Definition mediawiki_ForeignApi_core_index_d_ts_2 : list item := [
  INamespace Declared ["mw"] [
    IInterface "Message" [] [] [
      MMethod "isParseable" (Sig [] [] (TKw "boolean"))
        (Doc "Check whether the message contains only syntax supported by jqueryMsg." [
           Tag "since" EmptyString "1.41";
           Tag "returns" "boolean" EmptyString;
           Tag "see" EmptyString "https://doc.wikimedia.org/mediawiki-core/master/js/#!/api/mw.Message-method-isParseable"]);
      MMethod "parseDom" (Sig [] [] (TRef ["JQuery"] []))
        (Doc "Parse the message to DOM nodes, rather than HTML string like {@link parse}." [
           Tag "since" EmptyString "1.27";
           Tag "returns" "JQuery" EmptyString;
           Tag "see" EmptyString "https://doc.wikimedia.org/mediawiki-core/master/js/#!/api/mw.Message-method-parseDom"])]
      nodoc]
    nodoc].

(** src/jquery.color/jquery.d.ts: the colorUtil plugin. *)
Definition jquery_color_jquery_d_ts : list item := [
  IInterface "JQueryStatic" [] [] [
    MProp "colorUtil" false (TRef ["JQuery"; "ColorUtil"] []) nodoc]
    nodoc;
  INamespace Declared ["JQuery"] [
    IInterface "ColorUtil" [] [] [
      MMethod "getRGB" (Sig [TParam "T" (Some (TRef ["ColorUtil"; "Color"] [])) None] [Param "color" Required (TUnion [TKw "string"; TRef ["T"] []])] (TRef ["T"] []))
        (Doc "Parse CSS color strings looking for color tuples" [
           Tag "param" "ColorUtil.Color|string" "color";
           Tag "returns" "ColorUtil.Color" EmptyString]);
      MProp "colors" false (TRef ["Record"] [TKw "string"; TRef ["ColorUtil"; "Color"] []])
        (Doc "Named color map" []);
      MMethod "rgbToHsl" (Sig [] [Param "r" Required (TKw "number"); Param "g" Required (TKw "number"); Param "b" Required (TKw "number")] (TRef ["ColorUtil"; "Color"] []))
        (Doc "Convert an RGB color value to HSL." [
           Tag "param" "number" "r The red color value";
           Tag "param" "number" "g The green color value";
           Tag "param" "number" "b The blue color value";
           Tag "returns" "ColorUtil.Color" "The HSL representation"]);
      MMethod "hslToRgb" (Sig [] [Param "h" Required (TKw "number"); Param "s" Required (TKw "number"); Param "l" Required (TKw "number")] (TRef ["ColorUtil"; "Color"] []))
        (Doc "Convert an HSL color value to RGB." [
           Tag "param" "number" "h The hue";
           Tag "param" "number" "s The saturation";
           Tag "param" "number" "l The lightness";
           Tag "returns" "ColorUtil.Color" "The RGB representation"]);
      MMethod "getColorBrightness" (Sig [] [Param "currentColor" Required (TUnion [TKw "string"; TRef ["ColorUtil"; "Color"] []]); Param "mod" Required (TKw "number")] (TTemplate [PText "rgb("; PHole (TKw "number"); PText ","; PHole (TKw "number"); PText ","; PHole (TKw "number"); PText ")"]))
        (Doc "Get a brighter or darker rgb() value string." [
           Tag "param" "ColorUtil.Color|string" "currentColor Current value in css";
           Tag "param" "number" "mod Wanted brightness modification between -1 and 1";
           Tag "returns" "string" "Like `'rgb(r,g,b)'`"])]
      nodoc;
    INamespace Plain ["ColorUtil"] [
      ITypeAlias Plain "Color" [] (TTuple [TElem None false (TKw "number"); TElem None false (TKw "number"); TElem None false (TKw "number")]) nodoc]
      nodoc]
    nodoc].

(** src/jquery/client.d.ts: user-agent detection. *)
Definition jquery_client_d_ts : list item := [
  IGlobal [
    IInterface "JQueryStatic" [] [] [
      MProp "client" false (TRef ["JQuery"; "Client"] [])
        (Doc "User-agent detection" [
           Tag "see" EmptyString "https://doc.wikimedia.org/mediawiki-core/master/js/#!/api/jQuery.client"])]
      nodoc;
    INamespace Plain ["JQuery"] [
      IInterface "Client" [] [] [
        MMethod "profile" (Sig [] [Param "nav" Optional (TRef ["Client"; "Navigator"] [])] (TRef ["Client"; "Profile"] []))
          (Doc "Get an object containing information about the client." [
             Tag "param" "Client.Navigator" "[nav] An object with a 'userAgent' and 'platform' property. Defaults to the global `navigator` object.";
             Tag "returns" "Client.Profile" "The client object";
             Tag "see" EmptyString "https://doc.wikimedia.org/mediawiki-core/master/js/#!/api/jQuery.client-method-profile"]);
        MMethod "test" (Sig [] [Param "map" Required (TRef ["Client"; "SupportMap"] []); Param "profile" Optional (TRef ["Client"; "Profile"] []); Param "exactMatchOnly" Optional (TKw "boolean")] (TKw "boolean"))
          (Doc "Checks the current browser against a support map object." [
             Tag "param" "Client.SupportMap" "map Browser support map";
             Tag "param" "Client.Profile" "[profile] A client-profile object";
             Tag "param" "boolean" "[exactMatchOnly=false] Only return true if the browser is matched, otherwise returns true if the browser is not found.";
             Tag "returns" "boolean" "The current browser is in the support map";
             Tag "see" EmptyString "https://doc.wikimedia.org/mediawiki-core/master/js/#!/api/jQuery.client-method-test"])]
        nodoc;
      INamespace Plain ["Client"] [
        IInterface "Navigator" [] [] [
          MProp "userAgent" false (TKw "string") nodoc;
          MProp "platform" false (TKw "string") nodoc]
          nodoc;
        ITypeAlias Plain "ProfileName" [] (TUnion [TLit "android"; TLit "chrome"; TLit "crios"; TLit "edge"; TLit "firefox"; TLit "fxios"; TLit "konqueror"; TLit "msie"; TLit "opera"; TLit "rekong"; TLit "safari"; TLit "silk"]) nodoc;
        ITypeAlias Plain "ComparisonOperator" [] (TUnion [TLit "=="; TLit "==="; TLit "!="; TLit "!=="; TLit "<"; TLit "<="; TLit ">"; TLit ">="]) nodoc;
        ITypeAlias Plain "SupportMap" [] (TUnion [TRef ["SupportMap"; "Undirected"] []; TRef ["Record"] [TUnion [TLit "ltr"; TLit "rtl"]; TRef ["SupportMap"; "Undirected"] []]]) nodoc;
        INamespace Plain ["SupportMap"] [
          ITypeAlias Plain "Condition" [] (TTuple [TElem None false (TRef ["ComparisonOperator"] []); TElem None false (TUnion [TKw "string"; TKw "number"])]) nodoc;
          ITypeAlias Plain "Undirected" [] (TRef ["Partial"] [TRef ["Record"] [TRef ["ProfileName"] []; TUnion [TKw "false"; TKw "null"; TArray (TRef ["Condition"] [])]]]) nodoc]
          nodoc;
        IInterface "Profile" [] [] [
          MProp "name" false (TRef ["ProfileName"] []) nodoc;
          MProp "layout" false (TUnion [TLit "edge"; TLit "gecko"; TLit "khtml"; TLit "presto"; TLit "trident"; TLit "webkit"]) nodoc;
          MProp "layoutVersion" false (TKw "number") nodoc;
          MProp "platform" false (TUnion [TLit "ipad"; TLit "iphone"; TLit "linux"; TLit "mac"; TLit "solaris"; TLit "win"]) nodoc;
          MProp "version" false (TKw "string") nodoc;
          MProp "versionBase" false (TKw "string") nodoc;
          MProp "versionNumber" false (TKw "number") nodoc]
          nodoc]
        nodoc]
      nodoc];
  ITypeAlias Exported "ClientNavigator" [] (TRef ["JQuery"; "Client"; "Navigator"] [])
    (Doc EmptyString [
       Tag "deprecated" EmptyString "Use {@link JQuery.Client.Navigator} instead"]);
  IExportEmpty].

(** src/jquery/collapsibleTabs.d.ts: the collapsibleTabs plugin. *)
Definition jquery_collapsibleTabs_d_ts : list item := [
  IInterface "JQueryStatic" [] [] [
    MProp "collapsibleTabs" false (TRef ["JQuery"; "CollapsibleTabs"; "Static"] []) nodoc]
    (Doc "CollapsibleTabsPlugin used in MediaWiki vector skin Copied from https://gerrit.wikimedia.org/r/plugins/gitiles/mediawiki/skins/Vector/+/master/resources/CollapsibleTabsPlugin.d.ts" []);
  IInterface "JQuery" [] [] [
    MMethod "collapsibleTabs" (Sig [] [Param "options" Required (TRef ["Partial"] [TRef ["JQuery"; "CollapsibleTabs"; "Options"] []])] (TKw "void")) nodoc]
    nodoc;
  INamespace Declared ["JQuery"] [
    IInterface "CollapsibleTabs" [] [TRef ["CollapsibleTabs"; "Static"] []; TRef ["CollapsibleTabs"; "Options"] []] []
      nodoc;
    INamespace Plain ["CollapsibleTabs"] [
      IInterface "Options" [] [] [
        MProp "expandedContainer" false (TKw "string")
          (Doc "Optional tab selector. Defaults to `#p-views ul`." []);
        MProp "collapsedContainer" false (TKw "string")
          (Doc "Optional menu item selector. Defaults to `#p-cactions ul`." []);
        MProp "collapsible" false (TKw "string")
          (Doc "Optional selector for tabs that are collapsible. Defaults to `li.collapsible`." []);
        MProp "shifting" false (TKw "boolean") nodoc;
        MProp "expandedWidth" false (TKw "number") nodoc;
        MMethod "expandCondition" (Sig [] [Param "eleWidth" Required (TKw "number")] (TKw "boolean")) nodoc;
        MMethod "collapseCondition" (Sig [] [] (TKw "boolean")) nodoc]
        (Doc "A jQuery plugin that makes collapsible tabs for the Vector skin." []);
      IInterface "Static" [] [] [
        MProp "defaults" false (TRef ["Options"] []) nodoc;
        MProp "instances" false (TArray (TRef ["JQuery"] [])) nodoc;
        MMethod "addData" (Sig [] [Param "$collapsible" Required (TRef ["JQuery"] [])] (TKw "void")) nodoc;
        MMethod "getSettings" (Sig [] [Param "$collapsible" Required (TRef ["JQuery"] [])] (TRef ["Options"] [])) nodoc;
        MMethod "handleResize" (Sig [] [] (TKw "void")) nodoc;
        MMethod "moveToCollapsed" (Sig [] [Param "$moving" Required (TRef ["JQuery"] [])] (TKw "void")) nodoc;
        MMethod "moveToExpanded" (Sig [] [Param "$moving" Required (TRef ["JQuery"] [])] (TKw "void")) nodoc;
        MMethod "calculateTabDistance" (Sig [] [] (TKw "number")) nodoc]
        nodoc]
      nodoc]
    nodoc].

(** src/jquery/highlightText.d.ts, first document: the highlightText plugin. *)
Definition jquery_highlightText_d_ts : list item := [
  IGlobal [
    IInterface "JQueryStatic" [] [] [
      MProp "highlightText" false (TRef ["JQuery"; "HighlightText"] []) nodoc]
      nodoc;
    IInterface "JQuery" [] [] [
      MMethod "highlightText" (Sig [] [Param "matchString" Required (TKw "string"); Param "options" Optional (TRef ["JQuery"; "HighlightText"; "Options"] [])] (TKw "this"))
        (Doc ("Highlight certain text in current nodes (by wrapping it in `<span class=" ++ dq ++ "highlight" ++ dq ++ ">...</span>`).") [
           Tag "param" "string" "matchString String to match";
           Tag "param" "JQuery.HighlightText.Options" "[options]";
           Tag "returns" "JQuery" EmptyString])]
      nodoc;
    INamespace Plain ["JQuery"] [
      IInterface "HighlightText" [] [] [
        MMethod "innerHighlight" (Sig [] [Param "node" Required (TRef ["Node"] []); Param "pat" Required (TUnion [TKw "string"; TRef ["RegExp"] []])] (TKw "void")) nodoc;
        MMethod "prefixHighlight" (Sig [] [Param "node" Required (TRef ["Node"] []); Param "prefix" Required (TKw "string")] (TKw "void")) nodoc;
        MMethod "prefixPlusComboHighlight" (Sig [] [Param "node" Required (TRef ["Node"] []); Param "prefix" Required (TKw "string")] (TKw "void")) nodoc;
        MMethod "splitAndHighlight" (Sig [TParam "T" (Some (TRef ["Node"] [])) None] [Param "node" Required (TRef ["T"] []); Param "text" Required (TKw "string")] (TRef ["T"] [])) nodoc]
        nodoc;
      INamespace Plain ["HighlightText"] [
        ITypeAlias Plain "Method" [] (TUnion [TLit "prefixHighlight"; TLit "prefixPlusComboHighlight"; TLit "splitAndHighlight"]) nodoc;
        IInterface "Options" [] [] [
          MProp "method" true (TRef ["Method"] [])
            (Doc "Method of matching to use, one of:" [])]
          nodoc]
        nodoc]
      nodoc];
  IExportEmpty].

(** src/jquery/highlightText.d.ts, second document: utility types. *)
Definition jquery_highlightText_d_ts_2 : list item := [
  INamespace Declared ["mw"] [
    ITypeAlias Plain "QueryParams" [] (TRef ["Record"] [TKw "string"; TUnion [TKw "string"; TKw "number"; TKw "boolean"; TKw "null"; TKw "undefined"]]) nodoc;
    ITypeAlias Plain "TypeOrArray" [TParam "T" None None] (TUnion [TRef ["T"] []; TArray (TRef ["T"] [])]) nodoc;
    ITypeAlias Plain "TypeOrUnionArray" [TParam "T" None None] (TCond (TRef ["T"] []) (TKw "any") (TRef ["TypeOrArray"] [TRef ["T"] []]) (TKw "never")) nodoc;
    ITypeAlias Plain "ReplaceValue" [TParam "T" (Some (TUnion [TRef ["U"] []; TArray (TRef ["U"] [])])) None; TParam "U" None None; TParam "V" None None] (TCond (TRef ["T"] []) (TArray (TRef ["U"] [])) (TArray (TRef ["V"] [])) (TRef ["V"] [])) nodoc;
    ITypeAlias Plain "GetOrDefault" [TParam "V" None None; TParam "K" (Some (TKeyof (TRef ["V"] []))) None; TParam "T" None None] (TCond (TRef ["V"] []) (TRef ["Required"] [TRef ["Pick"] [TRef ["V"] []; TRef ["K"] []]]) (TIndex (TRef ["V"] []) (TRef ["K"] [])) (TUnion [TIndex (TRef ["Required"] [TRef ["V"] []]) (TRef ["K"] []); TRef ["T"] []])) nodoc;
    ITypeAlias Plain "PickOrDefault" [TParam "V" None None; TParam "S" (Some (TUnion [TKeyof (TRef ["V"] []); TRef ["Array"] [TKeyof (TRef ["V"] [])]])) None; TParam "T" None None] (TCond (TRef ["S"] []) (TRef ["Array"] [TInfer "SS"]) (TMapped "K" (TInter [TRef ["SS"] []; TKeyof (TRef ["V"] [])]) None true (TRef ["GetOrDefault"] [TRef ["V"] []; TRef ["K"] []; TRef ["T"] []])) (TRef ["GetOrDefault"] [TRef ["V"] []; TInter [TRef ["S"] []; TKeyof (TRef ["V"] [])]; TKw "null"])) nodoc;
    ITypeAlias Plain "NoReturn" [TParam "T" (Some (TFun (Sig [] [Param "args" Rest (TArray (TKw "any"))] (TKw "any")))) None] (TCond (TRef ["T"] []) (TFun (Sig [] [Param "this" ThisParam (TInfer "U"); Param "args" Rest (TInfer "V")] (TKw "any"))) (TCond (TKw "unknown") (TRef ["U"] []) (TFun (Sig [] [Param "args" Rest (TRef ["V"] [])] (TKw "void"))) (TFun (Sig [] [Param "this" ThisParam (TRef ["U"] []); Param "args" Rest (TRef ["V"] [])] (TKw "void")))) (TKw "never")) nodoc;
    ITypeAlias Plain "FlipObject" [TParam "T" (Some (TRef ["Record"] [TRef ["PropertyKey"] []; TRef ["PropertyKey"] []])) None] (TMapped "K" (TKeyof (TRef ["T"] [])) (Some (TIndex (TRef ["T"] []) (TRef ["K"] []))) false (TRef ["K"] [])) nodoc]
    nodoc].

(** src/unnamed/part_000: mw.notification. *)
Definition part_000 : list item := [
  INamespace Declared ["mw"] [
    INamespace Plain ["notification"] [
      IConst Plain "autoHideLimit" (Some (TKw "number")) None
        (Doc "Maximum number of simultaneous notifications to start auto-hide timers for. Only this number of notifications being displayed will be auto-hidden at one time. Any additional notifications in the list will only start counting their timeout for auto-hiding after the previous messages have been closed." [
           Tag "see" EmptyString "https://doc.wikimedia.org/mediawiki-core/master/js/#!/api/mw.notification-property-autoHideLimit"]);
      IConst Plain "autoHideSeconds" (Some (TObj [MProp "short" false (TKw "number") nodoc; MProp "long" false (TKw "number") nodoc])) None
        (Doc EmptyString [
           Tag "private" EmptyString EmptyString;
           Tag "see" EmptyString "https://doc.wikimedia.org/mediawiki-core/master/js/#!/api/mw.notification-property-autoHideSeconds"]);
      IConst Plain "defaults" (Some (TRef ["Notification"; "Options"] [])) None
        (Doc "The defaults for notify options parameter." [
           Tag "see" EmptyString "https://doc.wikimedia.org/mediawiki-core/master/js/#!/api/mw.notification-property-defaults"]);
      IFunction "pause" (Sig [] [] (TKw "void"))
        (Doc "Pause auto-hide timers for all notifications. Notifications will not auto-hide until resume is called." [
           Tag "see" EmptyString "https://doc.wikimedia.org/mediawiki-core/master/js/#!/api/mw.notification-method-pause"]);
      IFunction "resume" (Sig [] [] (TKw "void"))
        (Doc "Resume any paused auto-hide timers from the beginning. Only the first {@link autoHideLimit} timers will be resumed." [
           Tag "see" EmptyString "https://doc.wikimedia.org/mediawiki-core/master/js/#!/api/mw.notification-method-resume"]);
      IFunction "notify" (Sig [] [Param "message" Required (TUnion [TKw "string"; TRef ["Message"] []; TRef ["JQuery"] []; TRef ["HTMLElement"] []; TArray (TRef ["HTMLElement"] [])]); Param "options" Optional (TRef ["Partial"] [TRef ["Notification"; "Options"] []])] (TRef ["Notification"] []))
        (Doc "Display a notification message to the user." [
           Tag "param" "HTMLElement|HTMLElement[]|JQuery|Message|string" "message";
           Tag "param" "Partial<Notification.Options>" "[options] The options to use for the notification. See {@link Notification.Options defaults} for details.";
           Tag "returns" "Notification" "Notification object";
           Tag "see" EmptyString "https://doc.wikimedia.org/mediawiki-core/master/js/#!/api/mw.notification-method-notify"])]
      nodoc]
    nodoc].

(** src/unnamed/part_001: mw.language.months. *)
Definition part_001 : list item := [
  INamespace Declared ["mw"; "language"] [
    INamespace Plain ["months"] [
      IConst Plain "abbrev" (Some (TArray (TKw "string"))) None
        (Doc "Array of month names (in nominative case in languages which have the distinction), zero-indexed." []);
      IConst Plain "keys" (Some (TRef ["Record"] [TUnion [TLit "abbrev"; TLit "genitive"; TLit "names"]; TArray (TKw "string")])) None
        (Doc "Object containing zero-indexed arrays of message keys for appropriate messages which can be passed to {@link mw.msg}." []);
      IConst Plain "genitive" (Some (TArray (TKw "string"))) None
        (Doc "Array of month names in genitive case, zero-indexed." []);
      IConst Plain "names" (Some (TArray (TKw "string"))) None
        (Doc "Array of month names (in nominative case in languages which have the distinction), zero-indexed." [])]
      (Doc "Base language object with methods related to language support, attempting to mirror some of the functionality of the Language class in MediaWiki:" [
         Tag "see" EmptyString "https://doc.wikimedia.org/mediawiki-core/master/js/#!/api/mw.language"])]
    nodoc].

(** src/unnamed/part_002: utility types. *)
Definition part_002 : list item := [
  INamespace Declared ["mw"] [
    ITypeAlias Plain "QueryParams" [] (TRef ["Record"] [TKw "string"; TUnion [TKw "string"; TKw "number"; TKw "boolean"; TKw "null"; TKw "undefined"]]) nodoc;
    ITypeAlias Plain "TypeOrArray" [TParam "T" None None] (TUnion [TRef ["T"] []; TArray (TRef ["T"] [])]) nodoc;
    ITypeAlias Plain "TypeOrUnionArray" [TParam "T" None None] (TCond (TRef ["T"] []) (TKw "any") (TRef ["TypeOrArray"] [TRef ["T"] []]) (TKw "never")) nodoc;
    ITypeAlias Plain "ReplaceValue" [TParam "T" (Some (TUnion [TRef ["U"] []; TArray (TRef ["U"] [])])) None; TParam "U" None None; TParam "V" None None] (TCond (TRef ["T"] []) (TArray (TRef ["U"] [])) (TArray (TRef ["V"] [])) (TRef ["V"] [])) nodoc;
    ITypeAlias Plain "GetOrDefault" [TParam "V" None None; TParam "K" (Some (TRef ["PropertyKey"] [])) None; TParam "TD" None None; TParam "TX" None (Some (TKw "unknown"))] (TCond (TRef ["K"] []) (TKeyof (TRef ["V"] [])) (TCond (TRef ["V"] []) (TRef ["Required"] [TRef ["Pick"] [TRef ["V"] []; TRef ["K"] []]]) (TIndex (TRef ["V"] []) (TRef ["K"] [])) (TUnion [TIndex (TRef ["Required"] [TRef ["V"] []]) (TRef ["K"] []); TRef ["TD"] []])) (TUnion [TRef ["TX"] []; TRef ["TD"] []])) nodoc;
    ITypeAlias Plain "PickOrDefault" [TParam "V" None None; TParam "S" (Some (TRef ["TypeOrArray"] [TRef ["PropertyKey"] []])) None; TParam "TD" None None; TParam "TX" None (Some (TKw "unknown"))] (TCond (TRef ["S"] []) (TRef ["Array"] [TInfer "K"]) (TMapped "P" (TInter [TRef ["K"] []; TRef ["PropertyKey"] []]) None true (TRef ["GetOrDefault"] [TRef ["V"] []; TRef ["P"] []; TRef ["TD"] []; TRef ["TX"] []])) (TRef ["GetOrDefault"] [TRef ["V"] []; TInter [TRef ["S"] []; TRef ["PropertyKey"] []]; TRef ["TD"] []; TRef ["TX"] []])) nodoc;
    ITypeAlias Plain "NoReturn" [TParam "T" (Some (TFun (Sig [] [Param "args" Rest (TArray (TKw "any"))] (TKw "any")))) None] (TCond (TRef ["T"] []) (TFun (Sig [] [Param "this" ThisParam (TInfer "U"); Param "args" Rest (TInfer "V")] (TKw "any"))) (TCond (TKw "unknown") (TRef ["U"] []) (TFun (Sig [] [Param "args" Rest (TRef ["V"] [])] (TKw "void"))) (TFun (Sig [] [Param "this" ThisParam (TRef ["U"] []); Param "args" Rest (TRef ["V"] [])] (TKw "void")))) (TKw "never")) nodoc]
    nodoc].

(** src/unnamed/part_003, first document: mw.language. *)
Definition part_003 : list item := [
  IGlobal [
    INamespace Plain ["mw"] [
      INamespace Plain ["language"] [
        IConst Plain "data" (Some (TRef ["Record"] [TKw "string"; TRef ["Map"] []])) None
          (Doc "Language-related data (keyed by language, contains instances of mw.Map)." [
             Tag "see" EmptyString "https://doc.wikimedia.org/mediawiki-core/master/js/#!/api/mw.language-property-data"]);
        IConst Plain "months" (Some (TObj [MProp "abbrev" false (TArray (TKw "string")) (Doc "Array of month names (in nominative case in languages which have the distinction), zero-indexed." []); MProp "keys" false (TRef ["Record"] [TUnion [TLit "abbrev"; TLit "genitive"; TLit "names"]; TArray (TKw "string")]) (Doc "Object containing zero-indexed arrays of message keys for appropriate messages which can be passed to {@link mw.msg}." []); MProp "genitive" false (TArray (TKw "string")) (Doc "Array of month names in genitive case, zero-indexed." []); MProp "names" false (TArray (TKw "string")) (Doc "Array of month names (in nominative case in languages which have the distinction), zero-indexed." [])])) None
          (Doc "Information about month names in current UI language." [
             Tag "see" EmptyString "https://doc.wikimedia.org/mediawiki-core/master/js/#!/api/mw.language-property-months"]);
        IFunction "bcp47" (Sig [] [Param "languageTag" Required (TKw "string")] (TKw "string"))
          (Doc "Formats language tags according the BCP 47 standard. See LanguageCode::bcp47 for the PHP implementation." [
             Tag "param" "string" "languageTag Well-formed language tag";
             Tag "returns" "string" EmptyString;
             Tag "see" EmptyString "https://doc.wikimedia.org/mediawiki-core/master/js/#!/api/mw.language-method-bcp47"]);
        IFunction "convertGrammar" (Sig [] [Param "word" Required (TKw "string"); Param "form" Required (TKw "string")] (TKw "string"))
          (Doc "Grammatical transformations, needed for inflected languages. Invoked by putting `{{grammar:case|word}}` in a message." [
             Tag "param" "string" "word";
             Tag "param" "string" "form";
             Tag "returns" "string" EmptyString;
             Tag "see" EmptyString "https://doc.wikimedia.org/mediawiki-core/master/js/#!/api/mw.language-method-convertGrammar"]);
        IFunction "convertNumber" (Sig [] [Param "num" Required (TKw "number"); Param "integer" Optional (TKw "boolean")] (TUnion [TKw "number"; TKw "string"]))
          (Doc "Converts a number using {@link getDigitTransformTable}." [
             Tag "param" "number" "num Value to be converted";
             Tag "param" "boolean" "[integer=false] Whether to convert the return value to an integer";
             Tag "returns" "number|string" "Formatted number";
             Tag "see" EmptyString "https://doc.wikimedia.org/mediawiki-core/master/js/#!/api/mw.language-method-convertNumber"]);
        IFunction "convertPlural" (Sig [] [Param "count" Required (TKw "number"); Param "forms" Required (TArray (TKw "string")); Param "explicitPluralForms" Optional (TRef ["Record"] [TKw "number"; TKw "string"])] (TKw "string"))
          (Doc "Plural form transformations, needed for some languages." [
             Tag "param" "number" "count Non-localized quantifier";
             Tag "param" "string[]" "forms List of plural forms";
             Tag "param" "Object.<number, string>" "[explicitPluralForms] List of explicit plural forms";
             Tag "returns" "string" "Correct form for quantifier in this language";
             Tag "see" EmptyString "https://doc.wikimedia.org/mediawiki-core/master/js/#!/api/mw.language-method-convertPlural"]);
        IFunction "gender" (Sig [TParam "T" (Some (TKw "string")) None] [Param "gender" Required (TKw "string"); Param "forms" Required (TTuple [TElem None true (TRef ["T"] []); TElem None true (TRef ["T"] []); TElem None true (TRef ["T"] [])])] (TRef ["T"] []))
          (Doc "Provides an alternative text depending on specified gender." [
             Tag "param" "string" "gender 'male', 'female', or anything else for neutral.";
             Tag "param" "string[]" "forms List of gender forms";
             Tag "returns" "string" EmptyString;
             Tag "see" EmptyString "https://doc.wikimedia.org/mediawiki-core/master/js/#!/api/mw.language-method-gender"]);
        IFunction "getData" (Sig [] [Param "langCode" Required (TKw "string"); Param "dataKey" Required (TKw "string")] (TKw "any"))
          (Doc "Convenience method for retrieving language data." [
             Tag "param" "string" "langCode";
             Tag "param" "string" "dataKey";
             Tag "returns" "Mixed" "Value stored in the mw.Map (or `undefined` if there is no map for the specified langCode)";
             Tag "see" EmptyString "https://doc.wikimedia.org/mediawiki-core/master/js/#!/api/mw.language-method-getData"]);
        IFunction "getDigitTransformTable" (Sig [] [] (TUnion [TArray (TKw "string"); TRef ["Record"] [TUnion [TKw "number"; TKw "string"]; TKw "string"]]))
          (Doc "Get the digit transform table for current UI language." [
             Tag "returns" "Object.<number|string, string>|string[]" EmptyString;
             Tag "see" EmptyString "https://doc.wikimedia.org/mediawiki-core/master/js/#!/api/mw.language-method-getDigitTransformTable"]);
        IFunction "getFallbackLanguageChain" (Sig [] [] (TArray (TKw "string")))
          (Doc "Get the language fallback chain for current UI language, including the language itself." [
             Tag "returns" "string[]" "List of language keys, e.g. `['pfl', de', 'en']`";
             Tag "see" EmptyString "https://doc.wikimedia.org/mediawiki-core/master/js/#!/api/mw.language-method-getFallbackLanguageChain"]);
        IFunction "getFallbackLanguages" (Sig [] [] (TArray (TKw "string")))
          (Doc "Get the language fallback chain for current UI language (not including the language itself)." [
             Tag "returns" "string[]" "List of language keys, e.g. `['de', 'en']`";
             Tag "see" EmptyString "https://doc.wikimedia.org/mediawiki-core/master/js/#!/api/mw.language-method-getFallbackLanguages"]);
        IFunction "getSeparatorTransformTable" (Sig [] [] (TUnion [TArray (TKw "string"); TRef ["Record"] [TUnion [TKw "number"; TKw "string"]; TKw "string"]]))
          (Doc "Get the separator transform table for current UI language." [
             Tag "returns" "Object.<number|string, string>|string[]" EmptyString;
             Tag "see" EmptyString "https://doc.wikimedia.org/mediawiki-core/master/js/#!/api/mw.language-method-getSeparatorTransformTable"]);
        IFunction "listToText" (Sig [] [Param "list" Required (TArray (TKw "string"))] (TKw "string"))
          (Doc "Turn a list of string into a simple list using commas and 'and'." [
             Tag "param" "string[]" "list";
             Tag "returns" "string" EmptyString;
             Tag "see" EmptyString "https://doc.wikimedia.org/mediawiki-core/master/js/#!/api/mw.language-method-listToText"]);
        IFunction "setData" (Sig [] [Param "langCode" Required (TKw "string"); Param "dataKey" Required (TKw "string"); Param "value" Required (TKw "any")] (TKw "void"))
          (Doc "Convenience method for setting language data." [
             Tag "param" "string" "langCode";
             Tag "param" "string|Object.<string, any>" "dataKey Key or object of key/values";
             Tag "param" "Mixed" "[value] Value for dataKey, omit if dataKey is an object";
             Tag "see" EmptyString "https://doc.wikimedia.org/mediawiki-core/master/js/#!/api/mw.language-method-setData"]);
        IFunction "setData" (Sig [] [Param "langCode" Required (TKw "string"); Param "dataKey" Required (TRef ["Record"] [TKw "string"; TKw "any"])] (TKw "void")) nodoc;
        IFunction "preConvertPlural" (Sig [] [Param "forms" Required (TArray (TKw "string")); Param "count" Required (TKw "number")] (TArray (TKw "string")))
          (Doc "Pads an array to a specific length by copying the last one element." [
             Tag "private" EmptyString EmptyString;
             Tag "param" "string[]" "forms Number of forms given to convertPlural";
             Tag "param" "number" "count Number of forms required";
             Tag "returns" "string[]" "Padded array of forms";
             Tag "see" EmptyString "https://doc.wikimedia.org/mediawiki-core/master/js/#!/api/mw.language-method-preConvertPlural"])]
        (Doc "Base language object with methods related to language support, attempting to mirror some of the functionality of the Language class in MediaWiki:" [
           Tag "see" EmptyString "https://doc.wikimedia.org/mediawiki-core/master/js/#!/api/mw.language"])]
      nodoc];
  IExportEmpty].

(** src/unnamed/part_003, second document: mw.log. *)
Definition part_003_2 : list item := [
  INamespace Declared ["mw"] [
    IFunction "log" (Sig [] [Param "msg" Rest (TArray (TKw "any"))] (TKw "void"))
      (Doc "Write a verbose message to the browser's console in debug mode." [
         Tag "param" "...any" "msg Messages to output to console.";
         Tag "see" EmptyString "https://doc.wikimedia.org/mediawiki-core/master/js/#!/api/mw-method-log"]);
    INamespace Plain ["log"] [
      IFunction "warn" (Sig [] [Param "msg" Rest (TArray (TKw "any"))] (TKw "void"))
        (Doc "Write a message to the browser console's warning channel." [
           Tag "param" "...any" "msg Messages to output to console";
           Tag "see" EmptyString "https://doc.wikimedia.org/mediawiki-core/master/js/#!/api/mw.log-method-warn"])]
      (Doc "Collection of methods to help log messages to the console." [
         Tag "see" EmptyString "https://doc.wikimedia.org/mediawiki-core/master/js/#!/api/mw.log"])]
    nodoc].

(** src/mediawiki.api/Api.d.ts, first document: the API client. *)
Definition mediawiki_api_Api_d_ts : list item := [
  INamespace Declared ["mw"] [
    IClass "Api" [
      CCtor [Param "options" Optional (TRef ["Partial"] [TRef ["Api"; "Options"] []])]
        (Doc "Constructor to create an object to interact with the API of a particular MediaWiki server. mw.Api objects represent the API of a particular MediaWiki server." [
           Tag "param" "Api.Options" "[options]";
           Tag "see" EmptyString "https://doc.wikimedia.org/mediawiki-core/master/js/#!/api/mw.Api-method-constructor"]);
      CProp true "defaults" false (TRef ["Api"; "Options"] []) nodoc;
      CMethod false "abort" (Sig [] [] (TKw "void"))
        (Doc "Abort all unfinished requests issued by this Api object." [
           Tag "see" EmptyString "https://doc.wikimedia.org/mediawiki-core/master/js/#!/api/mw.Api-method-abort"]);
      CMethod false "get" (Sig [] [Param "parameters" Required (TRef ["Api"; "Params"] []); Param "ajaxOptions" Optional (TRef ["JQuery"; "AjaxSettings"] [])] (TRef ["JQuery"; "Promise"] [TRef ["Api"; "Response"] []]))
        (Doc "Perform API get request." [
           Tag "param" "Api.Params" "parameters";
           Tag "param" "JQuery.AjaxSettings" "[ajaxOptions]";
           Tag "returns" "JQuery.Promise<Api.Response>" EmptyString;
           Tag "see" EmptyString "https://doc.wikimedia.org/mediawiki-core/master/js/#!/api/mw.Api-method-get"]);
      CMethod false "post" (Sig [] [Param "parameters" Required (TRef ["Api"; "Params"] []); Param "ajaxOptions" Optional (TRef ["JQuery"; "AjaxSettings"] [])] (TRef ["JQuery"; "Promise"] [TRef ["Api"; "Response"] []]))
        (Doc "Perform API post request." [
           Tag "param" "Api.Params" "parameters";
           Tag "param" "JQuery.AjaxSettings" "[ajaxOptions]";
           Tag "returns" "JQuery.Promise<Api.Response>" EmptyString;
           Tag "see" EmptyString "https://doc.wikimedia.org/mediawiki-core/master/js/#!/api/mw.Api-method-post"]);
      CMethod true "preprocessParameters" (Sig [] [Param "parameters" Required (TRef ["Api"; "Params"] []); Param "useUS" Required (TKw "boolean")] (TKw "void"))
        (Doc "Massage parameters from the nice format we accept into a format suitable for the API." [
           Tag "param" "Api.Params" "parameters (modified in-place)";
           Tag "param" "boolean" "useUS Whether to use U+001F when joining multi-valued parameters.";
           Tag "see" EmptyString "https://doc.wikimedia.org/mediawiki-core/master/js/#!/api/mw.Api-method-preprocessParameters"]);
      CMethod false "ajax" (Sig [] [Param "parameters" Required (TRef ["Api"; "Params"] []); Param "ajaxOptions" Optional (TRef ["JQuery"; "AjaxSettings"] [])] (TRef ["JQuery"; "Promise"] [TRef ["Api"; "Response"] []]))
        (Doc "Perform the API call." [
           Tag "param" "Api.Params" "parameters";
           Tag "param" "JQuery.AjaxSettings" "[ajaxOptions]";
           Tag "returns" "JQuery.Promise<Api.Response>" "API response data and the jqXHR object";
           Tag "see" EmptyString "https://doc.wikimedia.org/mediawiki-core/master/js/#!/api/mw.Api-method-ajax"]);
      CMethod false "postWithToken" (Sig [] [Param "tokenType" Required (TRef ["Api"; "TokenType"] []); Param "params" Required (TRef ["Api"; "Params"] []); Param "ajaxOptions" Optional (TRef ["JQuery"; "AjaxSettings"] [])] (TRef ["JQuery"; "Promise"] [TRef ["Api"; "Response"] []]))
        (Doc "Post to API with specified type of token. If we have no token, get one and try to post. If we have a cached token try using that, and if it fails, blank out the cached token and start over. For example to change an user option you could do:" [
           Tag "since" EmptyString "1.22";
           Tag "param" "string" "tokenType The name of the token, like `options` or `edit`";
           Tag "param" "Api.Params" "params API parameters";
           Tag "param" "JQuery.AjaxSettings" "[ajaxOptions]";
           Tag "returns" "JQuery.Promise<Api.Response>" EmptyString;
           Tag "see" EmptyString "https://doc.wikimedia.org/mediawiki-core/master/js/#!/api/mw.Api-method-postWithToken"]);
      CMethod false "postWithToken" (Sig [] [Param "tokenType" Required (TRef ["Api"; "LegacyTokenType"] []); Param "params" Required (TRef ["Api"; "Params"] []); Param "ajaxOptions" Optional (TRef ["JQuery"; "AjaxSettings"] [])] (TRef ["JQuery"; "Promise"] [TRef ["Api"; "Response"] []]))
        (Doc EmptyString [
           Tag "deprecated" EmptyString ("Use " ++ dq ++ "csrf" ++ dq ++ " instead")]);
      CMethod false "postWithToken" (Sig [] [Param "tokenType" Required (TKw "string"); Param "params" Required (TRef ["Api"; "Params"] []); Param "ajaxOptions" Optional (TRef ["JQuery"; "AjaxSettings"] [])] (TRef ["JQuery"; "Promise"] [TRef ["Api"; "Response"] []])) nodoc;
      CMethod false "getToken" (Sig [] [Param "type" Required (TRef ["Api"; "TokenType"] []); Param "additionalParams" Optional (TUnion [TRef ["Api"; "QueryTokensParams"] []; TRef ["Api"; "Assert"] []])] (TRef ["JQuery"; "Promise"] [TKw "string"]))
        (Doc "Get a token for a certain action from the API." [
           Tag "since" EmptyString "1.22";
           Tag "param" "string" "type Token type";
           Tag "param" "Api.QueryTokensParams|Api.Assert" "[additionalParams] Additional parameters for the API (since 1.35). When given a string, it's treated as the `assert` parameter (since 1.25)";
           Tag "returns" "JQuery.Promise<string>" "Received token";
           Tag "see" EmptyString "https://doc.wikimedia.org/mediawiki-core/master/js/#!/api/mw.Api-method-getToken"]);
      CMethod false "getToken" (Sig [] [Param "type" Required (TRef ["Api"; "LegacyTokenType"] []); Param "additionalParams" Optional (TUnion [TRef ["Api"; "QueryTokensParams"] []; TRef ["Api"; "Assert"] []])] (TRef ["JQuery"; "Promise"] [TKw "string"]))
        (Doc EmptyString [
           Tag "deprecated" EmptyString ("Use " ++ dq ++ "csrf" ++ dq ++ " instead")]);
      CMethod false "getToken" (Sig [] [Param "type" Required (TKw "string"); Param "additionalParams" Optional (TUnion [TRef ["Api"; "QueryTokensParams"] []; TRef ["Api"; "Assert"] []])] (TRef ["JQuery"; "Promise"] [TKw "string"])) nodoc;
      CMethod false "badToken" (Sig [] [Param "type" Required (TRef ["Api"; "TokenType"] [])] (TKw "void"))
        (Doc "Indicate that the cached token for a certain action of the API is bad." [
           Tag "since" EmptyString "1.26";
           Tag "param" "string" "type Token type";
           Tag "see" EmptyString "https://doc.wikimedia.org/mediawiki-core/master/js/#!/api/mw.Api-method-badToken"]);
      CMethod false "badToken" (Sig [] [Param "type" Required (TRef ["Api"; "LegacyTokenType"] [])] (TKw "void"))
        (Doc EmptyString [
           Tag "deprecated" EmptyString ("Use " ++ dq ++ "csrf" ++ dq ++ " instead")]);
      CMethod false "badToken" (Sig [] [Param "type" Required (TKw "string")] (TKw "void")) nodoc;
      CMethod false "getErrorMessage" (Sig [] [Param "data" Required (TRef ["Api"; "Response"] [])] (TRef ["JQuery"] []))
        (Doc "Given an API response indicating an error, get a jQuery object containing a human-readable error message that you can display somewhere on the page." [
           Tag "param" "Api.Response" "data API response indicating an error";
           Tag "returns" "JQuery" "Error messages, each wrapped in a `<div>`";
           Tag "see" EmptyString "https://doc.wikimedia.org/mediawiki-core/master/js/#!/api/mw.Api-method-getErrorMessage"]);
      CMethod false "postWithEditToken" (Sig [] [Param "params" Required (TRef ["Api"; "Params"] []); Param "ajaxOptions" Optional (TRef ["JQuery"; "AjaxSettings"] [])] (TRef ["JQuery"; "Promise"] [TRef ["Api"; "Response"] []]))
        (Doc "Post to API with csrf token. If we have no token, get one and try to post. If we have a cached token try using that, and if it fails, blank out the cached token and start over." [
           Tag "param" "APIParams" "params API parameters";
           Tag "param" "JQuery.AjaxSettings" "[ajaxOptions]";
           Tag "returns" "JQuery.Promise<Api.Response>" EmptyString;
           Tag "see" EmptyString "https://doc.wikimedia.org/mediawiki-core/master/js/#!/api/mw.Api.plugin.edit-method-postWithEditToken"]);
      CMethod false "getEditToken" (Sig [] [] (TRef ["JQuery"; "Promise"] [TKw "string"]))
        (Doc "API helper to grab a csrf token." [
           Tag "returns" "JQuery.Promise<string>" "Received token.";
           Tag "see" EmptyString "https://doc.wikimedia.org/mediawiki-core/master/js/#!/api/mw.Api.plugin.edit-method-getEditToken"]);
      CMethod false "create" (Sig [] [Param "title" Required (TRef ["TitleLike"] []); Param "params" Required (TRef ["Api"; "EditPageParams"] []); Param "content" Required (TKw "string")] (TRef ["JQuery"; "Promise"] [TRef ["Api"; "EditResult"] []]))
        (Doc "Create a new page." [
           Tag "since" EmptyString "1.28";
           Tag "param" "TitleLike" "title Page title";
           Tag "param" "Api.EditPageParams" "params Edit API parameters";
           Tag "param" "string" "content Page content";
           Tag "returns" "JQuery.Promise<Api.EditResult>" "API response";
           Tag "see" EmptyString "https://doc.wikimedia.org/mediawiki-core/master/js/#!/api/mw.Api.plugin.edit-method-create"]);
      CMethod false "edit" (Sig [] [Param "title" Required (TRef ["TitleLike"] []); Param "transform" Required (TFun (Sig [] [Param "revision" Required (TRef ["Api"; "Revision"] [])] (TUnion [TKw "string"; TRef ["Api"; "EditPageParams"] []])))] (TRef ["JQuery"; "Promise"] [TRef ["Api"; "EditResult"] []]))
        (Doc "Edit an existing page." [
           Tag "since" EmptyString "1.28";
           Tag "param" "TitleLike" "title Page title";
           Tag "param" "function(Api.Revision):string|Api.EditPageParams" "transform Callback that prepares the edit";
           Tag "returns" "JQuery.Promise<Api.EditResult>" EmptyString;
           Tag "see" EmptyString "https://doc.wikimedia.org/mediawiki-core/master/js/#!/api/mw.Api.plugin.edit-method-edit"]);
      CMethod false "newSection" (Sig [] [Param "title" Required (TRef ["TitleLike"] []); Param "header" Required (TKw "string"); Param "message" Required (TKw "string"); Param "additionalParams" Optional (TRef ["Api"; "EditPageParams"] [])] (TRef ["JQuery"; "Promise"] [TRef ["Api"; "Response"] []]))
        (Doc "Post a new section to the page." [
           Tag "param" "TitleLike" "title Target page";
           Tag "param" "string" "header";
           Tag "param" "string" "message Wikitext message";
           Tag "param" "Api.EditPageParams" "additionalParams Additional API parameters";
           Tag "returns" "JQuery.Promise<Api.Response>" EmptyString;
           Tag "see" EmptyString "https://doc.wikimedia.org/mediawiki-core/master/js/#!/api/mw.Api.plugin.edit-method-newSection"]);
      CMethod false "getUserInfo" (Sig [] [] (TRef ["JQuery"; "Promise"] [TRef ["User"; "Info"] []]))
        (Doc "Get the current user's groups and rights." [
           Tag "since" EmptyString "1.27";
           Tag "returns" "JQuery.Promise<User.Info>" EmptyString;
           Tag "see" EmptyString "https://doc.wikimedia.org/mediawiki-core/master/js/#!/api/mw.Api.plugin.user-method-getUserInfo"]);
      CMethod false "assertCurrentUser" (Sig [TParam "T" (Some (TRef ["Api"; "Params"] [])) None] [Param "query" Required (TRef ["T"] [])] (TInter [TRef ["Omit"] [TRef ["T"] []; TKeyof (TRef ["Api"; "AssertUser"] [])]; TRef ["Api"; "AssertUser"] []]))
        (Doc "Extend an API parameter object with an assertion that the user won't change." [
           Tag "since" EmptyString "1.27";
           Tag "param" "Api.Params" "query Query parameters. The object will not be changed";
           Tag "returns" "Api.AssertUser" EmptyString;
           Tag "see" EmptyString "https://doc.wikimedia.org/mediawiki-core/master/js/#!/api/mw.Api.plugin.user-method-assertCurrentUser"]);
      CMethod false "saveOption" (Sig [] [Param "name" Required (TKw "string"); Param "value" Required (TUnion [TKw "string"; TKw "null"])] (TRef ["JQuery"; "Promise"] [TRef ["Api"; "Response"] []]))
        (Doc "Asynchronously save the value of a single user option using the API. See `saveOptions()`." [
           Tag "param" "string" "name";
           Tag "param" "string|null" "value";
           Tag "returns" "JQuery.Promise<Api.Response>" EmptyString;
           Tag "see" EmptyString "https://doc.wikimedia.org/mediawiki-core/master/js/#!/api/mw.Api.plugin.options-method-saveOption"]);
      CMethod false "saveOptions" (Sig [] [Param "options" Required (TRef ["Record"] [TKw "string"; TUnion [TKw "string"; TKw "null"]])] (TRef ["JQuery"; "Promise"] [TRef ["Api"; "Response"] []]))
        (Doc "Asynchronously save the values of user options using the API." [
           Tag "param" "Object.<string, string|null>" "options Options as a `{ name: value, … }` object";
           Tag "returns" "JQuery.Promise<Api.Response>" EmptyString;
           Tag "see" EmptyString "https://doc.wikimedia.org/mediawiki-core/master/js/#!/api/mw.Api.plugin.options-method-saveOptions"]);
      CMethod false "watch" (Sig [TParam "P" (Some (TRef ["TypeOrUnionArray"] [TRef ["TitleLike"] []])) None] [Param "pages" Required (TRef ["P"] []); Param "expiry" Optional (TKw "string")] (TRef ["JQuery"; "Promise"] [TRef ["ReplaceValue"] [TRef ["P"] []; TRef ["TitleLike"] []; TRef ["Api"; "WatchStatus"] []]]))
        (Doc "Convenience method for `action=watch`." [
           Tag "since" EmptyString "1.35 - expiry parameter can be passed when Watchlist Expiry is enabled";
           Tag "param" "TypeOrUnionArray<TitleLike>" "pages";
           Tag "param" "string" "[expiry]";
           Tag "returns" "JQuery.Promise<TypeOrUnionArray<Api.WatchStatus>>" EmptyString;
           Tag "see" EmptyString "https://doc.wikimedia.org/mediawiki-core/master/js/#!/api/mw.Api.plugin.watch-method-watch"]);
      CMethod false "unwatch" (Sig [TParam "P" (Some (TRef ["TypeOrUnionArray"] [TRef ["TitleLike"] []])) None] [Param "pages" Required (TRef ["P"] [])] (TRef ["JQuery"; "Promise"] [TRef ["ReplaceValue"] [TRef ["P"] []; TRef ["TitleLike"] []; TRef ["Api"; "WatchStatus"] []]]))
        (Doc "Convenience method for `action=watch&unwatch=1`." [
           Tag "param" "TypeOrUnionArray<TitleLike>" "pages";
           Tag "returns" "JQuery.Promise<TypeOrUnionArray<Api.WatchStatus>>" EmptyString;
           Tag "see" EmptyString "https://doc.wikimedia.org/mediawiki-core/master/js/#!/api/mw.Api.plugin.watch-method-unwatch"]);
      CMethod false "parse" (Sig [] [Param "content" Required (TRef ["TitleLike"] []); Param "additionalParams" Optional (TRef ["Api"; "ParseParams"] [])] (TRef ["JQuery"; "Promise"] [TKw "string"]))
        (Doc "Convenience method for `action=parse`." [
           Tag "param" "TitleLike" "content Content to parse, either as a wikitext string or a mw.Title";
           Tag "param" "Api.ParseParams" "[additionalParams] Parameters object to set custom settings, e.g. redirects, sectionpreview.  prop should not be overridden.";
           Tag "returns" "JQuery.Promise<string>" "Parsed HTML of `wikitext`.";
           Tag "see" EmptyString "https://doc.wikimedia.org/mediawiki-core/master/js/#!/api/mw.Api.plugin.parse-method-parse"]);
      CMethod false "getMessages" (Sig [TParam "T" (Some (TKw "string")) None] [Param "messages" Required (TUnion [TRef ["T"] []; TArray (TRef ["T"] [])]); Param "options" Optional (TRef ["Api"; "QueryAllMessagesParams"] [])] (TRef ["JQuery"; "Promise"] [TRef ["Partial"] [TRef ["Record"] [TRef ["T"] []; TKw "string"]]]))
        (Doc "Get a set of messages." [
           Tag "since" EmptyString "1.27";
           Tag "param" "string|string[]" "messages Messages to retrieve";
           Tag "param" "Api.QueryAllMessagesParams" "[options] Additional parameters for the API call";
           Tag "returns" "JQuery.Promise<Object.<string, string>>" EmptyString;
           Tag "see" EmptyString "https://doc.wikimedia.org/mediawiki-core/master/js/#!/api/mw.Api.plugin.messages-method-getMessages"]);
      CMethod false "loadMessages" (Sig [] [Param "messages" Required (TUnion [TKw "string"; TArray (TKw "string")]); Param "options" Optional (TRef ["Api"; "QueryAllMessagesParams"] [])] (TRef ["JQuery"; "Promise"] [TKw "boolean"]))
        (Doc "Load a set of messages and add them to `mw.messages`." [
           Tag "param" "string|string[]" "messages Messages to retrieve";
           Tag "param" "Api.QueryAllMessagesParams" "[options] Additional parameters for the API call";
           Tag "returns" "JQuery.Promise<boolean>" EmptyString;
           Tag "see" EmptyString "https://doc.wikimedia.org/mediawiki-core/master/js/#!/api/mw.Api.plugin.messages-method-loadMessages"]);
      CMethod false "loadMessagesIfMissing" (Sig [] [Param "messages" Required (TArray (TKw "string")); Param "options" Optional (TRef ["Api"; "QueryAllMessagesParams"] [])] (TRef ["JQuery"; "Promise"] [TKw "boolean"]))
        (Doc "Load a set of messages and add them to `mw.messages`. Only messages that are not already known are loaded. If all messages are known, the returned promise is resolved immediately." [
           Tag "since" EmptyString "1.27";
           Tag "param" "string[]" "messages Messages to retrieve";
           Tag "param" "Api.QueryAllMessagesParams" "[options] Additional parameters for the API call";
           Tag "returns" "JQuery.Promise<boolean>" EmptyString;
           Tag "see" EmptyString "https://doc.wikimedia.org/mediawiki-core/master/js/#!/api/mw.Api.plugin.messages-method-loadMessagesIfMissing"]);
      CMethod false "isCategory" (Sig [] [Param "title" Required (TRef ["TitleLike"] [])] (TRef ["JQuery"; "Promise"] [TKw "boolean"]))
        (Doc "Determine if a category exists." [
           Tag "param" "TitleLike" "title";
           Tag "returns" "JQuery.Promise<boolean>" EmptyString;
           Tag "see" EmptyString "https://doc.wikimedia.org/mediawiki-core/master/js/#!/api/mw.Api.plugin.category-method-isCategory"]);
      CMethod false "getCategoriesByPrefix" (Sig [] [Param "prefix" Required (TKw "string")] (TRef ["JQuery"; "Promise"] [TArray (TKw "string")]))
        (Doc "Get a list of categories that match a certain prefix." [
           Tag "param" "string" "prefix Prefix to match.";
           Tag "returns" "JQuery.Promise<string[]>" "Matched categories";
           Tag "see" EmptyString "https://doc.wikimedia.org/mediawiki-core/master/js/#!/api/mw.Api.plugin.category-method-getCategoriesByPrefix"]);
      CMethod false "getCategories" (Sig [] [Param "title" Required (TRef ["TitleLike"] [])] (TRef ["JQuery"; "Promise"] [TUnion [TKw "false"; TArray (TRef ["Title"] [])]]))
        (Doc "Get the categories that a particular page on the wiki belongs to." [
           Tag "param" "TitleLike" "title";
           Tag "returns" "JQuery.Promise<false|Title[]>" "List of category titles or false if title was not found";
           Tag "see" EmptyString "https://doc.wikimedia.org/mediawiki-core/master/js/#!/api/mw.Api.plugin.category-method-getCategories"]);
      CMethod false "rollback" (Sig [] [Param "page" Required (TRef ["TitleLike"] []); Param "user" Required (TKw "string"); Param "params" Optional (TRef ["Api"; "RollbackParams"] [])] (TRef ["JQuery"; "Promise"] [TRef ["Api"; "RollbackInfo"] []]))
        (Doc "Convenience method for `action=rollback`." [
           Tag "since" EmptyString "1.28";
           Tag "param" "TitleLike" "page";
           Tag "param" "string" "user";
           Tag "param" "Api.RollbackParams" "[params] Additional parameters";
           Tag "returns" "JQuery.Promise<Api.RollbackInfo>" EmptyString;
           Tag "see" EmptyString "https://doc.wikimedia.org/mediawiki-core/master/js/#!/api/mw.Api.plugin.rollback-method-rollback"]);
      CMethod false "chunkedUpload" (Sig [] [Param "file" Required (TRef ["File"] []); Param "data" Required (TRef ["Api"; "UploadParams"] []); Param "chunkSize" Optional (TKw "number"); Param "chunkRetries" Optional (TKw "number")] (TRef ["JQuery"; "Promise"] [TRef ["Api"; "Response"] []]))
        (Doc "Upload a file in several chunks." [
           Tag "param" "File" "file";
           Tag "param" "Api.UploadParams" "data Other upload options, see `action=upload` API docs for more";
           Tag "param" "number" "[chunkSize] Size (in bytes) per chunk (default: 5MB)";
           Tag "param" "number" "[chunkRetries] Amount of times to retry a failed chunk (default: 1)";
           Tag "returns" "JQuery.Promise<Api.Response>" EmptyString;
           Tag "see" EmptyString "https://doc.wikimedia.org/mediawiki-core/master/js/#!/api/mw.Api.plugin.upload-method-chunkedUpload"]);
      CMethod false "chunkedUploadToStash" (Sig [] [Param "file" Required (TUnion [TRef ["File"] []; TRef ["HTMLInputElement"] []]); Param "data" Optional (TRef ["Api"; "UploadParams"] []); Param "chunkSize" Optional (TKw "number"); Param "chunkRetries" Optional (TKw "number")] (TRef ["JQuery"; "Promise"] [TRef ["Api"; "FinishUpload"] []]))
        (Doc "Upload a file to the stash, in chunks." [
           Tag "param" "File|HTMLInputElement" "file";
           Tag "param" "Api.UploadParams" "[data]";
           Tag "param" "number" "[chunkSize] Size (in bytes) per chunk (default: 5MB)";
           Tag "param" "number" "[chunkRetries] Amount of times to retry a failed chunk (default: 1)";
           Tag "returns" "JQuery.Promise<Api.FinishUpload>" EmptyString;
           Tag "see" EmptyString "https://doc.wikimedia.org/mediawiki-core/master/js/#!/api/mw.Api.plugin.upload-method-chunkedUploadToStash"]);
      CMethod false "upload" (Sig [] [Param "file" Required (TUnion [TRef ["File"] []; TRef ["Blob"] []; TRef ["HTMLInputElement"] []]); Param "data" Required (TRef ["Api"; "UploadParams"] [])] (TRef ["JQuery"; "Promise"] [TRef ["Api"; "Response"] []]))
        (Doc "Upload a file to MediaWiki." [
           Tag "param" "File|Blob|HTMLInputElement" "file HTML `input type=file` element with a file already inside of it, or a File object.";
           Tag "param" "Api.UploadParams" "data Other upload options, see `action=upload` API docs for more";
           Tag "returns" "JQuery.Promise<Api.Response>" EmptyString;
           Tag "see" EmptyString "https://doc.wikimedia.org/mediawiki-core/master/js/#!/api/mw.Api.plugin.upload-method-upload"]);
      CMethod false "uploadFromStash" (Sig [] [Param "filekey" Required (TKw "string"); Param "data" Required (TRef ["Api"; "UploadParams"] [])] (TRef ["JQuery"; "Promise"] [TRef ["Api"; "Response"] []]))
        (Doc "Finish an upload in the stash." [
           Tag "param" "string" "filekey";
           Tag "param" "Api.UploadParams" "data";
           Tag "returns" "JQuery.Promise<Api.Response>" EmptyString;
           Tag "see" EmptyString "https://doc.wikimedia.org/mediawiki-core/master/js/#!/api/mw.Api.plugin.upload-method-uploadFromStash"]);
      CMethod false "uploadToStash" (Sig [] [Param "file" Required (TUnion [TRef ["File"] []; TRef ["HTMLInputElement"] []]); Param "data" Optional (TRef ["Api"; "UploadParams"] [])] (TRef ["JQuery"; "Promise"] [TRef ["Api"; "FinishUpload"] []]))
        (Doc "Upload a file to the stash." [
           Tag "param" "File|HTMLInputElement" "file";
           Tag "param" "Api.UploadParams" "[data]";
           Tag "returns" "JQuery.Promise<Api.FinishUpload>" EmptyString;
           Tag "see" EmptyString "https://doc.wikimedia.org/mediawiki-core/master/js/#!/api/mw.Api.plugin.upload-method-uploadToStash"]);
      CMethod false "login" (Sig [] [Param "username" Required (TKw "string"); Param "password" Required (TKw "string")] (TRef ["JQuery"; "Promise"] [TRef ["Api"; "Response"] []]))
        (Doc EmptyString [
           Tag "param" "string" "username";
           Tag "param" "string" "password";
           Tag "returns" "JQuery.Promise<Api.Response>" EmptyString;
           Tag "see" EmptyString "https://doc.wikimedia.org/mediawiki-core/master/js/#!/api/mw.Api.plugin.login-method-login"])]
      (Doc EmptyString [
         Tag "see" EmptyString "https://doc.wikimedia.org/mediawiki-core/master/js/#!/api/mw.Api"]);
    INamespace Plain ["Api"] [
      ITypeAlias Plain "timestamp" [] (TKw "string") nodoc;
      ITypeAlias Plain "expiry" [] (TKw "string") nodoc;
      ITypeAlias Plain "namespace" [] (TKw "number") nodoc;
      ITypeAlias Plain "limit" [] (TUnion [TKw "number"; TLit "max"]) nodoc;
      ITypeAlias Plain "password" [] (TKw "string") nodoc;
      ITypeAlias Plain "upload" [] (TRef ["File"] []) nodoc;
      ITypeAlias Plain "OneOrMore" [TParam "T" None None] (TUnion [TRef ["T"] []; TArray (TRef ["T"] [])]) nodoc;
      ITypeAlias Plain "Assert" [] (TUnion [TLit "anon"; TLit "bot"; TLit "user"]) nodoc;
      ITypeAlias Plain "TokenType" [] (TUnion [TLit "createaccount"; TLit "csrf"; TLit "deleteglobalaccount"; TLit "login"; TLit "patrol"; TLit "rollback"; TLit "setglobalaccountstatus"; TLit "userrights"; TLit "watch"]) nodoc;
      ITypeAlias Plain "LegacyTokenType" [] (TUnion [TLit "block"; TLit "delete"; TLit "edit"; TLit "email"; TLit "import"; TLit "move"; TLit "options"; TLit "protect"; TLit "unblock"]) nodoc;
      IInterface "Params" [] [] [
        MProp "action" true (TKw "string") nodoc;
        MProp "format" true (TUnion [TLit "json"; TLit "jsonfm"; TLit "xml"; TLit "xmlfm"; TLit "php"; TLit "none"]) nodoc;
        MProp "maxlag" true (TKw "number") nodoc;
        MProp "smaxage" true (TKw "number") nodoc;
        MProp "maxage" true (TKw "number") nodoc;
        MProp "assert" true (TUnion [TLit "user"; TLit "bot"; TLit "anon"]) nodoc;
        MProp "assertuser" true (TKw "string") nodoc;
        MProp "requestid" true (TKw "string") nodoc;
        MProp "servedby" true (TKw "boolean") nodoc;
        MProp "curtimestamp" true (TKw "boolean") nodoc;
        MProp "responselanginfo" true (TKw "boolean") nodoc;
        MProp "origin" true (TKw "string") nodoc;
        MProp "uselang" true (TKw "string") nodoc;
        MProp "errorformat" true (TUnion [TLit "bc"; TLit "html"; TLit "none"; TLit "plaintext"; TLit "raw"; TLit "wikitext"]) nodoc;
        MProp "errorlang" true (TKw "string") nodoc;
        MProp "errorsuselocal" true (TKw "boolean") nodoc;
        MProp "centralauthtoken" true (TKw "string") nodoc;
        MProp "callback" true (TKw "string") nodoc;
        MProp "utf8" true (TKw "boolean") nodoc;
        MProp "ascii" true (TKw "boolean") nodoc;
        MProp "formatversion" true (TUnion [TLit "1"; TLit "2"; TLit "latest"]) nodoc]
        nodoc;
      ITypeAlias Plain "Response" [] (TRef ["Record"] [TKw "string"; TKw "any"]) nodoc;
      IInterface "Revision" [] [] [
        MProp "content" false (TKw "string") nodoc;
        MProp "timestamp" false (TKw "string") nodoc]
        nodoc;
      ITypeAlias Plain "EditResult" [] (TUnion [TRef ["EditFailureResult"] []; TRef ["EditNoChangeResult"] []; TRef ["EditChangedResult"] []]) nodoc;
      IInterface "EditFailureResult" [] [] [
        MProp "result" false (TLit "Failure") nodoc]
        nodoc;
      IInterface "EditSuccessResult" [] [] [
        MProp "contentmodel" false (TUnion [TKw "string"; TKw "false"]) nodoc;
        MProp "pageid" false (TKw "number") nodoc;
        MProp "result" false (TLit "Success") nodoc;
        MProp "tempusercreated" true (TKw "true") nodoc;
        MProp "tempusercreatedredirect" true (TKw "string") nodoc;
        MProp "title" false (TKw "string") nodoc;
        MProp "watched" true (TKw "true") nodoc;
        MProp "watchlistexpiry" true (TKw "string") nodoc]
        nodoc;
      IInterface "EditNoChangeResult" [] [TRef ["EditSuccessResult"] []] [
        MProp "nochange" false (TKw "true") nodoc]
        nodoc;
      IInterface "EditChangedResult" [] [TRef ["EditSuccessResult"] []] [
        MProp "oldrevid" false (TKw "number") nodoc;
        MProp "newrevid" false (TKw "number") nodoc;
        MProp "newtimestamp" false (TKw "string") nodoc]
        nodoc;
      IInterface "AssertUser" [] [] [
        MProp "assert" false (TUnion [TLit "anon"; TLit "user"]) nodoc;
        MProp "assertUser" false (TKw "string") nodoc]
        nodoc;
      IInterface "WatchStatus" [] [] [
        MProp "ns" false (TKw "number") nodoc;
        MProp "title" false (TKw "string") nodoc;
        MProp "watched" false (TKw "boolean") nodoc]
        nodoc;
      IInterface "RollbackInfo" [] [] [
        MProp "last_revid" false (TKw "number")
          (Doc "The revision being restored (the last revision before revision(s) by the reverted user)." []);
        MProp "old_revid" false (TKw "number")
          (Doc "The revision being reverted (previously the current revision of the page)." []);
        MProp "pageid" false (TKw "number") nodoc;
        MProp "revid" false (TKw "number") nodoc;
        MProp "summary" false (TKw "string") nodoc;
        MProp "title" false (TKw "string") nodoc]
        nodoc;
      IInterface "FinishUpload" [] [] [
        MCall (Sig [] [Param "data" Optional (TRef ["UploadParams"] [])] (TRef ["JQuery"; "Promise"] [TRef ["Response"] []]))
          (Doc "Call this function to finish the upload." [])]
        nodoc;
      IInterface "Options" [] [] [
        MProp "parameters" false (TRef ["Params"] [])
          (Doc "Default query parameters for API requests" []);
        MProp "ajax" false (TRef ["JQuery"; "AjaxSettings"] [])
          (Doc "Default options for {@link jQuery.ajax}" []);
        MProp "useUS" true (TKw "boolean")
          (Doc "Whether to use U+001F when joining multi-valued parameters (since 1.28). Default is true if ajax.url is not set, false otherwise for compatibility." [])]
        (Doc "Default options for {@link jQuery.ajax} calls. Can be overridden by passing `options` to {@link mw.Api} constructor." [
           Tag "see" EmptyString "https://doc.wikimedia.org/mediawiki-core/master/js/#!/api/mw.Api-property-defaultOptions"])]
      nodoc]
    nodoc].

(** src/mediawiki.api/Api.d.ts, second document: the generated parameter interfaces. *)
Definition mediawiki_api_Api_d_ts_2 : list item := [
  INamespace Declared ["mw"; "Api"] [
    IInterface "CheckMatchParams" [] [TRef ["Params"] []] [
      MProp "filter" true (TKw "string") nodoc;
      MProp "vars" true (TKw "string") nodoc;
      MProp "rcid" true (TKw "number") nodoc;
      MProp "logid" true (TKw "number") nodoc]
      nodoc;
    IInterface "CheckSyntaxParams" [] [TRef ["Params"] []] [
      MProp "filter" true (TKw "string") nodoc]
      nodoc;
    IInterface "EvalExpressionParams" [] [TRef ["Params"] []] [
      MProp "expression" true (TKw "string") nodoc;
      MProp "prettyprint" true (TKw "boolean") nodoc]
      nodoc;
    IInterface "UnblockAutopromoteParams" [] [TRef ["Params"] []] [
      MProp "user" true (TKw "string") nodoc;
      MProp "token" true (TKw "string") nodoc]
      nodoc;
    IInterface "AbuseLogPrivateDetailsParams" [] [TRef ["Params"] []] [
      MProp "logid" true (TKw "number") nodoc;
      MProp "reason" true (TKw "string") nodoc;
      MProp "token" true (TKw "string") nodoc]
      nodoc;
    IInterface "AcquireTempUserNameParams" [] [TRef ["Params"] []] []
      nodoc;
    IInterface "AntiSpoofParams" [] [TRef ["Params"] []] [
      MProp "username" true (TKw "string") nodoc]
      nodoc;
    IInterface "BlockParams" [] [TRef ["Params"] []] [
      MProp "user" true (TKw "string") nodoc;
      MProp "userid" true (TKw "number") nodoc;
      MProp "expiry" true (TKw "string") nodoc;
      MProp "reason" true (TKw "string") nodoc;
      MProp "anononly" true (TKw "boolean") nodoc;
      MProp "nocreate" true (TKw "boolean") nodoc;
      MProp "autoblock" true (TKw "boolean") nodoc;
      MProp "noemail" true (TKw "boolean") nodoc;
      MProp "hidename" true (TKw "boolean") nodoc;
      MProp "allowusertalk" true (TKw "boolean") nodoc;
      MProp "reblock" true (TKw "boolean") nodoc;
      MProp "watchuser" true (TKw "boolean") nodoc;
      MProp "watchlistexpiry" true (TRef ["expiry"] []) nodoc;
      MProp "tags" true (TUnion [TKw "string"; TArray (TKw "string")]) nodoc;
      MProp "partial" true (TKw "boolean") nodoc;
      MProp "pagerestrictions" true (TUnion [TKw "string"; TArray (TKw "string")]) nodoc;
      MProp "namespacerestrictions" true (TUnion [TRef ["namespace"] []; TArray (TRef ["namespace"] [])]) nodoc;
      MProp "token" true (TKw "string") nodoc]
      nodoc;
    IInterface "BounceHandlerParams" [] [TRef ["Params"] []] [
      MProp "email" true (TKw "string") nodoc]
      nodoc;
    IInterface "CategoryTreeParams" [] [TRef ["Params"] []] [
      MProp "category" true (TKw "string") nodoc;
      MProp "options" true (TKw "string") nodoc]
      nodoc;
    IInterface "CentralAuthTokenParams" [] [TRef ["Params"] []] []
      nodoc;
    IInterface "CentralNoticeCdnCacheUpdateBannerParams" [] [TRef ["Params"] []] [
      MProp "banner" true (TKw "string") nodoc;
      MProp "language" true (TKw "string") nodoc;
      MProp "token" true (TKw "string") nodoc]
      nodoc;
    IInterface "CentralNoticeChoiceDataParams" [] [TRef ["Params"] []] [
      MProp "project" true (TKw "string") nodoc;
      MProp "language" true (TKw "string") nodoc]
      nodoc;
    IInterface "CentralNoticeQueryCampaignParams" [] [TRef ["Params"] []] [
      MProp "campaign" true (TKw "string") nodoc]
      nodoc;
    IInterface "ChangeAuthenticationDataParams" [] [TRef ["Params"] []] [
      MProp "changeauthrequest" true (TKw "string") nodoc;
      MProp "changeauthtoken" true (TKw "string") nodoc]
      nodoc;
    IInterface "ChangeContentModelParams" [] [TRef ["Params"] []] [
      MProp "title" true (TKw "string") nodoc;
      MProp "pageid" true (TKw "number") nodoc;
      MProp "summary" true (TKw "string") nodoc;
      MProp "tags" true (TUnion [TKw "string"; TArray (TKw "string")]) nodoc;
      MProp "model" true (TUnion [TLit "GadgetDefinition"; TLit "JsonSchema"; TLit "MassMessageListContent"; TLit "Scribunto"; TLit "SecurePoll"; TLit "css"; TLit "javascript"; TLit "json"; TLit "sanitized-css"; TLit "text"; TLit "wikitext"]) nodoc;
      MProp "bot" true (TKw "boolean") nodoc;
      MProp "token" true (TKw "string") nodoc]
      nodoc;
    IInterface "CheckTokenParams" [] [TRef ["Params"] []] [
      MProp "type" true (TUnion [TLit "createaccount"; TLit "csrf"; TLit "deleteglobalaccount"; TLit "login"; TLit "patrol"; TLit "rollback"; TLit "setglobalaccountstatus"; TLit "userrights"; TLit "watch"]) nodoc;
      MProp "token" true (TKw "string") nodoc;
      MProp "maxtokenage" true (TKw "number") nodoc]
      nodoc;
    IInterface "ConfigDumpParams" [] [TRef ["Params"] []] [
      MProp "prop" true (TRef ["OneOrMore"] [TUnion [TLit "globals"; TLit "namespacemap"; TLit "profiles"; TLit "replicagroup"; TLit "usertesting"]]) nodoc]
      nodoc;
    IInterface "MappingDumpParams" [] [TRef ["Params"] []] []
      nodoc;
    IInterface "ProfilesDumpParams" [] [TRef ["Params"] []] [
      MProp "verbose" true (TKw "boolean") nodoc]
      nodoc;
    IInterface "SettingsDumpParams" [] [TRef ["Params"] []] []
      nodoc;
    IInterface "ClearHasMsgParams" [] [TRef ["Params"] []] []
      nodoc;
    IInterface "ClientLoginParams" [] [TRef ["Params"] []] [
      MProp "loginrequests" true (TUnion [TKw "string"; TArray (TKw "string")]) nodoc;
      MProp "loginmessageformat" true (TUnion [TLit "html"; TLit "none"; TLit "raw"; TLit "wikitext"]) nodoc;
      MProp "loginmergerequestfields" true (TKw "boolean") nodoc;
      MProp "loginpreservestate" true (TKw "boolean") nodoc;
      MProp "loginreturnurl" true (TKw "string") nodoc;
      MProp "logincontinue" true (TKw "boolean") nodoc;
      MProp "logintoken" true (TKw "string") nodoc]
      nodoc;
    IInterface "CollectionParams" [] [TRef ["Params"] []] [
      MProp "submodule" true (TUnion [TLit "addarticle"; TLit "addcategory"; TLit "addchapter"; TLit "clearcollection"; TLit "getbookcreatorboxcontent"; TLit "getcollection"; TLit "getpopupdata"; TLit "postcollection"; TLit "removearticle"; TLit "removeitem"; TLit "renamechapter"; TLit "setsorting"; TLit "settitles"; TLit "sortitems"; TLit "suggestarticleaction"; TLit "suggestundoarticleaction"]) nodoc]
      nodoc;
    IInterface "ComparePagesParams" [] [TRef ["Params"] []] [
      MProp "fromtitle" true (TKw "string") nodoc;
      MProp "fromid" true (TKw "number") nodoc;
      MProp "fromrev" true (TKw "number") nodoc;
      MProp "fromslots" true (TRef ["OneOrMore"] [TLit "main"]) nodoc;
      MProp "frompst" true (TKw "boolean") nodoc;
      MProp "fromtext" true (TKw "string") nodoc;
      MProp "fromcontentformat" true (TUnion [TLit "application/json"; TLit "application/octet-stream"; TLit "application/unknown"; TLit "application/x-binary"; TLit "text/css"; TLit "text/javascript"; TLit "text/plain"; TLit "text/unknown"; TLit "text/x-wiki"; TLit "unknown/unknown"]) nodoc;
      MProp "fromcontentmodel" true (TUnion [TLit "GadgetDefinition"; TLit "JsonSchema"; TLit "MassMessageListContent"; TLit "Scribunto"; TLit "SecurePoll"; TLit "css"; TLit "flow-board"; TLit "javascript"; TLit "json"; TLit "sanitized-css"; TLit "text"; TLit "unknown"; TLit "wikitext"]) nodoc;
      MProp "fromsection" true (TKw "string") nodoc;
      MProp "totitle" true (TKw "string") nodoc;
      MProp "toid" true (TKw "number") nodoc;
      MProp "torev" true (TKw "number") nodoc;
      MProp "torelative" true (TUnion [TLit "cur"; TLit "next"; TLit "prev"]) nodoc;
      MProp "toslots" true (TRef ["OneOrMore"] [TLit "main"]) nodoc;
      MProp "topst" true (TKw "boolean") nodoc;
      MProp "totext" true (TKw "string") nodoc;
      MProp "tocontentformat" true (TUnion [TLit "application/json"; TLit "application/octet-stream"; TLit "application/unknown"; TLit "application/x-binary"; TLit "text/css"; TLit "text/javascript"; TLit "text/plain"; TLit "text/unknown"; TLit "text/x-wiki"; TLit "unknown/unknown"]) nodoc;
      MProp "tocontentmodel" true (TUnion [TLit "GadgetDefinition"; TLit "JsonSchema"; TLit "MassMessageListContent"; TLit "Scribunto"; TLit "SecurePoll"; TLit "css"; TLit "flow-board"; TLit "javascript"; TLit "json"; TLit "sanitized-css"; TLit "text"; TLit "unknown"; TLit "wikitext"]) nodoc;
      MProp "tosection" true (TKw "string") nodoc;
      MProp "prop" true (TRef ["OneOrMore"] [TUnion [TLit "comment"; TLit "diff"; TLit "diffsize"; TLit "ids"; TLit "parsedcomment"; TLit "rel"; TLit "size"; TLit "timestamp"; TLit "title"; TLit "user"]]) nodoc;
      MProp "slots" true (TRef ["OneOrMore"] [TLit "main"]) nodoc;
      MProp "difftype" true (TUnion [TLit "inline"; TLit "table"; TLit "unified"]) nodoc]
      nodoc;
    IInterface "AMCreateAccountParams" [] [TRef ["Params"] []] [
      MProp "createrequests" true (TUnion [TKw "string"; TArray (TKw "string")]) nodoc;
      MProp "createmessageformat" true (TUnion [TLit "html"; TLit "none"; TLit "raw"; TLit "wikitext"]) nodoc;
      MProp "createmergerequestfields" true (TKw "boolean") nodoc;
      MProp "createpreservestate" true (TKw "boolean") nodoc;
      MProp "createreturnurl" true (TKw "string") nodoc;
      MProp "createcontinue" true (TKw "boolean") nodoc;
      MProp "createtoken" true (TKw "string") nodoc]
      nodoc;
    IInterface "CreateLocalAccountParams" [] [TRef ["Params"] []] [
      MProp "username" true (TKw "string") nodoc;
      MProp "reason" true (TKw "string") nodoc;
      MProp "token" true (TKw "string") nodoc]
      nodoc;
    IInterface "CSPReportParams" [] [TRef ["Params"] []] [
      MProp "reportonly" true (TKw "boolean") nodoc;
      MProp "source" true (TKw "string") nodoc]
      nodoc;
    IInterface "ContentTranslationDeleteParams" [] [TRef ["Params"] []] [
      MProp "from" true (TKw "string") nodoc;
      MProp "to" true (TKw "string") nodoc;
      MProp "sourcetitle" true (TKw "string") nodoc;
      MProp "token" true (TKw "string") nodoc]
      nodoc;
    IInterface "ContentTranslationPublishParams" [] [TRef ["Params"] []] [
      MProp "title" true (TKw "string") nodoc;
      MProp "html" true (TKw "string") nodoc;
      MProp "from" true (TKw "string") nodoc;
      MProp "to" true (TKw "string") nodoc;
      MProp "sourcetitle" true (TKw "string") nodoc;
      MProp "categories" true (TKw "string") nodoc;
      MProp "publishtags" true (TUnion [TKw "string"; TArray (TKw "string")]) nodoc;
      MProp "wpCaptchaId" true (TKw "string") nodoc;
      MProp "wpCaptchaWord" true (TKw "string") nodoc;
      MProp "cxversion" true (TKw "number") nodoc;
      MProp "token" true (TKw "string") nodoc]
      nodoc;
    IInterface "SectionTranslationPublishParams" [] [TRef ["Params"] []] [
      MProp "title" true (TKw "string") nodoc;
      MProp "html" true (TKw "string") nodoc;
      MProp "sourcelanguage" true (TKw "string") nodoc;
      MProp "targetlanguage" true (TKw "string") nodoc;
      MProp "sourcetitle" true (TKw "string") nodoc;
      MProp "sourcerevid" true (TKw "string") nodoc;
      MProp "sourcesectiontitle" true (TKw "string") nodoc;
      MProp "targetsectiontitle" true (TKw "string") nodoc;
      MProp "sectiontranslationid" true (TKw "number") nodoc;
      MProp "issandbox" true (TKw "boolean") nodoc;
      MProp "captchaid" true (TKw "string") nodoc;
      MProp "captchaword" true (TKw "string") nodoc;
      MProp "token" true (TKw "string") nodoc]
      nodoc;
    IInterface "ContentTranslationSaveParams" [] [TRef ["Params"] []] [
      MProp "from" true (TKw "string") nodoc;
      MProp "to" true (TKw "string") nodoc;
      MProp "sourcetitle" true (TKw "string") nodoc;
      MProp "title" true (TKw "string") nodoc;
      MProp "content" true (TKw "string") nodoc;
      MProp "sourcerevision" true (TKw "number") nodoc;
      MProp "progress" true (TKw "string") nodoc;
      MProp "cxversion" true (TKw "number") nodoc;
      MProp "sourcecategories" true (TKw "string") nodoc;
      MProp "targetcategories" true (TKw "string") nodoc;
      MProp "token" true (TKw "string") nodoc]
      nodoc;
    IInterface "ContentTranslationSuggestionListParams" [] [TRef ["Params"] []] [
      MProp "listname" true (TKw "string") nodoc;
      MProp "listaction" true (TUnion [TLit "add"; TLit "remove"; TLit "view"]) nodoc;
      MProp "titles" true (TUnion [TKw "string"; TArray (TKw "string")]) nodoc;
      MProp "from" true (TKw "string") nodoc;
      MProp "to" true (TKw "string") nodoc;
      MProp "token" true (TKw "string") nodoc]
      nodoc;
    IInterface "ContentTranslationTokenParams" [] [TRef ["Params"] []] [
      MProp "token" true (TKw "string") nodoc]
      nodoc;
    IInterface "DeleteParams" [] [TRef ["Params"] []] [
      MProp "title" true (TKw "string") nodoc;
      MProp "pageid" true (TKw "number") nodoc;
      MProp "reason" true (TKw "string") nodoc;
      MProp "tags" true (TUnion [TKw "string"; TArray (TKw "string")]) nodoc;
      MProp "deletetalk" true (TKw "boolean") nodoc;
      MProp "watch" true (TKw "boolean") nodoc;
      MProp "watchlist" true (TUnion [TLit "nochange"; TLit "preferences"; TLit "unwatch"; TLit "watch"]) nodoc;
      MProp "watchlistexpiry" true (TRef ["expiry"] []) nodoc;
      MProp "unwatch" true (TKw "boolean") nodoc;
      MProp "oldimage" true (TKw "string") nodoc;
      MProp "token" true (TKw "string") nodoc]
      nodoc;
    IInterface "DeleteGlobalAccountParams" [] [TRef ["Params"] []] [
      MProp "user" true (TKw "string") nodoc;
      MProp "reason" true (TKw "string") nodoc;
      MProp "token" true (TKw "string") nodoc]
      nodoc;
    IInterface "DiscussionToolsCompareParams" [] [TRef ["Params"] []] [
      MProp "fromtitle" true (TKw "string") nodoc;
      MProp "fromrev" true (TKw "number") nodoc;
      MProp "totitle" true (TKw "string") nodoc;
      MProp "torev" true (TKw "number") nodoc]
      nodoc;
    IInterface "DiscussionToolsEditParams" [] [TRef ["Params"] []] [
      MProp "paction" true (TUnion [TLit "addcomment"; TLit "addtopic"]) nodoc;
      MProp "autosubscribe" true (TUnion [TLit "default"; TLit "no"; TLit "yes"]) nodoc;
      MProp "page" true (TKw "string") nodoc;
      MProp "token" true (TKw "string") nodoc;
      MProp "formtoken" true (TKw "string") nodoc;
      MProp "commentname" true (TKw "string") nodoc;
      MProp "commentid" true (TKw "string") nodoc;
      MProp "wikitext" true (TKw "string") nodoc;
      MProp "html" true (TKw "string") nodoc;
      MProp "summary" true (TKw "string") nodoc;
      MProp "sectiontitle" true (TKw "string") nodoc;
      MProp "allownosectiontitle" true (TKw "boolean") nodoc;
      MProp "useskin" true (TUnion [TLit "apioutput"; TLit "cologneblue"; TLit "contenttranslation"; TLit "fallback"; TLit "minerva"; TLit "modern"; TLit "monobook"; TLit "timeless"; TLit "vector"; TLit "vector-2022"]) nodoc;
      MProp "watchlist" true (TKw "string") nodoc;
      MProp "captchaid" true (TKw "string") nodoc;
      MProp "captchaword" true (TKw "string") nodoc;
      MProp "nocontent" true (TKw "string") nodoc;
      MProp "tags" true (TUnion [TKw "string"; TArray (TKw "string")]) nodoc;
      MProp "returnto" true (TKw "string") nodoc;
      MProp "returntoquery" true (TKw "string") nodoc;
      MProp "returntoanchor" true (TKw "string") nodoc;
      MProp "mobileformat" true (TKw "boolean") nodoc]
      nodoc;
    IInterface "DiscussionToolsFindCommentParams" [] [TRef ["Params"] []] [
      MProp "idorname" true (TKw "string") nodoc;
      MProp "heading" true (TKw "string") nodoc;
      MProp "page" true (TKw "string") nodoc]
      nodoc;
    IInterface "DiscussionToolsGetSubscriptionsParams" [] [TRef ["Params"] []] [
      MProp "commentname" true (TUnion [TKw "string"; TArray (TKw "string")]) nodoc]
      nodoc;
    IInterface "DiscussionToolsPageInfoParams" [] [TRef ["Params"] []] [
      MProp "page" true (TKw "string") nodoc;
      MProp "oldid" true (TKw "number") nodoc;
      MProp "prop" true (TRef ["OneOrMore"] [TUnion [TLit "threaditemshtml"; TLit "transcludedfrom"]]) nodoc;
      MProp "excludesignatures" true (TKw "boolean") nodoc]
      nodoc;
    IInterface "DiscussionToolsPreviewParams" [] [TRef ["Params"] []] [
      MProp "type" true (TUnion [TLit "reply"; TLit "topic"]) nodoc;
      MProp "page" true (TKw "string") nodoc;
      MProp "wikitext" true (TKw "string") nodoc;
      MProp "sectiontitle" true (TKw "string") nodoc;
      MProp "useskin" true (TUnion [TLit "apioutput"; TLit "cologneblue"; TLit "contenttranslation"; TLit "fallback"; TLit "minerva"; TLit "modern"; TLit "monobook"; TLit "timeless"; TLit "vector"; TLit "vector-2022"]) nodoc;
      MProp "mobileformat" true (TKw "boolean") nodoc]
      nodoc;
    IInterface "DiscussionToolsSubscribeParams" [] [TRef ["Params"] []] [
      MProp "page" true (TKw "string") nodoc;
      MProp "token" true (TKw "string") nodoc;
      MProp "commentname" true (TKw "string") nodoc;
      MProp "subscribe" true (TKw "boolean") nodoc]
      nodoc;
    IInterface "EchoMarkReadParams" [] [TRef ["Params"] []] [
      MProp "wikis" true (TUnion [TKw "string"; TArray (TKw "string")]) nodoc;
      MProp "list" true (TUnion [TKw "string"; TArray (TKw "string")]) nodoc;
      MProp "unreadlist" true (TUnion [TKw "string"; TArray (TKw "string")]) nodoc;
      MProp "all" true (TKw "boolean") nodoc;
      MProp "sections" true (TRef ["OneOrMore"] [TUnion [TLit "alert"; TLit "message"]]) nodoc;
      MProp "token" true (TKw "string") nodoc]
      nodoc;
    IInterface "EchoMarkSeenParams" [] [TRef ["Params"] []] [
      MProp "type" true (TUnion [TLit "alert"; TLit "all"; TLit "message"]) nodoc;
      MProp "timestampFormat" true (TUnion [TLit "ISO_8601"; TLit "MW"]) nodoc]
      nodoc;
    IInterface "EchoMuteParams" [] [TRef ["Params"] []] [
      MProp "type" true (TUnion [TLit "page-linked-title"; TLit "user"]) nodoc;
      MProp "mute" true (TUnion [TKw "string"; TArray (TKw "string")]) nodoc;
      MProp "unmute" true (TUnion [TKw "string"; TArray (TKw "string")]) nodoc;
      MProp "token" true (TKw "string") nodoc]
      nodoc;
    IInterface "EchoPushSubscriptionsParams" [] [TRef ["Params"] []] [
      MProp "command" true (TUnion [TLit "create"; TLit "delete"]) nodoc;
      MProp "token" true (TKw "string") nodoc]
      nodoc;
    IInterface "EditPageParams" [] [TRef ["Params"] []] [
      MProp "title" true (TKw "string") nodoc;
      MProp "pageid" true (TKw "number") nodoc;
      MProp "section" true (TKw "string") nodoc;
      MProp "sectiontitle" true (TKw "string") nodoc;
      MProp "text" true (TKw "string") nodoc;
      MProp "summary" true (TKw "string") nodoc;
      MProp "tags" true (TUnion [TKw "string"; TArray (TKw "string")]) nodoc;
      MProp "minor" true (TKw "boolean") nodoc;
      MProp "notminor" true (TKw "boolean") nodoc;
      MProp "bot" true (TKw "boolean") nodoc;
      MProp "baserevid" true (TKw "number") nodoc;
      MProp "basetimestamp" true (TRef ["timestamp"] []) nodoc;
      MProp "starttimestamp" true (TRef ["timestamp"] []) nodoc;
      MProp "recreate" true (TKw "boolean") nodoc;
      MProp "createonly" true (TKw "boolean") nodoc;
      MProp "nocreate" true (TKw "boolean") nodoc;
      MProp "watch" true (TKw "boolean") nodoc;
      MProp "unwatch" true (TKw "boolean") nodoc;
      MProp "watchlist" true (TUnion [TLit "nochange"; TLit "preferences"; TLit "unwatch"; TLit "watch"]) nodoc;
      MProp "watchlistexpiry" true (TRef ["expiry"] []) nodoc;
      MProp "md5" true (TKw "string") nodoc;
      MProp "prependtext" true (TKw "string") nodoc;
      MProp "appendtext" true (TKw "string") nodoc;
      MProp "undo" true (TKw "number") nodoc;
      MProp "undoafter" true (TKw "number") nodoc;
      MProp "redirect" true (TKw "boolean") nodoc;
      MProp "contentformat" true (TUnion [TLit "application/json"; TLit "application/octet-stream"; TLit "application/unknown"; TLit "application/x-binary"; TLit "text/css"; TLit "text/javascript"; TLit "text/plain"; TLit "text/unknown"; TLit "text/x-wiki"; TLit "unknown/unknown"]) nodoc;
      MProp "contentmodel" true (TUnion [TLit "GadgetDefinition"; TLit "JsonSchema"; TLit "MassMessageListContent"; TLit "Scribunto"; TLit "SecurePoll"; TLit "css"; TLit "flow-board"; TLit "javascript"; TLit "json"; TLit "sanitized-css"; TLit "text"; TLit "unknown"; TLit "wikitext"]) nodoc;
      MProp "token" true (TKw "string") nodoc;
      MProp "returnto" true (TKw "string") nodoc;
      MProp "returntoquery" true (TKw "string") nodoc;
      MProp "returntoanchor" true (TKw "string") nodoc;
      MProp "captchaword" true (TKw "string") nodoc;
      MProp "captchaid" true (TKw "string") nodoc]
      nodoc;
    IInterface "EditMassMessageListParams" [] [TRef ["Params"] []] [
      MProp "spamlist" true (TKw "string") nodoc;
      MProp "description" true (TKw "string") nodoc;
      MProp "add" true (TUnion [TKw "string"; TArray (TKw "string")]) nodoc;
      MProp "remove" true (TUnion [TKw "string"; TArray (TKw "string")]) nodoc;
      MProp "minor" true (TKw "boolean") nodoc;
      MProp "watchlist" true (TUnion [TLit "nochange"; TLit "preferences"; TLit "unwatch"; TLit "watch"]) nodoc;
      MProp "token" true (TKw "string") nodoc]
      nodoc;
    IInterface "EmailUserParams" [] [TRef ["Params"] []] [
      MProp "target" true (TKw "string") nodoc;
      MProp "subject" true (TKw "string") nodoc;
      MProp "text" true (TKw "string") nodoc;
      MProp "ccme" true (TKw "boolean") nodoc;
      MProp "token" true (TKw "string") nodoc]
      nodoc;
    IInterface "ExpandTemplatesParams" [] [TRef ["Params"] []] [
      MProp "title" true (TKw "string") nodoc;
      MProp "text" true (TKw "string") nodoc;
      MProp "revid" true (TKw "number") nodoc;
      MProp "prop" true (TRef ["OneOrMore"] [TUnion [TLit "categories"; TLit "encodedjsconfigvars"; TLit "jsconfigvars"; TLit "modules"; TLit "parsetree"; TLit "properties"; TLit "ttl"; TLit "volatile"; TLit "wikitext"]]) nodoc;
      MProp "includecomments" true (TKw "boolean") nodoc;
      MProp "showstrategykeys" true (TKw "boolean") nodoc;
      MProp "generatexml" true (TKw "boolean") nodoc;
      MProp "templatesandboxprefix" true (TUnion [TKw "string"; TArray (TKw "string")]) nodoc;
      MProp "templatesandboxtitle" true (TKw "string") nodoc;
      MProp "templatesandboxtext" true (TKw "string") nodoc;
      MProp "templatesandboxcontentmodel" true (TUnion [TLit "GadgetDefinition"; TLit "JsonSchema"; TLit "MassMessageListContent"; TLit "Scribunto"; TLit "SecurePoll"; TLit "css"; TLit "flow-board"; TLit "javascript"; TLit "json"; TLit "sanitized-css"; TLit "text"; TLit "unknown"; TLit "wikitext"]) nodoc;
      MProp "templatesandboxcontentformat" true (TUnion [TLit "application/json"; TLit "application/octet-stream"; TLit "application/unknown"; TLit "application/x-binary"; TLit "text/css"; TLit "text/javascript"; TLit "text/plain"; TLit "text/unknown"; TLit "text/x-wiki"; TLit "unknown/unknown"]) nodoc]
      nodoc;
    IInterface "FancyCaptchaReloadParams" [] [TRef ["Params"] []] []
      nodoc;
    IInterface "FeaturedFeedsParams" [] [TRef ["Params"] []] [
      MProp "feedformat" true (TUnion [TLit "atom"; TLit "rss"]) nodoc;
      MProp "feed" true (TUnion [TLit "featured"; TLit "potd"; TLit "raw"; TLit "wikimag"]) nodoc;
      MProp "language" true (TKw "string") nodoc]
      nodoc;
    IInterface "FeedContributionsParams" [] [TRef ["Params"] []] [
      MProp "feedformat" true (TUnion [TLit "atom"; TLit "rss"]) nodoc;
      MProp "user" true (TKw "string") nodoc;
      MProp "namespace" true (TRef ["namespace"] []) nodoc;
      MProp "year" true (TKw "number") nodoc;
      MProp "month" true (TKw "number") nodoc;
      MProp "tagfilter" true (TUnion [TKw "string"; TArray (TKw "string")]) nodoc;
      MProp "deletedonly" true (TKw "boolean") nodoc;
      MProp "toponly" true (TKw "boolean") nodoc;
      MProp "newonly" true (TKw "boolean") nodoc;
      MProp "hideminor" true (TKw "boolean") nodoc;
      MProp "showsizediff" true (TKw "boolean") nodoc]
      nodoc;
    IInterface "FeedRecentChangesParams" [] [TRef ["Params"] []] [
      MProp "feedformat" true (TUnion [TLit "atom"; TLit "rss"]) nodoc;
      MProp "namespace" true (TRef ["namespace"] []) nodoc;
      MProp "invert" true (TKw "boolean") nodoc;
      MProp "associated" true (TKw "boolean") nodoc;
      MProp "days" true (TKw "number") nodoc;
      MProp "limit" true (TKw "number") nodoc;
      MProp "from" true (TRef ["timestamp"] []) nodoc;
      MProp "hideminor" true (TKw "boolean") nodoc;
      MProp "hidebots" true (TKw "boolean") nodoc;
      MProp "hideanons" true (TKw "boolean") nodoc;
      MProp "hideliu" true (TKw "boolean") nodoc;
      MProp "hidepatrolled" true (TKw "boolean") nodoc;
      MProp "hidemyself" true (TKw "boolean") nodoc;
      MProp "hidecategorization" true (TKw "boolean") nodoc;
      MProp "tagfilter" true (TUnion [TKw "string"; TArray (TKw "string")]) nodoc;
      MProp "inverttags" true (TKw "boolean") nodoc;
      MProp "target" true (TKw "string") nodoc;
      MProp "showlinkedto" true (TKw "boolean") nodoc]
      nodoc;
    IInterface "FeedWatchlistParams" [] [TRef ["Params"] []] [
      MProp "feedformat" true (TUnion [TLit "atom"; TLit "rss"]) nodoc;
      MProp "hours" true (TKw "number") nodoc;
      MProp "linktosections" true (TKw "boolean") nodoc;
      MProp "allrev" true (TKw "boolean") nodoc;
      MProp "wlowner" true (TKw "string") nodoc;
      MProp "wltoken" true (TKw "string") nodoc;
      MProp "wlshow" true (TRef ["OneOrMore"] [TUnion [TLit "!anon"; TLit "!autopatrolled"; TLit "!bot"; TLit "!minor"; TLit "!patrolled"; TLit "!unread"; TLit "anon"; TLit "autopatrolled"; TLit "bot"; TLit "minor"; TLit "patrolled"; TLit "unread"]]) nodoc;
      MProp "wltype" true (TRef ["OneOrMore"] [TUnion [TLit "categorize"; TLit "edit"; TLit "external"; TLit "log"; TLit "new"]]) nodoc;
      MProp "wlexcludeuser" true (TKw "string") nodoc]
      nodoc;
    IInterface "FileRevertParams" [] [TRef ["Params"] []] [
      MProp "filename" true (TKw "string") nodoc;
      MProp "comment" true (TKw "string") nodoc;
      MProp "archivename" true (TKw "string") nodoc;
      MProp "token" true (TKw "string") nodoc]
      nodoc;
    IInterface "FlowParams" [] [TRef ["Params"] []] [
      MProp "submodule" true (TUnion [TLit "edit-header"; TLit "edit-post"; TLit "edit-title"; TLit "edit-topic-summary"; TLit "lock-topic"; TLit "moderate-post"; TLit "moderate-topic"; TLit "new-topic"; TLit "reply"; TLit "undo-edit-header"; TLit "undo-edit-post"; TLit "undo-edit-topic-summary"; TLit "view-header"; TLit "view-post"; TLit "view-post-history"; TLit "view-topic"; TLit "view-topic-history"; TLit "view-topic-summary"; TLit "view-topiclist"; TLit "close-open-topic"]) nodoc;
      MProp "page" true (TKw "string") nodoc;
      MProp "token" true (TKw "string") nodoc]
      nodoc;
    IInterface "ParsoidUtilsFlowParams" [] [TRef ["Params"] []] [
      MProp "from" true (TUnion [TLit "html"; TLit "wikitext"]) nodoc;
      MProp "to" true (TUnion [TLit "html"; TLit "wikitext"]) nodoc;
      MProp "content" true (TKw "string") nodoc;
      MProp "title" true (TKw "string") nodoc;
      MProp "pageid" true (TKw "number") nodoc]
      nodoc;
    IInterface "FlowThankParams" [] [TRef ["Params"] []] [
      MProp "postid" true (TKw "string") nodoc;
      MProp "token" true (TKw "string") nodoc]
      nodoc;
    IInterface "GlobalBlockParams" [] [TRef ["Params"] []] [
      MProp "target" true (TKw "string") nodoc;
      MProp "expiry" true (TRef ["expiry"] []) nodoc;
      MProp "unblock" true (TKw "boolean") nodoc;
      MProp "reason" true (TKw "string") nodoc;
      MProp "anononly" true (TKw "boolean") nodoc;
      MProp "modify" true (TKw "boolean") nodoc;
      MProp "alsolocal" true (TKw "boolean") nodoc;
      MProp "localblockstalk" true (TKw "boolean") nodoc;
      MProp "localblocksemail" true (TKw "boolean") nodoc;
      MProp "localanononly" true (TKw "boolean") nodoc;
      MProp "token" true (TKw "string") nodoc]
      nodoc;
    IInterface "GlobalPreferenceOverridesParams" [] [TRef ["Params"] []] [
      MProp "reset" true (TKw "boolean") nodoc;
      MProp "resetkinds" true (TRef ["OneOrMore"] [TUnion [TLit "all"; TLit "registered"; TLit "registered-checkmatrix"; TLit "registered-multiselect"; TLit "special"; TLit "unused"; TLit "userjs"]]) nodoc;
      MProp "change" true (TUnion [TKw "string"; TArray (TKw "string")]) nodoc;
      MProp "optionname" true (TKw "string") nodoc;
      MProp "optionvalue" true (TKw "string") nodoc;
      MProp "token" true (TKw "string") nodoc]
      nodoc;
    IInterface "GlobalPreferencesParams" [] [TRef ["Params"] []] [
      MProp "reset" true (TKw "boolean") nodoc;
      MProp "resetkinds" true (TRef ["OneOrMore"] [TUnion [TLit "all"; TLit "registered"; TLit "registered-checkmatrix"; TLit "registered-multiselect"; TLit "special"; TLit "unused"; TLit "userjs"]]) nodoc;
      MProp "change" true (TUnion [TKw "string"; TArray (TKw "string")]) nodoc;
      MProp "optionname" true (TKw "string") nodoc;
      MProp "optionvalue" true (TKw "string") nodoc;
      MProp "token" true (TKw "string") nodoc]
      nodoc;
    IInterface "GlobalUserRightsParams" [] [TRef ["Params"] []] [
      MProp "user" true (TKw "string") nodoc;
      MProp "userid" true (TKw "number") nodoc;
      MProp "add" true (TRef ["OneOrMore"] [TUnion [TLit "abusefilter-helper"; TLit "abusefilter-maintainer"; TLit "apihighlimits-requestor"; TLit "captcha-exempt"; TLit "founder"; TLit "global-bot"; TLit "global-deleter"; TLit "global-flow-create"; TLit "global-interface-editor"; TLit "global-ipblock-exempt"; TLit "global-rollbacker"; TLit "global-sysop"; TLit "new-wikis-importer"; TLit "oathauth-tester"; TLit "ombuds"; TLit "recursive-export"; TLit "staff"; TLit "steward"; TLit "sysadmin"; TLit "vrt-permissions"; TLit "wmf-email-block-override"; TLit "wmf-researcher"]]) nodoc;
      MProp "expiry" true (TUnion [TKw "string"; TArray (TKw "string")]) nodoc;
      MProp "remove" true (TRef ["OneOrMore"] [TUnion [TLit "abusefilter-helper"; TLit "abusefilter-maintainer"; TLit "apihighlimits-requestor"; TLit "captcha-exempt"; TLit "founder"; TLit "global-bot"; TLit "global-deleter"; TLit "global-flow-create"; TLit "global-interface-editor"; TLit "global-ipblock-exempt"; TLit "global-rollbacker"; TLit "global-sysop"; TLit "new-wikis-importer"; TLit "oathauth-tester"; TLit "ombuds"; TLit "recursive-export"; TLit "staff"; TLit "steward"; TLit "sysadmin"; TLit "vrt-permissions"; TLit "wmf-email-block-override"; TLit "wmf-researcher"]]) nodoc;
      MProp "reason" true (TKw "string") nodoc;
      MProp "token" true (TKw "string") nodoc;
      MProp "tags" true (TUnion [TKw "string"; TArray (TKw "string")]) nodoc]
      nodoc;
    IInterface "InvalidateImageRecommendationParams" [] [TRef ["Params"] []] [
      MProp "tasktype" true (TUnion [TLit "image-recommendation"; TLit "section-image-recommendation"]) nodoc;
      MProp "title" true (TKw "string") nodoc;
      MProp "filename" true (TKw "string") nodoc;
      MProp "sectiontitle" true (TKw "string") nodoc;
      MProp "sectionnumber" true (TKw "number") nodoc;
      MProp "token" true (TKw "string") nodoc]
      nodoc;
    IInterface "InvalidatePersonalizedPraiseSuggestionParams" [] [TRef ["Params"] []] [
      MProp "mentee" true (TKw "string") nodoc;
      MProp "reason" true (TUnion [TLit "praised"; TLit "skipped"]) nodoc;
      MProp "skipreason" true (TUnion [TLit "already-praised"; TLit "not-now"; TLit "not-praiseworthy"; TLit "other"]) nodoc;
      MProp "token" true (TKw "string") nodoc]
      nodoc;
    IInterface "ManageMentorListParams" [] [TRef ["Params"] []] [
      MProp "geaction" true (TUnion [TLit "add"; TLit "change"; TLit "remove"]) nodoc;
      MProp "message" true (TKw "string") nodoc;
      MProp "weight" true (TUnion [TLit "0"; TLit "1"; TLit "2"; TLit "4"]) nodoc;
      MProp "isaway" true (TKw "boolean") nodoc;
      MProp "awaytimestamp" true (TRef ["timestamp"] []) nodoc;
      MProp "summary" true (TKw "string") nodoc;
      MProp "username" true (TKw "string") nodoc;
      MProp "token" true (TKw "string") nodoc]
      nodoc;
    IInterface "MentorDashboardUpdateDataParams" [] [TRef ["Params"] []] [
      MProp "token" true (TKw "string") nodoc]
      nodoc;
    IInterface "SetMenteeStatusParams" [] [TRef ["Params"] []] [
      MProp "state" true (TUnion [TLit "disabled"; TLit "enabled"; TLit "optout"]) nodoc;
      MProp "token" true (TKw "string") nodoc]
      nodoc;
    IInterface "SetMentorParams" [] [TRef ["Params"] []] [
      MProp "mentee" true (TKw "string") nodoc;
      MProp "mentor" true (TKw "string") nodoc;
      MProp "reason" true (TKw "string") nodoc;
      MProp "token" true (TKw "string") nodoc]
      nodoc;
    IInterface "StarMenteeParams" [] [TRef ["Params"] []] [
      MProp "gesaction" true (TUnion [TLit "star"; TLit "unstar"]) nodoc;
      MProp "gesmentee" true (TKw "string") nodoc;
      MProp "token" true (TKw "string") nodoc]
      nodoc;
    IInterface "HelpParams" [] [TRef ["Params"] []] [
      MProp "modules" true (TUnion [TKw "string"; TArray (TKw "string")]) nodoc;
      MProp "submodules" true (TKw "boolean") nodoc;
      MProp "recursivesubmodules" true (TKw "boolean") nodoc;
      MProp "wrap" true (TKw "boolean") nodoc;
      MProp "toc" true (TKw "boolean") nodoc]
      nodoc;
    IInterface "HelpPanelPostQuestionParams" [] [TRef ["Params"] []] [
      MProp "body" true (TKw "string") nodoc;
      MProp "source" true (TUnion [TLit "helpdesk"; TLit "helppanel"; TLit "homepage-mentorship"; TLit "mentor-helppanel"; TLit "mentor-homepage"]) nodoc;
      MProp "relevanttitle" true (TKw "string") nodoc;
      MProp "token" true (TKw "string") nodoc]
      nodoc;
    IInterface "QuestionStoreParams" [] [TRef ["Params"] []] [
      MProp "storage" true (TUnion [TLit "growthexperiments-helppanel-questions"; TLit "growthexperiments-mentor-questions"]) nodoc]
      nodoc;
    IInterface "DisabledParams" [] [TRef ["Params"] []] []
      nodoc;
    IInterface "ImportParams" [] [TRef ["Params"] []] [
      MProp "summary" true (TKw "string") nodoc;
      MProp "xml" true (TRef ["upload"] []) nodoc;
      MProp "interwikiprefix" true (TKw "string") nodoc;
      MProp "interwikisource" true (TUnion [TLit "af"; TLit "ang"; TLit "ar"; TLit "ast"; TLit "bg"; TLit "br"; TLit "ca"; TLit "co"; TLit "commons"; TLit "cs"; TLit "csb"; TLit "da"; TLit "de"; TLit "el"; TLit "en"; TLit "eo"; TLit "es"; TLit "et"; TLit "fa"; TLit "fi"; TLit "fy"; TLit "ga"; TLit "gl"; TLit "gn"; TLit "gu"; TLit "he"; TLit "hi"; TLit "hr"; TLit "hsb"; TLit "hu"; TLit "hy"; TLit "ia"; TLit "id"; TLit "ie"; TLit "io"; TLit "is"; TLit "it"; TLit "ja"; TLit "kk"; TLit "ko"; TLit "ku"; TLit "la"; TLit "li"; TLit "lo"; TLit "lt"; TLit "meta"; TLit "ml"; TLit "n"; TLit "nds"; TLit "nl"; TLit "no"; TLit "oc"; TLit "pl"; TLit "pt"; TLit "q"; TLit "ro"; TLit "ru"; TLit "s"; TLit "scn"; TLit "simple"; TLit "sk"; TLit "sl"; TLit "species"; TLit "sq"; TLit "sr"; TLit "st"; TLit "sv"; TLit "sw"; TLit "ta"; TLit "te"; TLit "th"; TLit "tr"; TLit "tt"; TLit "uk"; TLit "ur"; TLit "v"; TLit "vi"; TLit "vo"; TLit "w"; TLit "wikt"; TLit "zh"; TLit "zhminnan"]) nodoc;
      MProp "interwikipage" true (TKw "string") nodoc;
      MProp "fullhistory" true (TKw "boolean") nodoc;
      MProp "templates" true (TKw "boolean") nodoc;
      MProp "namespace" true (TRef ["namespace"] []) nodoc;
      MProp "assignknownusers" true (TKw "boolean") nodoc;
      MProp "rootpage" true (TKw "string") nodoc;
      MProp "tags" true (TUnion [TKw "string"; TArray (TKw "string")]) nodoc;
      MProp "token" true (TKw "string") nodoc]
      nodoc;
    IInterface "FormatJsonParams" [] [TRef ["Params"] []] [
      MProp "callback" true (TKw "string") nodoc;
      MProp "utf8" true (TKw "boolean") nodoc;
      MProp "ascii" true (TKw "boolean") nodoc;
      MProp "formatversion" true (TUnion [TLit "1"; TLit "2"; TLit "latest"]) nodoc]
      nodoc;
    IInterface "JCParams" [] [TRef ["Params"] []] [
      MProp "command" true (TUnion [TLit "reload"; TLit "reset"; TLit "status"]) nodoc;
      MProp "namespace" true (TKw "number") nodoc;
      MProp "title" true (TKw "string") nodoc;
      MProp "content" true (TKw "string") nodoc]
      nodoc;
    IInterface "JCDataParams" [] [TRef ["Params"] []] [
      MProp "title" true (TKw "string") nodoc]
      nodoc;
    IInterface "FormatJsonParams" [] [TRef ["Params"] []] [
      MProp "wrappedhtml" true (TKw "boolean") nodoc;
      MProp "callback" true (TKw "string") nodoc;
      MProp "utf8" true (TKw "boolean") nodoc;
      MProp "ascii" true (TKw "boolean") nodoc;
      MProp "formatversion" true (TUnion [TLit "1"; TLit "2"; TLit "latest"]) nodoc]
      nodoc;
    IInterface "LanguageSearchParams" [] [TRef ["Params"] []] [
      MProp "search" true (TKw "string") nodoc;
      MProp "typos" true (TKw "number") nodoc]
      nodoc;
    IInterface "LinkAccountParams" [] [TRef ["Params"] []] [
      MProp "linkrequests" true (TUnion [TKw "string"; TArray (TKw "string")]) nodoc;
      MProp "linkmessageformat" true (TUnion [TLit "html"; TLit "none"; TLit "raw"; TLit "wikitext"]) nodoc;
      MProp "linkmergerequestfields" true (TKw "boolean") nodoc;
      MProp "linkreturnurl" true (TKw "string") nodoc;
      MProp "linkcontinue" true (TKw "boolean") nodoc;
      MProp "linktoken" true (TKw "string") nodoc]
      nodoc;
    IInterface "LoginParams" [] [TRef ["Params"] []] [
      MProp "lgname" true (TKw "string") nodoc;
      MProp "lgpassword" true (TRef ["password"] []) nodoc;
      MProp "lgdomain" true (TKw "string") nodoc;
      MProp "lgtoken" true (TKw "string") nodoc]
      nodoc;
    IInterface "LogoutParams" [] [TRef ["Params"] []] [
      MProp "token" true (TKw "string") nodoc]
      nodoc;
    IInterface "ManageTagsParams" [] [TRef ["Params"] []] [
      MProp "operation" true (TUnion [TLit "activate"; TLit "create"; TLit "deactivate"; TLit "delete"]) nodoc;
      MProp "tag" true (TKw "string") nodoc;
      MProp "reason" true (TKw "string") nodoc;
      MProp "ignorewarnings" true (TKw "boolean") nodoc;
      MProp "tags" true (TUnion [TKw "string"; TArray (TKw "string")]) nodoc;
      MProp "token" true (TKw "string") nodoc]
      nodoc;
    IInterface "MassMessageParams" [] [TRef ["Params"] []] [
      MProp "spamlist" true (TKw "string") nodoc;
      MProp "subject" true (TKw "string") nodoc;
      MProp "message" true (TKw "string") nodoc;
      MProp "page-message" true (TKw "string") nodoc;
      MProp "token" true (TKw "string") nodoc]
      nodoc;
    IInterface "MergeHistoryParams" [] [TRef ["Params"] []] [
      MProp "from" true (TKw "string") nodoc;
      MProp "fromid" true (TKw "number") nodoc;
      MProp "to" true (TKw "string") nodoc;
      MProp "toid" true (TKw "number") nodoc;
      MProp "timestamp" true (TRef ["timestamp"] []) nodoc;
      MProp "reason" true (TKw "string") nodoc;
      MProp "token" true (TKw "string") nodoc]
      nodoc;
    IInterface "MoveParams" [] [TRef ["Params"] []] [
      MProp "from" true (TKw "string") nodoc;
      MProp "fromid" true (TKw "number") nodoc;
      MProp "to" true (TKw "string") nodoc;
      MProp "reason" true (TKw "string") nodoc;
      MProp "movetalk" true (TKw "boolean") nodoc;
      MProp "movesubpages" true (TKw "boolean") nodoc;
      MProp "noredirect" true (TKw "boolean") nodoc;
      MProp "watchlist" true (TUnion [TLit "nochange"; TLit "preferences"; TLit "unwatch"; TLit "watch"]) nodoc;
      MProp "watchlistexpiry" true (TRef ["expiry"] []) nodoc;
      MProp "ignorewarnings" true (TKw "boolean") nodoc;
      MProp "tags" true (TUnion [TKw "string"; TArray (TKw "string")]) nodoc;
      MProp "token" true (TKw "string") nodoc]
      nodoc;
    IInterface "FormatNoneParams" [] [TRef ["Params"] []] []
      nodoc;
    IInterface "OATHValidateParams" [] [TRef ["Params"] []] [
      MProp "user" true (TKw "string") nodoc;
      MProp "data" true (TKw "string") nodoc;
      MProp "token" true (TKw "string") nodoc]
      nodoc;
    IInterface "OpenSearchParams" [] [TRef ["Params"] []] [
      MProp "search" true (TKw "string") nodoc;
      MProp "namespace" true (TUnion [TRef ["namespace"] []; TArray (TRef ["namespace"] [])]) nodoc;
      MProp "limit" true (TRef ["limit"] []) nodoc;
      MProp "profile" true (TUnion [TLit "classic"; TLit "engine_autoselect"; TLit "fast-fuzzy"; TLit "fuzzy"; TLit "normal"; TLit "strict"]) nodoc;
      MProp "suggest" true (TKw "boolean") nodoc;
      MProp "redirects" true (TUnion [TLit "resolve"; TLit "return"]) nodoc;
      MProp "format" true (TUnion [TLit "json"; TLit "jsonfm"; TLit "xml"; TLit "xmlfm"]) nodoc;
      MProp "warningsaserror" true (TKw "boolean") nodoc]
      nodoc;
    IInterface "OptionsParams" [] [TRef ["Params"] []] [
      MProp "reset" true (TKw "boolean") nodoc;
      MProp "resetkinds" true (TRef ["OneOrMore"] [TUnion [TLit "all"; TLit "registered"; TLit "registered-checkmatrix"; TLit "registered-multiselect"; TLit "special"; TLit "unused"; TLit "userjs"]]) nodoc;
      MProp "change" true (TUnion [TKw "string"; TArray (TKw "string")]) nodoc;
      MProp "optionname" true (TKw "string") nodoc;
      MProp "optionvalue" true (TKw "string") nodoc;
      MProp "token" true (TKw "string") nodoc]
      nodoc;
    IInterface "ParamInfoParams" [] [TRef ["Params"] []] [
      MProp "modules" true (TUnion [TKw "string"; TArray (TKw "string")]) nodoc;
      MProp "helpformat" true (TUnion [TLit "html"; TLit "none"; TLit "raw"; TLit "wikitext"]) nodoc;
      MProp "querymodules" true (TRef ["OneOrMore"] [TUnion [TLit "abusefilters"; TLit "abuselog"; TLit "allcategories"; TLit "alldeletedrevisions"; TLit "allfileusages"; TLit "allimages"; TLit "alllinks"; TLit "allmessages"; TLit "allpages"; TLit "allredirects"; TLit "allrevisions"; TLit "alltransclusions"; TLit "allusers"; TLit "authmanagerinfo"; TLit "babel"; TLit "backlinks"; TLit "betafeatures"; TLit "blocks"; TLit "categories"; TLit "categoryinfo"; TLit "categorymembers"; TLit "centralnoticeactivecampaigns"; TLit "centralnoticelogs"; TLit "checkuser"; TLit "checkuserlog"; TLit "cirrusbuilddoc"; TLit "cirruscompsuggestbuilddoc"; TLit "cirrusdoc"; TLit "contenttranslation"; TLit "contenttranslationcorpora"; TLit "contenttranslationlangtrend"; TLit "contenttranslationstats"; TLit "contenttranslationsuggestions"; TLit "contributors"; TLit "coordinates"; TLit "cxdeletedtranslations"; TLit "cxpublishedtranslations"; TLit "cxtranslatorstats"; TLit "deletedrevisions"; TLit "deletedrevs"; TLit "description"; TLit "duplicatefiles"; TLit "embeddedin"; TLit "extlinks"; TLit "extracts"; TLit "exturlusage"; TLit "featureusage"; TLit "filearchive"; TLit "filerepoinfo"; TLit "fileusage"; TLit "flowinfo"; TLit "gadgetcategories"; TLit "gadgets"; TLit "geosearch"; TLit "globalallusers"; TLit "globalblocks"; TLit "globalgroups"; TLit "globalpreferences"; TLit "globalrenamestatus"; TLit "globalusage"; TLit "globaluserinfo"; TLit "growthimagesuggestiondata"; TLit "growthmenteestatus"; TLit "growthmentorlist"; TLit "growthmentormentee"; TLit "growthmentorstatus"; TLit "growthnextsuggestedtasktype"; TLit "growthstarredmentees"; TLit "growthtasks"; TLit "imageinfo"; TLit "images"; TLit "imageusage"; TLit "info"; TLit "iwbacklinks"; TLit "iwlinks"; TLit "langbacklinks"; TLit "langlinks"; TLit "langlinkscount"; TLit "languageinfo"; TLit "links"; TLit "linkshere"; TLit "linterrors"; TLit "linterstats"; TLit "logevents"; TLit "mapdata"; TLit "mmcontent"; TLit "mostviewed"; TLit "mystashedfiles"; TLit "notifications"; TLit "oath"; TLit "ores"; TLit "pageassessments"; TLit "pageimages"; TLit "pagepropnames"; TLit "pageprops"; TLit "pageswithprop"; TLit "pageterms"; TLit "pageviews"; TLit "prefixsearch"; TLit "projectpages"; TLit "projects"; TLit "protectedtitles"; TLit "querypage"; TLit "random"; TLit "readinglistentries"; TLit "readinglists"; TLit "recentchanges"; TLit "redirects"; TLit "revisions"; TLit "search"; TLit "siteinfo"; TLit "siteviews"; TLit "stashimageinfo"; TLit "tags"; TLit "templates"; TLit "tokens"; TLit "transcludedin"; TLit "transcodestatus"; TLit "unreadnotificationpages"; TLit "usercontribs"; TLit "userinfo"; TLit "users"; TLit "videoinfo"; TLit "watchlist"; TLit "watchlistraw"; TLit "wbentityusage"; TLit "wblistentityusage"; TLit "wikibase"; TLit "wikisets"]]) nodoc;
      MProp "mainmodule" true (TKw "string") nodoc;
      MProp "pagesetmodule" true (TKw "string") nodoc;
      MProp "formatmodules" true (TRef ["OneOrMore"] [TUnion [TLit "json"; TLit "jsonfm"; TLit "none"; TLit "php"; TLit "phpfm"; TLit "rawfm"; TLit "xml"; TLit "xmlfm"]]) nodoc]
      nodoc;
    IInterface "ParseParams" [] [TRef ["Params"] []] [
      MProp "title" true (TKw "string") nodoc;
      MProp "text" true (TKw "string") nodoc;
      MProp "revid" true (TKw "number") nodoc;
      MProp "summary" true (TKw "string") nodoc;
      MProp "page" true (TKw "string") nodoc;
      MProp "pageid" true (TKw "number") nodoc;
      MProp "redirects" true (TKw "boolean") nodoc;
      MProp "oldid" true (TKw "number") nodoc;
      MProp "prop" true (TRef ["OneOrMore"] [TUnion [TLit "categories"; TLit "categorieshtml"; TLit "displaytitle"; TLit "encodedjsconfigvars"; TLit "externallinks"; TLit "headhtml"; TLit "images"; TLit "indicators"; TLit "iwlinks"; TLit "jsconfigvars"; TLit "langlinks"; TLit "limitreportdata"; TLit "limitreporthtml"; TLit "links"; TLit "modules"; TLit "parsetree"; TLit "parsewarnings"; TLit "parsewarningshtml"; TLit "properties"; TLit "revid"; TLit "sections"; TLit "subtitle"; TLit "templates"; TLit "text"; TLit "wikitext"; TLit "headitems"]]) nodoc;
      MProp "wrapoutputclass" true (TKw "string") nodoc;
      MProp "parsoid" true (TKw "boolean") nodoc;
      MProp "pst" true (TKw "boolean") nodoc;
      MProp "onlypst" true (TKw "boolean") nodoc;
      MProp "effectivelanglinks" true (TKw "boolean") nodoc;
      MProp "section" true (TKw "string") nodoc;
      MProp "sectiontitle" true (TKw "string") nodoc;
      MProp "disablepp" true (TKw "boolean") nodoc;
      MProp "disablelimitreport" true (TKw "boolean") nodoc;
      MProp "disableeditsection" true (TKw "boolean") nodoc;
      MProp "disablestylededuplication" true (TKw "boolean") nodoc;
      MProp "showstrategykeys" true (TKw "boolean") nodoc;
      MProp "generatexml" true (TKw "boolean") nodoc;
      MProp "preview" true (TKw "boolean") nodoc;
      MProp "sectionpreview" true (TKw "boolean") nodoc;
      MProp "disabletoc" true (TKw "boolean") nodoc;
      MProp "useskin" true (TUnion [TLit "apioutput"; TLit "cologneblue"; TLit "contenttranslation"; TLit "fallback"; TLit "minerva"; TLit "modern"; TLit "monobook"; TLit "timeless"; TLit "vector"; TLit "vector-2022"]) nodoc;
      MProp "contentformat" true (TUnion [TLit "application/json"; TLit "application/octet-stream"; TLit "application/unknown"; TLit "application/x-binary"; TLit "text/css"; TLit "text/javascript"; TLit "text/plain"; TLit "text/unknown"; TLit "text/x-wiki"; TLit "unknown/unknown"]) nodoc;
      MProp "contentmodel" true (TUnion [TLit "GadgetDefinition"; TLit "JsonSchema"; TLit "MassMessageListContent"; TLit "Scribunto"; TLit "SecurePoll"; TLit "css"; TLit "flow-board"; TLit "javascript"; TLit "json"; TLit "sanitized-css"; TLit "text"; TLit "unknown"; TLit "wikitext"]) nodoc;
      MProp "mobileformat" true (TKw "boolean") nodoc;
      MProp "templatesandboxprefix" true (TUnion [TKw "string"; TArray (TKw "string")]) nodoc;
      MProp "templatesandboxtitle" true (TKw "string") nodoc;
      MProp "templatesandboxtext" true (TKw "string") nodoc;
      MProp "templatesandboxcontentmodel" true (TUnion [TLit "GadgetDefinition"; TLit "JsonSchema"; TLit "MassMessageListContent"; TLit "Scribunto"; TLit "SecurePoll"; TLit "css"; TLit "flow-board"; TLit "javascript"; TLit "json"; TLit "sanitized-css"; TLit "text"; TLit "unknown"; TLit "wikitext"]) nodoc;
      MProp "templatesandboxcontentformat" true (TUnion [TLit "application/json"; TLit "application/octet-stream"; TLit "application/unknown"; TLit "application/x-binary"; TLit "text/css"; TLit "text/javascript"; TLit "text/plain"; TLit "text/unknown"; TLit "text/x-wiki"; TLit "unknown/unknown"]) nodoc]
      nodoc;
    IInterface "ParserMigrationParams" [] [TRef ["Params"] []] [
      MProp "title" true (TKw "string") nodoc;
      MProp "config" true (TRef ["OneOrMore"] [TUnion [TLit "new"; TLit "old"]]) nodoc;
      MProp "redirect" true (TKw "string") nodoc]
      nodoc;
    IInterface "PatrolParams" [] [TRef ["Params"] []] [
      MProp "rcid" true (TKw "number") nodoc;
      MProp "revid" true (TKw "number") nodoc;
      MProp "tags" true (TUnion [TKw "string"; TArray (TKw "string")]) nodoc;
      MProp "token" true (TKw "string") nodoc]
      nodoc;
    IInterface "FormatPhpParams" [] [TRef ["Params"] []] [
      MProp "formatversion" true (TUnion [TLit "1"; TLit "2"; TLit "latest"]) nodoc]
      nodoc;
    IInterface "FormatPhpParams" [] [TRef ["Params"] []] [
      MProp "wrappedhtml" true (TKw "boolean") nodoc;
      MProp "formatversion" true (TUnion [TLit "1"; TLit "2"; TLit "latest"]) nodoc]
      nodoc;
    IInterface "ProtectParams" [] [TRef ["Params"] []] [
      MProp "title" true (TKw "string") nodoc;
      MProp "pageid" true (TKw "number") nodoc;
      MProp "protections" true (TUnion [TKw "string"; TArray (TKw "string")]) nodoc;
      MProp "expiry" true (TUnion [TKw "string"; TArray (TKw "string")]) nodoc;
      MProp "reason" true (TKw "string") nodoc;
      MProp "tags" true (TUnion [TKw "string"; TArray (TKw "string")]) nodoc;
      MProp "cascade" true (TKw "boolean") nodoc;
      MProp "watch" true (TKw "boolean") nodoc;
      MProp "watchlist" true (TUnion [TLit "nochange"; TLit "preferences"; TLit "unwatch"; TLit "watch"]) nodoc;
      MProp "watchlistexpiry" true (TRef ["expiry"] []) nodoc;
      MProp "token" true (TKw "string") nodoc]
      nodoc;
    IInterface "PurgeParams" [] [TRef ["Params"] []] [
      MProp "forcelinkupdate" true (TKw "boolean") nodoc;
      MProp "forcerecursivelinkupdate" true (TKw "boolean") nodoc;
      MProp "continue" true (TKw "string") nodoc;
      MProp "titles" true (TUnion [TKw "string"; TArray (TKw "string")]) nodoc;
      MProp "pageids" true (TUnion [TKw "number"; TArray (TKw "number")]) nodoc;
      MProp "revids" true (TUnion [TKw "number"; TArray (TKw "number")]) nodoc;
      MProp "generator" true (TUnion [TLit "allcategories"; TLit "alldeletedrevisions"; TLit "allfileusages"; TLit "allimages"; TLit "alllinks"; TLit "allpages"; TLit "allredirects"; TLit "allrevisions"; TLit "alltransclusions"; TLit "backlinks"; TLit "categories"; TLit "categorymembers"; TLit "contenttranslation"; TLit "contenttranslationsuggestions"; TLit "deletedrevisions"; TLit "duplicatefiles"; TLit "embeddedin"; TLit "exturlusage"; TLit "fileusage"; TLit "geosearch"; TLit "images"; TLit "imageusage"; TLit "iwbacklinks"; TLit "langbacklinks"; TLit "links"; TLit "linkshere"; TLit "mostviewed"; TLit "pageswithprop"; TLit "prefixsearch"; TLit "projectpages"; TLit "protectedtitles"; TLit "querypage"; TLit "random"; TLit "recentchanges"; TLit "redirects"; TLit "revisions"; TLit "search"; TLit "templates"; TLit "transcludedin"; TLit "watchlist"; TLit "watchlistraw"; TLit "wblistentityusage"; TLit "growthtasks"; TLit "readinglistentries"]) nodoc;
      MProp "redirects" true (TKw "boolean") nodoc;
      MProp "converttitles" true (TKw "boolean") nodoc]
      nodoc;
    IInterface "QueryParams" [] [TRef ["Params"] []] [
      MProp "prop" true (TRef ["OneOrMore"] [TUnion [TLit "categories"; TLit "categoryinfo"; TLit "cirrusbuilddoc"; TLit "cirruscompsuggestbuilddoc"; TLit "cirrusdoc"; TLit "contributors"; TLit "coordinates"; TLit "deletedrevisions"; TLit "duplicatefiles"; TLit "extlinks"; TLit "extracts"; TLit "fileusage"; TLit "globalusage"; TLit "growthimagesuggestiondata"; TLit "imageinfo"; TLit "images"; TLit "info"; TLit "iwlinks"; TLit "langlinks"; TLit "langlinkscount"; TLit "links"; TLit "linkshere"; TLit "mmcontent"; TLit "pageassessments"; TLit "pageimages"; TLit "pageprops"; TLit "pageterms"; TLit "pageviews"; TLit "redirects"; TLit "revisions"; TLit "stashimageinfo"; TLit "templates"; TLit "transcludedin"; TLit "transcodestatus"; TLit "videoinfo"; TLit "wbentityusage"; TLit "flowinfo"; TLit "description"; TLit "mapdata"]]) nodoc;
      MProp "list" true (TRef ["OneOrMore"] [TUnion [TLit "abusefilters"; TLit "abuselog"; TLit "allcategories"; TLit "alldeletedrevisions"; TLit "allfileusages"; TLit "allimages"; TLit "alllinks"; TLit "allpages"; TLit "allredirects"; TLit "allrevisions"; TLit "alltransclusions"; TLit "allusers"; TLit "backlinks"; TLit "betafeatures"; TLit "blocks"; TLit "categorymembers"; TLit "centralnoticeactivecampaigns"; TLit "centralnoticelogs"; TLit "checkuser"; TLit "checkuserlog"; TLit "contenttranslation"; TLit "contenttranslationcorpora"; TLit "contenttranslationlangtrend"; TLit "contenttranslationstats"; TLit "contenttranslationsuggestions"; TLit "cxpublishedtranslations"; TLit "cxtranslatorstats"; TLit "embeddedin"; TLit "exturlusage"; TLit "filearchive"; TLit "gadgetcategories"; TLit "gadgets"; TLit "geosearch"; TLit "globalallusers"; TLit "globalblocks"; TLit "globalgroups"; TLit "growthmentorlist"; TLit "growthmentormentee"; TLit "growthstarredmentees"; TLit "imageusage"; TLit "iwbacklinks"; TLit "langbacklinks"; TLit "linterrors"; TLit "logevents"; TLit "mostviewed"; TLit "mystashedfiles"; TLit "pagepropnames"; TLit "pageswithprop"; TLit "prefixsearch"; TLit "projectpages"; TLit "projects"; TLit "protectedtitles"; TLit "querypage"; TLit "random"; TLit "recentchanges"; TLit "search"; TLit "tags"; TLit "usercontribs"; TLit "users"; TLit "watchlist"; TLit "watchlistraw"; TLit "wblistentityusage"; TLit "wikisets"; TLit "deletedrevs"; TLit "growthtasks"; TLit "readinglistentries"]]) nodoc;
      MProp "meta" true (TRef ["OneOrMore"] [TUnion [TLit "allmessages"; TLit "authmanagerinfo"; TLit "babel"; TLit "featureusage"; TLit "filerepoinfo"; TLit "globalpreferences"; TLit "globalrenamestatus"; TLit "globaluserinfo"; TLit "growthmenteestatus"; TLit "growthmentorstatus"; TLit "languageinfo"; TLit "linterstats"; TLit "notifications"; TLit "ores"; TLit "siteinfo"; TLit "siteviews"; TLit "tokens"; TLit "unreadnotificationpages"; TLit "userinfo"; TLit "wikibase"; TLit "cxdeletedtranslations"; TLit "growthnextsuggestedtasktype"; TLit "oath"; TLit "readinglists"]]) nodoc;
      MProp "indexpageids" true (TKw "boolean") nodoc;
      MProp "export" true (TKw "boolean") nodoc;
      MProp "exportnowrap" true (TKw "boolean") nodoc;
      MProp "exportschema" true (TUnion [TLit "0.10"; TLit "0.11"]) nodoc;
      MProp "iwurl" true (TKw "boolean") nodoc;
      MProp "continue" true (TKw "string") nodoc;
      MProp "rawcontinue" true (TKw "boolean") nodoc;
      MProp "titles" true (TUnion [TKw "string"; TArray (TKw "string")]) nodoc;
      MProp "pageids" true (TUnion [TKw "number"; TArray (TKw "number")]) nodoc;
      MProp "revids" true (TUnion [TKw "number"; TArray (TKw "number")]) nodoc;
      MProp "generator" true (TUnion [TLit "allcategories"; TLit "alldeletedrevisions"; TLit "allfileusages"; TLit "allimages"; TLit "alllinks"; TLit "allpages"; TLit "allredirects"; TLit "allrevisions"; TLit "alltransclusions"; TLit "backlinks"; TLit "categories"; TLit "categorymembers"; TLit "contenttranslation"; TLit "contenttranslationsuggestions"; TLit "deletedrevisions"; TLit "duplicatefiles"; TLit "embeddedin"; TLit "exturlusage"; TLit "fileusage"; TLit "geosearch"; TLit "images"; TLit "imageusage"; TLit "iwbacklinks"; TLit "langbacklinks"; TLit "links"; TLit "linkshere"; TLit "mostviewed"; TLit "pageswithprop"; TLit "prefixsearch"; TLit "projectpages"; TLit "protectedtitles"; TLit "querypage"; TLit "random"; TLit "recentchanges"; TLit "redirects"; TLit "revisions"; TLit "search"; TLit "templates"; TLit "transcludedin"; TLit "watchlist"; TLit "watchlistraw"; TLit "wblistentityusage"; TLit "growthtasks"; TLit "readinglistentries"]) nodoc;
      MProp "redirects" true (TKw "boolean") nodoc;
      MProp "converttitles" true (TKw "boolean") nodoc]
      nodoc;
    IInterface "FormatJsonParams" [] [TRef ["Params"] []] [
      MProp "wrappedhtml" true (TKw "boolean") nodoc]
      nodoc;
    IInterface "ReadingListsParams" [] [TRef ["Params"] []] [
      MProp "command" true (TUnion [TLit "create"; TLit "createentry"; TLit "delete"; TLit "deleteentry"; TLit "setup"; TLit "teardown"; TLit "update"]) nodoc;
      MProp "token" true (TKw "string") nodoc]
      nodoc;
    IInterface "RemoveAuthenticationDataParams" [] [TRef ["Params"] []] [
      MProp "request" true (TKw "string") nodoc;
      MProp "token" true (TKw "string") nodoc]
      nodoc;
    IInterface "ResetPasswordParams" [] [TRef ["Params"] []] [
      MProp "user" true (TKw "string") nodoc;
      MProp "email" true (TKw "string") nodoc;
      MProp "token" true (TKw "string") nodoc]
      nodoc;
    IInterface "RevisionDeleteParams" [] [TRef ["Params"] []] [
      MProp "type" true (TUnion [TLit "archive"; TLit "filearchive"; TLit "logging"; TLit "oldimage"; TLit "revision"]) nodoc;
      MProp "target" true (TKw "string") nodoc;
      MProp "ids" true (TUnion [TKw "string"; TArray (TKw "string")]) nodoc;
      MProp "hide" true (TRef ["OneOrMore"] [TUnion [TLit "comment"; TLit "content"; TLit "user"]]) nodoc;
      MProp "show" true (TRef ["OneOrMore"] [TUnion [TLit "comment"; TLit "content"; TLit "user"]]) nodoc;
      MProp "suppress" true (TUnion [TLit "no"; TLit "nochange"; TLit "yes"]) nodoc;
      MProp "reason" true (TKw "string") nodoc;
      MProp "tags" true (TUnion [TKw "string"; TArray (TKw "string")]) nodoc;
      MProp "token" true (TKw "string") nodoc]
      nodoc;
    IInterface "RollbackParams" [] [TRef ["Params"] []] [
      MProp "title" true (TKw "string") nodoc;
      MProp "pageid" true (TKw "number") nodoc;
      MProp "tags" true (TUnion [TKw "string"; TArray (TKw "string")]) nodoc;
      MProp "user" true (TKw "string") nodoc;
      MProp "summary" true (TKw "string") nodoc;
      MProp "markbot" true (TKw "boolean") nodoc;
      MProp "watchlist" true (TUnion [TLit "nochange"; TLit "preferences"; TLit "unwatch"; TLit "watch"]) nodoc;
      MProp "watchlistexpiry" true (TRef ["expiry"] []) nodoc;
      MProp "token" true (TKw "string") nodoc]
      nodoc;
    IInterface "RsdParams" [] [TRef ["Params"] []] []
      nodoc;
    IInterface "SanitizeMapDataParams" [] [TRef ["Params"] []] [
      MProp "title" true (TKw "string") nodoc;
      MProp "text" true (TKw "string") nodoc]
      nodoc;
    IInterface "ScribuntoConsoleParams" [] [TRef ["Params"] []] [
      MProp "title" true (TKw "string") nodoc;
      MProp "content" true (TKw "string") nodoc;
      MProp "session" true (TKw "number") nodoc;
      MProp "question" true (TKw "string") nodoc;
      MProp "clear" true (TKw "boolean") nodoc;
      MProp "token" true (TKw "string") nodoc]
      nodoc;
    IInterface "SecurePollAuthParams" [] [TRef ["Params"] []] [
      MProp "token" true (TKw "string") nodoc;
      MProp "id" true (TKw "number") nodoc]
      nodoc;
    IInterface "SetGlobalAccountStatusParams" [] [TRef ["Params"] []] [
      MProp "user" true (TKw "string") nodoc;
      MProp "locked" true (TUnion [TLit EmptyString; TLit "lock"; TLit "unlock"]) nodoc;
      MProp "hidden" true (TUnion [TLit EmptyString; TLit "lists"; TLit "suppressed"]) nodoc;
      MProp "reason" true (TKw "string") nodoc;
      MProp "statecheck" true (TKw "string") nodoc;
      MProp "token" true (TKw "string") nodoc]
      nodoc;
    IInterface "SetNotificationTimestampParams" [] [TRef ["Params"] []] [
      MProp "entirewatchlist" true (TKw "boolean") nodoc;
      MProp "timestamp" true (TRef ["timestamp"] []) nodoc;
      MProp "torevid" true (TKw "number") nodoc;
      MProp "newerthanrevid" true (TKw "number") nodoc;
      MProp "continue" true (TKw "string") nodoc;
      MProp "titles" true (TUnion [TKw "string"; TArray (TKw "string")]) nodoc;
      MProp "pageids" true (TUnion [TKw "number"; TArray (TKw "number")]) nodoc;
      MProp "revids" true (TUnion [TKw "number"; TArray (TKw "number")]) nodoc;
      MProp "generator" true (TUnion [TLit "allcategories"; TLit "alldeletedrevisions"; TLit "allfileusages"; TLit "allimages"; TLit "alllinks"; TLit "allpages"; TLit "allredirects"; TLit "allrevisions"; TLit "alltransclusions"; TLit "backlinks"; TLit "categories"; TLit "categorymembers"; TLit "contenttranslation"; TLit "contenttranslationsuggestions"; TLit "deletedrevisions"; TLit "duplicatefiles"; TLit "embeddedin"; TLit "exturlusage"; TLit "fileusage"; TLit "geosearch"; TLit "images"; TLit "imageusage"; TLit "iwbacklinks"; TLit "langbacklinks"; TLit "links"; TLit "linkshere"; TLit "mostviewed"; TLit "pageswithprop"; TLit "prefixsearch"; TLit "projectpages"; TLit "protectedtitles"; TLit "querypage"; TLit "random"; TLit "recentchanges"; TLit "redirects"; TLit "revisions"; TLit "search"; TLit "templates"; TLit "transcludedin"; TLit "watchlist"; TLit "watchlistraw"; TLit "wblistentityusage"; TLit "growthtasks"; TLit "readinglistentries"]) nodoc;
      MProp "redirects" true (TKw "boolean") nodoc;
      MProp "converttitles" true (TKw "boolean") nodoc;
      MProp "token" true (TKw "string") nodoc]
      nodoc;
    IInterface "SetPageLanguageParams" [] [TRef ["Params"] []] [
      MProp "title" true (TKw "string") nodoc;
      MProp "pageid" true (TKw "number") nodoc;
      MProp "lang" true (TUnion [TLit "aae"; TLit "ab"; TLit "abs"; TLit "ace"; TLit "acm"; TLit "ady"; TLit "ady-cyrl"; TLit "aeb"; TLit "aeb-arab"; TLit "aeb-latn"; TLit "af"; TLit "aln"; TLit "alt"; TLit "am"; TLit "ami"; TLit "an"; TLit "ang"; TLit "ann"; TLit "anp"; TLit "ar"; TLit "arc"; TLit "arn"; TLit "arq"; TLit "ary"; TLit "arz"; TLit "as"; TLit "ase"; TLit "ast"; TLit "atj"; TLit "av"; TLit "avk"; TLit "awa"; TLit "ay"; TLit "az"; TLit "azb"; TLit "ba"; TLit "ban"; TLit "ban-bali"; TLit "bar"; TLit "bbc"; TLit "bbc-latn"; TLit "bcc"; TLit "bci"; TLit "bcl"; TLit "bdr"; TLit "be"; TLit "be-tarask"; TLit "bew"; TLit "bg"; TLit "bgn"; TLit "bh"; TLit "bho"; TLit "bi"; TLit "bjn"; TLit "blk"; TLit "bm"; TLit "bn"; TLit "bo"; TLit "bpy"; TLit "bqi"; TLit "br"; TLit "brh"; TLit "bs"; TLit "btm"; TLit "bto"; TLit "bug"; TLit "bxr"; TLit "ca"; TLit "cbk-zam"; TLit "cdo"; TLit "ce"; TLit "ceb"; TLit "ch"; TLit "chr"; TLit "chy"; TLit "ckb"; TLit "co"; TLit "cps"; TLit "cpx"; TLit "cpx-hans"; TLit "cpx-hant"; TLit "cr"; TLit "crh"; TLit "crh-cyrl"; TLit "crh-latn"; TLit "crh-ro"; TLit "cs"; TLit "csb"; TLit "cu"; TLit "cv"; TLit "cy"; TLit "da"; TLit "dag"; TLit "de"; TLit "de-at"; TLit "de-ch"; TLit "de-formal"; TLit "default"; TLit "dga"; TLit "din"; TLit "diq"; TLit "dsb"; TLit "dtp"; TLit "dty"; TLit "dv"; TLit "dz"; TLit "ee"; TLit "efi"; TLit "egl"; TLit "el"; TLit "eml"; TLit "en"; TLit "en-ca"; TLit "en-gb"; TLit "eo"; TLit "es"; TLit "es-formal"; TLit "et"; TLit "eu"; TLit "ext"; TLit "fa"; TLit "fat"; TLit "ff"; TLit "fi"; TLit "fit"; TLit "fj"; TLit "fo"; TLit "fon"; TLit "fr"; TLit "frc"; TLit "frp"; TLit "frr"; TLit "fur"; TLit "fy"; TLit "ga"; TLit "gaa"; TLit "gag"; TLit "gan"; TLit "gan-hans"; TLit "gan-hant"; TLit "gcf"; TLit "gcr"; TLit "gd"; TLit "gl"; TLit "gld"; TLit "glk"; TLit "gn"; TLit "gom"; TLit "gom-deva"; TLit "gom-latn"; TLit "gor"; TLit "got"; TLit "gpe"; TLit "grc"; TLit "gsw"; TLit "gu"; TLit "guc"; TLit "gur"; TLit "guw"; TLit "gv"; TLit "ha"; TLit "hak"; TLit "haw"; TLit "he"; TLit "hi"; TLit "hif"; TLit "hif-latn"; TLit "hil"; TLit "hno"; TLit "hr"; TLit "hrx"; TLit "hsb"; TLit "hsn"; TLit "ht"; TLit "hu"; TLit "hu-formal"; TLit "hy"; TLit "hyw"; TLit "ia"; TLit "id"; TLit "ie"; TLit "ig"; TLit "igl"; TLit "ii"; TLit "ik"; TLit "ike-cans"; TLit "ike-latn"; TLit "ilo"; TLit "inh"; TLit "io"; TLit "is"; TLit "it"; TLit "iu"; TLit "ja"; TLit "jam"; TLit "jbo"; TLit "jut"; TLit "jv"; TLit "ka"; TLit "kaa"; TLit "kab"; TLit "kai"; TLit "kbd"; TLit "kbd-cyrl"; TLit "kbp"; TLit "kcg"; TLit "kea"; TLit "kg"; TLit "kge"; TLit "khw"; TLit "ki"; TLit "kiu"; TLit "kjh"; TLit "kjp"; TLit "kk"; TLit "kk-arab"; TLit "kk-cn"; TLit "kk-cyrl"; TLit "kk-kz"; TLit "kk-latn"; TLit "kk-tr"; TLit "kl"; TLit "km"; TLit "kn"; TLit "ko"; TLit "ko-kp"; TLit "koi"; TLit "kr"; TLit "krc"; TLit "kri"; TLit "krj"; TLit "krl"; TLit "ks"; TLit "ks-arab"; TLit "ks-deva"; TLit "ksh"; TLit "ksw"; TLit "ku"; TLit "ku-arab"; TLit "ku-latn"; TLit "kum"; TLit "kus"; TLit "kv"; TLit "kw"; TLit "ky"; TLit "la"; TLit "lad"; TLit "lb"; TLit "lbe"; TLit "lez"; TLit "lfn"; TLit "lg"; TLit "li"; TLit "lij"; TLit "liv"; TLit "lki"; TLit "lld"; TLit "lmo"; TLit "ln"; TLit "lo"; TLit "loz"; TLit "lrc"; TLit "lt"; TLit "ltg"; TLit "lus"; TLit "luz"; TLit "lv"; TLit "lzh"; TLit "lzz"; TLit "mad"; TLit "mag"; TLit "mai"; TLit "map-bms"; TLit "mdf"; TLit "mg"; TLit "mhr"; TLit "mi"; TLit "min"; TLit "mk"; TLit "ml"; TLit "mn"; TLit "mnc"; TLit "mnc-mong"; TLit "mni"; TLit "mnw"; TLit "mo"; TLit "mos"; TLit "mr"; TLit "mrh"; TLit "mrj"; TLit "ms"; TLit "ms-arab"; TLit "mt"; TLit "mwl"; TLit "my"; TLit "myv"; TLit "mzn"; TLit "na"; TLit "nah"; TLit "nan"; TLit "nap"; TLit "nb"; TLit "nds"; TLit "nds-nl"; TLit "ne"; TLit "new"; TLit "nia"; TLit "nit"; TLit "niu"; TLit "nl"; TLit "nl-informal"; TLit "nmz"; TLit "nn"; TLit "nod"; TLit "nog"; TLit "nov"; TLit "nqo"; TLit "nrm"; TLit "nso"; TLit "nv"; TLit "ny"; TLit "nyn"; TLit "nyo"; TLit "nys"; TLit "oc"; TLit "ojb"; TLit "olo"; TLit "om"; TLit "or"; TLit "os"; TLit "pa"; TLit "pag"; TLit "pam"; TLit "pap"; TLit "pcd"; TLit "pcm"; TLit "pdc"; TLit "pdt"; TLit "pfl"; TLit "pi"; TLit "pih"; TLit "pl"; TLit "pms"; TLit "pnb"; TLit "pnt"; TLit "prg"; TLit "ps"; TLit "pt"; TLit "pt-br"; TLit "pwn"; TLit "qu"; TLit "qug"; TLit "rgn"; TLit "rif"; TLit "rki"; TLit "rm"; TLit "rmc"; TLit "rmy"; TLit "rn"; TLit "ro"; TLit "roa-tara"; TLit "rsk"; TLit "ru"; TLit "rue"; TLit "rup"; TLit "ruq"; TLit "ruq-cyrl"; TLit "ruq-latn"; TLit "rut"; TLit "rw"; TLit "ryu"; TLit "sa"; TLit "sah"; TLit "sat"; TLit "sc"; TLit "scn"; TLit "sco"; TLit "sd"; TLit "sdc"; TLit "sdh"; TLit "se"; TLit "se-fi"; TLit "se-no"; TLit "se-se"; TLit "sei"; TLit "ses"; TLit "sg"; TLit "sgs"; TLit "sh"; TLit "sh-cyrl"; TLit "sh-latn"; TLit "shi"; TLit "shn"; TLit "shy"; TLit "shy-latn"; TLit "si"; TLit "sjd"; TLit "sje"; TLit "sk"; TLit "skr"; TLit "skr-arab"; TLit "sl"; TLit "sli"; TLit "sm"; TLit "sma"; TLit "smn"; TLit "sms"; TLit "sn"; TLit "so"; TLit "sq"; TLit "sr"; TLit "sr-ec"; TLit "sr-el"; TLit "srn"; TLit "sro"; TLit "ss"; TLit "st"; TLit "stq"; TLit "sty"; TLit "su"; TLit "sv"; TLit "sw"; TLit "syl"; TLit "szl"; TLit "szy"; TLit "ta"; TLit "tay"; TLit "tcy"; TLit "tdd"; TLit "te"; TLit "tet"; TLit "tg"; TLit "tg-cyrl"; TLit "tg-latn"; TLit "th"; TLit "ti"; TLit "tk"; TLit "tl"; TLit "tly"; TLit "tn"; TLit "to"; TLit "tok"; TLit "tpi"; TLit "tr"; TLit "tru"; TLit "trv"; TLit "ts"; TLit "tt"; TLit "tt-cyrl"; TLit "tt-latn"; TLit "ttj"; TLit "tum"; TLit "tw"; TLit "ty"; TLit "tyv"; TLit "tzm"; TLit "udm"; TLit "ug"; TLit "ug-arab"; TLit "ug-latn"; TLit "uk"; TLit "ur"; TLit "uz"; TLit "ve"; TLit "vec"; TLit "vep"; TLit "vi"; TLit "vls"; TLit "vmf"; TLit "vmw"; TLit "vo"; TLit "vot"; TLit "vro"; TLit "wa"; TLit "wal"; TLit "war"; TLit "wls"; TLit "wo"; TLit "wuu"; TLit "wuu-hans"; TLit "wuu-hant"; TLit "xal"; TLit "xh"; TLit "xmf"; TLit "xsy"; TLit "yi"; TLit "yo"; TLit "yrl"; TLit "yue"; TLit "yue-hans"; TLit "yue-hant"; TLit "za"; TLit "zea"; TLit "zgh"; TLit "zh"; TLit "zh-cn"; TLit "zh-hans"; TLit "zh-hant"; TLit "zh-hk"; TLit "zh-mo"; TLit "zh-my"; TLit "zh-sg"; TLit "zh-tw"; TLit "zu"]) nodoc;
      MProp "reason" true (TKw "string") nodoc;
      MProp "tags" true (TUnion [TKw "string"; TArray (TKw "string")]) nodoc;
      MProp "token" true (TKw "string") nodoc]
      nodoc;
    IInterface "ShortenUrlParams" [] [TRef ["Params"] []] [
      MProp "url" true (TKw "string") nodoc;
      MProp "qrcode" true (TKw "boolean") nodoc]
      nodoc;
    IInterface "SiteMatrixParams" [] [TRef ["Params"] []] [
      MProp "smtype" true (TRef ["OneOrMore"] [TUnion [TLit "language"; TLit "special"]]) nodoc;
      MProp "smstate" true (TRef ["OneOrMore"] [TUnion [TLit "all"; TLit "closed"; TLit "fishbowl"; TLit "nonglobal"; TLit "private"]]) nodoc;
      MProp "smlangprop" true (TRef ["OneOrMore"] [TUnion [TLit "code"; TLit "dir"; TLit "localname"; TLit "name"; TLit "site"]]) nodoc;
      MProp "smsiteprop" true (TRef ["OneOrMore"] [TUnion [TLit "code"; TLit "dbname"; TLit "lang"; TLit "sitename"; TLit "url"]]) nodoc;
      MProp "smlimit" true (TRef ["limit"] []) nodoc;
      MProp "smcontinue" true (TKw "string") nodoc]
      nodoc;
    IInterface "SpamBlacklistParams" [] [TRef ["Params"] []] [
      MProp "url" true (TUnion [TKw "string"; TArray (TKw "string")]) nodoc]
      nodoc;
    IInterface "StashEditParams" [] [TRef ["Params"] []] [
      MProp "title" true (TKw "string") nodoc;
      MProp "section" true (TKw "string") nodoc;
      MProp "sectiontitle" true (TKw "string") nodoc;
      MProp "text" true (TKw "string") nodoc;
      MProp "stashedtexthash" true (TKw "string") nodoc;
      MProp "summary" true (TKw "string") nodoc;
      MProp "contentmodel" true (TUnion [TLit "GadgetDefinition"; TLit "JsonSchema"; TLit "MassMessageListContent"; TLit "Scribunto"; TLit "SecurePoll"; TLit "css"; TLit "flow-board"; TLit "javascript"; TLit "json"; TLit "sanitized-css"; TLit "text"; TLit "unknown"; TLit "wikitext"]) nodoc;
      MProp "contentformat" true (TUnion [TLit "application/json"; TLit "application/octet-stream"; TLit "application/unknown"; TLit "application/x-binary"; TLit "text/css"; TLit "text/javascript"; TLit "text/plain"; TLit "text/unknown"; TLit "text/x-wiki"; TLit "unknown/unknown"]) nodoc;
      MProp "baserevid" true (TKw "number") nodoc;
      MProp "token" true (TKw "string") nodoc]
      nodoc;
    IInterface "StreamConfigsParams" [] [TRef ["Params"] []] [
      MProp "streams" true (TUnion [TKw "string"; TArray (TKw "string")]) nodoc;
      MProp "constraints" true (TUnion [TKw "string"; TArray (TKw "string")]) nodoc;
      MProp "all_settings" true (TKw "boolean") nodoc]
      nodoc;
    IInterface "StrikeVoteParams" [] [TRef ["Params"] []] [
      MProp "option" true (TUnion [TLit "strike"; TLit "unstrike"]) nodoc;
      MProp "reason" true (TKw "string") nodoc;
      MProp "voteid" true (TKw "number") nodoc;
      MProp "token" true (TKw "string") nodoc]
      nodoc;
    IInterface "SectionTranslationDeleteParams" [] [TRef ["Params"] []] [
      MProp "sectiontranslationid" true (TKw "number") nodoc;
      MProp "translationid" true (TKw "number") nodoc;
      MProp "sectionid" true (TKw "string") nodoc;
      MProp "token" true (TKw "string") nodoc]
      nodoc;
    IInterface "SectionTranslationSaveParams" [] [TRef ["Params"] []] [
      MProp "sourcelanguage" true (TKw "string") nodoc;
      MProp "targetlanguage" true (TKw "string") nodoc;
      MProp "sourcetitle" true (TKw "string") nodoc;
      MProp "targettitle" true (TKw "string") nodoc;
      MProp "content" true (TKw "string") nodoc;
      MProp "sourcerevision" true (TKw "number") nodoc;
      MProp "sourcesectiontitle" true (TKw "string") nodoc;
      MProp "targetsectiontitle" true (TKw "string") nodoc;
      MProp "sectionid" true (TKw "string") nodoc;
      MProp "issandbox" true (TKw "boolean") nodoc;
      MProp "progress" true (TKw "string") nodoc;
      MProp "token" true (TKw "string") nodoc]
      nodoc;
    IInterface "TagParams" [] [TRef ["Params"] []] [
      MProp "rcid" true (TUnion [TKw "number"; TArray (TKw "number")]) nodoc;
      MProp "revid" true (TUnion [TKw "number"; TArray (TKw "number")]) nodoc;
      MProp "logid" true (TUnion [TKw "number"; TArray (TKw "number")]) nodoc;
      MProp "add" true (TRef ["OneOrMore"] [TUnion [TLit "0xBlockMessage"; TLit "AWB"; TLit "Adiutor"; TLit "BandeauxCategories"; TLit "BandeauxEbauches"; TLit "BandeauxPortails"; TLit "C-helper"; TLit "CopyvioIP"; TLit "HotCats"; TLit "LiveRC"; TLit "PaStec"; TLit "PaletteDeluxe"; TLit "ProveIt"; TLit "PublierBrouillon"; TLit "RenommageCategorie"; TLit "Test balise"; TLit "WPCleaner"; TLit "delete"; TLit "huggle"; TLit "paidedits"; TLit "retrait bandeau maintenance"; TLit "spamblock"; TLit "wikimooc2017"; TLit "wmrc"]]) nodoc;
      MProp "remove" true (TUnion [TKw "string"; TArray (TKw "string")]) nodoc;
      MProp "reason" true (TKw "string") nodoc;
      MProp "tags" true (TUnion [TKw "string"; TArray (TKw "string")]) nodoc;
      MProp "token" true (TKw "string") nodoc]
      nodoc;
    IInterface "TemplateDataParams" [] [TRef ["Params"] []] [
      MProp "includeMissingTitles" true (TKw "boolean") nodoc;
      MProp "doNotIgnoreMissingTitles" true (TKw "boolean") nodoc;
      MProp "lang" true (TKw "string") nodoc;
      MProp "titles" true (TUnion [TKw "string"; TArray (TKw "string")]) nodoc;
      MProp "pageids" true (TUnion [TKw "number"; TArray (TKw "number")]) nodoc;
      MProp "revids" true (TUnion [TKw "number"; TArray (TKw "number")]) nodoc;
      MProp "generator" true (TUnion [TLit "allcategories"; TLit "alldeletedrevisions"; TLit "allfileusages"; TLit "allimages"; TLit "alllinks"; TLit "allpages"; TLit "allredirects"; TLit "allrevisions"; TLit "alltransclusions"; TLit "backlinks"; TLit "categories"; TLit "categorymembers"; TLit "contenttranslation"; TLit "contenttranslationsuggestions"; TLit "deletedrevisions"; TLit "duplicatefiles"; TLit "embeddedin"; TLit "exturlusage"; TLit "fileusage"; TLit "geosearch"; TLit "images"; TLit "imageusage"; TLit "iwbacklinks"; TLit "langbacklinks"; TLit "links"; TLit "linkshere"; TLit "mostviewed"; TLit "pageswithprop"; TLit "prefixsearch"; TLit "projectpages"; TLit "protectedtitles"; TLit "querypage"; TLit "random"; TLit "recentchanges"; TLit "redirects"; TLit "revisions"; TLit "search"; TLit "templates"; TLit "transcludedin"; TLit "watchlist"; TLit "watchlistraw"; TLit "wblistentityusage"; TLit "growthtasks"; TLit "readinglistentries"]) nodoc;
      MProp "redirects" true (TKw "boolean") nodoc;
      MProp "converttitles" true (TKw "boolean") nodoc]
      nodoc;
    IInterface "CoreThankParams" [] [TRef ["Params"] []] [
      MProp "rev" true (TKw "number") nodoc;
      MProp "log" true (TKw "number") nodoc;
      MProp "token" true (TKw "string") nodoc;
      MProp "source" true (TKw "string") nodoc]
      nodoc;
    IInterface "TimedTextParams" [] [TRef ["Params"] []] [
      MProp "title" true (TKw "string") nodoc;
      MProp "pageid" true (TKw "number") nodoc;
      MProp "trackformat" true (TUnion [TLit "srt"; TLit "vtt"]) nodoc;
      MProp "lang" true (TKw "string") nodoc]
      nodoc;
    IInterface "TitleBlacklistParams" [] [TRef ["Params"] []] [
      MProp "tbtitle" true (TKw "string") nodoc;
      MProp "tbaction" true (TUnion [TLit "create"; TLit "createpage"; TLit "createtalk"; TLit "edit"; TLit "move"; TLit "new-account"; TLit "upload"]) nodoc;
      MProp "tbnooverride" true (TKw "boolean") nodoc]
      nodoc;
    IInterface "TorBlockParams" [] [TRef ["Params"] []] [
      MProp "ip" true (TKw "string") nodoc]
      nodoc;
    IInterface "TranscodeResetParams" [] [TRef ["Params"] []] [
      MProp "title" true (TKw "string") nodoc;
      MProp "transcodekey" true (TKw "string") nodoc;
      MProp "token" true (TKw "string") nodoc]
      nodoc;
    IInterface "ULSLocalizationParams" [] [TRef ["Params"] []] [
      MProp "language" true (TKw "string") nodoc]
      nodoc;
    IInterface "ULSSetLanguageParams" [] [TRef ["Params"] []] [
      MProp "languagecode" true (TKw "string") nodoc;
      MProp "token" true (TKw "string") nodoc]
      nodoc;
    IInterface "UnblockParams" [] [TRef ["Params"] []] [
      MProp "id" true (TKw "number") nodoc;
      MProp "user" true (TKw "string") nodoc;
      MProp "userid" true (TKw "number") nodoc;
      MProp "reason" true (TKw "string") nodoc;
      MProp "tags" true (TUnion [TKw "string"; TArray (TKw "string")]) nodoc;
      MProp "watchuser" true (TKw "boolean") nodoc;
      MProp "watchlistexpiry" true (TRef ["expiry"] []) nodoc;
      MProp "token" true (TKw "string") nodoc]
      nodoc;
    IInterface "UndeleteParams" [] [TRef ["Params"] []] [
      MProp "title" true (TKw "string") nodoc;
      MProp "reason" true (TKw "string") nodoc;
      MProp "tags" true (TUnion [TKw "string"; TArray (TKw "string")]) nodoc;
      MProp "timestamps" true (TUnion [TRef ["timestamp"] []; TArray (TRef ["timestamp"] [])]) nodoc;
      MProp "fileids" true (TUnion [TKw "number"; TArray (TKw "number")]) nodoc;
      MProp "undeletetalk" true (TKw "boolean") nodoc;
      MProp "watchlist" true (TUnion [TLit "nochange"; TLit "preferences"; TLit "unwatch"; TLit "watch"]) nodoc;
      MProp "watchlistexpiry" true (TRef ["expiry"] []) nodoc;
      MProp "token" true (TKw "string") nodoc]
      nodoc;
    IInterface "RemoveAuthenticationDataParams" [] [TRef ["Params"] []] [
      MProp "request" true (TKw "string") nodoc;
      MProp "token" true (TKw "string") nodoc]
      nodoc;
    IInterface "UploadParams" [] [TRef ["Params"] []] [
      MProp "filename" true (TKw "string") nodoc;
      MProp "comment" true (TKw "string") nodoc;
      MProp "tags" true (TUnion [TKw "string"; TArray (TKw "string")]) nodoc;
      MProp "text" true (TKw "string") nodoc;
      MProp "watch" true (TKw "boolean") nodoc;
      MProp "watchlist" true (TUnion [TLit "nochange"; TLit "preferences"; TLit "watch"]) nodoc;
      MProp "watchlistexpiry" true (TRef ["expiry"] []) nodoc;
      MProp "ignorewarnings" true (TKw "boolean") nodoc;
      MProp "file" true (TRef ["upload"] []) nodoc;
      MProp "url" true (TKw "string") nodoc;
      MProp "filekey" true (TKw "string") nodoc;
      MProp "sessionkey" true (TKw "string") nodoc;
      MProp "stash" true (TKw "boolean") nodoc;
      MProp "filesize" true (TKw "number") nodoc;
      MProp "offset" true (TKw "number") nodoc;
      MProp "chunk" true (TRef ["upload"] []) nodoc;
      MProp "async" true (TKw "boolean") nodoc;
      MProp "checkstatus" true (TKw "boolean") nodoc;
      MProp "token" true (TKw "string") nodoc]
      nodoc;
    IInterface "UserrightsParams" [] [TRef ["Params"] []] [
      MProp "user" true (TKw "string") nodoc;
      MProp "userid" true (TKw "number") nodoc;
      MProp "add" true (TRef ["OneOrMore"] [TUnion [TLit "abusefilter"; TLit "accountcreator"; TLit "bot"; TLit "bureaucrat"; TLit "checkuser"; TLit "confirmed"; TLit "flow-bot"; TLit "import"; TLit "interface-admin"; TLit "ipblock-exempt"; TLit "no-ipinfo"; TLit "rollbacker"; TLit "steward"; TLit "suppress"; TLit "sysop"; TLit "transwiki"]]) nodoc;
      MProp "expiry" true (TUnion [TKw "string"; TArray (TKw "string")]) nodoc;
      MProp "remove" true (TRef ["OneOrMore"] [TUnion [TLit "abusefilter"; TLit "accountcreator"; TLit "bot"; TLit "bureaucrat"; TLit "checkuser"; TLit "confirmed"; TLit "flow-bot"; TLit "import"; TLit "interface-admin"; TLit "ipblock-exempt"; TLit "no-ipinfo"; TLit "rollbacker"; TLit "steward"; TLit "suppress"; TLit "sysop"; TLit "transwiki"]]) nodoc;
      MProp "reason" true (TKw "string") nodoc;
      MProp "token" true (TKw "string") nodoc;
      MProp "tags" true (TUnion [TKw "string"; TArray (TKw "string")]) nodoc;
      MProp "watchuser" true (TKw "boolean") nodoc;
      MProp "watchlistexpiry" true (TRef ["expiry"] []) nodoc]
      nodoc;
    IInterface "ValidatePasswordParams" [] [TRef ["Params"] []] [
      MProp "password" true (TRef ["password"] []) nodoc;
      MProp "user" true (TKw "string") nodoc;
      MProp "email" true (TKw "string") nodoc;
      MProp "realname" true (TKw "string") nodoc]
      nodoc;
    IInterface "VisualEditorParams" [] [TRef ["Params"] []] [
      MProp "page" true (TKw "string") nodoc;
      MProp "badetag" true (TKw "string") nodoc;
      MProp "format" true (TUnion [TLit "json"; TLit "jsonfm"]) nodoc;
      MProp "paction" true (TUnion [TLit "metadata"; TLit "parse"; TLit "parsefragment"; TLit "templatesused"; TLit "wikitext"]) nodoc;
      MProp "wikitext" true (TKw "string") nodoc;
      MProp "section" true (TKw "string") nodoc;
      MProp "stash" true (TKw "boolean") nodoc;
      MProp "oldid" true (TKw "number") nodoc;
      MProp "editintro" true (TKw "string") nodoc;
      MProp "pst" true (TKw "boolean") nodoc;
      MProp "preload" true (TKw "string") nodoc;
      MProp "preloadparams" true (TUnion [TKw "string"; TArray (TKw "string")]) nodoc]
      nodoc;
    IInterface "VisualEditorEditParams" [] [TRef ["Params"] []] [
      MProp "paction" true (TUnion [TLit "diff"; TLit "save"; TLit "serialize"; TLit "serializeforcache"]) nodoc;
      MProp "page" true (TKw "string") nodoc;
      MProp "token" true (TKw "string") nodoc;
      MProp "wikitext" true (TKw "string") nodoc;
      MProp "section" true (TKw "string") nodoc;
      MProp "sectiontitle" true (TKw "string") nodoc;
      MProp "basetimestamp" true (TRef ["timestamp"] []) nodoc;
      MProp "starttimestamp" true (TRef ["timestamp"] []) nodoc;
      MProp "oldid" true (TKw "number") nodoc;
      MProp "minor" true (TKw "string") nodoc;
      MProp "watchlist" true (TKw "string") nodoc;
      MProp "html" true (TKw "string") nodoc;
      MProp "etag" true (TKw "string") nodoc;
      MProp "summary" true (TKw "string") nodoc;
      MProp "captchaid" true (TKw "string") nodoc;
      MProp "captchaword" true (TKw "string") nodoc;
      MProp "cachekey" true (TKw "string") nodoc;
      MProp "nocontent" true (TKw "boolean") nodoc;
      MProp "returnto" true (TKw "string") nodoc;
      MProp "returntoquery" true (TKw "string") nodoc;
      MProp "returntoanchor" true (TKw "string") nodoc;
      MProp "useskin" true (TUnion [TLit "apioutput"; TLit "cologneblue"; TLit "contenttranslation"; TLit "fallback"; TLit "minerva"; TLit "modern"; TLit "monobook"; TLit "timeless"; TLit "vector"; TLit "vector-2022"]) nodoc;
      MProp "tags" true (TUnion [TKw "string"; TArray (TKw "string")]) nodoc;
      MProp "plugins" true (TUnion [TKw "string"; TArray (TKw "string")]) nodoc;
      MProp "mobileformat" true (TKw "boolean") nodoc]
      nodoc;
    IInterface "WatchParams" [] [TRef ["Params"] []] [
      MProp "title" true (TKw "string") nodoc;
      MProp "expiry" true (TRef ["expiry"] []) nodoc;
      MProp "unwatch" true (TKw "boolean") nodoc;
      MProp "continue" true (TKw "string") nodoc;
      MProp "titles" true (TUnion [TKw "string"; TArray (TKw "string")]) nodoc;
      MProp "pageids" true (TUnion [TKw "number"; TArray (TKw "number")]) nodoc;
      MProp "revids" true (TUnion [TKw "number"; TArray (TKw "number")]) nodoc;
      MProp "generator" true (TUnion [TLit "allcategories"; TLit "alldeletedrevisions"; TLit "allfileusages"; TLit "allimages"; TLit "alllinks"; TLit "allpages"; TLit "allredirects"; TLit "allrevisions"; TLit "alltransclusions"; TLit "backlinks"; TLit "categories"; TLit "categorymembers"; TLit "contenttranslation"; TLit "contenttranslationsuggestions"; TLit "deletedrevisions"; TLit "duplicatefiles"; TLit "embeddedin"; TLit "exturlusage"; TLit "fileusage"; TLit "geosearch"; TLit "images"; TLit "imageusage"; TLit "iwbacklinks"; TLit "langbacklinks"; TLit "links"; TLit "linkshere"; TLit "mostviewed"; TLit "pageswithprop"; TLit "prefixsearch"; TLit "projectpages"; TLit "protectedtitles"; TLit "querypage"; TLit "random"; TLit "recentchanges"; TLit "redirects"; TLit "revisions"; TLit "search"; TLit "templates"; TLit "transcludedin"; TLit "watchlist"; TLit "watchlistraw"; TLit "wblistentityusage"; TLit "growthtasks"; TLit "readinglistentries"]) nodoc;
      MProp "redirects" true (TKw "boolean") nodoc;
      MProp "converttitles" true (TKw "boolean") nodoc;
      MProp "token" true (TKw "string") nodoc]
      nodoc;
    IInterface "WebappManifestParams" [] [TRef ["Params"] []] []
      nodoc;
    IInterface "WebAuthnParams" [] [TRef ["Params"] []] [
      MProp "func" true (TUnion [TLit "getAuthInfo"; TLit "getRegisterInfo"]) nodoc]
      nodoc;
    IInterface "WikimediaEventsBlockedEditParams" [] [TRef ["Params"] []] [
      MProp "page" true (TKw "string") nodoc;
      MProp "interface" true (TUnion [TLit "discussiontools"; TLit "mobilefrontend"; TLit "other"; TLit "visualeditor"; TLit "wikieditor"]) nodoc;
      MProp "platform" true (TUnion [TLit "desktop"; TLit "mobile"]) nodoc]
      nodoc;
    IInterface "FormatXmlParams" [] [TRef ["Params"] []] [
      MProp "xslt" true (TKw "string") nodoc;
      MProp "includexmlnamespace" true (TKw "boolean") nodoc]
      nodoc;
    IInterface "FormatXmlParams" [] [TRef ["Params"] []] [
      MProp "wrappedhtml" true (TKw "boolean") nodoc;
      MProp "xslt" true (TKw "string") nodoc;
      MProp "includexmlnamespace" true (TKw "boolean") nodoc]
      nodoc;
    IInterface "QueryAbuseFiltersParams" [] [TRef ["Params"] []] [
      MProp "abfstartid" true (TKw "number") nodoc;
      MProp "abfendid" true (TKw "number") nodoc;
      MProp "abfdir" true (TUnion [TLit "newer"; TLit "older"]) nodoc;
      MProp "abfshow" true (TRef ["OneOrMore"] [TUnion [TLit "!deleted"; TLit "!enabled"; TLit "!private"; TLit "deleted"; TLit "enabled"; TLit "private"]]) nodoc;
      MProp "abflimit" true (TRef ["limit"] []) nodoc;
      MProp "abfprop" true (TRef ["OneOrMore"] [TUnion [TLit "actions"; TLit "comments"; TLit "description"; TLit "hits"; TLit "id"; TLit "lasteditor"; TLit "lastedittime"; TLit "pattern"; TLit "private"; TLit "status"]]) nodoc]
      nodoc;
    IInterface "QueryAbuseLogParams" [] [TRef ["Params"] []] [
      MProp "afllogid" true (TKw "number") nodoc;
      MProp "aflstart" true (TRef ["timestamp"] []) nodoc;
      MProp "aflend" true (TRef ["timestamp"] []) nodoc;
      MProp "afldir" true (TUnion [TLit "newer"; TLit "older"]) nodoc;
      MProp "afluser" true (TKw "string") nodoc;
      MProp "afltitle" true (TKw "string") nodoc;
      MProp "aflfilter" true (TUnion [TKw "string"; TArray (TKw "string")]) nodoc;
      MProp "afllimit" true (TRef ["limit"] []) nodoc;
      MProp "aflprop" true (TRef ["OneOrMore"] [TUnion [TLit "action"; TLit "details"; TLit "filter"; TLit "hidden"; TLit "ids"; TLit "result"; TLit "revid"; TLit "timestamp"; TLit "title"; TLit "user"]]) nodoc]
      nodoc;
    IInterface "QueryAllCategoriesParams" [] [TRef ["Params"] []] [
      MProp "acfrom" true (TKw "string") nodoc;
      MProp "accontinue" true (TKw "string") nodoc;
      MProp "acto" true (TKw "string") nodoc;
      MProp "acprefix" true (TKw "string") nodoc;
      MProp "acdir" true (TUnion [TLit "ascending"; TLit "descending"]) nodoc;
      MProp "acmin" true (TKw "number") nodoc;
      MProp "acmax" true (TKw "number") nodoc;
      MProp "aclimit" true (TRef ["limit"] []) nodoc;
      MProp "acprop" true (TRef ["OneOrMore"] [TUnion [TLit "hidden"; TLit "size"]]) nodoc]
      nodoc;
    IInterface "QueryAllDeletedRevisionsParams" [] [TRef ["Params"] []] [
      MProp "adrprop" true (TRef ["OneOrMore"] [TUnion [TLit "comment"; TLit "content"; TLit "contentmodel"; TLit "flags"; TLit "ids"; TLit "parsedcomment"; TLit "roles"; TLit "sha1"; TLit "size"; TLit "slotsha1"; TLit "slotsize"; TLit "tags"; TLit "timestamp"; TLit "user"; TLit "userid"; TLit "parsetree"]]) nodoc;
      MProp "adrslots" true (TRef ["OneOrMore"] [TLit "main"]) nodoc;
      MProp "adrlimit" true (TRef ["limit"] []) nodoc;
      MProp "adrexpandtemplates" true (TKw "boolean") nodoc;
      MProp "adrgeneratexml" true (TKw "boolean") nodoc;
      MProp "adrparse" true (TKw "boolean") nodoc;
      MProp "adrsection" true (TKw "string") nodoc;
      MProp "adrdiffto" true (TKw "string") nodoc;
      MProp "adrdifftotext" true (TKw "string") nodoc;
      MProp "adrdifftotextpst" true (TKw "boolean") nodoc;
      MProp "adrcontentformat" true (TUnion [TLit "application/json"; TLit "application/octet-stream"; TLit "application/unknown"; TLit "application/x-binary"; TLit "text/css"; TLit "text/javascript"; TLit "text/plain"; TLit "text/unknown"; TLit "text/x-wiki"; TLit "unknown/unknown"]) nodoc;
      MProp "adruser" true (TKw "string") nodoc;
      MProp "adrnamespace" true (TUnion [TRef ["namespace"] []; TArray (TRef ["namespace"] [])]) nodoc;
      MProp "adrstart" true (TRef ["timestamp"] []) nodoc;
      MProp "adrend" true (TRef ["timestamp"] []) nodoc;
      MProp "adrdir" true (TUnion [TLit "newer"; TLit "older"]) nodoc;
      MProp "adrfrom" true (TKw "string") nodoc;
      MProp "adrto" true (TKw "string") nodoc;
      MProp "adrprefix" true (TKw "string") nodoc;
      MProp "adrexcludeuser" true (TKw "string") nodoc;
      MProp "adrtag" true (TKw "string") nodoc;
      MProp "adrcontinue" true (TKw "string") nodoc;
      MProp "adrgeneratetitles" true (TKw "boolean") nodoc]
      nodoc;
    IInterface "QueryAllLinksParams" [] [TRef ["Params"] []] [
      MProp "afcontinue" true (TKw "string") nodoc;
      MProp "affrom" true (TKw "string") nodoc;
      MProp "afto" true (TKw "string") nodoc;
      MProp "afprefix" true (TKw "string") nodoc;
      MProp "afunique" true (TKw "boolean") nodoc;
      MProp "afprop" true (TRef ["OneOrMore"] [TUnion [TLit "ids"; TLit "title"]]) nodoc;
      MProp "aflimit" true (TRef ["limit"] []) nodoc;
      MProp "afdir" true (TUnion [TLit "ascending"; TLit "descending"]) nodoc]
      nodoc;
    IInterface "QueryAllImagesParams" [] [TRef ["Params"] []] [
      MProp "aisort" true (TUnion [TLit "name"; TLit "timestamp"]) nodoc;
      MProp "aidir" true (TUnion [TLit "ascending"; TLit "descending"; TLit "newer"; TLit "older"]) nodoc;
      MProp "aifrom" true (TKw "string") nodoc;
      MProp "aito" true (TKw "string") nodoc;
      MProp "aicontinue" true (TKw "string") nodoc;
      MProp "aistart" true (TRef ["timestamp"] []) nodoc;
      MProp "aiend" true (TRef ["timestamp"] []) nodoc;
      MProp "aiprop" true (TRef ["OneOrMore"] [TUnion [TLit "badfile"; TLit "bitdepth"; TLit "canonicaltitle"; TLit "comment"; TLit "commonmetadata"; TLit "dimensions"; TLit "extmetadata"; TLit "mediatype"; TLit "metadata"; TLit "mime"; TLit "parsedcomment"; TLit "sha1"; TLit "size"; TLit "timestamp"; TLit "url"; TLit "user"; TLit "userid"]]) nodoc;
      MProp "aiprefix" true (TKw "string") nodoc;
      MProp "aiminsize" true (TKw "number") nodoc;
      MProp "aimaxsize" true (TKw "number") nodoc;
      MProp "aisha1" true (TKw "string") nodoc;
      MProp "aisha1base36" true (TKw "string") nodoc;
      MProp "aiuser" true (TKw "string") nodoc;
      MProp "aifilterbots" true (TUnion [TLit "all"; TLit "bots"; TLit "nobots"]) nodoc;
      MProp "aimime" true (TUnion [TKw "string"; TArray (TKw "string")]) nodoc;
      MProp "ailimit" true (TRef ["limit"] []) nodoc]
      nodoc;
    IInterface "QueryAllLinksParams" [] [TRef ["Params"] []] [
      MProp "alcontinue" true (TKw "string") nodoc;
      MProp "alfrom" true (TKw "string") nodoc;
      MProp "alto" true (TKw "string") nodoc;
      MProp "alprefix" true (TKw "string") nodoc;
      MProp "alunique" true (TKw "boolean") nodoc;
      MProp "alprop" true (TRef ["OneOrMore"] [TUnion [TLit "ids"; TLit "title"]]) nodoc;
      MProp "alnamespace" true (TRef ["namespace"] []) nodoc;
      MProp "allimit" true (TRef ["limit"] []) nodoc;
      MProp "aldir" true (TUnion [TLit "ascending"; TLit "descending"]) nodoc]
      nodoc;
    IInterface "QueryAllMessagesParams" [] [TRef ["Params"] []] [
      MProp "ammessages" true (TUnion [TKw "string"; TArray (TKw "string")]) nodoc;
      MProp "amprop" true (TRef ["OneOrMore"] [TLit "default"]) nodoc;
      MProp "amenableparser" true (TKw "boolean") nodoc;
      MProp "amnocontent" true (TKw "boolean") nodoc;
      MProp "amincludelocal" true (TKw "boolean") nodoc;
      MProp "amargs" true (TUnion [TKw "string"; TArray (TKw "string")]) nodoc;
      MProp "amfilter" true (TKw "string") nodoc;
      MProp "amcustomised" true (TUnion [TLit "all"; TLit "modified"; TLit "unmodified"]) nodoc;
      MProp "amlang" true (TKw "string") nodoc;
      MProp "amfrom" true (TKw "string") nodoc;
      MProp "amto" true (TKw "string") nodoc;
      MProp "amtitle" true (TKw "string") nodoc;
      MProp "amprefix" true (TKw "string") nodoc]
      nodoc;
    IInterface "QueryAllPagesParams" [] [TRef ["Params"] []] [
      MProp "apfrom" true (TKw "string") nodoc;
      MProp "apcontinue" true (TKw "string") nodoc;
      MProp "apto" true (TKw "string") nodoc;
      MProp "apprefix" true (TKw "string") nodoc;
      MProp "apnamespace" true (TRef ["namespace"] []) nodoc;
      MProp "apfilterredir" true (TUnion [TLit "all"; TLit "nonredirects"; TLit "redirects"]) nodoc;
      MProp "apfilterlanglinks" true (TUnion [TLit "all"; TLit "withlanglinks"; TLit "withoutlanglinks"]) nodoc;
      MProp "apminsize" true (TKw "number") nodoc;
      MProp "apmaxsize" true (TKw "number") nodoc;
      MProp "apprtype" true (TRef ["OneOrMore"] [TUnion [TLit "edit"; TLit "move"; TLit "upload"]]) nodoc;
      MProp "apprlevel" true (TRef ["OneOrMore"] [TUnion [TLit EmptyString; TLit "autoconfirmed"; TLit "editextendedsemiprotected"; TLit "sysop"]]) nodoc;
      MProp "apprfiltercascade" true (TUnion [TLit "all"; TLit "cascading"; TLit "noncascading"]) nodoc;
      MProp "apprexpiry" true (TUnion [TLit "all"; TLit "definite"; TLit "indefinite"]) nodoc;
      MProp "aplimit" true (TRef ["limit"] []) nodoc;
      MProp "apdir" true (TUnion [TLit "ascending"; TLit "descending"]) nodoc]
      nodoc;
    IInterface "QueryAllLinksParams" [] [TRef ["Params"] []] [
      MProp "arcontinue" true (TKw "string") nodoc;
      MProp "arfrom" true (TKw "string") nodoc;
      MProp "arto" true (TKw "string") nodoc;
      MProp "arprefix" true (TKw "string") nodoc;
      MProp "arunique" true (TKw "boolean") nodoc;
      MProp "arprop" true (TRef ["OneOrMore"] [TUnion [TLit "fragment"; TLit "ids"; TLit "interwiki"; TLit "title"]]) nodoc;
      MProp "arnamespace" true (TRef ["namespace"] []) nodoc;
      MProp "arlimit" true (TRef ["limit"] []) nodoc;
      MProp "ardir" true (TUnion [TLit "ascending"; TLit "descending"]) nodoc]
      nodoc;
    IInterface "QueryAllRevisionsParams" [] [TRef ["Params"] []] [
      MProp "arvprop" true (TRef ["OneOrMore"] [TUnion [TLit "comment"; TLit "content"; TLit "contentmodel"; TLit "flags"; TLit "ids"; TLit "oresscores"; TLit "parsedcomment"; TLit "roles"; TLit "sha1"; TLit "size"; TLit "slotsha1"; TLit "slotsize"; TLit "tags"; TLit "timestamp"; TLit "user"; TLit "userid"; TLit "parsetree"]]) nodoc;
      MProp "arvslots" true (TRef ["OneOrMore"] [TLit "main"]) nodoc;
      MProp "arvlimit" true (TRef ["limit"] []) nodoc;
      MProp "arvexpandtemplates" true (TKw "boolean") nodoc;
      MProp "arvgeneratexml" true (TKw "boolean") nodoc;
      MProp "arvparse" true (TKw "boolean") nodoc;
      MProp "arvsection" true (TKw "string") nodoc;
      MProp "arvdiffto" true (TKw "string") nodoc;
      MProp "arvdifftotext" true (TKw "string") nodoc;
      MProp "arvdifftotextpst" true (TKw "boolean") nodoc;
      MProp "arvcontentformat" true (TUnion [TLit "application/json"; TLit "application/octet-stream"; TLit "application/unknown"; TLit "application/x-binary"; TLit "text/css"; TLit "text/javascript"; TLit "text/plain"; TLit "text/unknown"; TLit "text/x-wiki"; TLit "unknown/unknown"]) nodoc;
      MProp "arvuser" true (TKw "string") nodoc;
      MProp "arvnamespace" true (TUnion [TRef ["namespace"] []; TArray (TRef ["namespace"] [])]) nodoc;
      MProp "arvstart" true (TRef ["timestamp"] []) nodoc;
      MProp "arvend" true (TRef ["timestamp"] []) nodoc;
      MProp "arvdir" true (TUnion [TLit "newer"; TLit "older"]) nodoc;
      MProp "arvexcludeuser" true (TKw "string") nodoc;
      MProp "arvcontinue" true (TKw "string") nodoc;
      MProp "arvgeneratetitles" true (TKw "boolean") nodoc]
      nodoc;
    IInterface "QueryAllLinksParams" [] [TRef ["Params"] []] [
      MProp "atcontinue" true (TKw "string") nodoc;
      MProp "atfrom" true (TKw "string") nodoc;
      MProp "atto" true (TKw "string") nodoc;
      MProp "atprefix" true (TKw "string") nodoc;
      MProp "atunique" true (TKw "boolean") nodoc;
      MProp "atprop" true (TRef ["OneOrMore"] [TUnion [TLit "ids"; TLit "title"]]) nodoc;
      MProp "atnamespace" true (TRef ["namespace"] []) nodoc;
      MProp "atlimit" true (TRef ["limit"] []) nodoc;
      MProp "atdir" true (TUnion [TLit "ascending"; TLit "descending"]) nodoc]
      nodoc;
    IInterface "QueryAllUsersParams" [] [TRef ["Params"] []] [
      MProp "aufrom" true (TKw "string") nodoc;
      MProp "auto" true (TKw "string") nodoc;
      MProp "auprefix" true (TKw "string") nodoc;
      MProp "audir" true (TUnion [TLit "ascending"; TLit "descending"]) nodoc;
      MProp "augroup" true (TRef ["OneOrMore"] [TUnion [TLit "abusefilter"; TLit "accountcreator"; TLit "bot"; TLit "bureaucrat"; TLit "checkuser"; TLit "confirmed"; TLit "flow-bot"; TLit "import"; TLit "interface-admin"; TLit "ipblock-exempt"; TLit "no-ipinfo"; TLit "rollbacker"; TLit "steward"; TLit "suppress"; TLit "sysop"; TLit "transwiki"]]) nodoc;
      MProp "auexcludegroup" true (TRef ["OneOrMore"] [TUnion [TLit "abusefilter"; TLit "accountcreator"; TLit "bot"; TLit "bureaucrat"; TLit "checkuser"; TLit "confirmed"; TLit "flow-bot"; TLit "import"; TLit "interface-admin"; TLit "ipblock-exempt"; TLit "no-ipinfo"; TLit "rollbacker"; TLit "steward"; TLit "suppress"; TLit "sysop"; TLit "transwiki"]]) nodoc;
      MProp "aurights" true (TRef ["OneOrMore"] [TUnion [TLit "abusefilter-bypass-blocked-external-domains"; TLit "abusefilter-hidden-log"; TLit "abusefilter-hide-log"; TLit "abusefilter-log"; TLit "abusefilter-log-detail"; TLit "abusefilter-log-private"; TLit "abusefilter-modify"; TLit "abusefilter-modify-blocked-external-domains"; TLit "abusefilter-modify-global"; TLit "abusefilter-modify-restricted"; TLit "abusefilter-privatedetails"; TLit "abusefilter-privatedetails-log"; TLit "abusefilter-revert"; TLit "abusefilter-view"; TLit "abusefilter-view-private"; TLit "apihighlimits"; TLit "applychangetags"; TLit "autoconfirmed"; TLit "autocreateaccount"; TLit "autopatrol"; TLit "autoreview"; TLit "autoreviewrestore"; TLit "badcaptcha"; TLit "badoath"; TLit "bigdelete"; TLit "block"; TLit "blockemail"; TLit "bot"; TLit "browsearchive"; TLit "centralauth-createlocal"; TLit "centralauth-lock"; TLit "centralauth-merge"; TLit "centralauth-rename"; TLit "centralauth-suppress"; TLit "centralauth-unmerge"; TLit "changeemail"; TLit "changetags"; TLit "checkuser"; TLit "checkuser-log"; TLit "checkuser-temporary-account"; TLit "checkuser-temporary-account-log"; TLit "collectionsaveascommunitypage"; TLit "collectionsaveasuserpage"; TLit "confirmemail"; TLit "createaccount"; TLit "createpage"; TLit "createtalk"; TLit "delete"; TLit "delete-redirect"; TLit "deletechangetags"; TLit "deletedhistory"; TLit "deletedtext"; TLit "deletelogentry"; TLit "deleterevision"; TLit "edit"; TLit "editautopatrolprotected"; TLit "editautoreviewprotected"; TLit "editcontentmodel"; TLit "editeditorprotected"; TLit "editextendedsemiprotected"; TLit "editinterface"; TLit "editmyoptions"; TLit "editmyprivateinfo"; TLit "editmyusercss"; TLit "editmyuserjs"; TLit "editmyuserjson"; TLit "editmyuserjsredirect"; TLit "editmywatchlist"; TLit "editprotected"; TLit "editsemiprotected"; TLit "editsitecss"; TLit "editsitejs"; TLit "editsitejson"; TLit "edittrustedprotected"; TLit "editusercss"; TLit "edituserjs"; TLit "edituserjson"; TLit "enrollasmentor"; TLit "extendedconfirmed"; TLit "flow-create-board"; TLit "flow-delete"; TLit "flow-edit-post"; TLit "flow-edit-title"; TLit "flow-hide"; TLit "flow-lock"; TLit "flow-suppress"; TLit "gadgets-definition-edit"; TLit "globalblock"; TLit "globalblock-exempt"; TLit "globalblock-whitelist"; TLit "globalgroupmembership"; TLit "globalgrouppermissions"; TLit "growthexperiments-apiqueryimagesuggestiondata"; TLit "growthexperimentsuserimpacthandler"; TLit "growthmentordashboardupdatedata"; TLit "hideuser"; TLit "import"; TLit "importupload"; TLit "ipblock-exempt"; TLit "ipinfo"; TLit "ipinfo-view-basic"; TLit "ipinfo-view-full"; TLit "ipinfo-view-log"; TLit "linkpurge"; TLit "mailpassword"; TLit "manage-all-push-subscriptions"; TLit "managechangetags"; TLit "managementors"; TLit "markbotedits"; TLit "massmessage"; TLit "mergehistory"; TLit "minoredit"; TLit "move"; TLit "move-categorypages"; TLit "move-rootuserpages"; TLit "move-subpages"; TLit "movefile"; TLit "movestable"; TLit "mwoauthmanageconsumer"; TLit "mwoauthmanagemygrants"; TLit "mwoauthproposeconsumer"; TLit "mwoauthsuppress"; TLit "mwoauthupdateownconsumer"; TLit "mwoauthviewprivate"; TLit "mwoauthviewsuppressed"; TLit "newsletter-create"; TLit "newsletter-delete"; TLit "newsletter-manage"; TLit "newsletter-restore"; TLit "nominornewtalk"; TLit "noratelimit"; TLit "nuke"; TLit "oathauth-api-all"; TLit "oathauth-disable-for-user"; TLit "oathauth-enable"; TLit "oathauth-verify-user"; TLit "oathauth-view-log"; TLit "override-antispoof"; TLit "override-export-depth"; TLit "pagelang"; TLit "patrol"; TLit "patrolmarks"; TLit "protect"; TLit "purge"; TLit "read"; TLit "renameuser"; TLit "renderfile"; TLit "renderfile-nonstandard"; TLit "reupload"; TLit "reupload-own"; TLit "reupload-shared"; TLit "review"; TLit "rollback"; TLit "sboverride"; TLit "securepoll-create-poll"; TLit "securepoll-view-voter-pii"; TLit "sendemail"; TLit "setmentor"; TLit "sfsblock-bypass"; TLit "siteadmin"; TLit "skipcaptcha"; TLit "spamblacklistlog"; TLit "stablesettings"; TLit "stashbasehtml"; TLit "stashedit"; TLit "suppressionlog"; TLit "suppressredirect"; TLit "suppressrevision"; TLit "tboverride"; TLit "tboverride-account"; TLit "templateeditor"; TLit "thanks-notification"; TLit "titleblacklistlog"; TLit "torunblocked"; TLit "transcode-reset"; TLit "transcode-status"; TLit "unblockself"; TLit "undelete"; TLit "unreviewedpages"; TLit "unwatchedpages"; TLit "upload"; TLit "upload_by_url"; TLit "urlshortcode"; TLit "urlshortener-create-url"; TLit "urlshortener-manage-url"; TLit "urlshortener-view-log"; TLit "userrights"; TLit "userrights-interwiki"; TLit "validate"; TLit "viewdeletedfile"; TLit "viewmyprivateinfo"; TLit "viewmywatchlist"; TLit "viewsuppressed"; TLit "vipsscaler-test"; TLit "writeapi"]]) nodoc;
      MProp "auprop" true (TRef ["OneOrMore"] [TUnion [TLit "blockinfo"; TLit "centralids"; TLit "editcount"; TLit "groups"; TLit "implicitgroups"; TLit "registration"; TLit "rights"]]) nodoc;
      MProp "aulimit" true (TRef ["limit"] []) nodoc;
      MProp "auwitheditsonly" true (TKw "boolean") nodoc;
      MProp "auactiveusers" true (TKw "boolean") nodoc;
      MProp "auattachedwiki" true (TKw "string") nodoc]
      nodoc;
    IInterface "QueryAuthManagerInfoParams" [] [TRef ["Params"] []] [
      MProp "amisecuritysensitiveoperation" true (TKw "string") nodoc;
      MProp "amirequestsfor" true (TUnion [TLit "change"; TLit "create"; TLit "create-continue"; TLit "link"; TLit "link-continue"; TLit "login"; TLit "login-continue"; TLit "remove"; TLit "unlink"]) nodoc;
      MProp "amimergerequestfields" true (TKw "boolean") nodoc;
      MProp "amimessageformat" true (TUnion [TLit "html"; TLit "none"; TLit "raw"; TLit "wikitext"]) nodoc]
      nodoc;
    IInterface "QueryBabelParams" [] [TRef ["Params"] []] [
      MProp "babuser" true (TKw "string") nodoc]
      nodoc;
    IInterface "QueryBacklinksParams" [] [TRef ["Params"] []] [
      MProp "bltitle" true (TKw "string") nodoc;
      MProp "blpageid" true (TKw "number") nodoc;
      MProp "blcontinue" true (TKw "string") nodoc;
      MProp "blnamespace" true (TUnion [TRef ["namespace"] []; TArray (TRef ["namespace"] [])]) nodoc;
      MProp "bldir" true (TUnion [TLit "ascending"; TLit "descending"]) nodoc;
      MProp "blfilterredir" true (TUnion [TLit "all"; TLit "nonredirects"; TLit "redirects"]) nodoc;
      MProp "bllimit" true (TRef ["limit"] []) nodoc;
      MProp "blredirect" true (TKw "boolean") nodoc]
      nodoc;
    IInterface "QueryBetaFeaturesParams" [] [TRef ["Params"] []] [
      MProp "bfcounts" true (TKw "string") nodoc]
      nodoc;
    IInterface "QueryBlocksParams" [] [TRef ["Params"] []] [
      MProp "bkstart" true (TRef ["timestamp"] []) nodoc;
      MProp "bkend" true (TRef ["timestamp"] []) nodoc;
      MProp "bkdir" true (TUnion [TLit "newer"; TLit "older"]) nodoc;
      MProp "bkids" true (TUnion [TKw "number"; TArray (TKw "number")]) nodoc;
      MProp "bkusers" true (TUnion [TKw "string"; TArray (TKw "string")]) nodoc;
      MProp "bkip" true (TKw "string") nodoc;
      MProp "bklimit" true (TRef ["limit"] []) nodoc;
      MProp "bkprop" true (TRef ["OneOrMore"] [TUnion [TLit "by"; TLit "byid"; TLit "expiry"; TLit "flags"; TLit "id"; TLit "range"; TLit "reason"; TLit "restrictions"; TLit "timestamp"; TLit "user"; TLit "userid"]]) nodoc;
      MProp "bkshow" true (TRef ["OneOrMore"] [TUnion [TLit "!account"; TLit "!ip"; TLit "!range"; TLit "!temp"; TLit "account"; TLit "ip"; TLit "range"; TLit "temp"]]) nodoc;
      MProp "bkcontinue" true (TKw "string") nodoc]
      nodoc;
    IInterface "QueryCategoriesParams" [] [TRef ["Params"] []] [
      MProp "clprop" true (TRef ["OneOrMore"] [TUnion [TLit "hidden"; TLit "sortkey"; TLit "timestamp"]]) nodoc;
      MProp "clshow" true (TRef ["OneOrMore"] [TUnion [TLit "!hidden"; TLit "hidden"]]) nodoc;
      MProp "cllimit" true (TRef ["limit"] []) nodoc;
      MProp "clcontinue" true (TKw "string") nodoc;
      MProp "clcategories" true (TUnion [TKw "string"; TArray (TKw "string")]) nodoc;
      MProp "cldir" true (TUnion [TLit "ascending"; TLit "descending"]) nodoc]
      nodoc;
    IInterface "QueryCategoryInfoParams" [] [TRef ["Params"] []] [
      MProp "cicontinue" true (TKw "string") nodoc]
      nodoc;
    IInterface "QueryCategoryMembersParams" [] [TRef ["Params"] []] [
      MProp "cmtitle" true (TKw "string") nodoc;
      MProp "cmpageid" true (TKw "number") nodoc;
      MProp "cmprop" true (TRef ["OneOrMore"] [TUnion [TLit "ids"; TLit "sortkey"; TLit "sortkeyprefix"; TLit "timestamp"; TLit "title"; TLit "type"]]) nodoc;
      MProp "cmnamespace" true (TUnion [TRef ["namespace"] []; TArray (TRef ["namespace"] [])]) nodoc;
      MProp "cmtype" true (TRef ["OneOrMore"] [TUnion [TLit "file"; TLit "page"; TLit "subcat"]]) nodoc;
      MProp "cmcontinue" true (TKw "string") nodoc;
      MProp "cmlimit" true (TRef ["limit"] []) nodoc;
      MProp "cmsort" true (TUnion [TLit "sortkey"; TLit "timestamp"]) nodoc;
      MProp "cmdir" true (TUnion [TLit "asc"; TLit "ascending"; TLit "desc"; TLit "descending"; TLit "newer"; TLit "older"]) nodoc;
      MProp "cmstart" true (TRef ["timestamp"] []) nodoc;
      MProp "cmend" true (TRef ["timestamp"] []) nodoc;
      MProp "cmstarthexsortkey" true (TKw "string") nodoc;
      MProp "cmendhexsortkey" true (TKw "string") nodoc;
      MProp "cmstartsortkeyprefix" true (TKw "string") nodoc;
      MProp "cmendsortkeyprefix" true (TKw "string") nodoc;
      MProp "cmstartsortkey" true (TKw "string") nodoc;
      MProp "cmendsortkey" true (TKw "string") nodoc]
      nodoc;
    IInterface "CentralNoticeQueryActiveCampaignsParams" [] [TRef ["Params"] []] [
      MProp "cnacincludefuture" true (TKw "boolean") nodoc]
      nodoc;
    IInterface "CentralNoticeLogsParams" [] [TRef ["Params"] []] [
      MProp "campaign" true (TKw "string") nodoc;
      MProp "user" true (TKw "string") nodoc;
      MProp "limit" true (TRef ["limit"] []) nodoc;
      MProp "offset" true (TKw "number") nodoc;
      MProp "start" true (TRef ["timestamp"] []) nodoc;
      MProp "end" true (TRef ["timestamp"] []) nodoc]
      nodoc;
    IInterface "QueryCheckUserParams" [] [TRef ["Params"] []] [
      MProp "curequest" true (TUnion [TLit "actions"; TLit "ipusers"; TLit "userips"; TLit "edits"]) nodoc;
      MProp "cutarget" true (TKw "string") nodoc;
      MProp "cureason" true (TKw "string") nodoc;
      MProp "culimit" true (TRef ["limit"] []) nodoc;
      MProp "cutimecond" true (TKw "string") nodoc;
      MProp "cuxff" true (TKw "string") nodoc;
      MProp "cutoken" true (TKw "string") nodoc]
      nodoc;
    IInterface "QueryCheckUserLogParams" [] [TRef ["Params"] []] [
      MProp "culuser" true (TKw "string") nodoc;
      MProp "cultarget" true (TKw "string") nodoc;
      MProp "culreason" true (TKw "string") nodoc;
      MProp "cullimit" true (TRef ["limit"] []) nodoc;
      MProp "culdir" true (TUnion [TLit "newer"; TLit "older"]) nodoc;
      MProp "culfrom" true (TRef ["timestamp"] []) nodoc;
      MProp "culto" true (TRef ["timestamp"] []) nodoc;
      MProp "culcontinue" true (TKw "string") nodoc]
      nodoc;
    IInterface "QueryBuildDocumentParams" [] [TRef ["Params"] []] [
      MProp "cbbuilders" true (TRef ["OneOrMore"] [TUnion [TLit "content"; TLit "links"]]) nodoc;
      MProp "cblimiterprofile" true (TKw "string") nodoc]
      nodoc;
    IInterface "QueryCompSuggestBuildDocParams" [] [TRef ["Params"] []] [
      MProp "csbmethod" true (TKw "string") nodoc]
      nodoc;
    IInterface "QueryCirrusDocParams" [] [TRef ["Params"] []] [
      MProp "cdincludes" true (TUnion [TKw "string"; TArray (TKw "string")]) nodoc]
      nodoc;
    IInterface "QueryContentTranslationParams" [] [TRef ["Params"] []] [
      MProp "translationid" true (TKw "string") nodoc;
      MProp "from" true (TKw "string") nodoc;
      MProp "to" true (TKw "string") nodoc;
      MProp "sourcetitle" true (TKw "string") nodoc;
      MProp "sourcesectiontitle" true (TKw "string") nodoc;
      MProp "limit" true (TRef ["limit"] []) nodoc;
      MProp "offset" true (TKw "string") nodoc;
      MProp "type" true (TUnion [TLit "draft"; TLit "published"]) nodoc;
      MProp "usecase" true (TUnion [TLit "desktop-editor-draft"; TLit "translation-corpora-units"; TLit "unified-dashboard"]) nodoc]
      nodoc;
    IInterface "QueryContentTranslationCorporaParams" [] [TRef ["Params"] []] [
      MProp "translationid" true (TKw "number") nodoc;
      MProp "striphtml" true (TKw "boolean") nodoc;
      MProp "types" true (TRef ["OneOrMore"] [TUnion [TLit "mt"; TLit "source"; TLit "user"]]) nodoc]
      nodoc;
    IInterface "QueryContentTranslationLanguageTrendParams" [] [TRef ["Params"] []] [
      MProp "source" true (TKw "string") nodoc;
      MProp "target" true (TKw "string") nodoc;
      MProp "interval" true (TUnion [TLit "month"; TLit "week"]) nodoc]
      nodoc;
    IInterface "QueryContentTranslationStatsParams" [] [TRef ["Params"] []] []
      nodoc;
    IInterface "QueryContentTranslationSuggestionsParams" [] [TRef ["Params"] []] [
      MProp "from" true (TKw "string") nodoc;
      MProp "to" true (TKw "string") nodoc;
      MProp "listid" true (TKw "string") nodoc;
      MProp "limit" true (TRef ["limit"] []) nodoc;
      MProp "offset" true (TKw "string") nodoc;
      MProp "seed" true (TKw "number") nodoc]
      nodoc;
    IInterface "QueryContributorsParams" [] [TRef ["Params"] []] [
      MProp "pcgroup" true (TRef ["OneOrMore"] [TUnion [TLit "abusefilter"; TLit "accountcreator"; TLit "bot"; TLit "bureaucrat"; TLit "checkuser"; TLit "confirmed"; TLit "flow-bot"; TLit "import"; TLit "interface-admin"; TLit "ipblock-exempt"; TLit "no-ipinfo"; TLit "rollbacker"; TLit "steward"; TLit "suppress"; TLit "sysop"; TLit "transwiki"]]) nodoc;
      MProp "pcexcludegroup" true (TRef ["OneOrMore"] [TUnion [TLit "abusefilter"; TLit "accountcreator"; TLit "bot"; TLit "bureaucrat"; TLit "checkuser"; TLit "confirmed"; TLit "flow-bot"; TLit "import"; TLit "interface-admin"; TLit "ipblock-exempt"; TLit "no-ipinfo"; TLit "rollbacker"; TLit "steward"; TLit "suppress"; TLit "sysop"; TLit "transwiki"]]) nodoc;
      MProp "pcrights" true (TRef ["OneOrMore"] [TUnion [TLit "abusefilter-bypass-blocked-external-domains"; TLit "abusefilter-hidden-log"; TLit "abusefilter-hide-log"; TLit "abusefilter-log"; TLit "abusefilter-log-detail"; TLit "abusefilter-log-private"; TLit "abusefilter-modify"; TLit "abusefilter-modify-blocked-external-domains"; TLit "abusefilter-modify-global"; TLit "abusefilter-modify-restricted"; TLit "abusefilter-privatedetails"; TLit "abusefilter-privatedetails-log"; TLit "abusefilter-revert"; TLit "abusefilter-view"; TLit "abusefilter-view-private"; TLit "apihighlimits"; TLit "applychangetags"; TLit "autoconfirmed"; TLit "autocreateaccount"; TLit "autopatrol"; TLit "autoreview"; TLit "autoreviewrestore"; TLit "bigdelete"; TLit "block"; TLit "blockemail"; TLit "bot"; TLit "browsearchive"; TLit "centralauth-createlocal"; TLit "centralauth-lock"; TLit "centralauth-merge"; TLit "centralauth-rename"; TLit "centralauth-suppress"; TLit "centralauth-unmerge"; TLit "changetags"; TLit "checkuser"; TLit "checkuser-log"; TLit "checkuser-temporary-account"; TLit "checkuser-temporary-account-log"; TLit "collectionsaveascommunitypage"; TLit "collectionsaveasuserpage"; TLit "createaccount"; TLit "createpage"; TLit "createtalk"; TLit "delete"; TLit "delete-redirect"; TLit "deletechangetags"; TLit "deletedhistory"; TLit "deletedtext"; TLit "deletelogentry"; TLit "deleterevision"; TLit "edit"; TLit "editautopatrolprotected"; TLit "editautoreviewprotected"; TLit "editcontentmodel"; TLit "editeditorprotected"; TLit "editextendedsemiprotected"; TLit "editinterface"; TLit "editmyoptions"; TLit "editmyprivateinfo"; TLit "editmyusercss"; TLit "editmyuserjs"; TLit "editmyuserjson"; TLit "editmyuserjsredirect"; TLit "editmywatchlist"; TLit "editprotected"; TLit "editsemiprotected"; TLit "editsitecss"; TLit "editsitejs"; TLit "editsitejson"; TLit "edittrustedprotected"; TLit "editusercss"; TLit "edituserjs"; TLit "edituserjson"; TLit "enrollasmentor"; TLit "extendedconfirmed"; TLit "flow-create-board"; TLit "flow-delete"; TLit "flow-edit-post"; TLit "flow-edit-title"; TLit "flow-hide"; TLit "flow-lock"; TLit "flow-suppress"; TLit "gadgets-definition-edit"; TLit "globalblock"; TLit "globalblock-exempt"; TLit "globalblock-whitelist"; TLit "globalgroupmembership"; TLit "globalgrouppermissions"; TLit "hideuser"; TLit "import"; TLit "importupload"; TLit "ipblock-exempt"; TLit "ipinfo"; TLit "ipinfo-view-basic"; TLit "ipinfo-view-full"; TLit "ipinfo-view-log"; TLit "manage-all-push-subscriptions"; TLit "managechangetags"; TLit "managementors"; TLit "markbotedits"; TLit "massmessage"; TLit "mergehistory"; TLit "minoredit"; TLit "move"; TLit "move-categorypages"; TLit "move-rootuserpages"; TLit "move-subpages"; TLit "movefile"; TLit "movestable"; TLit "mwoauthmanageconsumer"; TLit "mwoauthmanagemygrants"; TLit "mwoauthproposeconsumer"; TLit "mwoauthsuppress"; TLit "mwoauthupdateownconsumer"; TLit "mwoauthviewprivate"; TLit "mwoauthviewsuppressed"; TLit "newsletter-create"; TLit "newsletter-delete"; TLit "newsletter-manage"; TLit "newsletter-restore"; TLit "nominornewtalk"; TLit "noratelimit"; TLit "nuke"; TLit "oathauth-api-all"; TLit "oathauth-disable-for-user"; TLit "oathauth-enable"; TLit "oathauth-verify-user"; TLit "oathauth-view-log"; TLit "override-antispoof"; TLit "override-export-depth"; TLit "pagelang"; TLit "patrol"; TLit "patrolmarks"; TLit "protect"; TLit "read"; TLit "renameuser"; TLit "reupload"; TLit "reupload-own"; TLit "reupload-shared"; TLit "review"; TLit "rollback"; TLit "sboverride"; TLit "securepoll-create-poll"; TLit "securepoll-view-voter-pii"; TLit "sendemail"; TLit "setmentor"; TLit "sfsblock-bypass"; TLit "siteadmin"; TLit "skipcaptcha"; TLit "spamblacklistlog"; TLit "stablesettings"; TLit "suppressionlog"; TLit "suppressredirect"; TLit "suppressrevision"; TLit "tboverride"; TLit "tboverride-account"; TLit "templateeditor"; TLit "titleblacklistlog"; TLit "torunblocked"; TLit "transcode-reset"; TLit "transcode-status"; TLit "unblockself"; TLit "undelete"; TLit "unreviewedpages"; TLit "unwatchedpages"; TLit "upload"; TLit "upload_by_url"; TLit "urlshortener-create-url"; TLit "urlshortener-manage-url"; TLit "urlshortener-view-log"; TLit "userrights"; TLit "userrights-interwiki"; TLit "validate"; TLit "viewdeletedfile"; TLit "viewmyprivateinfo"; TLit "viewmywatchlist"; TLit "viewsuppressed"; TLit "vipsscaler-test"; TLit "writeapi"]]) nodoc;
      MProp "pcexcluderights" true (TRef ["OneOrMore"] [TUnion [TLit "abusefilter-bypass-blocked-external-domains"; TLit "abusefilter-hidden-log"; TLit "abusefilter-hide-log"; TLit "abusefilter-log"; TLit "abusefilter-log-detail"; TLit "abusefilter-log-private"; TLit "abusefilter-modify"; TLit "abusefilter-modify-blocked-external-domains"; TLit "abusefilter-modify-global"; TLit "abusefilter-modify-restricted"; TLit "abusefilter-privatedetails"; TLit "abusefilter-privatedetails-log"; TLit "abusefilter-revert"; TLit "abusefilter-view"; TLit "abusefilter-view-private"; TLit "apihighlimits"; TLit "applychangetags"; TLit "autoconfirmed"; TLit "autocreateaccount"; TLit "autopatrol"; TLit "autoreview"; TLit "autoreviewrestore"; TLit "bigdelete"; TLit "block"; TLit "blockemail"; TLit "bot"; TLit "browsearchive"; TLit "centralauth-createlocal"; TLit "centralauth-lock"; TLit "centralauth-merge"; TLit "centralauth-rename"; TLit "centralauth-suppress"; TLit "centralauth-unmerge"; TLit "changetags"; TLit "checkuser"; TLit "checkuser-log"; TLit "checkuser-temporary-account"; TLit "checkuser-temporary-account-log"; TLit "collectionsaveascommunitypage"; TLit "collectionsaveasuserpage"; TLit "createaccount"; TLit "createpage"; TLit "createtalk"; TLit "delete"; TLit "delete-redirect"; TLit "deletechangetags"; TLit "deletedhistory"; TLit "deletedtext"; TLit "deletelogentry"; TLit "deleterevision"; TLit "edit"; TLit "editautopatrolprotected"; TLit "editautoreviewprotected"; TLit "editcontentmodel"; TLit "editeditorprotected"; TLit "editextendedsemiprotected"; TLit "editinterface"; TLit "editmyoptions"; TLit "editmyprivateinfo"; TLit "editmyusercss"; TLit "editmyuserjs"; TLit "editmyuserjson"; TLit "editmyuserjsredirect"; TLit "editmywatchlist"; TLit "editprotected"; TLit "editsemiprotected"; TLit "editsitecss"; TLit "editsitejs"; TLit "editsitejson"; TLit "edittrustedprotected"; TLit "editusercss"; TLit "edituserjs"; TLit "edituserjson"; TLit "enrollasmentor"; TLit "extendedconfirmed"; TLit "flow-create-board"; TLit "flow-delete"; TLit "flow-edit-post"; TLit "flow-edit-title"; TLit "flow-hide"; TLit "flow-lock"; TLit "flow-suppress"; TLit "gadgets-definition-edit"; TLit "globalblock"; TLit "globalblock-exempt"; TLit "globalblock-whitelist"; TLit "globalgroupmembership"; TLit "globalgrouppermissions"; TLit "hideuser"; TLit "import"; TLit "importupload"; TLit "ipblock-exempt"; TLit "ipinfo"; TLit "ipinfo-view-basic"; TLit "ipinfo-view-full"; TLit "ipinfo-view-log"; TLit "manage-all-push-subscriptions"; TLit "managechangetags"; TLit "managementors"; TLit "markbotedits"; TLit "massmessage"; TLit "mergehistory"; TLit "minoredit"; TLit "move"; TLit "move-categorypages"; TLit "move-rootuserpages"; TLit "move-subpages"; TLit "movefile"; TLit "movestable"; TLit "mwoauthmanageconsumer"; TLit "mwoauthmanagemygrants"; TLit "mwoauthproposeconsumer"; TLit "mwoauthsuppress"; TLit "mwoauthupdateownconsumer"; TLit "mwoauthviewprivate"; TLit "mwoauthviewsuppressed"; TLit "newsletter-create"; TLit "newsletter-delete"; TLit "newsletter-manage"; TLit "newsletter-restore"; TLit "nominornewtalk"; TLit "noratelimit"; TLit "nuke"; TLit "oathauth-api-all"; TLit "oathauth-disable-for-user"; TLit "oathauth-enable"; TLit "oathauth-verify-user"; TLit "oathauth-view-log"; TLit "override-antispoof"; TLit "override-export-depth"; TLit "pagelang"; TLit "patrol"; TLit "patrolmarks"; TLit "protect"; TLit "read"; TLit "renameuser"; TLit "reupload"; TLit "reupload-own"; TLit "reupload-shared"; TLit "review"; TLit "rollback"; TLit "sboverride"; TLit "securepoll-create-poll"; TLit "securepoll-view-voter-pii"; TLit "sendemail"; TLit "setmentor"; TLit "sfsblock-bypass"; TLit "siteadmin"; TLit "skipcaptcha"; TLit "spamblacklistlog"; TLit "stablesettings"; TLit "suppressionlog"; TLit "suppressredirect"; TLit "suppressrevision"; TLit "tboverride"; TLit "tboverride-account"; TLit "templateeditor"; TLit "titleblacklistlog"; TLit "torunblocked"; TLit "transcode-reset"; TLit "transcode-status"; TLit "unblockself"; TLit "undelete"; TLit "unreviewedpages"; TLit "unwatchedpages"; TLit "upload"; TLit "upload_by_url"; TLit "urlshortener-create-url"; TLit "urlshortener-manage-url"; TLit "urlshortener-view-log"; TLit "userrights"; TLit "userrights-interwiki"; TLit "validate"; TLit "viewdeletedfile"; TLit "viewmyprivateinfo"; TLit "viewmywatchlist"; TLit "viewsuppressed"; TLit "vipsscaler-test"; TLit "writeapi"]]) nodoc;
      MProp "pclimit" true (TRef ["limit"] []) nodoc;
      MProp "pccontinue" true (TKw "string") nodoc]
      nodoc;
    IInterface "QueryCoordinatesParams" [] [TRef ["Params"] []] [
      MProp "colimit" true (TRef ["limit"] []) nodoc;
      MProp "cocontinue" true (TKw "string") nodoc;
      MProp "coprop" true (TRef ["OneOrMore"] [TUnion [TLit "country"; TLit "dim"; TLit "globe"; TLit "name"; TLit "region"; TLit "type"]]) nodoc;
      MProp "coprimary" true (TUnion [TLit "all"; TLit "primary"; TLit "secondary"]) nodoc;
      MProp "codistancefrompoint" true (TKw "string") nodoc;
      MProp "codistancefrompage" true (TKw "string") nodoc]
      nodoc;
    IInterface "QueryDeletedTranslationsParams" [] [TRef ["Params"] []] [
      MProp "dtafter" true (TRef ["timestamp"] []) nodoc;
      MProp "dtnamespace" true (TRef ["namespace"] []) nodoc]
      nodoc;
    IInterface "QueryPublishedTranslationsParams" [] [TRef ["Params"] []] [
      MProp "from" true (TKw "string") nodoc;
      MProp "to" true (TKw "string") nodoc;
      MProp "limit" true (TRef ["limit"] []) nodoc;
      MProp "offset" true (TKw "string") nodoc]
      nodoc;
    IInterface "QueryTranslatorStatsParams" [] [TRef ["Params"] []] [
      MProp "translator" true (TKw "string") nodoc]
      nodoc;
    IInterface "QueryDeletedRevisionsParams" [] [TRef ["Params"] []] [
      MProp "drvprop" true (TRef ["OneOrMore"] [TUnion [TLit "comment"; TLit "content"; TLit "contentmodel"; TLit "flags"; TLit "ids"; TLit "parsedcomment"; TLit "roles"; TLit "sha1"; TLit "size"; TLit "slotsha1"; TLit "slotsize"; TLit "tags"; TLit "timestamp"; TLit "user"; TLit "userid"; TLit "parsetree"]]) nodoc;
      MProp "drvslots" true (TRef ["OneOrMore"] [TLit "main"]) nodoc;
      MProp "drvlimit" true (TRef ["limit"] []) nodoc;
      MProp "drvexpandtemplates" true (TKw "boolean") nodoc;
      MProp "drvgeneratexml" true (TKw "boolean") nodoc;
      MProp "drvparse" true (TKw "boolean") nodoc;
      MProp "drvsection" true (TKw "string") nodoc;
      MProp "drvdiffto" true (TKw "string") nodoc;
      MProp "drvdifftotext" true (TKw "string") nodoc;
      MProp "drvdifftotextpst" true (TKw "boolean") nodoc;
      MProp "drvcontentformat" true (TUnion [TLit "application/json"; TLit "application/octet-stream"; TLit "application/unknown"; TLit "application/x-binary"; TLit "text/css"; TLit "text/javascript"; TLit "text/plain"; TLit "text/unknown"; TLit "text/x-wiki"; TLit "unknown/unknown"]) nodoc;
      MProp "drvstart" true (TRef ["timestamp"] []) nodoc;
      MProp "drvend" true (TRef ["timestamp"] []) nodoc;
      MProp "drvdir" true (TUnion [TLit "newer"; TLit "older"]) nodoc;
      MProp "drvtag" true (TKw "string") nodoc;
      MProp "drvuser" true (TKw "string") nodoc;
      MProp "drvexcludeuser" true (TKw "string") nodoc;
      MProp "drvcontinue" true (TKw "string") nodoc]
      nodoc;
    IInterface "QueryDeletedrevsParams" [] [TRef ["Params"] []] [
      MProp "drstart" true (TRef ["timestamp"] []) nodoc;
      MProp "drend" true (TRef ["timestamp"] []) nodoc;
      MProp "drdir" true (TUnion [TLit "newer"; TLit "older"]) nodoc;
      MProp "drfrom" true (TKw "string") nodoc;
      MProp "drto" true (TKw "string") nodoc;
      MProp "drprefix" true (TKw "string") nodoc;
      MProp "drunique" true (TKw "boolean") nodoc;
      MProp "drnamespace" true (TRef ["namespace"] []) nodoc;
      MProp "drtag" true (TKw "string") nodoc;
      MProp "druser" true (TKw "string") nodoc;
      MProp "drexcludeuser" true (TKw "string") nodoc;
      MProp "drprop" true (TRef ["OneOrMore"] [TUnion [TLit "comment"; TLit "content"; TLit "len"; TLit "minor"; TLit "parentid"; TLit "parsedcomment"; TLit "revid"; TLit "sha1"; TLit "tags"; TLit "user"; TLit "userid"; TLit "token"]]) nodoc;
      MProp "drlimit" true (TRef ["limit"] []) nodoc;
      MProp "drcontinue" true (TKw "string") nodoc]
      nodoc;
    IInterface "DescriptionParams" [] [TRef ["Params"] []] [
      MProp "desccontinue" true (TKw "number") nodoc;
      MProp "descprefersource" true (TUnion [TLit "central"; TLit "local"]) nodoc]
      nodoc;
    IInterface "QueryDuplicateFilesParams" [] [TRef ["Params"] []] [
      MProp "dflimit" true (TRef ["limit"] []) nodoc;
      MProp "dfcontinue" true (TKw "string") nodoc;
      MProp "dfdir" true (TUnion [TLit "ascending"; TLit "descending"]) nodoc;
      MProp "dflocalonly" true (TKw "boolean") nodoc]
      nodoc;
    IInterface "QueryBacklinksParams" [] [TRef ["Params"] []] [
      MProp "eititle" true (TKw "string") nodoc;
      MProp "eipageid" true (TKw "number") nodoc;
      MProp "eicontinue" true (TKw "string") nodoc;
      MProp "einamespace" true (TUnion [TRef ["namespace"] []; TArray (TRef ["namespace"] [])]) nodoc;
      MProp "eidir" true (TUnion [TLit "ascending"; TLit "descending"]) nodoc;
      MProp "eifilterredir" true (TUnion [TLit "all"; TLit "nonredirects"; TLit "redirects"]) nodoc;
      MProp "eilimit" true (TRef ["limit"] []) nodoc]
      nodoc;
    IInterface "QueryExternalLinksParams" [] [TRef ["Params"] []] [
      MProp "ellimit" true (TRef ["limit"] []) nodoc;
      MProp "elcontinue" true (TKw "string") nodoc;
      MProp "elprotocol" true (TUnion [TLit EmptyString; TLit "bitcoin"; TLit "ftp"; TLit "ftps"; TLit "geo"; TLit "git"; TLit "gopher"; TLit "http"; TLit "https"; TLit "irc"; TLit "ircs"; TLit "magnet"; TLit "mailto"; TLit "matrix"; TLit "mms"; TLit "news"; TLit "nntp"; TLit "redis"; TLit "sftp"; TLit "sip"; TLit "sips"; TLit "sms"; TLit "ssh"; TLit "svn"; TLit "tel"; TLit "telnet"; TLit "urn"; TLit "worldwind"; TLit "xmpp"]) nodoc;
      MProp "elquery" true (TKw "string") nodoc;
      MProp "elexpandurl" true (TKw "boolean") nodoc]
      nodoc;
    IInterface "QueryExtractsParams" [] [TRef ["Params"] []] [
      MProp "exchars" true (TKw "number") nodoc;
      MProp "exsentences" true (TKw "number") nodoc;
      MProp "exlimit" true (TRef ["limit"] []) nodoc;
      MProp "exintro" true (TKw "boolean") nodoc;
      MProp "explaintext" true (TKw "boolean") nodoc;
      MProp "exsectionformat" true (TUnion [TLit "plain"; TLit "raw"; TLit "wiki"]) nodoc;
      MProp "excontinue" true (TKw "number") nodoc]
      nodoc;
    IInterface "QueryExtLinksUsageParams" [] [TRef ["Params"] []] [
      MProp "euprop" true (TRef ["OneOrMore"] [TUnion [TLit "ids"; TLit "title"; TLit "url"]]) nodoc;
      MProp "eucontinue" true (TKw "string") nodoc;
      MProp "euprotocol" true (TUnion [TLit EmptyString; TLit "bitcoin"; TLit "ftp"; TLit "ftps"; TLit "geo"; TLit "git"; TLit "gopher"; TLit "http"; TLit "https"; TLit "irc"; TLit "ircs"; TLit "magnet"; TLit "mailto"; TLit "matrix"; TLit "mms"; TLit "news"; TLit "nntp"; TLit "redis"; TLit "sftp"; TLit "sip"; TLit "sips"; TLit "sms"; TLit "ssh"; TLit "svn"; TLit "tel"; TLit "telnet"; TLit "urn"; TLit "worldwind"; TLit "xmpp"]) nodoc;
      MProp "euquery" true (TKw "string") nodoc;
      MProp "eunamespace" true (TUnion [TRef ["namespace"] []; TArray (TRef ["namespace"] [])]) nodoc;
      MProp "eulimit" true (TRef ["limit"] []) nodoc;
      MProp "euexpandurl" true (TKw "boolean") nodoc]
      nodoc;
    IInterface "QueryFeatureUsageParams" [] [TRef ["Params"] []] [
      MProp "afustart" true (TRef ["timestamp"] []) nodoc;
      MProp "afuend" true (TRef ["timestamp"] []) nodoc;
      MProp "afuagent" true (TKw "string") nodoc;
      MProp "afufeatures" true (TUnion [TKw "string"; TArray (TKw "string")]) nodoc]
      nodoc;
    IInterface "QueryFilearchiveParams" [] [TRef ["Params"] []] [
      MProp "fafrom" true (TKw "string") nodoc;
      MProp "fato" true (TKw "string") nodoc;
      MProp "faprefix" true (TKw "string") nodoc;
      MProp "fadir" true (TUnion [TLit "ascending"; TLit "descending"]) nodoc;
      MProp "fasha1" true (TKw "string") nodoc;
      MProp "fasha1base36" true (TKw "string") nodoc;
      MProp "faprop" true (TRef ["OneOrMore"] [TUnion [TLit "archivename"; TLit "bitdepth"; TLit "description"; TLit "dimensions"; TLit "mediatype"; TLit "metadata"; TLit "mime"; TLit "parseddescription"; TLit "sha1"; TLit "size"; TLit "timestamp"; TLit "user"]]) nodoc;
      MProp "falimit" true (TRef ["limit"] []) nodoc;
      MProp "facontinue" true (TKw "string") nodoc]
      nodoc;
    IInterface "QueryFileRepoInfoParams" [] [TRef ["Params"] []] [
      MProp "friprop" true (TRef ["OneOrMore"] [TUnion [TLit "canUpload"; TLit "descBaseUrl"; TLit "descriptionCacheExpiry"; TLit "displayname"; TLit "favicon"; TLit "fetchDescription"; TLit "initialCapital"; TLit "local"; TLit "name"; TLit "rootUrl"; TLit "scriptDirUrl"; TLit "thumbUrl"; TLit "url"]]) nodoc]
      nodoc;
    IInterface "QueryBacklinkspropParams" [] [TRef ["Params"] []] [
      MProp "fuprop" true (TRef ["OneOrMore"] [TUnion [TLit "pageid"; TLit "redirect"; TLit "title"]]) nodoc;
      MProp "funamespace" true (TUnion [TRef ["namespace"] []; TArray (TRef ["namespace"] [])]) nodoc;
      MProp "fushow" true (TRef ["OneOrMore"] [TUnion [TLit "!redirect"; TLit "redirect"]]) nodoc;
      MProp "fulimit" true (TRef ["limit"] []) nodoc;
      MProp "fucontinue" true (TKw "string") nodoc]
      nodoc;
    IInterface "QueryPropFlowInfoParams" [] [TRef ["Params"] []] []
      nodoc;
    IInterface "QueryGadgetCategoriesParams" [] [TRef ["Params"] []] [
      MProp "gcprop" true (TRef ["OneOrMore"] [TUnion [TLit "members"; TLit "name"; TLit "title"]]) nodoc;
      MProp "gcnames" true (TUnion [TKw "string"; TArray (TKw "string")]) nodoc]
      nodoc;
    IInterface "QueryGadgetsParams" [] [TRef ["Params"] []] [
      MProp "gaprop" true (TRef ["OneOrMore"] [TUnion [TLit "desc"; TLit "id"; TLit "metadata"]]) nodoc;
      MProp "gacategories" true (TUnion [TKw "string"; TArray (TKw "string")]) nodoc;
      MProp "gaids" true (TUnion [TKw "string"; TArray (TKw "string")]) nodoc;
      MProp "gaallowedonly" true (TKw "boolean") nodoc;
      MProp "gaenabledonly" true (TKw "boolean") nodoc]
      nodoc;
    IInterface "QueryGeoSearchElasticParams" [] [TRef ["Params"] []] [
      MProp "gscoord" true (TKw "string") nodoc;
      MProp "gspage" true (TKw "string") nodoc;
      MProp "gsbbox" true (TKw "string") nodoc;
      MProp "gsradius" true (TKw "number") nodoc;
      MProp "gsmaxdim" true (TKw "number") nodoc;
      MProp "gssort" true (TUnion [TLit "distance"; TLit "relevance"]) nodoc;
      MProp "gslimit" true (TRef ["limit"] []) nodoc;
      MProp "gsglobe" true (TLit "earth") nodoc;
      MProp "gsnamespace" true (TUnion [TRef ["namespace"] []; TArray (TRef ["namespace"] [])]) nodoc;
      MProp "gsprop" true (TRef ["OneOrMore"] [TUnion [TLit "country"; TLit "dim"; TLit "globe"; TLit "name"; TLit "region"; TLit "type"]]) nodoc;
      MProp "gsprimary" true (TUnion [TLit "all"; TLit "primary"; TLit "secondary"]) nodoc;
      MProp "gsdebug" true (TKw "boolean") nodoc]
      nodoc;
    IInterface "QueryGlobalAllUsersParams" [] [TRef ["Params"] []] [
      MProp "agufrom" true (TKw "string") nodoc;
      MProp "aguto" true (TKw "string") nodoc;
      MProp "aguprefix" true (TKw "string") nodoc;
      MProp "agudir" true (TUnion [TLit "ascending"; TLit "descending"]) nodoc;
      MProp "agugroup" true (TRef ["OneOrMore"] [TUnion [TLit "abusefilter-helper"; TLit "abusefilter-maintainer"; TLit "apihighlimits-requestor"; TLit "captcha-exempt"; TLit "founder"; TLit "global-bot"; TLit "global-deleter"; TLit "global-flow-create"; TLit "global-interface-editor"; TLit "global-ipblock-exempt"; TLit "global-rollbacker"; TLit "global-sysop"; TLit "new-wikis-importer"; TLit "oathauth-tester"; TLit "ombuds"; TLit "recursive-export"; TLit "staff"; TLit "steward"; TLit "sysadmin"; TLit "vrt-permissions"; TLit "wmf-email-block-override"; TLit "wmf-researcher"]]) nodoc;
      MProp "aguexcludegroup" true (TRef ["OneOrMore"] [TUnion [TLit "abusefilter-helper"; TLit "abusefilter-maintainer"; TLit "apihighlimits-requestor"; TLit "captcha-exempt"; TLit "founder"; TLit "global-bot"; TLit "global-deleter"; TLit "global-flow-create"; TLit "global-interface-editor"; TLit "global-ipblock-exempt"; TLit "global-rollbacker"; TLit "global-sysop"; TLit "new-wikis-importer"; TLit "oathauth-tester"; TLit "ombuds"; TLit "recursive-export"; TLit "staff"; TLit "steward"; TLit "sysadmin"; TLit "vrt-permissions"; TLit "wmf-email-block-override"; TLit "wmf-researcher"]]) nodoc;
      MProp "aguprop" true (TRef ["OneOrMore"] [TUnion [TLit "existslocally"; TLit "groups"; TLit "lockinfo"]]) nodoc;
      MProp "agulimit" true (TRef ["limit"] []) nodoc]
      nodoc;
    IInterface "QueryGlobalBlocksParams" [] [TRef ["Params"] []] [
      MProp "bgstart" true (TRef ["timestamp"] []) nodoc;
      MProp "bgend" true (TRef ["timestamp"] []) nodoc;
      MProp "bgdir" true (TUnion [TLit "newer"; TLit "older"]) nodoc;
      MProp "bgids" true (TUnion [TKw "number"; TArray (TKw "number")]) nodoc;
      MProp "bgaddresses" true (TUnion [TKw "string"; TArray (TKw "string")]) nodoc;
      MProp "bgip" true (TKw "string") nodoc;
      MProp "bglimit" true (TRef ["limit"] []) nodoc;
      MProp "bgprop" true (TRef ["OneOrMore"] [TUnion [TLit "address"; TLit "by"; TLit "expiry"; TLit "id"; TLit "range"; TLit "reason"; TLit "timestamp"]]) nodoc]
      nodoc;
    IInterface "QueryGlobalGroupsParams" [] [TRef ["Params"] []] [
      MProp "ggpprop" true (TRef ["OneOrMore"] [TLit "rights"]) nodoc]
      nodoc;
    IInterface "QueryGlobalPreferencesParams" [] [TRef ["Params"] []] [
      MProp "gprprop" true (TRef ["OneOrMore"] [TUnion [TLit "localoverrides"; TLit "preferences"]]) nodoc]
      nodoc;
    IInterface "QueryGlobalRenameStatusParams" [] [TRef ["Params"] []] [
      MProp "grsuser" true (TKw "string") nodoc]
      nodoc;
    IInterface "QueryGlobalUsageParams" [] [TRef ["Params"] []] [
      MProp "guprop" true (TRef ["OneOrMore"] [TUnion [TLit "namespace"; TLit "pageid"; TLit "url"]]) nodoc;
      MProp "gulimit" true (TRef ["limit"] []) nodoc;
      MProp "gunamespace" true (TUnion [TRef ["namespace"] []; TArray (TRef ["namespace"] [])]) nodoc;
      MProp "gusite" true (TUnion [TKw "string"; TArray (TKw "string")]) nodoc;
      MProp "gucontinue" true (TKw "string") nodoc;
      MProp "gufilterlocal" true (TKw "boolean") nodoc]
      nodoc;
    IInterface "QueryGlobalUserInfoParams" [] [TRef ["Params"] []] [
      MProp "guiuser" true (TKw "string") nodoc;
      MProp "guiid" true (TKw "number") nodoc;
      MProp "guiprop" true (TRef ["OneOrMore"] [TUnion [TLit "editcount"; TLit "groups"; TLit "merged"; TLit "rights"; TLit "unattached"]]) nodoc]
      nodoc;
    IInterface "QueryImageSuggestionDataParams" [] [TRef ["Params"] []] [
      MProp "gisdtasktype" true (TUnion [TLit "image-recommendation"; TLit "section-image-recommendation"]) nodoc;
      MProp "gisdcontinue" true (TKw "string") nodoc]
      nodoc;
    IInterface "QueryMenteeStatusParams" [] [TRef ["Params"] []] []
      nodoc;
    IInterface "QueryMentorListParams" [] [TRef ["Params"] []] []
      nodoc;
    IInterface "QueryMentorMenteeParams" [] [TRef ["Params"] []] [
      MProp "gemmmentor" true (TKw "string") nodoc]
      nodoc;
    IInterface "QueryMentorStatusParams" [] [TRef ["Params"] []] []
      nodoc;
    IInterface "QueryNextSuggestedTaskTypeParams" [] [TRef ["Params"] []] [
      MProp "gnsttactivetasktype" true (TUnion [TLit "copyedit"; TLit "expand"; TLit "image-recommendation"; TLit "link-recommendation"; TLit "links"; TLit "references"; TLit "section-image-recommendation"; TLit "update"]) nodoc]
      nodoc;
    IInterface "QueryStarredMenteesParams" [] [TRef ["Params"] []] []
      nodoc;
    IInterface "QueryGrowthTasksParams" [] [TRef ["Params"] []] [
      MProp "gttasktypes" true (TRef ["OneOrMore"] [TUnion [TLit "copyedit"; TLit "expand"; TLit "image-recommendation"; TLit "link-recommendation"; TLit "links"; TLit "references"; TLit "section-image-recommendation"; TLit "update"]]) nodoc;
      MProp "gttopics" true (TRef ["OneOrMore"] [TUnion [TLit "africa"; TLit "architecture"; TLit "art"; TLit "asia"; TLit "biography"; TLit "biology"; TLit "business-and-economics"; TLit "central-america"; TLit "chemistry"; TLit "comics-and-anime"; TLit "computers-and-internet"; TLit "earth-and-environment"; TLit "education"; TLit "engineering"; TLit "entertainment"; TLit "europe"; TLit "fashion"; TLit "food-and-drink"; TLit "general-science"; TLit "history"; TLit "literature"; TLit "mathematics"; TLit "medicine-and-health"; TLit "military-and-warfare"; TLit "music"; TLit "north-america"; TLit "oceania"; TLit "performing-arts"; TLit "philosophy-and-religion"; TLit "physics"; TLit "politics-and-government"; TLit "society"; TLit "south-america"; TLit "sports"; TLit "technology"; TLit "transportation"; TLit "tv-and-film"; TLit "video-games"; TLit "women"]]) nodoc;
      MProp "gttopicsmode" true (TUnion [TLit "AND"; TLit "OR"]) nodoc;
      MProp "gtlimit" true (TRef ["limit"] []) nodoc;
      MProp "gtoffset" true (TKw "number") nodoc;
      MProp "gtdebug" true (TKw "boolean") nodoc;
      MProp "gtexcludepageids" true (TUnion [TKw "number"; TArray (TKw "number")]) nodoc]
      nodoc;
    IInterface "QueryImageInfoParams" [] [TRef ["Params"] []] [
      MProp "iiprop" true (TRef ["OneOrMore"] [TUnion [TLit "archivename"; TLit "badfile"; TLit "bitdepth"; TLit "canonicaltitle"; TLit "comment"; TLit "commonmetadata"; TLit "dimensions"; TLit "extmetadata"; TLit "mediatype"; TLit "metadata"; TLit "mime"; TLit "parsedcomment"; TLit "sha1"; TLit "size"; TLit "thumbmime"; TLit "timestamp"; TLit "uploadwarning"; TLit "url"; TLit "user"; TLit "userid"]]) nodoc;
      MProp "iilimit" true (TRef ["limit"] []) nodoc;
      MProp "iistart" true (TRef ["timestamp"] []) nodoc;
      MProp "iiend" true (TRef ["timestamp"] []) nodoc;
      MProp "iiurlwidth" true (TKw "number") nodoc;
      MProp "iiurlheight" true (TKw "number") nodoc;
      MProp "iimetadataversion" true (TKw "string") nodoc;
      MProp "iiextmetadatalanguage" true (TKw "string") nodoc;
      MProp "iiextmetadatamultilang" true (TKw "boolean") nodoc;
      MProp "iiextmetadatafilter" true (TUnion [TKw "string"; TArray (TKw "string")]) nodoc;
      MProp "iiurlparam" true (TKw "string") nodoc;
      MProp "iibadfilecontexttitle" true (TKw "string") nodoc;
      MProp "iicontinue" true (TKw "string") nodoc;
      MProp "iilocalonly" true (TKw "boolean") nodoc]
      nodoc;
    IInterface "QueryImagesParams" [] [TRef ["Params"] []] [
      MProp "imlimit" true (TRef ["limit"] []) nodoc;
      MProp "imcontinue" true (TKw "string") nodoc;
      MProp "imimages" true (TUnion [TKw "string"; TArray (TKw "string")]) nodoc;
      MProp "imdir" true (TUnion [TLit "ascending"; TLit "descending"]) nodoc]
      nodoc;
    IInterface "QueryBacklinksParams" [] [TRef ["Params"] []] [
      MProp "iutitle" true (TKw "string") nodoc;
      MProp "iupageid" true (TKw "number") nodoc;
      MProp "iucontinue" true (TKw "string") nodoc;
      MProp "iunamespace" true (TUnion [TRef ["namespace"] []; TArray (TRef ["namespace"] [])]) nodoc;
      MProp "iudir" true (TUnion [TLit "ascending"; TLit "descending"]) nodoc;
      MProp "iufilterredir" true (TUnion [TLit "all"; TLit "nonredirects"; TLit "redirects"]) nodoc;
      MProp "iulimit" true (TRef ["limit"] []) nodoc;
      MProp "iuredirect" true (TKw "boolean") nodoc]
      nodoc;
    IInterface "QueryInfoParams" [] [TRef ["Params"] []] [
      MProp "inprop" true (TRef ["OneOrMore"] [TUnion [TLit "associatedpage"; TLit "displaytitle"; TLit "editintro"; TLit "linkclasses"; TLit "notificationtimestamp"; TLit "preloadcontent"; TLit "protection"; TLit "subjectid"; TLit "talkid"; TLit "url"; TLit "varianttitles"; TLit "visitingwatchers"; TLit "watched"; TLit "watchers"; TLit "preload"; TLit "readable"]]) nodoc;
      MProp "inlinkcontext" true (TKw "string") nodoc;
      MProp "intestactions" true (TUnion [TKw "string"; TArray (TKw "string")]) nodoc;
      MProp "intestactionsdetail" true (TUnion [TLit "boolean"; TLit "full"; TLit "quick"]) nodoc;
      MProp "intestactionsautocreate" true (TKw "boolean") nodoc;
      MProp "inpreloadcustom" true (TKw "string") nodoc;
      MProp "inpreloadparams" true (TUnion [TKw "string"; TArray (TKw "string")]) nodoc;
      MProp "inpreloadnewsection" true (TKw "boolean") nodoc;
      MProp "ineditintrostyle" true (TUnion [TLit "lessframes"; TLit "moreframes"]) nodoc;
      MProp "ineditintroskip" true (TUnion [TKw "string"; TArray (TKw "string")]) nodoc;
      MProp "ineditintrocustom" true (TKw "string") nodoc;
      MProp "incontinue" true (TKw "string") nodoc]
      nodoc;
    IInterface "QueryIWBacklinksParams" [] [TRef ["Params"] []] [
      MProp "iwblprefix" true (TKw "string") nodoc;
      MProp "iwbltitle" true (TKw "string") nodoc;
      MProp "iwblcontinue" true (TKw "string") nodoc;
      MProp "iwbllimit" true (TRef ["limit"] []) nodoc;
      MProp "iwblprop" true (TRef ["OneOrMore"] [TUnion [TLit "iwprefix"; TLit "iwtitle"]]) nodoc;
      MProp "iwbldir" true (TUnion [TLit "ascending"; TLit "descending"]) nodoc]
      nodoc;
    IInterface "QueryIWLinksParams" [] [TRef ["Params"] []] [
      MProp "iwprop" true (TRef ["OneOrMore"] [TLit "url"]) nodoc;
      MProp "iwprefix" true (TKw "string") nodoc;
      MProp "iwtitle" true (TKw "string") nodoc;
      MProp "iwdir" true (TUnion [TLit "ascending"; TLit "descending"]) nodoc;
      MProp "iwlimit" true (TRef ["limit"] []) nodoc;
      MProp "iwcontinue" true (TKw "string") nodoc;
      MProp "iwurl" true (TKw "boolean") nodoc]
      nodoc;
    IInterface "QueryLangBacklinksParams" [] [TRef ["Params"] []] [
      MProp "lbllang" true (TKw "string") nodoc;
      MProp "lbltitle" true (TKw "string") nodoc;
      MProp "lblcontinue" true (TKw "string") nodoc;
      MProp "lbllimit" true (TRef ["limit"] []) nodoc;
      MProp "lblprop" true (TRef ["OneOrMore"] [TUnion [TLit "lllang"; TLit "lltitle"]]) nodoc;
      MProp "lbldir" true (TUnion [TLit "ascending"; TLit "descending"]) nodoc]
      nodoc;
    IInterface "QueryLangLinksParams" [] [TRef ["Params"] []] [
      MProp "llprop" true (TRef ["OneOrMore"] [TUnion [TLit "autonym"; TLit "langname"; TLit "url"]]) nodoc;
      MProp "lllang" true (TKw "string") nodoc;
      MProp "lltitle" true (TKw "string") nodoc;
      MProp "lldir" true (TUnion [TLit "ascending"; TLit "descending"]) nodoc;
      MProp "llinlanguagecode" true (TKw "string") nodoc;
      MProp "lllimit" true (TRef ["limit"] []) nodoc;
      MProp "llcontinue" true (TKw "string") nodoc;
      MProp "llurl" true (TKw "boolean") nodoc]
      nodoc;
    IInterface "QueryLangLinksCountParams" [] [TRef ["Params"] []] []
      nodoc;
    IInterface "QueryLanguageinfoParams" [] [TRef ["Params"] []] [
      MProp "liprop" true (TRef ["OneOrMore"] [TUnion [TLit "autonym"; TLit "bcp47"; TLit "code"; TLit "dir"; TLit "fallbacks"; TLit "name"; TLit "variantnames"; TLit "variants"]]) nodoc;
      MProp "licode" true (TUnion [TKw "string"; TArray (TKw "string")]) nodoc;
      MProp "licontinue" true (TKw "string") nodoc]
      nodoc;
    IInterface "QueryLinksParams" [] [TRef ["Params"] []] [
      MProp "plnamespace" true (TUnion [TRef ["namespace"] []; TArray (TRef ["namespace"] [])]) nodoc;
      MProp "pllimit" true (TRef ["limit"] []) nodoc;
      MProp "plcontinue" true (TKw "string") nodoc;
      MProp "pltitles" true (TUnion [TKw "string"; TArray (TKw "string")]) nodoc;
      MProp "pldir" true (TUnion [TLit "ascending"; TLit "descending"]) nodoc]
      nodoc;
    IInterface "QueryBacklinkspropParams" [] [TRef ["Params"] []] [
      MProp "lhprop" true (TRef ["OneOrMore"] [TUnion [TLit "pageid"; TLit "redirect"; TLit "title"]]) nodoc;
      MProp "lhnamespace" true (TUnion [TRef ["namespace"] []; TArray (TRef ["namespace"] [])]) nodoc;
      MProp "lhshow" true (TRef ["OneOrMore"] [TUnion [TLit "!redirect"; TLit "redirect"]]) nodoc;
      MProp "lhlimit" true (TRef ["limit"] []) nodoc;
      MProp "lhcontinue" true (TKw "string") nodoc]
      nodoc;
    IInterface "QueryLintErrorsParams" [] [TRef ["Params"] []] [
      MProp "lntcategories" true (TRef ["OneOrMore"] [TUnion [TLit "bogus-image-options"; TLit "deletable-table-tag"; TLit "fostered"; TLit "html5-misnesting"; TLit "misc-tidy-replacement-issues"; TLit "misnested-tag"; TLit "missing-end-tag"; TLit "missing-end-tag-in-heading"; TLit "multi-colon-escape"; TLit "multiline-html-table-in-list"; TLit "multiple-unclosed-formatting-tags"; TLit "obsolete-tag"; TLit "pwrap-bug-workaround"; TLit "self-closed-tag"; TLit "stripped-tag"; TLit "tidy-font-bug"; TLit "tidy-whitespace-bug"; TLit "unclosed-quotes-in-heading"; TLit "wikilink-in-extlink"]]) nodoc;
      MProp "lntinvisible-categories" true (TRef ["OneOrMore"] [TLit "large-tables"]) nodoc;
      MProp "lntlimit" true (TRef ["limit"] []) nodoc;
      MProp "lntnamespace" true (TUnion [TRef ["namespace"] []; TArray (TRef ["namespace"] [])]) nodoc;
      MProp "lntpageid" true (TUnion [TKw "number"; TArray (TKw "number")]) nodoc;
      MProp "lnttitle" true (TKw "string") nodoc;
      MProp "lntfrom" true (TKw "number") nodoc]
      nodoc;
    IInterface "QueryLinterStatsParams" [] [TRef ["Params"] []] []
      nodoc;
    IInterface "QueryLogEventsParams" [] [TRef ["Params"] []] [
      MProp "leprop" true (TRef ["OneOrMore"] [TUnion [TLit "comment"; TLit "details"; TLit "ids"; TLit "parsedcomment"; TLit "tags"; TLit "timestamp"; TLit "title"; TLit "type"; TLit "user"; TLit "userid"]]) nodoc;
      MProp "letype" true (TUnion [TLit EmptyString; TLit "abusefilter"; TLit "abusefilterblockeddomainhit"; TLit "abusefilterprivatedetails"; TLit "block"; TLit "checkuser-temporary-account"; TLit "contentmodel"; TLit "create"; TLit "delete"; TLit "gblblock"; TLit "gblrename"; TLit "gblrights"; TLit "globalauth"; TLit "growthexperiments"; TLit "import"; TLit "ipinfo"; TLit "managetags"; TLit "massmessage"; TLit "merge"; TLit "move"; TLit "newusers"; TLit "oath"; TLit "patrol"; TLit "protect"; TLit "renameuser"; TLit "rights"; TLit "spamblacklist"; TLit "suppress"; TLit "tag"; TLit "thanks"; TLit "timedmediahandler"; TLit "titleblacklist"; TLit "upload"; TLit "urlshortener"; TLit "usermerge"]) nodoc;
      MProp "leaction" true (TUnion [TLit "abusefilter/create"; TLit "abusefilter/hit"; TLit "abusefilter/modify"; TLit "abusefilterblockeddomainhit/*"; TLit "abusefilterprivatedetails/access"; TLit "block/block"; TLit "block/reblock"; TLit "block/unblock"; TLit "checkuser-private-event/*"; TLit "checkuser-temporary-account/*"; TLit "contentmodel/change"; TLit "contentmodel/new"; TLit "create/create"; TLit "delete/delete"; TLit "delete/delete_redir"; TLit "delete/delete_redir2"; TLit "delete/event"; TLit "delete/flow-delete-post"; TLit "delete/flow-delete-topic"; TLit "delete/flow-restore-post"; TLit "delete/flow-restore-topic"; TLit "delete/restore"; TLit "delete/revision"; TLit "gblblock/dwhitelist"; TLit "gblblock/gblock"; TLit "gblblock/gblock2"; TLit "gblblock/gunblock"; TLit "gblblock/modify"; TLit "gblblock/whitelist"; TLit "gblrename/merge"; TLit "gblrename/promote"; TLit "gblrename/rename"; TLit "gblrights/deleteset"; TLit "gblrights/groupperms"; TLit "gblrights/groupprms2"; TLit "gblrights/groupprms3"; TLit "gblrights/grouprename"; TLit "gblrights/newset"; TLit "gblrights/setchange"; TLit "gblrights/setnewtype"; TLit "gblrights/setrename"; TLit "gblrights/usergroups"; TLit "globalauth/delete"; TLit "globalauth/hide"; TLit "globalauth/lock"; TLit "globalauth/lockandhid"; TLit "globalauth/setstatus"; TLit "globalauth/unhide"; TLit "globalauth/unlock"; TLit "growthexperiments/addimage"; TLit "growthexperiments/addlink"; TLit "growthexperiments/addsectionimage"; TLit "growthexperiments/claimmentee"; TLit "growthexperiments/claimmentee-no-previous-mentor"; TLit "growthexperiments/setmentor"; TLit "growthexperiments/setmentor-no-previous-mentor"; TLit "import/interwiki"; TLit "import/lqt-to-flow-topic"; TLit "import/upload"; TLit "interwiki/*"; TLit "ipinfo/*"; TLit "lock/flow-lock-topic"; TLit "lock/flow-restore-topic"; TLit "managetags/activate"; TLit "managetags/create"; TLit "managetags/deactivate"; TLit "managetags/delete"; TLit "massmessage/*"; TLit "massmessage/failure"; TLit "massmessage/send"; TLit "massmessage/skipbadns"; TLit "massmessage/skipnouser"; TLit "massmessage/skipoptout"; TLit "merge/merge"; TLit "move/move"; TLit "move/move_redir"; TLit "newusers/autocreate"; TLit "newusers/byemail"; TLit "newusers/create"; TLit "newusers/create2"; TLit "newusers/forcecreatelocal"; TLit "newusers/newusers"; TLit "oath/*"; TLit "patrol/autopatrol"; TLit "patrol/patrol"; TLit "protect/modify"; TLit "protect/move_prot"; TLit "protect/protect"; TLit "protect/unprotect"; TLit "renameuser/renameuser"; TLit "rights/autopromote"; TLit "rights/blockautopromote"; TLit "rights/restoreautopromote"; TLit "rights/rights"; TLit "spamblacklist/*"; TLit "suppress/block"; TLit "suppress/cadelete"; TLit "suppress/delete"; TLit "suppress/event"; TLit "suppress/flow-restore-post"; TLit "suppress/flow-restore-topic"; TLit "suppress/flow-suppress-post"; TLit "suppress/flow-suppress-topic"; TLit "suppress/hide-afl"; TLit "suppress/reblock"; TLit "suppress/revision"; TLit "suppress/setstatus"; TLit "suppress/unhide-afl"; TLit "tag/update"; TLit "thanks/*"; TLit "timedmediahandler/resettranscode"; TLit "titleblacklist/*"; TLit "upload/overwrite"; TLit "upload/revert"; TLit "upload/upload"; TLit "urlshortener/*"; TLit "usermerge/*"]) nodoc;
      MProp "lestart" true (TRef ["timestamp"] []) nodoc;
      MProp "leend" true (TRef ["timestamp"] []) nodoc;
      MProp "ledir" true (TUnion [TLit "newer"; TLit "older"]) nodoc;
      MProp "leuser" true (TKw "string") nodoc;
      MProp "letitle" true (TKw "string") nodoc;
      MProp "lenamespace" true (TRef ["namespace"] []) nodoc;
      MProp "leprefix" true (TKw "string") nodoc;
      MProp "letag" true (TKw "string") nodoc;
      MProp "lelimit" true (TRef ["limit"] []) nodoc;
      MProp "lecontinue" true (TKw "string") nodoc]
      nodoc;
    IInterface "QueryMapDataParams" [] [TRef ["Params"] []] [
      MProp "mpdgroups" true (TKw "string") nodoc;
      MProp "mpdlimit" true (TRef ["limit"] []) nodoc;
      MProp "mpdcontinue" true (TKw "number") nodoc]
      nodoc;
    IInterface "QueryMMContentParams" [] [TRef ["Params"] []] []
      nodoc;
    IInterface "QueryMostViewedParams" [] [TRef ["Params"] []] [
      MProp "pvimmetric" true (TLit "pageviews") nodoc;
      MProp "pvimlimit" true (TRef ["limit"] []) nodoc;
      MProp "pvimoffset" true (TKw "number") nodoc]
      nodoc;
    IInterface "QueryMyStashedFilesParams" [] [TRef ["Params"] []] [
      MProp "msfprop" true (TRef ["OneOrMore"] [TUnion [TLit "size"; TLit "type"]]) nodoc;
      MProp "msflimit" true (TRef ["limit"] []) nodoc;
      MProp "msfcontinue" true (TKw "string") nodoc]
      nodoc;
    IInterface "EchoNotificationsParams" [] [TRef ["Params"] []] [
      MProp "notwikis" true (TUnion [TKw "string"; TArray (TKw "string")]) nodoc;
      MProp "notfilter" true (TRef ["OneOrMore"] [TUnion [TLit "!read"; TLit "read"]]) nodoc;
      MProp "notprop" true (TRef ["OneOrMore"] [TUnion [TLit "count"; TLit "list"; TLit "seenTime"]]) nodoc;
      MProp "notsections" true (TRef ["OneOrMore"] [TUnion [TLit "alert"; TLit "message"]]) nodoc;
      MProp "notgroupbysection" true (TKw "boolean") nodoc;
      MProp "notformat" true (TUnion [TLit "flyout"; TLit "html"; TLit "model"; TLit "special"]) nodoc;
      MProp "notlimit" true (TRef ["limit"] []) nodoc;
      MProp "notcontinue" true (TKw "string") nodoc;
      MProp "notunreadfirst" true (TKw "boolean") nodoc;
      MProp "nottitles" true (TUnion [TKw "string"; TArray (TKw "string")]) nodoc;
      MProp "notbundle" true (TKw "boolean") nodoc;
      MProp "notnotifiertypes" true (TRef ["OneOrMore"] [TUnion [TLit "email"; TLit "push"; TLit "web"]]) nodoc;
      MProp "notalertcontinue" true (TKw "string") nodoc;
      MProp "notalertunreadfirst" true (TKw "boolean") nodoc;
      MProp "notmessagecontinue" true (TKw "string") nodoc;
      MProp "notmessageunreadfirst" true (TKw "boolean") nodoc;
      MProp "notcrosswikisummary" true (TKw "boolean") nodoc]
      nodoc;
    IInterface "QueryOATHParams" [] [TRef ["Params"] []] [
      MProp "oathuser" true (TKw "string") nodoc;
      MProp "oathreason" true (TKw "string") nodoc]
      nodoc;
    IInterface "QueryORESParams" [] [TRef ["Params"] []] []
      nodoc;
    IInterface "QueryPageAssessmentsParams" [] [TRef ["Params"] []] [
      MProp "pacontinue" true (TKw "string") nodoc;
      MProp "palimit" true (TRef ["limit"] []) nodoc]
      nodoc;
    IInterface "QueryPageImagesParams" [] [TRef ["Params"] []] [
      MProp "piprop" true (TRef ["OneOrMore"] [TUnion [TLit "name"; TLit "original"; TLit "thumbnail"]]) nodoc;
      MProp "pithumbsize" true (TKw "number") nodoc;
      MProp "pilimit" true (TRef ["limit"] []) nodoc;
      MProp "pilicense" true (TUnion [TLit "any"; TLit "free"]) nodoc;
      MProp "picontinue" true (TKw "number") nodoc;
      MProp "pilangcode" true (TKw "string") nodoc]
      nodoc;
    IInterface "QueryPagePropNamesParams" [] [TRef ["Params"] []] [
      MProp "ppncontinue" true (TKw "string") nodoc;
      MProp "ppnlimit" true (TRef ["limit"] []) nodoc]
      nodoc;
    IInterface "QueryPagePropsParams" [] [TRef ["Params"] []] [
      MProp "ppcontinue" true (TKw "string") nodoc;
      MProp "ppprop" true (TUnion [TKw "string"; TArray (TKw "string")]) nodoc]
      nodoc;
    IInterface "QueryPagesWithPropParams" [] [TRef ["Params"] []] [
      MProp "pwppropname" true (TKw "string") nodoc;
      MProp "pwpprop" true (TRef ["OneOrMore"] [TUnion [TLit "ids"; TLit "title"; TLit "value"]]) nodoc;
      MProp "pwpcontinue" true (TKw "string") nodoc;
      MProp "pwplimit" true (TRef ["limit"] []) nodoc;
      MProp "pwpdir" true (TUnion [TLit "ascending"; TLit "descending"]) nodoc]
      nodoc;
    IInterface "PageTermsParams" [] [TRef ["Params"] []] [
      MProp "wbptcontinue" true (TKw "number") nodoc;
      MProp "wbptlanguage" true (TUnion [TLit "aa"; TLit "aae"; TLit "ab"; TLit "abs"; TLit "ace"; TLit "acm"; TLit "ady"; TLit "ady-cyrl"; TLit "aeb"; TLit "aeb-arab"; TLit "aeb-latn"; TLit "af"; TLit "agq"; TLit "aln"; TLit "als"; TLit "alt"; TLit "am"; TLit "ami"; TLit "an"; TLit "ang"; TLit "ann"; TLit "anp"; TLit "ar"; TLit "arc"; TLit "arn"; TLit "arq"; TLit "ary"; TLit "arz"; TLit "as"; TLit "ase"; TLit "ast"; TLit "atj"; TLit "av"; TLit "avk"; TLit "awa"; TLit "ay"; TLit "az"; TLit "azb"; TLit "ba"; TLit "bag"; TLit "ban"; TLit "ban-bali"; TLit "bar"; TLit "bas"; TLit "bat-smg"; TLit "bax"; TLit "bbc"; TLit "bbc-latn"; TLit "bbj"; TLit "bcc"; TLit "bci"; TLit "bcl"; TLit "bdr"; TLit "be"; TLit "be-tarask"; TLit "be-x-old"; TLit "bew"; TLit "bfd"; TLit "bg"; TLit "bgn"; TLit "bh"; TLit "bho"; TLit "bi"; TLit "bjn"; TLit "bkc"; TLit "bkh"; TLit "bkm"; TLit "blk"; TLit "bm"; TLit "bn"; TLit "bo"; TLit "bpy"; TLit "bqi"; TLit "bqz"; TLit "br"; TLit "brh"; TLit "bs"; TLit "btm"; TLit "bto"; TLit "bug"; TLit "bxr"; TLit "byv"; TLit "ca"; TLit "cak"; TLit "cal"; TLit "cbk-zam"; TLit "cdo"; TLit "ce"; TLit "ceb"; TLit "ch"; TLit "cho"; TLit "chr"; TLit "chy"; TLit "ckb"; TLit "cnh"; TLit "co"; TLit "cps"; TLit "cpx"; TLit "cpx-hans"; TLit "cpx-hant"; TLit "cpx-latn"; TLit "cr"; TLit "crh"; TLit "crh-cyrl"; TLit "crh-latn"; TLit "crh-ro"; TLit "cs"; TLit "csb"; TLit "cu"; TLit "cv"; TLit "cy"; TLit "da"; TLit "dag"; TLit "de"; TLit "de-at"; TLit "de-ch"; TLit "de-formal"; TLit "dga"; TLit "din"; TLit "diq"; TLit "dsb"; TLit "dtp"; TLit "dty"; TLit "dua"; TLit "dv"; TLit "dz"; TLit "ee"; TLit "efi"; TLit "egl"; TLit "el"; TLit "eml"; TLit "en"; TLit "en-ca"; TLit "en-gb"; TLit "en-us"; TLit "eo"; TLit "es"; TLit "es-419"; TLit "es-formal"; TLit "et"; TLit "eto"; TLit "etu"; TLit "eu"; TLit "ewo"; TLit "ext"; TLit "fa"; TLit "fat"; TLit "ff"; TLit "fi"; TLit "fit"; TLit "fiu-vro"; TLit "fj"; TLit "fkv"; TLit "fmp"; TLit "fo"; TLit "fon"; TLit "fr"; TLit "frc"; TLit "frp"; TLit "frr"; TLit "fur"; TLit "fy"; TLit "ga"; TLit "gaa"; TLit "gag"; TLit "gan"; TLit "gan-hans"; TLit "gan-hant"; TLit "gcf"; TLit "gcr"; TLit "gd"; TLit "gl"; TLit "gld"; TLit "glk"; TLit "gn"; TLit "gom"; TLit "gom-deva"; TLit "gom-latn"; TLit "gor"; TLit "got"; TLit "gpe"; TLit "grc"; TLit "gsw"; TLit "gu"; TLit "guc"; TLit "gur"; TLit "guw"; TLit "gv"; TLit "gya"; TLit "ha"; TLit "hak"; TLit "haw"; TLit "he"; TLit "hi"; TLit "hif"; TLit "hif-latn"; TLit "hil"; TLit "hno"; TLit "ho"; TLit "hr"; TLit "hrx"; TLit "hsb"; TLit "hsn"; TLit "ht"; TLit "hu"; TLit "hu-formal"; TLit "hy"; TLit "hyw"; TLit "hz"; TLit "ia"; TLit "id"; TLit "ie"; TLit "ig"; TLit "igl"; TLit "ii"; TLit "ik"; TLit "ike-cans"; TLit "ike-latn"; TLit "ilo"; TLit "inh"; TLit "io"; TLit "is"; TLit "isu"; TLit "it"; TLit "iu"; TLit "ja"; TLit "jam"; TLit "jbo"; TLit "jut"; TLit "jv"; TLit "ka"; TLit "kaa"; TLit "kab"; TLit "kai"; TLit "kbd"; TLit "kbd-cyrl"; TLit "kbp"; TLit "kcg"; TLit "kea"; TLit "ker"; TLit "kg"; TLit "kge"; TLit "khw"; TLit "ki"; TLit "kiu"; TLit "kj"; TLit "kjh"; TLit "kjp"; TLit "kk"; TLit "kk-arab"; TLit "kk-cn"; TLit "kk-cyrl"; TLit "kk-kz"; TLit "kk-latn"; TLit "kk-tr"; TLit "kl"; TLit "km"; TLit "kn"; TLit "ko"; TLit "ko-kp"; TLit "koi"; TLit "kr"; TLit "krc"; TLit "kri"; TLit "krj"; TLit "krl"; TLit "ks"; TLit "ks-arab"; TLit "ks-deva"; TLit "ksf"; TLit "ksh"; TLit "ksw"; TLit "ku"; TLit "ku-arab"; TLit "ku-latn"; TLit "kum"; TLit "kus"; TLit "kv"; TLit "kw"; TLit "ky"; TLit "la"; TLit "lad"; TLit "lb"; TLit "lbe"; TLit "lem"; TLit "lez"; TLit "lfn"; TLit "lg"; TLit "li"; TLit "lij"; TLit "liv"; TLit "lki"; TLit "lld"; TLit "lmo"; TLit "ln"; TLit "lns"; TLit "lo"; TLit "loz"; TLit "lrc"; TLit "lt"; TLit "ltg"; TLit "lus"; TLit "luz"; TLit "lv"; TLit "lzh"; TLit "lzz"; TLit "mad"; TLit "mag"; TLit "mai"; TLit "map-bms"; TLit "mcn"; TLit "mcp"; TLit "mdf"; TLit "mg"; TLit "mh"; TLit "mhr"; TLit "mi"; TLit "min"; TLit "mk"; TLit "ml"; TLit "mn"; TLit "mnc"; TLit "mnc-latn"; TLit "mnc-mong"; TLit "mni"; TLit "mnw"; TLit "mo"; TLit "mos"; TLit "mr"; TLit "mrh"; TLit "mrj"; TLit "ms"; TLit "ms-arab"; TLit "mt"; TLit "mua"; TLit "mus"; TLit "mwl"; TLit "my"; TLit "myv"; TLit "mzn"; TLit "na"; TLit "nah"; TLit "nan"; TLit "nan-hani"; TLit "nap"; TLit "nb"; TLit "nds"; TLit "nds-nl"; TLit "ne"; TLit "new"; TLit "ng"; TLit "nge"; TLit "nia"; TLit "nit"; TLit "niu"; TLit "nl"; TLit "nl-informal"; TLit "nla"; TLit "nmg"; TLit "nmz"; TLit "nn"; TLit "nnh"; TLit "nnz"; TLit "no"; TLit "nod"; TLit "nog"; TLit "nov"; TLit "nqo"; TLit "nrm"; TLit "nso"; TLit "nv"; TLit "ny"; TLit "nyn"; TLit "nyo"; TLit "nys"; TLit "oc"; TLit "ojb"; TLit "olo"; TLit "om"; TLit "or"; TLit "os"; TLit "osa-latn"; TLit "ota"; TLit "pa"; TLit "pag"; TLit "pam"; TLit "pap"; TLit "pap-aw"; TLit "pcd"; TLit "pcm"; TLit "pdc"; TLit "pdt"; TLit "pfl"; TLit "pi"; TLit "pih"; TLit "pl"; TLit "pms"; TLit "pnb"; TLit "pnt"; TLit "prg"; TLit "ps"; TLit "pt"; TLit "pt-br"; TLit "pwn"; TLit "qu"; TLit "quc"; TLit "qug"; TLit "rgn"; TLit "rif"; TLit "rki"; TLit "rm"; TLit "rmc"; TLit "rmf"; TLit "rmy"; TLit "rn"; TLit "ro"; TLit "roa-rup"; TLit "roa-tara"; TLit "rsk"; TLit "ru"; TLit "rue"; TLit "rup"; TLit "ruq"; TLit "ruq-cyrl"; TLit "ruq-latn"; TLit "rut"; TLit "rw"; TLit "rwr"; TLit "ryu"; TLit "sa"; TLit "sah"; TLit "sat"; TLit "sc"; TLit "scn"; TLit "sco"; TLit "sd"; TLit "sdc"; TLit "sdh"; TLit "se"; TLit "se-fi"; TLit "se-no"; TLit "se-se"; TLit "sei"; TLit "ses"; TLit "sg"; TLit "sgs"; TLit "sh"; TLit "sh-cyrl"; TLit "sh-latn"; TLit "shi"; TLit "shi-latn"; TLit "shi-tfng"; TLit "shn"; TLit "shy"; TLit "shy-latn"; TLit "si"; TLit "simple"; TLit "sjd"; TLit "sje"; TLit "sju"; TLit "sk"; TLit "skr"; TLit "skr-arab"; TLit "sl"; TLit "sli"; TLit "sm"; TLit "sma"; TLit "smj"; TLit "smn"; TLit "sms"; TLit "sn"; TLit "so"; TLit "sq"; TLit "sr"; TLit "sr-ec"; TLit "sr-el"; TLit "srn"; TLit "sro"; TLit "srq"; TLit "ss"; TLit "st"; TLit "stq"; TLit "sty"; TLit "su"; TLit "sv"; TLit "sw"; TLit "syl"; TLit "szl"; TLit "szy"; TLit "ta"; TLit "tay"; TLit "tcy"; TLit "tdd"; TLit "te"; TLit "tet"; TLit "tg"; TLit "tg-cyrl"; TLit "tg-latn"; TLit "th"; TLit "ti"; TLit "tk"; TLit "tl"; TLit "tly"; TLit "tly-cyrl"; TLit "tn"; TLit "to"; TLit "tok"; TLit "tpi"; TLit "tpv"; TLit "tr"; TLit "tru"; TLit "trv"; TLit "ts"; TLit "tt"; TLit "tt-cyrl"; TLit "tt-latn"; TLit "ttj"; TLit "tum"; TLit "tvu"; TLit "tw"; TLit "ty"; TLit "tyv"; TLit "tzm"; TLit "udm"; TLit "ug"; TLit "ug-arab"; TLit "ug-latn"; TLit "uk"; TLit "ur"; TLit "uselang"; TLit "uz"; TLit "uz-cyrl"; TLit "uz-latn"; TLit "ve"; TLit "vec"; TLit "vep"; TLit "vi"; TLit "vls"; TLit "vmf"; TLit "vmw"; TLit "vo"; TLit "vot"; TLit "vro"; TLit "vut"; TLit "wa"; TLit "wal"; TLit "war"; TLit "wes"; TLit "wls"; TLit "wo"; TLit "wuu"; TLit "wuu-hans"; TLit "wuu-hant"; TLit "wya"; TLit "xal"; TLit "xh"; TLit "xmf"; TLit "xsy"; TLit "yas"; TLit "yat"; TLit "yav"; TLit "ybb"; TLit "yi"; TLit "yo"; TLit "yrl"; TLit "yue"; TLit "yue-hans"; TLit "yue-hant"; TLit "za"; TLit "zea"; TLit "zgh"; TLit "zh"; TLit "zh-classical"; TLit "zh-cn"; TLit "zh-hans"; TLit "zh-hant"; TLit "zh-hk"; TLit "zh-min-nan"; TLit "zh-mo"; TLit "zh-my"; TLit "zh-sg"; TLit "zh-tw"; TLit "zh-yue"; TLit "zu"]) nodoc;
      MProp "wbptterms" true (TRef ["OneOrMore"] [TUnion [TLit "alias"; TLit "description"; TLit "label"]]) nodoc]
      nodoc;
    IInterface "QueryPageViewsParams" [] [TRef ["Params"] []] [
      MProp "pvipmetric" true (TLit "pageviews") nodoc;
      MProp "pvipdays" true (TKw "number") nodoc;
      MProp "pvipcontinue" true (TKw "string") nodoc]
      nodoc;
    IInterface "QueryPrefixSearchParams" [] [TRef ["Params"] []] [
      MProp "pssearch" true (TKw "string") nodoc;
      MProp "psnamespace" true (TUnion [TRef ["namespace"] []; TArray (TRef ["namespace"] [])]) nodoc;
      MProp "pslimit" true (TRef ["limit"] []) nodoc;
      MProp "psoffset" true (TKw "number") nodoc;
      MProp "psprofile" true (TUnion [TLit "classic"; TLit "engine_autoselect"; TLit "fast-fuzzy"; TLit "fuzzy"; TLit "normal"; TLit "strict"]) nodoc]
      nodoc;
    IInterface "QueryProjectPagesParams" [] [TRef ["Params"] []] [
      MProp "wppassessments" true (TKw "boolean") nodoc;
      MProp "wppprojects" true (TUnion [TKw "string"; TArray (TKw "string")]) nodoc;
      MProp "wpplimit" true (TRef ["limit"] []) nodoc;
      MProp "wppcontinue" true (TKw "string") nodoc]
      nodoc;
    IInterface "QueryProjectsParams" [] [TRef ["Params"] []] []
      nodoc;
    IInterface "QueryProtectedTitlesParams" [] [TRef ["Params"] []] [
      MProp "ptnamespace" true (TUnion [TRef ["namespace"] []; TArray (TRef ["namespace"] [])]) nodoc;
      MProp "ptlevel" true (TRef ["OneOrMore"] [TUnion [TLit "autoconfirmed"; TLit "editextendedsemiprotected"; TLit "sysop"]]) nodoc;
      MProp "ptlimit" true (TRef ["limit"] []) nodoc;
      MProp "ptdir" true (TUnion [TLit "newer"; TLit "older"]) nodoc;
      MProp "ptstart" true (TRef ["timestamp"] []) nodoc;
      MProp "ptend" true (TRef ["timestamp"] []) nodoc;
      MProp "ptprop" true (TRef ["OneOrMore"] [TUnion [TLit "comment"; TLit "expiry"; TLit "level"; TLit "parsedcomment"; TLit "timestamp"; TLit "user"; TLit "userid"]]) nodoc;
      MProp "ptcontinue" true (TKw "string") nodoc]
      nodoc;
    IInterface "QueryQueryPageParams" [] [TRef ["Params"] []] [
      MProp "qppage" true (TUnion [TLit "Ancientpages"; TLit "BrokenRedirects"; TLit "Deadendpages"; TLit "DisambiguationPageLinks"; TLit "DisambiguationPages"; TLit "DoubleRedirects"; TLit "Fewestrevisions"; TLit "GadgetUsage"; TLit "GloballyWantedFiles"; TLit "ListDuplicatedFiles"; TLit "Listredirects"; TLit "Lonelypages"; TLit "Longpages"; TLit "MediaStatistics"; TLit "MostGloballyLinkedFiles"; TLit "Mostcategories"; TLit "Mostimages"; TLit "Mostinterwikis"; TLit "Mostlinked"; TLit "Mostlinkedcategories"; TLit "Mostlinkedtemplates"; TLit "Mostrevisions"; TLit "OrphanedTimedText"; TLit "Shortpages"; TLit "Uncategorizedcategories"; TLit "Uncategorizedimages"; TLit "Uncategorizedpages"; TLit "Uncategorizedtemplates"; TLit "UnconnectedPages"; TLit "Unusedcategories"; TLit "Unusedimages"; TLit "Unusedtemplates"; TLit "Unwatchedpages"; TLit "Wantedcategories"; TLit "Wantedfiles"; TLit "Wantedpages"; TLit "Wantedtemplates"; TLit "Withoutinterwiki"]) nodoc;
      MProp "qpoffset" true (TKw "number") nodoc;
      MProp "qplimit" true (TRef ["limit"] []) nodoc]
      nodoc;
    IInterface "QueryRandomParams" [] [TRef ["Params"] []] [
      MProp "rnnamespace" true (TUnion [TRef ["namespace"] []; TArray (TRef ["namespace"] [])]) nodoc;
      MProp "rnfilterredir" true (TUnion [TLit "all"; TLit "nonredirects"; TLit "redirects"]) nodoc;
      MProp "rnredirect" true (TKw "boolean") nodoc;
      MProp "rnlimit" true (TRef ["limit"] []) nodoc;
      MProp "rncontinue" true (TKw "string") nodoc]
      nodoc;
    IInterface "QueryReadingListEntriesParams" [] [TRef ["Params"] []] [
      MProp "rlelists" true (TUnion [TKw "number"; TArray (TKw "number")]) nodoc;
      MProp "rlechangedsince" true (TRef ["timestamp"] []) nodoc;
      MProp "rlesort" true (TUnion [TLit "name"; TLit "updated"]) nodoc;
      MProp "rledir" true (TUnion [TLit "ascending"; TLit "descending"]) nodoc;
      MProp "rlelimit" true (TRef ["limit"] []) nodoc;
      MProp "rlecontinue" true (TKw "string") nodoc]
      nodoc;
    IInterface "QueryReadingListsParams" [] [TRef ["Params"] []] [
      MProp "rllist" true (TKw "number") nodoc;
      MProp "rlproject" true (TKw "string") nodoc;
      MProp "rltitle" true (TKw "string") nodoc;
      MProp "rlchangedsince" true (TRef ["timestamp"] []) nodoc;
      MProp "rlsort" true (TUnion [TLit "name"; TLit "updated"]) nodoc;
      MProp "rldir" true (TUnion [TLit "ascending"; TLit "descending"]) nodoc;
      MProp "rllimit" true (TRef ["limit"] []) nodoc;
      MProp "rlcontinue" true (TKw "string") nodoc]
      nodoc;
    IInterface "QueryRecentChangesParams" [] [TRef ["Params"] []] [
      MProp "rcstart" true (TRef ["timestamp"] []) nodoc;
      MProp "rcend" true (TRef ["timestamp"] []) nodoc;
      MProp "rcdir" true (TUnion [TLit "newer"; TLit "older"]) nodoc;
      MProp "rcnamespace" true (TUnion [TRef ["namespace"] []; TArray (TRef ["namespace"] [])]) nodoc;
      MProp "rcuser" true (TKw "string") nodoc;
      MProp "rcexcludeuser" true (TKw "string") nodoc;
      MProp "rctag" true (TKw "string") nodoc;
      MProp "rcprop" true (TRef ["OneOrMore"] [TUnion [TLit "comment"; TLit "flags"; TLit "ids"; TLit "loginfo"; TLit "oresscores"; TLit "parsedcomment"; TLit "patrolled"; TLit "redirect"; TLit "sha1"; TLit "sizes"; TLit "tags"; TLit "timestamp"; TLit "title"; TLit "user"; TLit "userid"]]) nodoc;
      MProp "rcshow" true (TRef ["OneOrMore"] [TUnion [TLit "!anon"; TLit "!autopatrolled"; TLit "!bot"; TLit "!minor"; TLit "!oresreview"; TLit "!patrolled"; TLit "!redirect"; TLit "anon"; TLit "autopatrolled"; TLit "bot"; TLit "minor"; TLit "oresreview"; TLit "patrolled"; TLit "redirect"; TLit "unpatrolled"]]) nodoc;
      MProp "rclimit" true (TRef ["limit"] []) nodoc;
      MProp "rctype" true (TRef ["OneOrMore"] [TUnion [TLit "categorize"; TLit "edit"; TLit "external"; TLit "log"; TLit "new"]]) nodoc;
      MProp "rctoponly" true (TKw "boolean") nodoc;
      MProp "rctitle" true (TKw "string") nodoc;
      MProp "rccontinue" true (TKw "string") nodoc;
      MProp "rcgeneraterevisions" true (TKw "boolean") nodoc;
      MProp "rcslot" true (TLit "main") nodoc]
      nodoc;
    IInterface "QueryBacklinkspropParams" [] [TRef ["Params"] []] [
      MProp "rdprop" true (TRef ["OneOrMore"] [TUnion [TLit "fragment"; TLit "pageid"; TLit "title"]]) nodoc;
      MProp "rdnamespace" true (TUnion [TRef ["namespace"] []; TArray (TRef ["namespace"] [])]) nodoc;
      MProp "rdshow" true (TRef ["OneOrMore"] [TUnion [TLit "!fragment"; TLit "fragment"]]) nodoc;
      MProp "rdlimit" true (TRef ["limit"] []) nodoc;
      MProp "rdcontinue" true (TKw "string") nodoc]
      nodoc;
    IInterface "QueryRevisionsParams" [] [TRef ["Params"] []] [
      MProp "rvprop" true (TRef ["OneOrMore"] [TUnion [TLit "comment"; TLit "content"; TLit "contentmodel"; TLit "flags"; TLit "ids"; TLit "oresscores"; TLit "parsedcomment"; TLit "roles"; TLit "sha1"; TLit "size"; TLit "slotsha1"; TLit "slotsize"; TLit "tags"; TLit "timestamp"; TLit "user"; TLit "userid"; TLit "parsetree"]]) nodoc;
      MProp "rvslots" true (TRef ["OneOrMore"] [TLit "main"]) nodoc;
      MProp "rvlimit" true (TRef ["limit"] []) nodoc;
      MProp "rvexpandtemplates" true (TKw "boolean") nodoc;
      MProp "rvgeneratexml" true (TKw "boolean") nodoc;
      MProp "rvparse" true (TKw "boolean") nodoc;
      MProp "rvsection" true (TKw "string") nodoc;
      MProp "rvdiffto" true (TKw "string") nodoc;
      MProp "rvdifftotext" true (TKw "string") nodoc;
      MProp "rvdifftotextpst" true (TKw "boolean") nodoc;
      MProp "rvcontentformat" true (TUnion [TLit "application/json"; TLit "application/octet-stream"; TLit "application/unknown"; TLit "application/x-binary"; TLit "text/css"; TLit "text/javascript"; TLit "text/plain"; TLit "text/unknown"; TLit "text/x-wiki"; TLit "unknown/unknown"]) nodoc;
      MProp "rvstartid" true (TKw "number") nodoc;
      MProp "rvendid" true (TKw "number") nodoc;
      MProp "rvstart" true (TRef ["timestamp"] []) nodoc;
      MProp "rvend" true (TRef ["timestamp"] []) nodoc;
      MProp "rvdir" true (TUnion [TLit "newer"; TLit "older"]) nodoc;
      MProp "rvuser" true (TKw "string") nodoc;
      MProp "rvexcludeuser" true (TKw "string") nodoc;
      MProp "rvtag" true (TKw "string") nodoc;
      MProp "rvcontinue" true (TKw "string") nodoc]
      nodoc;
    IInterface "QuerySearchParams" [] [TRef ["Params"] []] [
      MProp "srsearch" true (TKw "string") nodoc;
      MProp "srnamespace" true (TUnion [TRef ["namespace"] []; TArray (TRef ["namespace"] [])]) nodoc;
      MProp "srlimit" true (TRef ["limit"] []) nodoc;
      MProp "sroffset" true (TKw "number") nodoc;
      MProp "srqiprofile" true (TUnion [TLit "classic"; TLit "classic_noboostlinks"; TLit "empty"; TLit "engine_autoselect"; TLit "growth_underlinked"; TLit "mlr-1024rs"; TLit "popular_inclinks"; TLit "popular_inclinks_pv"; TLit "wsum_inclinks"; TLit "wsum_inclinks_pv"]) nodoc;
      MProp "srwhat" true (TUnion [TLit "nearmatch"; TLit "text"; TLit "title"]) nodoc;
      MProp "srinfo" true (TRef ["OneOrMore"] [TUnion [TLit "rewrittenquery"; TLit "suggestion"; TLit "totalhits"]]) nodoc;
      MProp "srprop" true (TRef ["OneOrMore"] [TUnion [TLit "categorysnippet"; TLit "extensiondata"; TLit "isfilematch"; TLit "redirectsnippet"; TLit "redirecttitle"; TLit "sectionsnippet"; TLit "sectiontitle"; TLit "size"; TLit "snippet"; TLit "timestamp"; TLit "titlesnippet"; TLit "wordcount"; TLit "hasrelated"; TLit "score"]]) nodoc;
      MProp "srinterwiki" true (TKw "boolean") nodoc;
      MProp "srenablerewrites" true (TKw "boolean") nodoc;
      MProp "srsort" true (TUnion [TLit "create_timestamp_asc"; TLit "create_timestamp_desc"; TLit "incoming_links_asc"; TLit "incoming_links_desc"; TLit "just_match"; TLit "last_edit_asc"; TLit "last_edit_desc"; TLit "none"; TLit "random"; TLit "relevance"; TLit "user_random"]) nodoc]
      nodoc;
    IInterface "QuerySiteinfoParams" [] [TRef ["Params"] []] [
      MProp "siprop" true (TRef ["OneOrMore"] [TUnion [TLit "autocreatetempuser"; TLit "autopromote"; TLit "autopromoteonce"; TLit "clientlibraries"; TLit "dbrepllag"; TLit "defaultoptions"; TLit "extensions"; TLit "extensiontags"; TLit "fileextensions"; TLit "functionhooks"; TLit "general"; TLit "interwikimap"; TLit "languages"; TLit "languagevariants"; TLit "libraries"; TLit "magicwords"; TLit "namespacealiases"; TLit "namespaces"; TLit "protocols"; TLit "restrictions"; TLit "rightsinfo"; TLit "showhooks"; TLit "skins"; TLit "specialpagealiases"; TLit "statistics"; TLit "uploaddialog"; TLit "usergroups"; TLit "variables"]]) nodoc;
      MProp "sifilteriw" true (TUnion [TLit "!local"; TLit "local"]) nodoc;
      MProp "sishowalldb" true (TKw "boolean") nodoc;
      MProp "sinumberingroup" true (TKw "boolean") nodoc;
      MProp "siinlanguagecode" true (TKw "string") nodoc]
      nodoc;
    IInterface "QuerySiteViewsParams" [] [TRef ["Params"] []] [
      MProp "pvismetric" true (TUnion [TLit "pageviews"; TLit "uniques"]) nodoc;
      MProp "pvisdays" true (TKw "number") nodoc]
      nodoc;
    IInterface "QueryStashImageInfoParams" [] [TRef ["Params"] []] [
      MProp "siifilekey" true (TUnion [TKw "string"; TArray (TKw "string")]) nodoc;
      MProp "siisessionkey" true (TUnion [TKw "string"; TArray (TKw "string")]) nodoc;
      MProp "siiprop" true (TRef ["OneOrMore"] [TUnion [TLit "badfile"; TLit "bitdepth"; TLit "canonicaltitle"; TLit "commonmetadata"; TLit "dimensions"; TLit "extmetadata"; TLit "metadata"; TLit "mime"; TLit "sha1"; TLit "size"; TLit "thumbmime"; TLit "timestamp"; TLit "url"]]) nodoc;
      MProp "siiurlwidth" true (TKw "number") nodoc;
      MProp "siiurlheight" true (TKw "number") nodoc;
      MProp "siiurlparam" true (TKw "string") nodoc]
      nodoc;
    IInterface "QueryTagsParams" [] [TRef ["Params"] []] [
      MProp "tgcontinue" true (TKw "string") nodoc;
      MProp "tglimit" true (TRef ["limit"] []) nodoc;
      MProp "tgprop" true (TRef ["OneOrMore"] [TUnion [TLit "active"; TLit "defined"; TLit "description"; TLit "displayname"; TLit "hitcount"; TLit "source"]]) nodoc]
      nodoc;
    IInterface "QueryLinksParams" [] [TRef ["Params"] []] [
      MProp "tlnamespace" true (TUnion [TRef ["namespace"] []; TArray (TRef ["namespace"] [])]) nodoc;
      MProp "tllimit" true (TRef ["limit"] []) nodoc;
      MProp "tlcontinue" true (TKw "string") nodoc;
      MProp "tltemplates" true (TUnion [TKw "string"; TArray (TKw "string")]) nodoc;
      MProp "tldir" true (TUnion [TLit "ascending"; TLit "descending"]) nodoc]
      nodoc;
    IInterface "QueryTokensParams" [] [TRef ["Params"] []] [
      MProp "type" true (TRef ["OneOrMore"] [TUnion [TLit "createaccount"; TLit "csrf"; TLit "deleteglobalaccount"; TLit "login"; TLit "patrol"; TLit "rollback"; TLit "setglobalaccountstatus"; TLit "userrights"; TLit "watch"]]) nodoc]
      nodoc;
    IInterface "QueryBacklinkspropParams" [] [TRef ["Params"] []] [
      MProp "tiprop" true (TRef ["OneOrMore"] [TUnion [TLit "pageid"; TLit "redirect"; TLit "title"]]) nodoc;
      MProp "tinamespace" true (TUnion [TRef ["namespace"] []; TArray (TRef ["namespace"] [])]) nodoc;
      MProp "tishow" true (TRef ["OneOrMore"] [TUnion [TLit "!redirect"; TLit "redirect"]]) nodoc;
      MProp "tilimit" true (TRef ["limit"] []) nodoc;
      MProp "ticontinue" true (TKw "string") nodoc]
      nodoc;
    IInterface "TranscodeStatusParams" [] [TRef ["Params"] []] []
      nodoc;
    IInterface "EchoUnreadNotificationPagesParams" [] [TRef ["Params"] []] [
      MProp "unpwikis" true (TUnion [TKw "string"; TArray (TKw "string")]) nodoc;
      MProp "unpgrouppages" true (TKw "boolean") nodoc;
      MProp "unplimit" true (TRef ["limit"] []) nodoc]
      nodoc;
    IInterface "QueryUserContribsParams" [] [TRef ["Params"] []] [
      MProp "uclimit" true (TRef ["limit"] []) nodoc;
      MProp "ucstart" true (TRef ["timestamp"] []) nodoc;
      MProp "ucend" true (TRef ["timestamp"] []) nodoc;
      MProp "uccontinue" true (TKw "string") nodoc;
      MProp "ucuser" true (TUnion [TKw "string"; TArray (TKw "string")]) nodoc;
      MProp "ucuserids" true (TUnion [TKw "number"; TArray (TKw "number")]) nodoc;
      MProp "ucuserprefix" true (TKw "string") nodoc;
      MProp "uciprange" true (TKw "string") nodoc;
      MProp "ucdir" true (TUnion [TLit "newer"; TLit "older"]) nodoc;
      MProp "ucnamespace" true (TUnion [TRef ["namespace"] []; TArray (TRef ["namespace"] [])]) nodoc;
      MProp "ucprop" true (TRef ["OneOrMore"] [TUnion [TLit "comment"; TLit "flags"; TLit "ids"; TLit "oresscores"; TLit "parsedcomment"; TLit "patrolled"; TLit "size"; TLit "sizediff"; TLit "tags"; TLit "timestamp"; TLit "title"]]) nodoc;
      MProp "ucshow" true (TRef ["OneOrMore"] [TUnion [TLit "!autopatrolled"; TLit "!minor"; TLit "!new"; TLit "!oresreview"; TLit "!patrolled"; TLit "!top"; TLit "autopatrolled"; TLit "minor"; TLit "new"; TLit "oresreview"; TLit "patrolled"; TLit "top"]]) nodoc;
      MProp "uctag" true (TKw "string") nodoc;
      MProp "uctoponly" true (TKw "boolean") nodoc]
      nodoc;
    IInterface "QueryUserInfoParams" [] [TRef ["Params"] []] [
      MProp "uiprop" true (TRef ["OneOrMore"] [TUnion [TLit "acceptlang"; TLit "blockinfo"; TLit "cancreateaccount"; TLit "centralids"; TLit "changeablegroups"; TLit "editcount"; TLit "email"; TLit "groupmemberships"; TLit "groups"; TLit "hasmsg"; TLit "implicitgroups"; TLit "latestcontrib"; TLit "options"; TLit "ratelimits"; TLit "realname"; TLit "registrationdate"; TLit "rights"; TLit "theoreticalratelimits"; TLit "unreadcount"]]) nodoc;
      MProp "uiattachedwiki" true (TKw "string") nodoc]
      nodoc;
    IInterface "QueryUsersParams" [] [TRef ["Params"] []] [
      MProp "usprop" true (TRef ["OneOrMore"] [TUnion [TLit "blockinfo"; TLit "cancreate"; TLit "centralids"; TLit "editcount"; TLit "emailable"; TLit "gender"; TLit "groupmemberships"; TLit "groups"; TLit "implicitgroups"; TLit "registration"; TLit "rights"]]) nodoc;
      MProp "usattachedwiki" true (TKw "string") nodoc;
      MProp "ususers" true (TUnion [TKw "string"; TArray (TKw "string")]) nodoc;
      MProp "ususerids" true (TUnion [TKw "number"; TArray (TKw "number")]) nodoc]
      nodoc;
    IInterface "QueryVideoInfoParams" [] [TRef ["Params"] []] [
      MProp "viprop" true (TRef ["OneOrMore"] [TUnion [TLit "archivename"; TLit "badfile"; TLit "bitdepth"; TLit "canonicaltitle"; TLit "comment"; TLit "commonmetadata"; TLit "derivatives"; TLit "dimensions"; TLit "extmetadata"; TLit "mediatype"; TLit "metadata"; TLit "mime"; TLit "parsedcomment"; TLit "sha1"; TLit "size"; TLit "thumbmime"; TLit "timedtext"; TLit "timestamp"; TLit "uploadwarning"; TLit "url"; TLit "user"; TLit "userid"]]) nodoc;
      MProp "vilimit" true (TRef ["limit"] []) nodoc;
      MProp "vistart" true (TRef ["timestamp"] []) nodoc;
      MProp "viend" true (TRef ["timestamp"] []) nodoc;
      MProp "viurlwidth" true (TKw "number") nodoc;
      MProp "viurlheight" true (TKw "number") nodoc;
      MProp "vimetadataversion" true (TKw "string") nodoc;
      MProp "viextmetadatalanguage" true (TKw "string") nodoc;
      MProp "viextmetadatamultilang" true (TKw "boolean") nodoc;
      MProp "viextmetadatafilter" true (TUnion [TKw "string"; TArray (TKw "string")]) nodoc;
      MProp "viurlparam" true (TKw "string") nodoc;
      MProp "vibadfilecontexttitle" true (TKw "string") nodoc;
      MProp "vicontinue" true (TKw "string") nodoc;
      MProp "vilocalonly" true (TKw "boolean") nodoc]
      nodoc;
    IInterface "QueryWatchlistParams" [] [TRef ["Params"] []] [
      MProp "wlallrev" true (TKw "boolean") nodoc;
      MProp "wlstart" true (TRef ["timestamp"] []) nodoc;
      MProp "wlend" true (TRef ["timestamp"] []) nodoc;
      MProp "wlnamespace" true (TUnion [TRef ["namespace"] []; TArray (TRef ["namespace"] [])]) nodoc;
      MProp "wluser" true (TKw "string") nodoc;
      MProp "wlexcludeuser" true (TKw "string") nodoc;
      MProp "wldir" true (TUnion [TLit "newer"; TLit "older"]) nodoc;
      MProp "wllimit" true (TRef ["limit"] []) nodoc;
      MProp "wlprop" true (TRef ["OneOrMore"] [TUnion [TLit "comment"; TLit "expiry"; TLit "flags"; TLit "ids"; TLit "loginfo"; TLit "notificationtimestamp"; TLit "oresscores"; TLit "parsedcomment"; TLit "patrol"; TLit "sizes"; TLit "tags"; TLit "timestamp"; TLit "title"; TLit "user"; TLit "userid"]]) nodoc;
      MProp "wlshow" true (TRef ["OneOrMore"] [TUnion [TLit "!anon"; TLit "!autopatrolled"; TLit "!bot"; TLit "!minor"; TLit "!oresreview"; TLit "!patrolled"; TLit "!unread"; TLit "anon"; TLit "autopatrolled"; TLit "bot"; TLit "minor"; TLit "oresreview"; TLit "patrolled"; TLit "unread"]]) nodoc;
      MProp "wltype" true (TRef ["OneOrMore"] [TUnion [TLit "categorize"; TLit "edit"; TLit "external"; TLit "log"; TLit "new"]]) nodoc;
      MProp "wlowner" true (TKw "string") nodoc;
      MProp "wltoken" true (TKw "string") nodoc;
      MProp "wlcontinue" true (TKw "string") nodoc]
      nodoc;
    IInterface "QueryWatchlistRawParams" [] [TRef ["Params"] []] [
      MProp "wrcontinue" true (TKw "string") nodoc;
      MProp "wrnamespace" true (TUnion [TRef ["namespace"] []; TArray (TRef ["namespace"] [])]) nodoc;
      MProp "wrlimit" true (TRef ["limit"] []) nodoc;
      MProp "wrprop" true (TRef ["OneOrMore"] [TLit "changed"]) nodoc;
      MProp "wrshow" true (TRef ["OneOrMore"] [TUnion [TLit "!changed"; TLit "changed"]]) nodoc;
      MProp "wrowner" true (TKw "string") nodoc;
      MProp "wrtoken" true (TKw "string") nodoc;
      MProp "wrdir" true (TUnion [TLit "ascending"; TLit "descending"]) nodoc;
      MProp "wrfromtitle" true (TKw "string") nodoc;
      MProp "wrtotitle" true (TKw "string") nodoc]
      nodoc;
    IInterface "PropsEntityUsageParams" [] [TRef ["Params"] []] [
      MProp "wbeuprop" true (TRef ["OneOrMore"] [TLit "url"]) nodoc;
      MProp "wbeuaspect" true (TRef ["OneOrMore"] [TUnion [TLit "C"; TLit "D"; TLit "L"; TLit "O"; TLit "S"; TLit "T"; TLit "X"]]) nodoc;
      MProp "wbeuentities" true (TUnion [TKw "string"; TArray (TKw "string")]) nodoc;
      MProp "wbeulimit" true (TRef ["limit"] []) nodoc;
      MProp "wbeucontinue" true (TKw "string") nodoc]
      nodoc;
    IInterface "ListEntityUsageParams" [] [TRef ["Params"] []] [
      MProp "wbleuprop" true (TRef ["OneOrMore"] [TLit "url"]) nodoc;
      MProp "wbleuaspect" true (TRef ["OneOrMore"] [TUnion [TLit "C"; TLit "D"; TLit "L"; TLit "O"; TLit "S"; TLit "T"; TLit "X"]]) nodoc;
      MProp "wbleuentities" true (TUnion [TKw "string"; TArray (TKw "string")]) nodoc;
      MProp "wbleulimit" true (TRef ["limit"] []) nodoc;
      MProp "wbleucontinue" true (TKw "string") nodoc]
      nodoc;
    IInterface "ClientInfoParams" [] [TRef ["Params"] []] [
      MProp "wbprop" true (TRef ["OneOrMore"] [TUnion [TLit "siteid"; TLit "url"]]) nodoc]
      nodoc;
    IInterface "QueryWikiSetsParams" [] [TRef ["Params"] []] [
      MProp "wsfrom" true (TKw "string") nodoc;
      MProp "wsprop" true (TRef ["OneOrMore"] [TUnion [TLit "type"; TLit "wikisincluded"; TLit "wikisnotincluded"]]) nodoc;
      MProp "wslimit" true (TRef ["limit"] []) nodoc;
      MProp "wsorderbyname" true (TKw "boolean") nodoc]
      nodoc]
    nodoc].

(** src/mediawiki.api/Api.d.ts, third document: the script that prints the
    generated parameter interfaces (run by hand in the browser console). *)
Definition nl : string := String (ascii_of_nat 10) EmptyString.
Definition tab : string := String (ascii_of_nat 9) EmptyString.

Definition paraminfo_request (modules : string) : expr :=
  EAwait (ECall (EMember (ENew (EMember (EId "mw") "Api") []) "get") [
    EObject [("action", EStr "paraminfo"); ("format", EStr "json");
             ("modules", EStr modules); ("formatversion", EStr "2")]]).

Definition processParamInfo_body : list stmt := [
  SIf (ECall (EMember (EId "Array") "isArray") [EId "type"])
    [SAssign "type"
       (ECall (EMember (ECall (EMember (EId "type") "map")
                          [EArrow [PId "e"] (ETemplate [EText dq; EHole (EId "e"); EText dq])])
                       "join") [EStr " | "]);
     SIf (EId "multi")
       [SAssign "type" (ETemplate [EText "OneOrMore<"; EHole (EId "type"); EText ">"])]
       []]
    [SIf (EBinary "||" (EBinary "||" (EBinary "||"
             (EBinary "===" (EId "type") (EStr "text"))
             (EBinary "===" (EId "type") (EStr "title")))
             (EBinary "===" (EId "type") (EStr "user")))
             (EBinary "===" (EId "type") (EStr "raw")))
       [SAssign "type" (EStr "string")]
       [SIf (EBinary "===" (EId "type") (EStr "integer"))
          [SAssign "type" (EStr "number")]
          []];
     SIf (EId "multi")
       [SAssign "type" (ETemplate [EHole (EId "type"); EText " | "; EHole (EId "type"); EText "[]"])]
       []];
  SIf (EBinary "||" (EBinary "||" (EBinary "||"
          (EBinary "===" (EId "name") (EStr "tags"))
          (EBinary "===" (EId "name") (EStr "tagfilter")))
          (EBinary "===" (EId "name") (EStr "wikis")))
          (EBinary "===" (EId "name") (EStr "site")))
    [SAssign "type" (EStr "string | string[]")]
    [];
  SAssign "name" (EBinary "+" (EId "prefix") (EId "name"));
  SIf (ECall (EMember (EId "name") "includes") [EStr "-"])
    [SAssign "name" (ETemplate [EText dq; EHole (EId "name"); EText dq])]
    [];
  SReturn (EObject [("name", EId "name"); ("type", EId "type")])].

Definition formatInterface_body : list stmt := [
  SConst (PId "name") (ECall (EId "getInterfaceName") [EId "module"]);
  SReturn
    (ECall (EMember (ECall (EMember
       (EArray [
          ETemplate [EText "interface "; EHole (EId "name"); EText " extends Params {"];
          ESpread (ECall (EMember (EMember (EId "module") "parameters") "map") [
            EArrowBlock [PId "param"] [
              SConst (PObject ["name"; "type"])
                (ECall (EId "processParamInfo") [
                   EMember (EId "param") "type"; EMember (EId "module") "prefix";
                   EMember (EId "param") "name"; EMember (EId "param") "multi"]);
              SReturn (ETemplate [EText tab; EHole (EId "name"); EText "?: "; EHole (EId "type"); EText ";"])]]);
          EStr "}"])
       "map") [EId "indent"]) "join") [EStr nl])].

Definition interfaces_of (data : string) : expr :=
  ECall (EMember (ECall (EMember
    (EMember (EMember (EId data) "paraminfo") "modules") "map") [EId "formatInterface"])
    "join") [EStr (nl ++ nl)].

Definition api_params_script : list item := [
  IConst Plain "data" None (Some (paraminfo_request "*")) nodoc;
  IConst Plain "queryApiData" None (Some (paraminfo_request "query+*")) nodoc;
  IFunctionImpl "processParamInfo" ["type"; "prefix"; "name"; "multi"] processParamInfo_body nodoc;
  IFunctionImpl "indent" ["l"] [SReturn (ETemplate [EText tab; EHole (EId "l")])] nodoc;
  IFunctionImpl "getInterfaceName" ["module"] [
    SReturn (EBinary "+"
      (ECall (EMember (ECall (EMember (ECall (EMember
         (EMember (EId "module") "classname") "split") [EStr "\"]) "pop") [])
         "replace") [ERegex "Api" "g"; EStr EmptyString])
      (EStr "Params"))] nodoc;
  IFunctionImpl "formatInterface" ["module"] formatInterface_body nodoc;
  IConst Plain "actionsTypes" None (Some (interfaces_of "data")) nodoc;
  IConst Plain "queryTypes" None (Some (interfaces_of "queryApiData")) nodoc;
  IStatement (SExpr (ECall (EMember (EId "console") "log") [
    ECall (EMember (EArray [EStr "declare namespace mw.Api {"; EId "actionsTypes";
                            EStr EmptyString; EId "queryTypes"; EStr "}"]) "join") [EStr nl]]))].

(** src/unnamed/part_004: the package manifest. *)
Definition package_json : json :=
  JObject [
    ("name", JString "types-mediawiki");
    ("version", JString "1.8.1");
    ("description", JString "TypeScript definitions for MediaWiki JS interface");
    ("types", JString "index.d.ts");
    ("scripts", JObject [("test", JString "tsd"); ("format", JString "prettier --write .")]);
    ("repository", JObject [
       ("type", JString "git");
       ("url", JString "git+https://github.com/wikimedia-gadgets/types-mediawiki.git")]);
    ("files", JArray [JString "mw"; JString "jquery"; JString "vue"; JString "api_params";
                      JString "index.d.ts"]);
    ("license", JString "GPL-3.0-or-later");
    ("bugs", JObject [("url", JString "https://github.com/wikimedia-gadgets/types-mediawiki/issues")]);
    ("homepage", JString "https://github.com/wikimedia-gadgets/types-mediawiki#readme");
    ("dependencies", JObject [
       ("@types/jquery", JString "^3.5.5");
       ("@types/oojs-ui", JString "^0.46.0");
       ("vue", JString "3.3.9")]);
    ("devDependencies", JObject [
       ("husky", JString "^4.3.7");
       ("lint-staged", JString "^10.5.3");
       ("prettier", JString "^2.2.1");
       ("tsd", JString "^0.31.0");
       ("tslint-config-prettier", JString "^1.18.0");
       ("typescript", JString "^4.2.2")]);
    ("husky", JObject [("hooks", JObject [("pre-commit", JString "lint-staged")])]);
    ("lint-staged", JObject [("*.ts(x)?", JString "prettier --write")]);
    ("tsd", JObject [("compilerOptions", JObject [
       ("typeRoots", JArray [JString "./node_modules/@types"; JString "."])])])].

(** The repository: every document of every file under src/. *)
Definition repository : list file := [
  File "index.d.ts" 0 (Source index_d_ts);
  File "jquery.color/jquery.d.ts" 0 (Source jquery_color_jquery_d_ts);
  File "jquery/client.d.ts" 0 (Source jquery_client_d_ts);
  File "jquery/collapsibleTabs.d.ts" 0 (Source jquery_collapsibleTabs_d_ts);
  File "jquery/highlightText.d.ts" 0 (Source jquery_highlightText_d_ts);
  File "jquery/highlightText.d.ts" 1 (Source jquery_highlightText_d_ts_2);
  File "mediawiki/loader.d.ts" 0 (Source mediawiki_loader_d_ts);
  File "mediawiki/loader.store.d.ts" 0 (Source mediawiki_loader_store_d_ts);
  File "mediawiki/loader.store.d.ts" 1 (Source mediawiki_loader_store_d_ts_2);
  File "mediawiki/notification.d.ts" 0 (Source mediawiki_notification_d_ts);
  File "mediawiki.ForeignApi.core/index.d.ts" 0 (Source mediawiki_ForeignApi_core_index_d_ts);
  File "mediawiki.ForeignApi.core/index.d.ts" 1 (Source mediawiki_ForeignApi_core_index_d_ts_2);
  File "mediawiki.api/Api.d.ts" 0 (Source mediawiki_api_Api_d_ts);
  File "mediawiki.api/Api.d.ts" 1 (Source mediawiki_api_Api_d_ts_2);
  File "mediawiki.api/Api.d.ts" 2 (Source api_params_script);
  File "mediawiki.base/loader.d.ts" 0 (Source mediawiki_base_loader_d_ts);
  File "mediawiki.base/loader.d.ts" 1 (Source mediawiki_base_loader_d_ts_2);
  File "mediawiki.base/mw.d.ts" 0 (Source mediawiki_base_mw_d_ts);
  File "mediawiki.base/mw.d.ts" 1 (Source mediawiki_base_mw_d_ts_2);
  File "unnamed/part_000" 0 (Source part_000);
  File "unnamed/part_001" 0 (Source part_001);
  File "unnamed/part_002" 0 (Source part_002);
  File "unnamed/part_003" 0 (Source part_003);
  File "unnamed/part_003" 1 (Source part_003_2);
  File "unnamed/part_004" 0 (Manifest package_json)].

(** * Reading the declarations *)

(** ** Names *)

Fixpoint path_eqb (p q : list string) : bool :=
  match p, q with
  | [], [] => true
  | x :: p', y :: q' => String.eqb x y && path_eqb p' q'
  | _, _ => false
  end.

(** ** Executable content

    What a file contains beyond declarations: functions with a body,
    initialised constants and statements, at any depth of namespaces. *)
Fixpoint executable (i : item) : bool :=
  match i with
  | INamespace _ _ body _ => existsb executable body
  | IGlobal body => existsb executable body
  | IConst _ _ _ (Some _) _ => true
  | IFunctionImpl _ _ _ _ => true
  | IStatement _ => true
  | _ => false
  end.

(** The directives that link files together: they declare nothing. *)
Definition directive (i : item) : bool :=
  match i with
  | IReference _ _ | IImport _ | IExportAssign _ | IExportAsNamespace _ | IExportEmpty => true
  | _ => false
  end.

(** An ambient declaration: a namespace or global block of ambient
    declarations, an interface, a class, a type alias, a constant with its
    type and no value, a function signature. *)
Fixpoint ambient (i : item) : bool :=
  match i with
  | INamespace _ _ body _ => forallb ambient body
  | IGlobal body => forallb ambient body
  | IInterface _ _ _ _ _ | IClass _ _ _ | ITypeAlias _ _ _ _ _ | IFunction _ _ _ => true
  | IConst _ _ (Some _) None _ => true
  | _ => false
  end.

Definition items_of (f : file) : list item :=
  match body f with
  | Source its => its
  | Manifest _ => []
  end.

(** A file has an implementation when one of its elements is executable. *)
Definition has_implementation (f : file) : bool := existsb executable (items_of f).

(** A declaration file: a source file whose top-level elements are ambient
    declarations and linking directives, with at least one of them. *)
Definition declaration_file (f : file) : bool :=
  match body f with
  | Source its =>
      negb (Nat.eqb (length its) 0) && forallb (fun i => ambient i || directive i) its
  | Manifest _ => false
  end.

(** ** Declared names

    Every named declaration of a list of elements with its qualified name;
    a namespace contributes itself and what it contains, [declare global]
    what it contains. *)
Fixpoint entries (prefix : list string) (i : item) : list (list string * item) :=
  match i with
  | INamespace _ name body _ =>
      (prefix ++ name, i) :: flat_map (entries (prefix ++ name)) body
  | IGlobal body => flat_map (entries prefix) body
  | IInterface n _ _ _ _ | IClass n _ _ | ITypeAlias _ n _ _ _ | IConst _ n _ _ _
  | IFunction n _ _ | IFunctionImpl n _ _ _ => [(prefix ++ [n], i)]
  | _ => []
  end.

Definition file_entries (f : file) : list (list string * item) :=
  flat_map (entries []) (items_of f).

Definition repo_entries (fs : list file) : list (list string * item) :=
  flat_map file_entries fs.

(** The declarations of a qualified name, over all files (declarations of
    one name in several files merge). *)
Definition lookup (fs : list file) (q : list string) : list item :=
  map snd (filter (fun e => path_eqb (fst e) q) (repo_entries fs)).

Definition is_signature (i : item) : bool :=
  match i with IFunction _ _ _ => true | _ => false end.

Definition is_namespace (i : item) : bool :=
  match i with INamespace _ _ _ _ => true | _ => false end.

Definition signature_of (i : item) : option sig :=
  match i with IFunction _ s _ => Some s | _ => None end.

Definition sig_params (s : sig) : list param := let (_, ps, _) := s in ps.
Definition sig_result (s : sig) : ty := let (_, _, r) := s in r.
Definition param_type (p : param) : ty := let (_, _, t) := p in t.
Definition param_kind (p : param) : pkind := let (_, k, _) := p in k.


Definition tags_named (n : string) (d : jsdoc) : list tag :=
  filter (fun t => String.eqb (tag_name t) n) (tags d).

(** ** Operations

    Everything callable that a file declares or defines: function
    signatures, methods, call signatures and constructors of interfaces and
    classes, and functions with a body. *)
Record operation : Type :=
  Op { op_name : list string; op_doc : jsdoc; op_body : option (list stmt) }.

Definition member_operations (owner : list string) (m : member) : list operation :=
  match m with
  | MMethod n _ d => [Op (owner ++ [n]) d None]
  | MCall _ d => [Op owner d None]
  | MProp _ _ _ _ | MIndexSig _ _ _ => []
  end.

Definition cmember_operations (owner : list string) (m : cmember) : list operation :=
  match m with
  | CCtor _ d => [Op (owner ++ ["constructor"]) d None]
  | CMethod _ n _ d => [Op (owner ++ [n]) d None]
  | CProp _ _ _ _ _ => []
  end.

Fixpoint operations (prefix : list string) (i : item) : list operation :=
  match i with
  | INamespace _ name body _ => flat_map (operations (prefix ++ name)) body
  | IGlobal body => flat_map (operations prefix) body
  | IInterface n _ _ ms _ => flat_map (member_operations (prefix ++ [n])) ms
  | IClass n ms _ => flat_map (cmember_operations (prefix ++ [n])) ms
  | IFunction n _ d => [Op (prefix ++ [n]) d None]
  | IFunctionImpl n _ b d => [Op (prefix ++ [n]) d (Some b)]
  | _ => []
  end.

Definition file_operations (f : file) : list operation :=
  flat_map (operations []) (items_of f).

(** ** Errors at run time

    The places of a piece of JavaScript whose evaluation can end in an
    error: a [throw] statement, an awaited promise (it can be rejected), a
    call and a construction (the callee can raise, or be no function) and
    the reading of a property (of [undefined] or [null]).  Callbacks are
    followed. *)
Inductive raise : Type :=
| Thrown (e : expr)
| Awaited (e : expr)
| Called (f : expr)
| Constructed (c : expr)
| Read (e : expr) (p : string).

Fixpoint raises_expr (e : expr) : list raise :=
  match e with
  | EId _ | EStr _ | ERegex _ _ => []
  | ETemplate parts =>
      flat_map (fun p => match p with EText _ => [] | EHole h => raises_expr h end) parts
  | EMember e' p => raises_expr e' ++ [Read e' p]
  | EAwait e' => raises_expr e' ++ [Awaited e']
  | ESpread e' => raises_expr e'
  | ECall f args => raises_expr f ++ flat_map raises_expr args ++ [Called f]
  | ENew c args => raises_expr c ++ flat_map raises_expr args ++ [Constructed c]
  | EArrow _ r => raises_expr r
  | EArrowBlock _ b => flat_map raises_stmt b
  | EObject props => flat_map (fun p => match p with (_, v) => raises_expr v end) props
  | EArray es => flat_map raises_expr es
  | EBinary _ l r => raises_expr l ++ raises_expr r
  end
with raises_stmt (s : stmt) : list raise :=
  match s with
  | SConst _ e | SAssign _ e | SReturn e | SExpr e => raises_expr e
  | SIf c t f => raises_expr c ++ flat_map raises_stmt t ++ flat_map raises_stmt f
  | SThrow e => raises_expr e ++ [Thrown e]
  end.

(** What can raise when the file is run: the initialisers of its
    constants and its statements, outside every function. *)
Fixpoint toplevel_raises (i : item) : list raise :=
  match i with
  | INamespace _ _ body _ => flat_map toplevel_raises body
  | IGlobal body => flat_map toplevel_raises body
  | IConst _ _ _ (Some e) _ => raises_expr e
  | IStatement s => raises_stmt s
  | _ => []
  end.

(** What can raise when an operation is called: nothing of this
    repository when it has no body. *)
Definition own_raises (op : operation) : list raise :=
  match op_body op with
  | None => []
  | Some b => flat_map raises_stmt b
  end.

(** Every place of a file that can raise, at its top level and in its
    operations. *)
Definition file_raises (f : file) : list raise :=
  flat_map toplevel_raises (items_of f) ++ flat_map own_raises (file_operations f).

Definition is_throw (r : raise) : bool :=
  match r with Thrown _ => true | _ => false end.

Definition is_await (r : raise) : bool :=
  match r with Awaited _ => true | _ => false end.

(** The errors the documentation of an operation announces. *)
Definition documented_throws (op : operation) : list tag := tags_named "throws" (op_doc op).

(** ** The strings a type admits

    [admits fs ns fuel t s] tells whether the string value [s] belongs to
    the type [t], written inside the namespace [ns], for the forms of type
    whose answer needs no more than keywords, literals, unions and aliases
    without parameters; [None] for the other forms. *)
Definition alias_of (fs : list file) (q : list string) : option ty :=
  match lookup fs q with
  | ITypeAlias _ _ [] t _ :: _ => Some t
  | _ => None
  end.

Fixpoint any_true (l : list (option bool)) : option bool :=
  match l with
  | [] => Some false
  | Some true :: _ => Some true
  | Some false :: l' => any_true l'
  | None :: l' => match any_true l' with Some true => Some true | _ => None end
  end.

Definition string_keywords : list string := ["string"; "any"; "unknown"].
Definition other_keywords : list string :=
  ["number"; "boolean"; "null"; "undefined"; "void"; "never"; "true"; "false"].

Definition mem (s : string) (l : list string) : bool := existsb (String.eqb s) l.

Fixpoint admits (fs : list file) (ns : list string) (fuel : nat) (t : ty) (s : string)
  : option bool :=
  match fuel with
  | 0 => None
  | S n =>
      match t with
      | TKw k =>
          if mem k string_keywords then Some true
          else if mem k other_keywords then Some false
          else None
      | TLit l => Some (String.eqb l s)
      | TUnion ts => any_true (map (fun t' => admits fs ns n t' s) ts)
      | TRef [name] [] =>
          match alias_of fs (ns ++ [name]) with
          | Some t' => admits fs ns n t' s
          | None => None
          end
      | TArray _ | TTuple _ | TFun _ | TObj _ => Some false
      | _ => None
      end
  end.

(** The string literals of a union of string literals. *)
Definition literals (t : ty) : list string :=
  match t with
  | TLit s => [s]
  | TUnion ts => flat_map (fun t' => match t' with TLit s => [s] | _ => [] end) ts
  | _ => []
  end.

Definition member_name (m : member) : option string :=
  match m with
  | MProp n _ _ _ | MMethod n _ _ => Some n
  | MCall _ _ | MIndexSig _ _ _ => None
  end.

(** The type of the property [n] of an interface or object type. *)
Fixpoint property_type (n : string) (ms : list member) : option ty :=
  match ms with
  | [] => None
  | MProp n' _ t _ :: ms' => if String.eqb n n' then Some t else property_type n ms'
  | _ :: ms' => property_type n ms'
  end.

Definition interface_members (i : item) : list member :=
  match i with IInterface _ _ _ ms _ => ms | _ => [] end.

(** The key type of [Partial<Record<K, V>>] or [Record<K, V>]. *)
Definition record_keys (t : ty) : option ty :=
  match t with
  | TRef ["Partial"] [TRef ["Record"] [k; _]] => Some k
  | TRef ["Record"] [k; _] => Some k
  | _ => None
  end.

(** ** File names *)

Fixpoint before_slash (s : string) : string :=
  match s with
  | EmptyString => EmptyString
  | String c r => if Ascii.eqb c "/" then EmptyString else String c (before_slash r)
  end.

Definition without_dot_slash (s : string) : string :=
  match s with
  | String "." (String "/" r) => r
  | _ => s
  end.

(** Whether [needle] occurs in [hay]. *)
Fixpoint mentions (needle hay : string) : bool :=
  String.prefix needle hay
  || match hay with
     | EmptyString => false
     | String _ r => mentions needle r
     end.

(** The files whose place in the repository is known: the first document
    of a file under src/ that has a name. *)
Definition named (f : file) : bool :=
  Nat.eqb (part f) 0 && negb (String.prefix "unnamed/" (src f)).

Definition directory (f : file) : string := before_slash (src f).

(** ** The entry point *)

Definition entry_point : file := File "index.d.ts" 0 (Source index_d_ts).

(** The directories the entry point refers to: the directory of a path
    reference, the name of a types reference. *)
Definition referenced (its : list item) : list string :=
  flat_map (fun i =>
    match i with
    | IReference RefPath p => [before_slash p]
    | IReference RefTypes t => [without_dot_slash t]
    | _ => []
    end) its.

Definition export_assignments (its : list item) : list string :=
  flat_map (fun i => match i with IExportAssign n => [n] | _ => [] end) its.

Definition namespace_exports (its : list item) : list string :=
  flat_map (fun i => match i with IExportAsNamespace n => [n] | _ => [] end) its.

(** ** The manifest *)

Definition manifest : file := File "unnamed/part_004" 0 (Manifest package_json).

Fixpoint assoc {A : Type} (k : string) (l : list (string * A)) : option A :=
  match l with
  | [] => None
  | (k', v) :: l' => if String.eqb k k' then Some v else assoc k l'
  end.

Definition field (k : string) (j : json) : option json :=
  match j with
  | JObject fs => assoc k fs
  | _ => None
  end.

Definition keys (j : option json) : list string :=
  match j with
  | Some (JObject fs) => map fst fs
  | _ => []
  end.

Definition strings (j : option json) : list string :=
  match j with
  | Some (JArray l) => flat_map (fun x => match x with JString s => [s] | _ => [] end) l
  | _ => []
  end.

(** The sections of a manifest that declare packages the published package
    depends on (devDependencies serve the repository's own tooling). *)
Definition dependency_sections : list string :=
  ["dependencies"; "peerDependencies"; "optionalDependencies"].

Definition declared_dependencies (j : json) : list (string * string) :=
  flat_map (fun sec => map (fun k => (sec, k)) (keys (field sec j))) dependency_sections.



(** ** Persisted data *)



Definition shape_of (ms : list member) : list (string * bool * ty) :=
  flat_map (fun m => match m with MProp n o t _ => [(n, o, t)] | _ => [] end) ms.

(** ** The globals of the runtime *)

Definition runtime_globals : list string := ["mw"; "mediaWiki"; "JQuery"; "JQueryStatic"].

Definition type_root (t : ty) : option string :=
  match t with
  | TRef (n :: _) _ | TTypeof (n :: _) => Some n
  | _ => None
  end.

Definition rooted (t : ty) : bool :=
  match type_root t with
  | Some n => mem n runtime_globals
  | None => false
  end.

(** A top-level declaration describes the runtime when it declares, or
    extends, one of its globals, or names a part of one. *)
Fixpoint describes_runtime (i : item) : bool :=
  match i with
  | INamespace _ (n :: _) _ _ => mem n runtime_globals
  | IGlobal body => forallb describes_runtime body
  | IInterface n _ _ _ _ => mem n runtime_globals
  | IConst _ n (Some t) None _ => mem n runtime_globals || rooted t
  | ITypeAlias _ n _ t _ => mem n runtime_globals || rooted t
  | _ => false
  end.

(** Whether a declaration brings a value into existence for the type
    checker (constants, functions, classes, and the namespaces that hold
    some), as opposed to types only. *)
Fixpoint declares_value (i : item) : bool :=
  match i with
  | INamespace _ _ body _ => existsb declares_value body
  | IGlobal body => existsb declares_value body
  | IClass _ _ _ | IConst _ _ _ _ _ | IFunction _ _ _ | IFunctionImpl _ _ _ _ => true
  | _ => false
  end.

(** ** Documented browser names

    src/jquery/client.d.ts, lines 43 to 56: the doc comment of [profile]
    lists the recognised browser names. *)
Definition recognised_browser_names : list string :=
  ["android"; "chrome"; "crios"; "edge"; "firefox"; "fxios"; "konqueror"; "msie"; "opera";
   "rekonq"; "safari"; "silk"].

(** src/jquery/client.d.ts, lines 96 to 103: the keys of the browser map
    that the doc comment of [test] gives as the example of the format. *)
Definition documented_map_keys : list string := ["msie"; "iphone"; "android"].

(** * The helper script as functions

  The four functions of the script that prints the generated parameter
  interfaces.  [type] is an array of strings or a string, as the API gives
  it; [multi] is read for its truth only. *)
Module ParamScript.

#[local] Open Scope string_scope.

Inductive paramtype : Type :=
| Values (vs : list string)
| Named (t : string).

Record parameter : Type :=
  MkParameter { param_name : string; param_type_ : paramtype; param_multi : bool }.

Record module : Type :=
  MkModule { classname : string; prefix : string; parameters : list parameter }.

Record named_type : Type := NamedType { name : string; type : string }.

Definition quoted (s : string) : string := dq ++ s ++ dq.

Definition includes (needle hay : string) : bool := mentions needle hay.

Definition processParamInfo (type : paramtype) (prefix name : string) (multi : bool)
  : named_type :=
  let type :=
    match type with
    | Values vs =>
        let type := String.concat " | " (map quoted vs) in
        if multi then "OneOrMore<" ++ type ++ ">" else type
    | Named t =>
        let type :=
          if String.eqb t "text" || String.eqb t "title" || String.eqb t "user"
             || String.eqb t "raw"
          then "string"
          else if String.eqb t "integer" then "number" else t in
        if multi then type ++ " | " ++ type ++ "[]" else type
    end in
  let type :=
    if String.eqb name "tags" || String.eqb name "tagfilter" || String.eqb name "wikis"
       || String.eqb name "site"
    then "string | string[]"
    else type in
  let name := prefix ++ name in
  let name := if includes "-" name then quoted name else name in
  NamedType name type.

Definition indent (l : string) : string := tab ++ l.

(** [split("\\").pop()]: what follows the last backslash. *)
Fixpoint last_segment (acc s : string) : string :=
  match s with
  | EmptyString => acc
  | String c r =>
      if Ascii.eqb c "\" then last_segment EmptyString r
      else last_segment (acc ++ String c EmptyString) r
  end.

(** [replace(/Api/g, "")]: the occurrences of Api removed, left to right. *)
Fixpoint without_Api (s : string) : string :=
  match s with
  | String "A" (String "p" (String "i" r)) => without_Api r
  | String c r => String c (without_Api r)
  | EmptyString => EmptyString
  end.

Definition getInterfaceName (m : module) : string :=
  without_Api (last_segment EmptyString (classname m)) ++ "Params".

Definition formatInterface (m : module) : string :=
  let name := getInterfaceName m in
  String.concat nl
    (map indent
       (("interface " ++ name ++ " extends Params {")
        :: map (fun p =>
                  let nt := processParamInfo (param_type_ p) (prefix m) (param_name p)
                              (param_multi p) in
                  tab ++ ParamScript.name nt ++ "?: " ++ type nt ++ ";")
             (parameters m)
        ++ ["}"])).

(** What the script prints, from the modules of its two requests. *)
Definition printed (data queryApiData : list module) : string :=
  let actionsTypes := String.concat (nl ++ nl) (map formatInterface data) in
  let queryTypes := String.concat (nl ++ nl) (map formatInterface queryApiData) in
  String.concat nl ["declare namespace mw.Api {"; actionsTypes; EmptyString; queryTypes; "}"].

End ParamScript.

(** ** Files and names the properties speak of *)

Definition script_file : file := File "mediawiki.api/Api.d.ts" 2 (Source api_params_script).
Definition loader_file : file := File "mediawiki/loader.d.ts" 0 (Source mediawiki_loader_d_ts).
Definition color_file : file :=
  File "jquery.color/jquery.d.ts" 0 (Source jquery_color_jquery_d_ts).
Definition utility_types_file : file := File "unnamed/part_002" 0 (Source part_002).

Definition mw_loader : list string := ["mw"; "loader"].
Definition mw_loader_store : list string := ["mw"; "loader"; "store"].

(** A declaration without code: not a function with a body, not a
    statement, not a constant with an initialiser. *)
Definition without_code (i : item) : Prop :=
  match i with
  | IFunctionImpl _ _ _ _ | IStatement _ | IConst _ _ _ (Some _) _ => False
  | _ => True
  end.

(** The operations of a file that have a body. *)
Definition bodies (f : file) : list (list string) :=
  map op_name (filter (fun op => match op_body op with Some _ => true | None => false end)
                 (file_operations f)).


Definition const_type (i : item) : option ty :=
  match i with IConst _ _ t None _ => t | _ => None end.



(** The top-level elements of a file that are neither linking directives
    nor descriptions of the runtime. *)
Definition foreign_elements (f : file) : list item :=
  filter (fun i => negb (directive i || describes_runtime i)) (items_of f).

(** The operations of the loader protocol, by role. *)
Definition loader_protocol : list (string * list string) :=
  [("registration", ["mw"; "loader"; "register"]);
   ("dependency resolution", ["mw"; "loader"; "resolve"]);
   ("fetch and execute", ["mw"; "loader"; "load"]);
   ("fetch and execute", ["mw"; "loader"; "using"]);
   ("fetch and execute", ["mw"; "loader"; "impl"]);
   ("local persistence", ["mw"; "loader"; "store"])].

(** The function signatures that a namespace declares directly. *)
Definition namespace_functions (i : item) : list string :=
  match i with
  | INamespace _ _ body _ =>
      flat_map (fun x => match x with IFunction n _ _ => [n] | _ => [] end) body
  | _ => []
  end.

(** The directories of the named source files that the entry point refers to. *)
Definition linked_directories : list string :=
  ["jquery"; "mediawiki"; "mediawiki.ForeignApi.core"; "mediawiki.api"].

(** The first operation of a file with a given name. *)
Definition operation_named (f : file) (q : list string) : option operation :=
  find (fun op => path_eqb (op_name op) q) (file_operations f).

(** The five states of a registry entry and the seven states of a module,
    as the specification lists them. *)
Definition registry_states : list string :=
  ["error"; "loaded"; "missing"; "registered"; "ready"].
Definition module_states : list string :=
  ["error"; "executing"; "loaded"; "loading"; "missing"; "ready"; "registered"].

Definition registry_entry : list string := ["mw"; "loader"; "ModuleRegistryEntry"].
Definition module_registry : list string := ["mw"; "loader"; "moduleRegistry"].
Definition get_state : list string := ["mw"; "loader"; "getState"].

(** The declared types of the property [n] of the interface [q]. *)
Definition property_types (fs : list file) (q : list string) (n : string) : list ty :=
  flat_map (fun d =>
    match property_type n (interface_members d) with
    | Some t => [t]
    | None => []
    end) (lookup fs q).

(** The signatures declared for a name. *)
Definition signatures (fs : list file) (q : list string) : list sig :=
  flat_map (fun d => match signature_of d with Some s => [s] | None => [] end) (lookup fs q).

Definition mw_notify : list string := ["mw"; "notify"].
Definition mw_notification_notify : list string := ["mw"; "notification"; "notify"].

Definition jquery_client : list string := ["JQuery"; "Client"].

(** The strings of a list that a type of the user-agent declarations does
    not admit. *)
Definition refused (t : ty) (names : list string) : list string :=
  filter (fun n =>
    match admits repository jquery_client 3 t n with
    | Some true => false
    | _ => true
    end) names.

(** * More of the declarations *)

(** ** Type names

    The names that a type refers to, at any depth. *)
Fixpoint type_names (t : ty) : list (list string) :=
  match t with
  | TKw _ | TLit _ | TInfer _ | TTypeof _ => []
  | TRef name args => name :: flat_map type_names args
  | TArray t' | TKeyof t' => type_names t'
  | TTuple elems => flat_map (fun e => match e with TElem _ _ t' => type_names t' end) elems
  | TUnion ts | TInter ts => flat_map type_names ts
  | TFun s => sig_names s
  | TObj ms => flat_map member_names ms
  | TIndex t' i => type_names t' ++ type_names i
  | TCond c e a b => type_names c ++ type_names e ++ type_names a ++ type_names b
  | TMapped _ src a _ v =>
      type_names src ++ match a with Some a' => type_names a' | None => [] end ++ type_names v
  | TTemplate parts =>
      flat_map (fun p => match p with PText _ => [] | PHole t' => type_names t' end) parts
  end
with sig_names (s : sig) : list (list string) :=
  match s with
  | Sig tps ps ret =>
      flat_map (fun tp =>
          match tp with
          | TParam _ b d =>
              match b with Some b' => type_names b' | None => [] end
              ++ match d with Some d' => type_names d' | None => [] end
          end) tps
      ++ flat_map (fun p => match p with Param _ _ t' => type_names t' end) ps
      ++ type_names ret
  end
with member_names (m : member) : list (list string) :=
  match m with
  | MProp _ _ t' _ => type_names t'
  | MMethod _ s _ | MCall s _ => sig_names s
  | MIndexSig _ kt v => type_names kt ++ type_names v
  end.

(** The signatures that a type contains, at any depth. *)
Fixpoint type_sigs (t : ty) : list sig :=
  match t with
  | TKw _ | TLit _ | TInfer _ | TTypeof _ => []
  | TRef _ args => flat_map type_sigs args
  | TArray t' | TKeyof t' => type_sigs t'
  | TTuple elems => flat_map (fun e => match e with TElem _ _ t' => type_sigs t' end) elems
  | TUnion ts | TInter ts => flat_map type_sigs ts
  | TFun s => s :: sig_sigs s
  | TObj ms => flat_map member_sigs ms
  | TIndex t' i => type_sigs t' ++ type_sigs i
  | TCond c e a b => type_sigs c ++ type_sigs e ++ type_sigs a ++ type_sigs b
  | TMapped _ src a _ v =>
      type_sigs src ++ match a with Some a' => type_sigs a' | None => [] end ++ type_sigs v
  | TTemplate parts =>
      flat_map (fun p => match p with PText _ => [] | PHole t' => type_sigs t' end) parts
  end
with sig_sigs (s : sig) : list sig :=
  match s with
  | Sig tps ps ret =>
      flat_map (fun tp =>
          match tp with
          | TParam _ b d =>
              match b with Some b' => type_sigs b' | None => [] end
              ++ match d with Some d' => type_sigs d' | None => [] end
          end) tps
      ++ flat_map (fun p => match p with Param _ _ t' => type_sigs t' end) ps
      ++ type_sigs ret
  end
with member_sigs (m : member) : list sig :=
  match m with
  | MProp _ _ t' _ => type_sigs t'
  | MMethod _ s _ | MCall s _ => s :: sig_sigs s
  | MIndexSig _ kt v => type_sigs kt ++ type_sigs v
  end.

Definition cmember_sigs (m : cmember) : list sig :=
  match m with
  | CCtor ps _ => [Sig [] ps (TKw "void")]
  | CProp _ _ _ t _ => type_sigs t
  | CMethod _ _ s _ => s :: sig_sigs s
  end.

(** Every signature of a declaration: of functions, methods, call
    signatures, constructors (their parameters) and function types. *)
Fixpoint item_sigs (i : item) : list sig :=
  match i with
  | INamespace _ _ body _ | IGlobal body => flat_map item_sigs body
  | IInterface _ tps ext ms _ => flat_map type_sigs ext ++ flat_map member_sigs ms
  | IClass _ ms _ => flat_map cmember_sigs ms
  | ITypeAlias _ _ tps t _ =>
      flat_map (fun tp =>
          match tp with
          | TParam _ b d =>
              match b with Some b' => type_sigs b' | None => [] end
              ++ match d with Some d' => type_sigs d' | None => [] end
          end) tps
      ++ type_sigs t
  | IConst _ _ (Some t) _ _ => type_sigs t
  | IFunction _ s _ => s :: sig_sigs s
  | _ => []
  end.

Definition file_sigs (f : file) : list sig := flat_map item_sigs (items_of f).

(** The order of parameters that TypeScript accepts: [this] first, then the
    required ones, then the optional ones, then at most one rest
    parameter. *)
Fixpoint after_optional (ks : list pkind) : bool :=
  match ks with
  | [] | [Rest] => true
  | Optional :: ks' => after_optional ks'
  | _ => false
  end.

Fixpoint after_this (ks : list pkind) : bool :=
  match ks with
  | Required :: ks' => after_this ks'
  | _ => after_optional ks
  end.

Definition parameters_ordered (s : sig) : bool :=
  match map param_kind (sig_params s) with
  | ThisParam :: ks => after_this ks
  | ks => after_this ks
  end.

(** ** Template literal types

    Whether a string matches the parts of a template literal type whose
    holes are all [string]: a text part must come next, a hole takes any
    run of characters, the empty one included.  Holes of other types are
    not read: no string matches them here. *)
Fixpoint drop (n : nat) (s : string) : string :=
  match n, s with
  | S n', String _ s' => drop n' s'
  | _, _ => s
  end.

Fixpoint matches_parts (parts : list tpart) (s : string) : bool :=
  match parts with
  | [] => match s with EmptyString => true | _ => false end
  | PText p :: rest => String.prefix p s && matches_parts rest (drop (String.length p) s)
  | PHole (TKw k) :: rest =>
      String.eqb k "string"
      && (fix from (s' : string) : bool :=
            matches_parts rest s'
            || match s' with
               | EmptyString => false
               | String _ s'' => from s''
               end) s
  | PHole _ :: _ => false
  end.

Definition matches_template (t : ty) (s : string) : bool :=
  match t with
  | TTemplate parts => matches_parts parts s
  | _ => false
  end.

(** ** Shapes of types *)

Definition union_members (t : ty) : list ty :=
  match t with
  | TUnion ts => ts
  | _ => [t]
  end.

Definition tuple_elements (t : ty) : list telem :=
  match t with
  | TTuple es => es
  | _ => []
  end.

Definition elem_label (e : telem) : option string := let (l, _, _) := e in l.
Definition elem_optional (e : telem) : bool := let (_, o, _) := e in o.
Definition elem_type (e : telem) : ty := let (_, _, t) := e in t.
Definition param_name (p : param) : string := let (n, _, _) := p in n.

Definition is_literal (t : ty) : bool := match t with TLit _ => true | _ => false end.

(** The names of the properties and methods of an interface or object type. *)
Definition member_names_of (ms : list member) : list string :=
  flat_map (fun m => match member_name m with Some n => [n] | None => [] end) ms.

Definition object_members (t : ty) : list member :=
  match t with
  | TObj ms => ms
  | _ => []
  end.

(** The type of a property of an interface, looked for in the interface
    and then in the interfaces it extends, over every declaration of the
    interface in the namespace [ns]. *)
Fixpoint inherited_property (fs : list file) (ns : list string) (fuel : nat)
    (iface n : string) : option ty :=
  match fuel with
  | 0 => None
  | S k =>
      let ds := lookup fs (ns ++ [iface]) in
      match property_type n (flat_map interface_members ds) with
      | Some t => Some t
      | None =>
          let parents :=
            flat_map (fun d =>
              match d with
              | IInterface _ _ ext _ _ =>
                  flat_map (fun e => match e with TRef [p] [] => [p] | _ => [] end) ext
              | _ => []
              end) ds in
          (fix first (ps : list string) : option ty :=
             match ps with
             | [] => None
             | p :: ps' =>
                 match inherited_property fs ns k p n with
                 | Some t => Some t
                 | None => first ps'
                 end
             end) parents
      end
  end.

(** ** The generated interfaces and the script

    The text of a type as the script prints types: a name, string literals
    joined by a bar, [OneOrMore] of those, or a name and its array. *)
Definition type_name (t : ty) : option string :=
  match t with
  | TKw k => Some k
  | TRef [n] [] => Some n
  | _ => None
  end.

Definition literal_values (t : ty) : option (list string) :=
  match t with
  | TLit s => Some [s]
  | TUnion ts =>
      if forallb is_literal ts then Some (literals t) else None
  | _ => None
  end.

Definition render (t : ty) : option string :=
  match type_name t with
  | Some n => Some n
  | None =>
      match literal_values t with
      | Some vs => Some (String.concat " | " (map ParamScript.quoted vs))
      | None =>
          match t with
          | TRef ["OneOrMore"] [t'] =>
              match literal_values t' with
              | Some vs =>
                  Some ("OneOrMore<" ++ String.concat " | " (map ParamScript.quoted vs) ++ ">")%string
              | None => None
              end
          | TUnion [a; TArray b] =>
              match type_name a, type_name b with
              | Some n, Some n' => Some (n ++ " | " ++ n' ++ "[]")%string
              | _, _ => None
              end
          | _ => None
          end
      end
  end.

(** The interfaces of the generated file. *)
Definition generated_interfaces : list item :=
  flat_map (fun i => match i with INamespace _ _ b _ => b | _ => [] end)
    mediawiki_api_Api_d_ts_2.

Definition interface_name (i : item) : string :=
  match i with IInterface n _ _ _ _ => n | _ => EmptyString end.

Definition interface_extends (i : item) : list ty :=
  match i with IInterface _ _ ext _ _ => ext | _ => [] end.

Definition mw_Api : list string := ["mw"; "Api"].

(** The last character of a string. *)
Fixpoint last_char (s : string) : option ascii :=
  match s with
  | EmptyString => None
  | String c EmptyString => Some c
  | String _ r => last_char r
  end.

Definition first_char (s : string) : option ascii :=
  match s with
  | EmptyString => None
  | String c _ => Some c
  end.

(** The names of types that the API uses and TypeScript does not have. *)
Definition api_only_types : list string := ["text"; "title"; "user"; "raw"; "integer"].

(** The names of parameters whose type the script loosens. *)
Definition loose_names : list string := ["tags"; "tagfilter"; "wikis"; "site"].

(** The endings of a string, itself and the empty string among them. *)
Fixpoint suffixes (s : string) : list string :=
  s :: match s with
       | EmptyString => []
       | String _ r => suffixes r
       end.

(** A generated property is an optional property without a comment whose
    type is one that the script prints, with none of the API-only names in
    it.  When its name ends in a loose name it has no hyphen and its type
    is the loose one; inverttags, of type boolean, is the one property
    that ends in a loose name and is not loosened. *)
Definition generated_member (m : member) : bool :=
  match m with
  | MProp n true t (Doc EmptyString []) =>
      match render t with
      | Some text =>
          forallb (fun a => negb (existsb (path_eqb [a]) (type_names t))) api_only_types
          && (negb (existsb (fun s => mem s loose_names) (suffixes n))
              || negb (mentions "-" n) && String.eqb text "string | string[]"
              || String.eqb n "inverttags" && String.eqb text "boolean")
      | None => false
      end
  | _ => false
  end.

(** ** Names and readers for the further properties *)

Definition api_file : file := File "mediawiki.api/Api.d.ts" 0 (Source mediawiki_api_Api_d_ts).

Definition call_signatures (fs : list file) (q : list string) : list sig :=
  flat_map (fun d =>
    flat_map (fun m => match m with MCall s _ => [s] | _ => [] end) (interface_members d))
    (lookup fs q).

(** The overloads of a method of a class, in the order of the source, each
    with its doc comment. *)
Definition class_methods (fs : list file) (q : list string) (n : string) : list (sig * jsdoc) :=
  flat_map (fun d =>
    match d with
    | IClass _ ms _ =>
        flat_map (fun m =>
          match m with
          | CMethod _ n' s doc => if String.eqb n n' then [(s, doc)] else []
          | _ => []
          end) ms
    | _ => []
    end) (lookup fs q).

Definition deprecated (d : jsdoc) : bool :=
  negb (Nat.eqb (length (tags_named "deprecated" d)) 0).

Definition is_optional (k : pkind) : bool :=
  match k with Optional => true | _ => false end.

Definition first_param_type (s : sig) : option ty :=
  match sig_params s with
  | p :: _ => Some (param_type p)
  | [] => None
  end.

(** The declared types of a constant, over its declarations. *)
Definition const_types (fs : list file) (q : list string) : list ty :=
  flat_map (fun d => match const_type d with Some t => [t] | None => [] end) (lookup fs q).

(** The constants that the namespaces of a name declare directly. *)
Definition namespace_consts (fs : list file) (q : list string) : list (string * ty) :=
  flat_map (fun d =>
    match d with
    | INamespace _ _ body _ =>
        flat_map (fun x => match x with IConst _ n (Some t) None _ => [(n, t)] | _ => [] end) body
    | _ => []
    end) (lookup fs q).

Definition mw_loader_implement : list string := ["mw"; "loader"; "implement"].
Definition mw_loader_register : list string := ["mw"; "loader"; "register"].
Definition module_declarator : list string := ["mw"; "loader"; "ModuleDeclarator"].
Definition token_methods : list string := ["postWithToken"; "getToken"; "badToken"].
Definition mw_language_months : list string := ["mw"; "language"; "months"].
Definition highlight_text : list string := ["JQuery"; "HighlightText"].
Definition notification_options : list string := ["mw"; "Notification"; "Options"].
Definition auto_hide_seconds : list string := ["mw"; "notification"; "autoHideSeconds"].

(** The head of a generated interface: it extends Params and nothing
    else, has no comment, and its name ends in Params after a base without
    a backslash and without Api. *)
Definition generated_head (i : item) : bool :=
  match i with
  | IInterface n [] [TRef [p] []] _ (Doc EmptyString []) =>
      let base := substring 0 (String.length n - 6) n in
      String.eqb p "Params"
      && String.eqb (base ++ "Params") n
      && negb (mentions "\" base)
      && negb (mentions "Api" base)
  | _ => false
  end.

Definition names_used (i : item) : list (list string) :=
  flat_map type_names (interface_extends i) ++ flat_map member_names (interface_members i).

Definition method_sigs (fs : list file) (q : list string) (n : string) : list sig :=
  flat_map (fun d =>
    flat_map (fun m =>
      match m with
      | MMethod n' s _ => if String.eqb n n' then [s] else []
      | _ => []
      end) (interface_members d)) (lookup fs q).

(** The parents of an interface: the plain names it extends. *)
Definition parents (fs : list file) (q : list string) : list string :=
  flat_map (fun d =>
    match d with
    | IInterface _ _ ext _ _ =>
        flat_map (fun e => match e with TRef [p] [] => [p] | _ => [] end) ext
    | _ => []
    end) (lookup fs q).

(** ** Type aliases with parameters

    The body of an alias with its parameters replaced by arguments, for the
    bodies that bind no name of their own (no function type, object type,
    conditional, mapped or template type): [None] for the others. *)
Fixpoint all_some {A : Type} (l : list (option A)) : option (list A) :=
  match l with
  | [] => Some []
  | Some x :: l' => option_map (cons x) (all_some l')
  | None :: _ => None
  end.

Fixpoint subst (sigma : list (string * ty)) (t : ty) : option ty :=
  match t with
  | TKw _ | TLit _ => Some t
  | TRef [n] [] =>
      match assoc n sigma with
      | Some a => Some a
      | None => Some t
      end
  | TRef name args => option_map (TRef name) (all_some (map (subst sigma) args))
  | TArray t' => option_map TArray (subst sigma t')
  | TUnion ts => option_map TUnion (all_some (map (subst sigma) ts))
  | TInter ts => option_map TInter (all_some (map (subst sigma) ts))
  | TKeyof t' => option_map TKeyof (subst sigma t')
  | TIndex t' i =>
      match subst sigma t', subst sigma i with
      | Some a, Some b => Some (TIndex a b)
      | _, _ => None
      end
  | _ => None
  end.

Definition alias_declaration (fs : list file) (q : list string)
  : option (list string * ty) :=
  match lookup fs q with
  | ITypeAlias _ _ tps t _ :: _ =>
      Some (map (fun tp => match tp with TParam n _ _ => n end) tps, t)
  | _ => None
  end.

(** The type that an alias stands for at given arguments, one for each
    parameter. *)
Definition instantiate (fs : list file) (q : list string) (args : list ty) : option ty :=
  match alias_declaration fs q with
  | Some (names, body) =>
      if Nat.eqb (length names) (length args) then subst (combine names args) body else None
  | None => None
  end.

(** ** The tools of the manifest *)

Fixpoint first_word (s : string) : string :=
  match s with
  | EmptyString => EmptyString
  | String c r => if Ascii.eqb c " " then EmptyString else String c (first_word r)
  end.

Fixpoint json_strings (j : json) : list string :=
  match j with
  | JString s => [s]
  | JArray l => flat_map json_strings l
  | JObject fs => flat_map (fun kv => match kv with (_, v) => json_strings v end) fs
  end.

(** The commands that the manifest runs: those of its scripts, of its
    commit hooks and of its staged-file rules. *)
Definition commands (j : json) : list string :=
  flat_map (fun sec =>
    match field sec j with
    | Some v => map first_word (json_strings v)
    | None => []
    end) ["scripts"; "husky"; "lint-staged"].

Definition mw_Notification : list string := ["mw"; "Notification"].
(** ** Induction on declarations *)

Section ItemInduction.

Variable P : item -> Prop.

Hypothesis P_namespace :
  forall m name body d, Forall P body -> P (INamespace m name body d).
Hypothesis P_global : forall body, Forall P body -> P (IGlobal body).
Hypothesis P_leaf :
  forall i,
    match i with INamespace _ _ _ _ | IGlobal _ => False | _ => True end -> P i.

Fixpoint item_nested_ind (i : item) : P i :=
  let all :=
    fix all (l : list item) : Forall P l :=
      match l with
      | [] => Forall_nil P
      | x :: l' => Forall_cons x (item_nested_ind x) (all l')
      end in
  match i with
  | INamespace m name body d => P_namespace m name body d (all body)
  | IGlobal body => P_global body (all body)
  | i' => P_leaf i' I
  end.

End ItemInduction.

(** ** Proof steps *)

(** Membership in an explicit list, by position. *)
Ltac in_list := repeat (first [left; reflexivity | right]).

(** One case for each element of an explicit list. *)
Ltac each_of H := repeat (destruct H as [<- | H]); [.. | destruct H].

(** * Properties *)

(** ** Names *)

Lemma path_eqb_eq (p q : list string) : path_eqb p q = true <-> p = q.
Proof.
  revert q; induction p as [|x p IH]; intros [|y q]; simpl; split; try easy.
  - intros H. apply andb_true_iff in H as [Hx Hp].
    apply String.eqb_eq in Hx. apply IH in Hp. now subst.
  - intros H. injection H as -> ->.
    apply andb_true_iff. split; [apply String.eqb_refl | now apply IH].
Qed.

Lemma mem_In (s : string) (l : list string) : mem s l = true <-> In s l.
Proof.
  unfold mem. rewrite existsb_exists. split.
  - intros (x & Hx & E). apply String.eqb_eq in E. now subst.
  - intros H. exists s. split; [assumption | apply String.eqb_refl].
Qed.


(** ** Declarations carry no code *)

(** An ambient declaration has nothing executable in it. *)
Lemma ambient_not_executable (i : item) : ambient i = true -> executable i = false.
Proof.
  induction i as [m name body d IH | body IH | i Hleaf] using item_nested_ind; simpl.
  - intros H. rewrite forallb_forall in H.
    apply not_true_is_false. intros E. apply existsb_exists in E as (x & Hx & Ex).
    rewrite Forall_forall in IH. rewrite (IH x Hx (H x Hx)) in Ex. discriminate.
  - intros H. rewrite forallb_forall in H.
    apply not_true_is_false. intros E. apply existsb_exists in E as (x & Hx & Ex).
    rewrite Forall_forall in IH. rewrite (IH x Hx (H x Hx)) in Ex. discriminate.
  - destruct i; try easy. simpl. destruct t, init; easy.
Qed.

Lemma directive_not_executable (i : item) : directive i = true -> executable i = false.
Proof. destruct i; easy. Qed.

(** A declaration file has no implementation. *)
Lemma declaration_file_no_implementation (f : file) :
  declaration_file f = true -> has_implementation f = false.
Proof.
  unfold declaration_file, has_implementation, items_of.
  destruct (body f) as [its|j]; [|discriminate].
  intros H. apply andb_true_iff in H as [_ H]. rewrite forallb_forall in H.
  apply not_true_is_false. intros E. apply existsb_exists in E as (x & Hx & Ex).
  specialize (H x Hx). apply orb_true_iff in H as [H|H].
  - rewrite (ambient_not_executable x H) in Ex. discriminate.
  - rewrite (directive_not_executable x H) in Ex. discriminate.
Qed.

Lemma entries_without_code (i : item) :
  executable i = false ->
  forall prefix e, In e (entries prefix i) -> executable (snd e) = false.
Proof.
  induction i as [m name body d IH | body IH | i Hleaf] using item_nested_ind;
    intros Hx prefix e He.
  - simpl in He. destruct He as [<- | He]; [exact Hx|].
    apply in_flat_map in He as (x & Hin & He).
    rewrite Forall_forall in IH. apply (IH x Hin) with (prefix := (prefix ++ name)%list); [|exact He].
    simpl in Hx. apply not_true_is_false. intros E.
    assert (existsb executable body = true) by (apply existsb_exists; eauto). congruence.
  - simpl in He. apply in_flat_map in He as (x & Hin & He).
    rewrite Forall_forall in IH. apply (IH x Hin) with (prefix := prefix); [|exact He].
    simpl in Hx. apply not_true_is_false. intros E.
    assert (existsb executable body = true) by (apply existsb_exists; eauto). congruence.
  - destruct i; try contradiction; simpl in He; try contradiction;
      destruct He as [<- | []]; exact Hx.
Qed.

Lemma not_executable_without_code (i : item) : executable i = false -> without_code i.
Proof. destruct i; simpl; try easy. destruct init; easy. Qed.

(** Where nothing is executable, no operation has a body. *)
Lemma operations_without_body (i : item) :
  executable i = false ->
  forall prefix op, In op (operations prefix i) -> op_body op = None.
Proof.
  induction i as [m name body d IH | body IH | i Hleaf] using item_nested_ind;
    intros Hx prefix op Hop.
  - simpl in Hop. apply in_flat_map in Hop as (x & Hin & Hop).
    rewrite Forall_forall in IH. apply (IH x Hin) with (prefix := (prefix ++ name)%list); [|exact Hop].
    simpl in Hx. apply not_true_is_false. intros E.
    assert (existsb executable body = true) by (apply existsb_exists; eauto). congruence.
  - simpl in Hop. apply in_flat_map in Hop as (x & Hin & Hop).
    rewrite Forall_forall in IH. apply (IH x Hin) with (prefix := prefix); [|exact Hop].
    simpl in Hx. apply not_true_is_false. intros E.
    assert (existsb executable body = true) by (apply existsb_exists; eauto). congruence.
  - destruct i; try contradiction; simpl in Hop; try contradiction.
    + apply in_flat_map in Hop as (x & _ & Hop). destruct x; simpl in Hop;
        try contradiction; destruct Hop as [<- | []]; reflexivity.
    + apply in_flat_map in Hop as (x & _ & Hop). destruct x; simpl in Hop;
        try contradiction; destruct Hop as [<- | []]; reflexivity.
    + destruct Hop as [<- | []]; reflexivity.
    + discriminate Hx.
Qed.

Lemma file_operations_without_body (f : file) :
  has_implementation f = false ->
  forall op, In op (file_operations f) -> op_body op = None.
Proof.
  unfold has_implementation, file_operations. intros H op Hop.
  apply in_flat_map in Hop as (x & Hin & Hop).
  apply (operations_without_body x) with (prefix := @nil string); [|exact Hop].
  apply not_true_is_false. intros E.
  assert (existsb executable (items_of f) = true) by (apply existsb_exists; eauto). congruence.
Qed.

(** ** The helper script computes *)

Example processParamInfo_integer :
  ParamScript.processParamInfo (ParamScript.Named "integer") "rc" "limit" false
  = ParamScript.NamedType "rclimit" "number".
Proof. reflexivity. Qed.

Example processParamInfo_values :
  ParamScript.processParamInfo (ParamScript.Values ["ids"; "title"]) "rc" "prop" true
  = ParamScript.NamedType "rcprop"
      ("OneOrMore<" ++ dq ++ "ids" ++ dq ++ " | " ++ dq ++ "title" ++ dq ++ ">")%string.
Proof. reflexivity. Qed.

Example processParamInfo_hyphen :
  ParamScript.processParamInfo (ParamScript.Named "title") "page-" "message" true
  = ParamScript.NamedType (dq ++ "page-message" ++ dq)%string "string | string[]".
Proof. reflexivity. Qed.

Example getInterfaceName_namespaced :
  ParamScript.getInterfaceName
    (ParamScript.MkModule "MediaWiki\Extension\AbuseFilter\Api\CheckSyntax" EmptyString [])
  = "CheckSyntaxParams".
Proof. reflexivity. Qed.

Example formatInterface_CheckSyntax :
  ParamScript.formatInterface
    (ParamScript.MkModule "ApiCheckSyntax" EmptyString
       [ParamScript.MkParameter "filter" (ParamScript.Named "text") false])
  = (tab ++ "interface CheckSyntaxParams extends Params {" ++ nl
     ++ tab ++ tab ++ "filter?: string;" ++ nl
     ++ tab ++ "}")%string.
Proof. reflexivity. Qed.

(** The four names that the script does not type precisely are strings or
    arrays of strings whatever the API says of them. *)
Lemma processParamInfo_loose (t : ParamScript.paramtype) (prefix name : string) (multi : bool) :
  In name ["tags"; "tagfilter"; "wikis"; "site"] ->
  ParamScript.type (ParamScript.processParamInfo t prefix name multi) = "string | string[]".
Proof.
  intros H. cbv [In] in H. each_of H; reflexivity.
Qed.

(** The name of a parameter is quoted exactly when it has a hyphen. *)
Lemma processParamInfo_name (t : ParamScript.paramtype) (prefix name : string) (multi : bool) :
  ParamScript.name (ParamScript.processParamInfo t prefix name multi)
  = if mentions "-" (prefix ++ name)
    then ParamScript.quoted (prefix ++ name)
    else (prefix ++ name)%string.
Proof. reflexivity. Qed.

(** ** C1: implementation in the repository *)

(** C1, as stated, fails: the claim says that every source file holds
    only ambient declarations and no executable implementation.  The third
    document of src/mediawiki.api/Api.d.ts is a script: it has four
    functions with a body and top-level statements, and its functions
    compute. *)
Lemma script_has_implementation :
  In script_file repository
  /\ has_implementation script_file = true
  /\ declaration_file script_file = false
  /\ bodies script_file =
       [["processParamInfo"]; ["indent"]; ["getInterfaceName"]; ["formatInterface"]]
  /\ ParamScript.getInterfaceName (ParamScript.MkModule "ApiBlock" EmptyString []) = "BlockParams".
Proof.
  split; [unfold script_file, repository; in_list|].
  repeat split; vm_compute; reflexivity.
Qed.

Lemma implemented_is_script (f : file) :
  In f repository -> has_implementation f = true -> f = script_file.
Proof.
  intros H E. unfold repository in H. cbv [In] in H.
  each_of H; try reflexivity; vm_compute in E; discriminate E.
Qed.

Lemma not_declaration_file (f : file) :
  In f repository -> declaration_file f = false -> f = script_file \/ f = manifest.
Proof.
  intros H E. unfold repository in H. cbv [In] in H.
  each_of H; try (left; reflexivity); try (right; reflexivity);
    vm_compute in E; discriminate E.
Qed.

(** C1, amended: every source file other than the parameter script has no
    executable implementation (no function body, no initialised constant, no
    statement), and every source file other than that script and the package
    manifest consists of ambient declarations and linking directives only. *)
Theorem implementation_only_in_script (f : file) :
  In f repository -> f <> script_file ->
  has_implementation f = false
  /\ (f <> manifest -> declaration_file f = true).
Proof.
  intros Hin Hs. split.
  - apply not_true_is_false. intros E. apply Hs. now apply implemented_is_script.
  - intros Hm. apply not_false_is_true. intros E.
    destruct (not_declaration_file f Hin E); contradiction.
Qed.

Lemma implementation_only_in_script_witness :
  has_implementation loader_file = false
  /\ (loader_file <> manifest -> declaration_file loader_file = true).
Proof.
  apply (implementation_only_in_script loader_file).
  - unfold loader_file, repository; in_list.
  - unfold loader_file, script_file. intros E. discriminate E.
Defined.

(** ** C2: the manifest *)



(** ** C3: persisted data *)





(** ** C4: what the files describe *)

(** C4, as stated, fails: the claim says that every file of the
    repository declares shapes of the runtime, all of its top-level content
    describing runtime values.  The package manifest declares no name at
    all, the parameter script is executable code whose top-level names are
    its own, and the file of utility types declares types only: no value of
    the runtime. *)
Lemma manifest_declares_nothing :
  In manifest repository
  /\ declaration_file manifest = false
  /\ file_entries manifest = []
  /\ In script_file repository
  /\ map fst (file_entries script_file) =
       [["data"]; ["queryApiData"]; ["processParamInfo"]; ["indent"];
        ["getInterfaceName"]; ["formatInterface"]; ["actionsTypes"]; ["queryTypes"]]
  /\ forallb describes_runtime (items_of script_file) = false
  /\ In utility_types_file repository
  /\ existsb declares_value (items_of utility_types_file) = false.
Proof.
  repeat split; try (vm_compute; reflexivity).
  - unfold manifest, repository; in_list.
  - unfold script_file, repository; in_list.
  - unfold utility_types_file, repository; in_list.
Qed.

Lemma foreign_elements_none (f : file) :
  In f repository -> f <> script_file -> foreign_elements f = [].
Proof.
  intros H Hs. unfold repository in H. cbv [In] in H.
  each_of H; try (vm_compute; reflexivity). now elim Hs.
Qed.

(** C4, amended: every file other than the package manifest and the
    parameter script is a declaration file, and each of its top-level
    elements is a linking directive or a declaration that declares or
    extends a global of the runtime (mw, mediaWiki, JQuery, JQueryStatic) or
    names a part of one. *)
Theorem files_describe_runtime (f : file) :
  In f repository -> f <> script_file -> f <> manifest ->
  items_of f <> []
  /\ forall i, In i (items_of f) -> directive i = true \/ describes_runtime i = true.
Proof.
  intros Hin Hs Hm.
  assert (declaration_file f = true) as Hd.
  { apply not_false_is_true. intros E. destruct (not_declaration_file f Hin E); contradiction. }
  unfold declaration_file in Hd. unfold items_of at 1.
  destruct (body f) as [its|j] eqn:B; [|discriminate].
  apply andb_true_iff in Hd as [Hn _]. split.
  - intros ->. discriminate Hn.
  - intros i Hi. pose proof (foreign_elements_none f Hin Hs) as F.
    unfold foreign_elements in F.
    destruct (directive i || describes_runtime i) eqn:E.
    + now apply orb_true_iff in E.
    + assert (In i (filter (fun i => negb (directive i || describes_runtime i)) (items_of f)))
        as Hf by (apply filter_In; split; [exact Hi | now rewrite E]).
      rewrite F in Hf. destruct Hf.
Qed.

Lemma files_describe_runtime_witness :
  items_of color_file <> []
  /\ forall i, In i (items_of color_file) -> directive i = true \/ describes_runtime i = true.
Proof.
  apply (files_describe_runtime color_file).
  - unfold color_file, repository; in_list.
  - unfold color_file, script_file. intros E. discriminate E.
  - unfold color_file, manifest. intros E. discriminate E.
Defined.

(** ** C5: the interface of the loader protocol *)

Lemma protocol_declared :
  forallb (fun rq =>
      negb (Nat.eqb (length (lookup repository (snd rq))) 0)
      && forallb (fun d =>
           negb (executable d)
           && (if path_eqb (snd rq) mw_loader_store then is_namespace d else is_signature d))
           (lookup repository (snd rq)))
    loader_protocol = true.
Proof. vm_compute. reflexivity. Qed.

(** C5: the declarations declare the operations of the loader protocol:
    registration (mw.loader.register), dependency resolution
    (mw.loader.resolve), fetch and execute (mw.loader.load, mw.loader.using,
    mw.loader.impl) as function signatures, and local persistence
    (mw.loader.store) as a namespace of function signatures; none of these
    declarations, and nothing declared inside them, has a body, an
    initialiser or a statement. *)
Theorem loader_protocol_interface (role : string) (q : list string) :
  In (role, q) loader_protocol ->
  lookup repository q <> []
  /\ (forall d, In d (lookup repository q) ->
        executable d = false
        /\ (forall e, In e (entries [] d) -> without_code (snd e))
        /\ (q <> mw_loader_store -> is_signature d = true)
        /\ (q = mw_loader_store ->
              is_namespace d = true
              /\ namespace_functions d =
                   ["add"; "clear"; "get"; "init"; "load"; "prune"; "toJSON"; "set";
                    "requestUpdate"])).
Proof.
  intros Hin.
  pose proof (proj1 (forallb_forall _ _) protocol_declared (role, q) Hin) as C.
  cbn [snd] in C. apply andb_true_iff in C as [Cn Cd]. split.
  - intros E. rewrite E in Cn. discriminate Cn.
  - intros d Hd. pose proof (proj1 (forallb_forall _ _) Cd d Hd) as C.
    apply andb_true_iff in C as [Cx Ck]. apply negb_true_iff in Cx.
    split; [exact Cx|]. split; [|split].
    + intros e He. apply not_executable_without_code.
      exact (entries_without_code d Cx [] e He).
    + intros Hq. destruct (path_eqb q mw_loader_store) eqn:E; [|exact Ck].
      apply path_eqb_eq in E. contradiction.
    + intros ->. split; [exact Ck|].
      vm_compute in Hd. destruct Hd as [<- | []]. reflexivity.
Qed.

Lemma loader_protocol_interface_witness :
  lookup repository ["mw"; "loader"; "register"] <> []
  /\ (forall d, In d (lookup repository ["mw"; "loader"; "register"]) ->
        executable d = false /\ is_signature d = true).
Proof.
  destruct (loader_protocol_interface "registration" ["mw"; "loader"; "register"])
    as [Hn Hd].
  - unfold loader_protocol; in_list.
  - split; [exact Hn|]. intros d Hin. destruct (Hd d Hin) as (Hx & _ & Hs & _).
    split; [exact Hx|]. apply Hs. intros E. discriminate E.
Defined.

(** ** C6: the entry point *)

(** C6, as stated, fails: the claim says that the entry point references
    every declaration part.  src/jquery.color/jquery.d.ts is a declaration
    file of the repository, and the entry point refers neither to its
    directory nor to that of the files under src/mediawiki.base. *)
Lemma color_not_referenced :
  In color_file repository
  /\ named color_file = true
  /\ declaration_file color_file = true
  /\ directory color_file = "jquery.color"
  /\ mem (directory color_file) (referenced index_d_ts) = false
  /\ mem "mediawiki.base" (referenced index_d_ts) = false.
Proof.
  split; [unfold color_file, repository; in_list|].
  repeat split; vm_compute; reflexivity.
Qed.

Lemma named_linked :
  forallb (fun f =>
      negb (named f) || String.eqb (src f) (src entry_point)
      || Bool.eqb (mem (directory f) (referenced index_d_ts))
           (mem (directory f) linked_directories)
         && (mem (directory f) linked_directories
             || String.eqb (directory f) "jquery.color"
             || String.eqb (directory f) "mediawiki.base"))
    repository = true.
Proof. vm_compute. reflexivity. Qed.

(** C6, amended: the entry point refers to the core index by path and to
    twenty-two module directories by name, and exports the mw namespace
    both as the module export and as a global namespace.  Of the named
    declaration files of the repository it reaches the directories jquery,
    mediawiki, mediawiki.ForeignApi.core and mediawiki.api, and not
    jquery.color nor mediawiki.base. *)
Theorem entry_point_links (f : file) :
  In f repository -> named f = true -> src f <> src entry_point ->
  In entry_point repository
  /\ declaration_file entry_point = true
  /\ length (referenced index_d_ts) = 23
  /\ export_assignments index_d_ts = ["mw"]
  /\ namespace_exports index_d_ts = ["mw"]
  /\ (In (directory f) (referenced index_d_ts) <-> In (directory f) linked_directories)
  /\ (In (directory f) linked_directories
      \/ directory f = "jquery.color" \/ directory f = "mediawiki.base").
Proof.
  intros Hin Hn Hs.
  split; [unfold entry_point, repository; in_list|].
  do 4 (split; [vm_compute; reflexivity|]).
  pose proof (proj1 (forallb_forall _ _) named_linked f Hin) as C.
  cbv beta in C. rewrite Hn in C. cbn [negb orb] in C.
  destruct (String.eqb (src f) (src entry_point)) eqn:E.
  - apply String.eqb_eq in E. contradiction.
  - cbn [orb] in C. apply andb_true_iff in C as [Ce Cd]. apply Bool.eqb_prop in Ce. split.
    + rewrite <- !mem_In. rewrite Ce. reflexivity.
    + apply orb_true_iff in Cd as [Cd | Cd]; [apply orb_true_iff in Cd as [Cd | Cd]|].
      * left. now apply mem_In.
      * right; left. now apply String.eqb_eq.
      * right; right. now apply String.eqb_eq.
Qed.

Lemma entry_point_links_witness :
  export_assignments index_d_ts = ["mw"]
  /\ namespace_exports index_d_ts = ["mw"]
  /\ (In (directory loader_file) (referenced index_d_ts)
      <-> In (directory loader_file) linked_directories).
Proof.
  destruct (entry_point_links loader_file) as (_ & _ & _ & Ha & Hb & Hc & _).
  - unfold loader_file, repository; in_list.
  - vm_compute; reflexivity.
  - vm_compute. intros E. discriminate E.
  - split; [exact Ha|]. split; [exact Hb | exact Hc].
Defined.

(** ** C7: error paths *)

Lemma flat_map_nil {A B : Type} (f : A -> list B) (l : list A) :
  (forall x, In x l -> f x = []) -> flat_map f l = [].
Proof.
  induction l as [|x l IH]; intros H; [reflexivity|].
  cbn [flat_map]. rewrite (H x (or_introl eq_refl)). cbn [app].
  apply IH. intros y Hy. apply H. now right.
Qed.

Lemma not_executable_in (l : list item) (x : item) :
  existsb executable l = false -> In x l -> executable x = false.
Proof.
  intros H Hx. apply not_true_is_false. intros E.
  assert (existsb executable l = true) by (apply existsb_exists; eauto). congruence.
Qed.

(** Where nothing is executable, nothing can raise when the file is run. *)
Lemma toplevel_raises_without_code (i : item) :
  executable i = false -> toplevel_raises i = [].
Proof.
  induction i as [m name body d IH | body IH | i Hleaf] using item_nested_ind; intros Hx.
  - cbn [toplevel_raises]. cbn [executable] in Hx. rewrite Forall_forall in IH.
    apply flat_map_nil. intros x Hin. apply (IH x Hin). now apply (not_executable_in body).
  - cbn [toplevel_raises]. cbn [executable] in Hx. rewrite Forall_forall in IH.
    apply flat_map_nil. intros x Hin. apply (IH x Hin). now apply (not_executable_in body).
  - destruct i; try reflexivity; try contradiction.
    + destruct init; [discriminate Hx | reflexivity].
    + discriminate Hx.
Qed.

(** Type declarations carry no error path: in a file without
    implementation, of this repository or of any other, no place can raise
    an error, at the top level or in an operation. *)
Lemma file_raises_without_code (f : file) :
  has_implementation f = false -> file_raises f = [].
Proof.
  intros H. unfold file_raises.
  rewrite (flat_map_nil toplevel_raises).
  - cbn [app]. apply flat_map_nil. intros op Hop. unfold own_raises.
    now rewrite (file_operations_without_body f H op Hop).
  - intros x Hin. apply toplevel_raises_without_code.
    now apply (not_executable_in (items_of f)).
Qed.

Lemma documented_throws_all :
  forallb (fun f =>
      forallb (fun op =>
          Nat.eqb (length (documented_throws op)) 0
          || path_eqb (op_name op) ["mw"; "loader"; "load"]
          || path_eqb (op_name op) ["mw"; "loader"; "resolve"])
        (file_operations f))
    repository = true.
Proof. vm_compute. reflexivity. Qed.

(** C7, as stated, fails: the claim says that the only errors arising
    from the repository are diagnostics of the type-checker.  The parameter
    script is a file of the repository that is run: outside every function
    it awaits two requests to the API, either of which can be rejected, and
    it calls methods and reads properties of what they answer; three of its
    four functions do the same with their arguments. *)
Lemma script_raises_at_run_time :
  In script_file repository
  /\ In (Awaited
           (ECall (EMember (ENew (EMember (EId "mw") "Api") []) "get") [
              EObject [("action", EStr "paraminfo"); ("format", EStr "json");
                       ("modules", EStr "*"); ("formatversion", EStr "2")]]))
        (flat_map toplevel_raises (items_of script_file))
  /\ length (filter is_await (flat_map toplevel_raises (items_of script_file))) = 2
  /\ length (flat_map toplevel_raises (items_of script_file)) = 26
  /\ map (fun op => (op_name op, length (own_raises op))) (file_operations script_file)
     = [(["processParamInfo"], 8); (["indent"], 0); (["getInterfaceName"], 7);
        (["formatInterface"], 13)]
  /\ file_raises script_file <> [].
Proof.
  split; [unfold script_file, repository; in_list|].
  split; [vm_compute; in_list|].
  repeat split; try (vm_compute; reflexivity).
  vm_compute. intros E. discriminate E.
Qed.

(** C7, amended: outside the parameter script the repository carries no
    error path.  A file other than the script has no implementation and no
    place that can raise; each of its operations is a signature without a
    body, so that the errors its documentation announces (a throws tag, on
    mw.loader.load and mw.loader.resolve only) and the failure values of
    its result type (false, for mw.loader.store.get) are those of the
    runtime it describes.  The script can raise when it is run, by a
    rejected request, a failed call or a failed reading of a property, at
    the two requests it awaits among others; it has no throw statement. *)
Theorem raises_only_in_script (f : file) :
  In f repository -> f <> script_file ->
  has_implementation f = false
  /\ file_raises f = []
  /\ (forall op, In op (file_operations f) ->
        op_body op = None
        /\ own_raises op = []
        /\ (documented_throws op <> [] ->
              op_name op = ["mw"; "loader"; "load"]
              \/ op_name op = ["mw"; "loader"; "resolve"]))
  /\ map sig_result (signatures repository (mw_loader_store ++ ["get"]))
     = [TUnion [TKw "string"; TKw "false"]]
  /\ filter is_throw (file_raises script_file) = []
  /\ length (filter is_await (file_raises script_file)) = 2.
Proof.
  intros Hin Hs.
  assert (has_implementation f = false) as Hi.
  { apply not_true_is_false. intros E. apply Hs. now apply implemented_is_script. }
  split; [exact Hi|]. split; [now apply file_raises_without_code|].
  split; [|repeat split; vm_compute; reflexivity].
  intros op Hop.
  assert (op_body op = None) as Hb by now apply (file_operations_without_body f Hi).
  split; [exact Hb|]. split; [unfold own_raises; now rewrite Hb|]. intros Hdoc.
  pose proof (proj1 (forallb_forall _ _) documented_throws_all f Hin) as C.
  cbv beta in C. pose proof (proj1 (forallb_forall _ _) C op Hop) as C'. cbv beta in C'.
  apply orb_true_iff in C' as [C' | C']; [apply orb_true_iff in C' as [C' | C']|].
  - apply Nat.eqb_eq in C'. apply length_zero_iff_nil in C'. contradiction.
  - left. now apply path_eqb_eq.
  - right. now apply path_eqb_eq.
Qed.

Lemma raises_only_in_script_witness :
  file_raises loader_file = []
  /\ match operation_named loader_file ["mw"; "loader"; "load"] with
     | Some op => op_body op = None /\ own_raises op = [] /\ documented_throws op <> []
     | None => False
     end.
Proof.
  destruct (raises_only_in_script loader_file) as (_ & Hf & Hop & _).
  - unfold loader_file, repository; in_list.
  - unfold loader_file, script_file. intros E. discriminate E.
  - split; [exact Hf|].
    destruct (operation_named loader_file ["mw"; "loader"; "load"]) as [op|] eqn:E;
      [|vm_compute in E; discriminate E].
    pose proof E as E'. apply find_some in E' as [Hin _].
    destruct (Hop op Hin) as (Hb & Hr & _).
    split; [exact Hb|]. split; [exact Hr|].
    vm_compute in E. injection E as E. subst op.
    vm_compute. intros N. discriminate N.
Defined.

(** ** C8: documented arguments and the declared types *)

Lemma admits_literals (fs : list file) (ns : list string) (n : nat) (ls : list string)
    (s : string) :
  admits fs ns (S (S n)) (TUnion (map TLit ls)) s = Some (mem s ls).
Proof.
  cbn [admits]. rewrite map_map. unfold mem.
  induction ls as [|l ls IH]; [reflexivity|].
  cbn [map any_true existsb]. rewrite (String.eqb_sym s l).
  destruct (String.eqb l s); [reflexivity | exact IH].
Qed.

Lemma admits_alias (fs : list file) (ns : list string) (n : nat) (name : string) (t : ty)
    (s : string) :
  alias_of fs (ns ++ [name]) = Some t ->
  admits fs ns (S n) (TRef [name] []) s = admits fs ns n t s.
Proof. intros E. cbn [admits]. now rewrite E. Qed.

Lemma any_true_covariant (f g : ty -> option bool) (ts : list ty) :
  (forall t b, In t ts -> f t = Some b -> g t = Some b) ->
  forall b, any_true (map f ts) = Some b -> any_true (map g ts) = Some b.
Proof.
  induction ts as [|a ts IH]; intros H b E; [exact E|].
  cbn [map any_true] in *.
  assert (forall b, any_true (map f ts) = Some b -> any_true (map g ts) = Some b) as IH'
    by (apply IH; intros t c Ht; apply H; now right).
  destruct (f a) as [[|]|] eqn:Fa.
  - rewrite (H a true (or_introl eq_refl) Fa). exact E.
  - rewrite (H a false (or_introl eq_refl) Fa). now apply IH'.
  - destruct (any_true (map f ts)) as [[|]|] eqn:Ft; try discriminate E.
    rewrite (IH' true eq_refl). destruct (g a) as [[|]|]; exact E.
Qed.

(** More fuel does not change an answer. *)
Lemma admits_step (fs : list file) (ns : list string) (n : nat) :
  forall t s b, admits fs ns n t s = Some b -> admits fs ns (S n) t s = Some b.
Proof.
  induction n as [|n IH]; intros t s b E; [discriminate E|].
  destruct t; try exact E.
  - destruct name as [|x [|y name]]; try exact E. destruct args; try exact E.
    cbn [admits] in *. destruct (alias_of fs (ns ++ [x])); [now apply IH | exact E].
  - cbn [admits] in *. revert E. apply any_true_covariant. intros t c _. apply IH.
Qed.

Lemma admits_stable (fs : list file) (ns : list string) (n m : nat) (t : ty) (s : string)
    (b : bool) :
  n <= m -> admits fs ns n t s = Some b -> admits fs ns m t s = Some b.
Proof. induction 1 as [|m _ IH]; intros E; [exact E | apply admits_step, IH, E]. Qed.

(** C8 fails on the code: the doc comment of jQuery.client.profile lists
    rekonq among the recognised browser names, and the declared type of
    browser names, which is the type of the name of a profile and of the
    keys of a support map, has rekong in its place.  A consumer who writes
    the documented name is refused, and it is the only recognised name that
    is; of the keys of the documented example of a support map, iphone is
    refused. *)
Theorem documented_browser_name_refused :
  In "rekonq" recognised_browser_names
  /\ admits repository jquery_client 3 (TRef ["ProfileName"] []) "rekonq" = Some false
  /\ admits repository jquery_client 3 (TRef ["ProfileName"] []) "rekong" = Some true
  /\ property_types repository ["JQuery"; "Client"; "Profile"] "name"
     = [TRef ["ProfileName"] []]
  /\ option_map record_keys
       (alias_of repository ["JQuery"; "Client"; "SupportMap"; "Undirected"])
     = Some (Some (TRef ["ProfileName"] []))
  /\ refused (TRef ["ProfileName"] []) recognised_browser_names = ["rekonq"]
  /\ refused (TRef ["ProfileName"] []) documented_map_keys = ["iphone"].
Proof.
  split; [unfold recognised_browser_names; in_list|].
  repeat split; vm_compute; reflexivity.
Qed.

(** ** C9: the states of a registry entry *)

Lemma module_state_alias :
  alias_of repository (mw_loader ++ ["ModuleState"]) = Some (TUnion (map TLit module_states)).
Proof. vm_compute. reflexivity. Qed.

(** C9: the state of a module registry entry is declared with the five
    values error, loaded, missing, registered and ready, each of which is a
    value of the seven-valued ModuleState; loading and executing are values
    of ModuleState, which getState may return, and not of the state of a
    registry entry. *)
Theorem registry_state_subset (t : ty) (s : string) (n : nat) :
  In t (property_types repository registry_entry "state") -> 4 <= n ->
  (admits repository mw_loader n t s = Some true <-> In s registry_states)
  /\ (admits repository mw_loader n (TRef ["ModuleState"] []) s = Some true
      <-> In s module_states)
  /\ (In s registry_states -> In s module_states)
  /\ (In s module_states -> In s registry_states \/ s = "loading" \/ s = "executing")
  /\ admits repository mw_loader n t "loading" = Some false
  /\ admits repository mw_loader n t "executing" = Some false
  /\ (forall g, In g (signatures repository get_state) ->
        admits repository mw_loader n (sig_result g) "loading" = Some true
        /\ admits repository mw_loader n (sig_result g) "executing" = Some true)
  /\ signatures repository get_state <> []
  /\ map const_type (lookup repository module_registry)
     = [Some (TRef ["Record"] [TKw "string"; TRef ["ModuleRegistryEntry"] []])].
Proof.
  intros Ht Hn. vm_compute in Ht. destruct Ht as [<- | []].
  change (TUnion [TLit "error"; TLit "loaded"; TLit "missing"; TLit "registered"; TLit "ready"])
    with (TUnion (map TLit registry_states)).
  assert (forall x, admits repository mw_loader n (TUnion (map TLit registry_states)) x
                    = Some (mem x registry_states)) as A
    by (intros x; apply (admits_stable _ _ 4 n _ _ _ Hn), admits_literals).
  assert (forall x, admits repository mw_loader n (TRef ["ModuleState"] []) x
                    = Some (mem x module_states)) as B.
  { intros x. apply (admits_stable _ _ 4 n _ _ _ Hn).
    rewrite (admits_alias _ _ _ _ _ _ module_state_alias). apply admits_literals. }
  split; [rewrite A, <- mem_In; split; congruence|].
  split; [rewrite B, <- mem_In; split; congruence|].
  split; [unfold registry_states, module_states; cbv [In]; intuition auto|].
  split; [unfold registry_states, module_states; cbv [In]; intuition auto|].
  do 2 (split; [rewrite A; reflexivity|]).
  split.
  { intros g Hg. vm_compute in Hg. destruct Hg as [<- | []].
    split; apply (admits_stable _ _ 4 n _ _ _ Hn); vm_compute; reflexivity. }
  split; [vm_compute; intros N; discriminate N | vm_compute; reflexivity].
Qed.

Lemma registry_state_subset_witness :
  In "ready" registry_states /\ In "ready" module_states.
Proof.
  destruct (registry_state_subset
              (TUnion [TLit "error"; TLit "loaded"; TLit "missing"; TLit "registered";
                       TLit "ready"]) "ready" 4) as (Ha & Hb & Hc & _).
  - vm_compute. left. reflexivity.
  - apply le_n.
  - assert (In "ready" registry_states) as H by (apply Ha; vm_compute; reflexivity).
    split; [exact H | exact (Hc H)].
Defined.

(** ** C10: the two notification entry points *)

(** C10: mw.notify and mw.notification.notify are declared with the same
    parameters, a message and optional options of the same types, and
    differ in their result: mw.notification.notify returns the Notification,
    mw.notify a JQuery.Promise of it. *)
Theorem notify_entry_points (p n : sig) :
  In p (signatures repository mw_notify) ->
  In n (signatures repository mw_notification_notify) ->
  sig_params p = sig_params n
  /\ map param_kind (sig_params n) = [Required; Optional]
  /\ sig_result n = TRef ["Notification"] []
  /\ sig_result p = TRef ["JQuery"; "Promise"] [sig_result n]
  /\ length (signatures repository mw_notify) = 2
  /\ length (signatures repository mw_notification_notify) = 1.
Proof.
  intros Hp Hn. vm_compute in Hp, Hn.
  destruct Hn as [<- | []]. each_of Hp; repeat split.
Qed.

Lemma notify_entry_points_witness :
  match signatures repository mw_notify, signatures repository mw_notification_notify with
  | p :: _, n :: _ =>
      sig_params p = sig_params n
      /\ sig_result p = TRef ["JQuery"; "Promise"] [sig_result n]
  | _, _ => False
  end.
Proof.
  destruct (signatures repository mw_notify) as [|p lp] eqn:Ep;
    [vm_compute in Ep; discriminate Ep|].
  destruct (signatures repository mw_notification_notify) as [|n ln] eqn:En;
    [vm_compute in En; discriminate En|].
  destruct (notify_entry_points p n) as (Ha & _ & _ & Hb & _).
  - rewrite Ep. left. reflexivity.
  - rewrite En. left. reflexivity.
  - split; [exact Ha | exact Hb].
Defined.

(** * Further properties *)

(** From a definite answer of membership to the cases of the list. *)
Ltac members H :=
  match type of H with
  | Some (mem ?s ?l) = Some true =>
      let M := fresh in
      assert (In s l) as M by (apply mem_In; congruence);
      clear H; rename M into H; cbv [In] in H
  end.

(** ** The helper script *)

Lemma processParamInfo_loose_witness :
  ParamScript.type
    (ParamScript.processParamInfo (ParamScript.Values ["a"; "b"]) "rc" "tags" false)
  = "string | string[]".
Proof. apply processParamInfo_loose. left. reflexivity. Defined.

Lemma last_char_append (a b : string) :
  b <> EmptyString -> last_char (a ++ b) = last_char b.
Proof.
  intros Hb. induction a as [|c a IH]; [reflexivity|].
  cbn [append last_char]. rewrite IH.
  destruct (a ++ b)%string eqn:E; [|reflexivity].
  destruct a; [simpl in E; contradiction | discriminate E].
Qed.

Lemma first_char_concat_quoted (vs : list string) :
  vs <> [] ->
  first_char (String.concat " | " (map ParamScript.quoted vs)) = first_char dq.
Proof.
  destruct vs as [|v [|w vs]]; [contradiction | reflexivity | reflexivity].
Qed.

(** The type names of the API that TypeScript does not have never come out
    of [processParamInfo], whatever the description of the parameter: text,
    title, user and raw are printed as string, integer as number, and
    anything built around them is longer. *)
Theorem processParamInfo_no_api_type (t : ParamScript.paramtype) (prefix name : string)
    (multi : bool) :
  ~ In (ParamScript.type (ParamScript.processParamInfo t prefix name multi)) api_only_types.
Proof.
  unfold ParamScript.processParamInfo. cbn [ParamScript.type].
  destruct (String.eqb name "tags" || String.eqb name "tagfilter" || String.eqb name "wikis"
            || String.eqb name "site").
  { unfold api_only_types. cbv [In]. intros [H|[H|[H|[H|[H|[]]]]]]; discriminate H. }
  destruct t as [vs|t].
  - destruct multi.
    + unfold api_only_types. cbv [In]. intros [H|[H|[H|[H|[H|[]]]]]]; discriminate H.
    + destruct vs as [|v vs].
      * unfold api_only_types. cbv [In]. intros [H|[H|[H|[H|[H|[]]]]]]; discriminate H.
      * intros H.
        assert (first_char (String.concat " | " (map ParamScript.quoted (v :: vs)))
                = first_char dq) as F by (apply first_char_concat_quoted; discriminate).
        unfold api_only_types in H. cbv [In] in H.
        destruct H as [H|[H|[H|[H|[H|[]]]]]]; rewrite <- H in F; discriminate F.
  - set (x := if String.eqb t "text" || String.eqb t "title" || String.eqb t "user"
                 || String.eqb t "raw"
              then "string" else if String.eqb t "integer" then "number" else t).
    assert (~ In x api_only_types) as Hx.
    { subst x. destruct (String.eqb t "text") eqn:E1; [intros H; cbv in H; intuition discriminate|].
      destruct (String.eqb t "title") eqn:E2; [intros H; cbv in H; intuition discriminate|].
      destruct (String.eqb t "user") eqn:E3; [intros H; cbv in H; intuition discriminate|].
      destruct (String.eqb t "raw") eqn:E4; [intros H; cbv in H; intuition discriminate|].
      cbn [orb].
      destruct (String.eqb t "integer") eqn:E5; [intros H; cbv in H; intuition discriminate|].
      apply String.eqb_neq in E1, E2, E3, E4, E5.
      unfold api_only_types. cbv [In]. intros [H|[H|[H|[H|[H|[]]]]]]; congruence. }
    destruct multi; [|exact Hx].
    intros H.
    assert (last_char (x ++ " | " ++ x ++ "[]") = Some "]"%char) as L.
    { rewrite last_char_append; [|discriminate].
      rewrite (last_char_append " | "); [|destruct x; discriminate].
      rewrite last_char_append; [reflexivity | discriminate]. }
    unfold api_only_types in H. cbv [In] in H.
    destruct H as [H|[H|[H|[H|[H|[]]]]]]; rewrite <- H in L; discriminate L.
Qed.

Lemma last_segment_after (a c acc : string) :
  ParamScript.last_segment acc (a ++ "\" ++ c) = ParamScript.last_segment EmptyString c.
Proof.
  revert acc. induction a as [|ch a IH]; intros acc; [reflexivity|].
  cbn [append ParamScript.last_segment]. destruct (Ascii.eqb ch "\"); apply IH.
Qed.

(** Up to its last backslash a class name is discarded: only what follows
    the last backslash names the interface. *)
Theorem getInterfaceName_namespace (ns c prefix : string) (ps : list ParamScript.parameter) :
  ParamScript.getInterfaceName (ParamScript.MkModule (ns ++ "\" ++ c) prefix ps)
  = ParamScript.getInterfaceName (ParamScript.MkModule c prefix ps).
Proof.
  unfold ParamScript.getInterfaceName. cbn [ParamScript.classname].
  now rewrite last_segment_after.
Qed.
Lemma prefix_char (c d : ascii) (s : string) :
  String.prefix (String c EmptyString) (String d s) = Ascii.eqb d c.
Proof.
  cbn [String.prefix]. destruct (ascii_dec c d) as [<- | N].
  - rewrite Ascii.eqb_refl. now destruct s.
  - symmetry. apply Ascii.eqb_neq. congruence.
Qed.

Lemma last_segment_plain (c acc : string) :
  mentions "\" c = false -> ParamScript.last_segment acc c = (acc ++ c)%string.
Proof.
  revert acc. induction c as [|ch c IH]; intros acc H.
  - cbn [ParamScript.last_segment]. clear. induction acc as [|a acc IH]; [reflexivity|].
    cbn [append]. now rewrite <- IH.
  - cbn [mentions] in H. apply orb_false_iff in H as [Hc Hr].
    rewrite prefix_char in Hc. cbn [ParamScript.last_segment]. rewrite Hc.
    rewrite (IH _ Hr). clear. induction acc as [|a acc IH]; [reflexivity|].
    cbn [append]. now rewrite IH.
Qed.

Lemma without_Api_step (c : ascii) (r : string) :
  String.prefix "Api" (String c r) = false ->
  ParamScript.without_Api (String c r) = String c (ParamScript.without_Api r).
Proof.
  intros H.
  destruct (ascii_dec c "A") as [-> | N1].
  - destruct r as [|d r]; [reflexivity|].
    destruct (ascii_dec d "p") as [-> | N2].
    + destruct r as [|e r]; [reflexivity|].
      destruct (ascii_dec e "i") as [-> | N3]; [destruct r; discriminate H|].
      destruct e as [[] [] [] [] [] [] [] []]; try reflexivity. now elim N3.
    + destruct d as [[] [] [] [] [] [] [] []]; try reflexivity. now elim N2.
  - destruct c as [[] [] [] [] [] [] [] []]; try reflexivity. now elim N1.
Qed.

Lemma without_Api_plain (s : string) :
  mentions "Api" s = false -> ParamScript.without_Api s = s.
Proof.
  induction s as [|c r IH]; intros H; [reflexivity|].
  cbn [mentions] in H. apply orb_false_iff in H as [Hp Hr].
  rewrite (without_Api_step c r Hp). now rewrite (IH Hr).
Qed.

(** A class name without a backslash and without Api names its interface
    as it is, Params added. *)
Theorem getInterfaceName_plain (c prefix : string) (ps : list ParamScript.parameter) :
  mentions "\" c = false -> mentions "Api" c = false ->
  ParamScript.getInterfaceName (ParamScript.MkModule c prefix ps) = (c ++ "Params")%string.
Proof.
  intros Hb Ha. unfold ParamScript.getInterfaceName. cbn [ParamScript.classname].
  rewrite (last_segment_plain c EmptyString Hb). cbn [append].
  now rewrite (without_Api_plain c Ha).
Qed.

Lemma getInterfaceName_plain_witness :
  ParamScript.getInterfaceName (ParamScript.MkModule "CheckSyntax" "cs" []) = "CheckSyntaxParams".
Proof. apply (getInterfaceName_plain "CheckSyntax" "cs" []); reflexivity. Defined.

(** ** Module keys *)

Lemma matches_any (s : string) : matches_parts [PHole (TKw "string")] s = true.
Proof.
  cbn [matches_parts String.eqb Ascii.eqb Bool.eqb andb].
  induction s as [|c s IH]; [reflexivity|].
  cbn [matches_parts orb]. exact IH.
Qed.

Lemma matches_at (s : string) :
  matches_parts [PHole (TKw "string"); PText "@"; PHole (TKw "string")] s = mentions "@" s.
Proof.
  cbn [matches_parts String.eqb Ascii.eqb Bool.eqb andb].
  induction s as [|c s IH]; [reflexivity|].
  cbn [mentions]. rewrite <- IH.
  change (matches_parts [PText "@"; PHole (TKw "string")] (String c s))
    with (String.prefix "@" (String c s)
          && matches_parts [PHole (TKw "string")] (drop 1 (String c s))).
  rewrite matches_any, andb_true_r. reflexivity.
Qed.
Lemma literal_values_map (t : ty) (ls : list string) :
  literal_values t = Some ls -> t = TLit (hd EmptyString ls) /\ ls = [hd EmptyString ls]
                                \/ t = TUnion (map TLit ls).
Proof.
  destruct t; try discriminate.
  - intros E. injection E as <-. left. now split.
  - cbn [literal_values]. destruct (forallb is_literal ts) eqn:F; [|discriminate].
    intros E. injection E as <-. right. f_equal.
    induction ts as [|t ts IH]; [reflexivity|].
    cbn [forallb] in F. apply andb_true_iff in F as [Ft Fs].
    destruct t; try discriminate Ft. cbn [literals flat_map app map] in *.
    f_equal. exact (IH Fs).
Qed.

(** The strings of a type made of string literals are its literals. *)
Lemma admits_literal_values (fs : list file) (ns : list string) (n : nat) (t : ty)
    (ls : list string) (s : string) :
  literal_values t = Some ls -> admits fs ns (S (S n)) t s = Some (mem s ls).
Proof.
  intros E. destruct (literal_values_map t ls E) as [[-> ->] | ->].
  - cbn [admits hd mem existsb]. now rewrite orb_false_r, String.eqb_sym.
  - apply admits_literals.
Qed.

(** A module key, the key of the items of the module store, is a string
    with an at sign: a name, an at sign, a version, any of which can be
    empty. *)
Theorem module_key_format (s : string) :
  option_map (fun t => matches_template t s) (alias_of repository (mw_loader ++ ["ModuleKey"]))
  = Some (mentions "@" s)
  /\ map record_keys (const_types repository (mw_loader_store ++ ["items"]))
     = [Some (TRef ["ModuleKey"] [])].
Proof.
  split; [|vm_compute; reflexivity].
  assert (alias_of repository (mw_loader ++ ["ModuleKey"])
          = Some (TTemplate [PHole (TKw "string"); PText "@"; PHole (TKw "string")])) as ->
    by (vm_compute; reflexivity).
  cbn [option_map matches_template]. now rewrite matches_at.
Qed.

(** ** The generated interfaces *)

Lemma generated_members_all :
  forallb (fun i => forallb generated_member (interface_members i)) generated_interfaces = true.
Proof. vm_compute. reflexivity. Qed.

Lemma api_only_undeclared :
  forallb (fun a => Nat.eqb (length (lookup repository (mw_Api ++ [a]))) 0) api_only_types
  = true.
Proof. vm_compute. reflexivity. Qed.

Lemma suffixes_append (a b : string) : In b (suffixes (a ++ b)).
Proof.
  induction a as [|c a IH].
  - cbn [append]. destruct b; left; reflexivity.
  - cbn [append suffixes]. right. exact IH.
Qed.

(** What the script prints for a parameter with a loose name. *)
Lemma processParamInfo_loose_name (t : ParamScript.paramtype) (prefix name : string)
    (multi : bool) :
  In name loose_names ->
  ParamScript.processParamInfo t prefix name multi
  = ParamScript.NamedType
      (if mentions "-" (prefix ++ name) then ParamScript.quoted (prefix ++ name)
       else (prefix ++ name)%string)
      "string | string[]".
Proof.
  intros H. cbv [loose_names In] in H.
  destruct H as [<- | [<- | [<- | [<- | []]]]]; reflexivity.
Qed.

(** What the script prints for a parameter of an API-only type. *)
Lemma processParamInfo_converts (a prefix name : string) (multi : bool) :
  In a api_only_types ->
  In (ParamScript.type
        (ParamScript.processParamInfo (ParamScript.Named a) prefix name multi))
     ["string"; "number"; "string | string[]"; "number | number[]"].
Proof.
  intros H. cbv [api_only_types In] in H.
  unfold ParamScript.processParamInfo. cbv zeta. cbn [ParamScript.type].
  destruct (String.eqb name "tags" || String.eqb name "tagfilter" || String.eqb name "wikis"
            || String.eqb name "site"); [in_list|].
  destruct H as [<- | [<- | [<- | [<- | [<- | []]]]]]; destruct multi; vm_compute; in_list.
Qed.

(** Every member of every generated interface is an optional property
    without a comment whose type the script can print.  None of the
    API-only type names is in its type: they are declared nowhere in
    mw.Api, and [processParamInfo] prints string or number, alone or with
    its array, for a parameter of such a type.  A member whose name is a
    prefix followed by tags, tagfilter, wikis or site is, name and type,
    what [processParamInfo] prints for a parameter of that name under that
    prefix, whatever type the API gives it; the one exception is
    inverttags, a boolean, which no prefix before tags explains. *)
Theorem generated_members_converted (i : item) (m : member) :
  In i generated_interfaces -> In m (interface_members i) ->
  exists n t text,
    m = MProp n true t nodoc
    /\ render t = Some text
    /\ (forall a, In a api_only_types ->
          ~ In [a] (type_names t)
          /\ lookup repository (mw_Api ++ [a]) = []
          /\ forall prefix name multi,
               In (ParamScript.type
                     (ParamScript.processParamInfo (ParamScript.Named a) prefix name multi))
                  ["string"; "number"; "string | string[]"; "number | number[]"])
    /\ (forall pt prefix name multi,
          In name loose_names -> (prefix ++ name)%string = n ->
          ParamScript.processParamInfo pt prefix name multi = ParamScript.NamedType n text
          \/ (n = "inverttags" /\ text = "boolean")).
Proof.
  intros Hi Hm.
  pose proof (proj1 (forallb_forall _ _) generated_members_all i Hi) as C. cbv beta in C.
  pose proof (proj1 (forallb_forall _ _) C m Hm) as R. clear C.
  unfold generated_member in R.
  destruct m as [n o t d| | |]; try discriminate R.
  destruct o; [|discriminate R]. destruct d as [sm tg].
  destruct sm; [|discriminate R]. destruct tg; [|discriminate R].
  destruct (render t) as [text|] eqn:T; [|discriminate R].
  apply andb_true_iff in R as [A L].
  exists n, t, text. split; [reflexivity|]. split; [exact T|]. split.
  - intros a Ha. split; [|split].
    + intros Hin. pose proof (proj1 (forallb_forall _ _) A a Ha) as N. cbv beta in N.
      apply negb_true_iff in N.
      assert (existsb (path_eqb [a]) (type_names t) = true) as E
        by (apply existsb_exists; exists [a]; split; [exact Hin | now apply path_eqb_eq]).
      congruence.
    + pose proof (proj1 (forallb_forall _ _) api_only_undeclared a Ha) as N. cbv beta in N.
      apply Nat.eqb_eq in N. now apply length_zero_iff_nil.
    + intros prefix name multi. now apply processParamInfo_converts.
  - intros pt prefix name multi Hl E.
    assert (existsb (fun s => mem s loose_names) (suffixes n) = true) as S.
    { apply existsb_exists. exists name. split; [rewrite <- E; apply suffixes_append|].
      now apply mem_In. }
    rewrite S in L. cbn [negb orb] in L.
    apply orb_true_iff in L as [L | L]; apply andb_true_iff in L as [L1 L2].
    + left. apply negb_true_iff in L1. apply String.eqb_eq in L2.
      rewrite (processParamInfo_loose_name pt prefix name multi Hl), E, L1. now subst text.
    + right. apply String.eqb_eq in L1, L2. now split.
Qed.

Lemma generated_members_converted_witness :
  match generated_interfaces with
  | i :: _ =>
      match interface_members i with
      | m :: _ => exists n t, m = MProp n true t nodoc
      | [] => False
      end
  | [] => False
  end.
Proof.
  destruct generated_interfaces as [|i l] eqn:E; [vm_compute in E; discriminate E|].
  assert (In i generated_interfaces) as Hi by (rewrite E; left; reflexivity).
  destruct (interface_members i) as [|m ms] eqn:M.
  - vm_compute in E. injection E as <- _. vm_compute in M. discriminate M.
  - destruct (generated_members_converted i m Hi) as (n & t & _ & Hm & _).
    + rewrite M. left. reflexivity.
    + exists n, t. exact Hm.
Defined.

Lemma generated_heads_all : forallb generated_head generated_interfaces = true.
Proof. vm_compute. reflexivity. Qed.

Lemma mentions_backslash_Api (base : string) :
  mentions "\" base = false -> mentions "\" ("Api" ++ base) = false.
Proof.
  intros H. cbn [append mentions]. rewrite !prefix_char, H. reflexivity.
Qed.

(** The name the script gives to a class called Api and a base without
    backslash and without Api, in any namespace. *)
Lemma getInterfaceName_Api (ns base prefix : string) (ps : list ParamScript.parameter) :
  mentions "\" base = false -> mentions "Api" base = false ->
  ParamScript.getInterfaceName (ParamScript.MkModule ("Api" ++ base) prefix ps)
  = (base ++ "Params")%string
  /\ ParamScript.getInterfaceName
       (ParamScript.MkModule (ns ++ "\" ++ "Api" ++ base) prefix ps)
     = (base ++ "Params")%string
  /\ ParamScript.getInterfaceName (ParamScript.MkModule (ns ++ "\" ++ base) prefix ps)
     = (base ++ "Params")%string.
Proof.
  intros Hb Ha. unfold ParamScript.getInterfaceName. cbn [ParamScript.classname].
  rewrite !last_segment_after.
  rewrite (last_segment_plain ("Api" ++ base) EmptyString (mentions_backslash_Api base Hb)).
  rewrite (last_segment_plain base EmptyString Hb).
  cbn [append ParamScript.without_Api].
  rewrite (without_Api_plain base Ha). repeat split.
Qed.

(** Every generated interface has the head that the script prints: it
    extends Params alone, and its name is a base followed by Params, the
    name that [getInterfaceName] gives to the class called Api and the
    base, alone or in any namespace, and to the class called as the base in
    any namespace: the script has removed the namespace and Api. *)
Theorem generated_heads (i : item) :
  In i generated_interfaces ->
  interface_extends i = [TRef ["Params"] []]
  /\ exists base,
       interface_name i = (base ++ "Params")%string
       /\ forall ns prefix ps,
            ParamScript.getInterfaceName (ParamScript.MkModule ("Api" ++ base) prefix ps)
            = interface_name i
            /\ ParamScript.getInterfaceName
                 (ParamScript.MkModule (ns ++ "\" ++ "Api" ++ base) prefix ps)
               = interface_name i
            /\ ParamScript.getInterfaceName
                 (ParamScript.MkModule (ns ++ "\" ++ base) prefix ps)
               = interface_name i.
Proof.
  intros Hi. pose proof (proj1 (forallb_forall _ _) generated_heads_all i Hi) as C.
  unfold generated_head in C.
  destruct i as [ | | | | | | |n tps ext ms d| | | | | | ]; try discriminate C.
  destruct tps; [|discriminate C].
  destruct ext as [|e ext]; [discriminate C|].
  destruct e as [ | |[|p [|]] [|] | | | | | | | | | | | | | ]; try discriminate C.
  destruct ext; [|discriminate C].
  destruct d as [sm tg]. destruct sm; [|discriminate C]. destruct tg; [|discriminate C].
  apply andb_true_iff in C as [C Ca]. apply andb_true_iff in C as [C Cb].
  apply andb_true_iff in C as [P C1].
  apply String.eqb_eq in P, C1. apply negb_true_iff in Ca, Cb. subst p.
  split; [reflexivity|]. remember (substring 0 (String.length n - 6) n) as base eqn:B.
  clear B. exists base. cbn [interface_name]. split; [now rewrite C1|]. intros ns prefix ps.
  destruct (getInterfaceName_Api ns base prefix ps Cb Ca) as (E1 & E2 & E3).
  rewrite C1 in E1, E2, E3. now repeat split.
Qed.
Lemma generated_heads_witness :
  match generated_interfaces with
  | i :: _ => interface_extends i = [TRef ["Params"] []]
  | [] => False
  end.
Proof.
  destruct generated_interfaces as [|i l] eqn:E; [vm_compute in E; discriminate E|].
  apply (generated_heads i). rewrite E. left. reflexivity.
Defined.

Lemma generated_names_all :
  forallb (fun i =>
      forallb (fun q => negb (Nat.eqb (length (lookup [api_file] (mw_Api ++ q))) 0))
        (names_used i))
    generated_interfaces = true.
Proof. vm_compute. reflexivity. Qed.

(** Every type name that a generated interface uses, in what it extends
    and in its members, is declared in the namespace mw.Api of the
    hand-written file of the API client: the generated file needs no other
    declaration. *)
Theorem generated_names_declared (i : item) (q : list string) :
  In i generated_interfaces -> In q (names_used i) ->
  lookup [api_file] (mw_Api ++ q) <> [].
Proof.
  intros Hi Hq. pose proof (proj1 (forallb_forall _ _) generated_names_all i Hi) as C.
  cbv beta in C. pose proof (proj1 (forallb_forall _ _) C q Hq) as D. cbv beta in D.
  intros E. rewrite E in D. discriminate D.
Qed.

Lemma generated_names_declared_witness :
  lookup [api_file] (mw_Api ++ ["Params"]) <> [].
Proof.
  destruct generated_interfaces as [|i l] eqn:E; [vm_compute in E; discriminate E|].
  apply (generated_names_declared i ["Params"]).
  - rewrite E. left. reflexivity.
  - vm_compute in E. injection E as <- _. vm_compute. left. reflexivity.
Defined.

(** ** Signatures *)

Lemma parameters_ordered_all :
  forallb (fun f => forallb parameters_ordered (file_sigs f)) repository = true.
Proof. vm_compute. reflexivity. Qed.

(** In every signature of the repository, of a function, a method, a call
    signature, a constructor or a function type, the parameters come in the
    order that lets trailing arguments be left out: [this] first if there,
    then the required ones, then the optional ones, then at most one rest
    parameter. *)
Theorem signatures_ordered (f : file) (s : sig) :
  In f repository -> In s (file_sigs f) -> parameters_ordered s = true.
Proof.
  intros Hf Hs. pose proof (proj1 (forallb_forall _ _) parameters_ordered_all f Hf) as C.
  cbv beta in C. exact (proj1 (forallb_forall _ _) C s Hs).
Qed.

Lemma signatures_ordered_witness :
  match file_sigs loader_file with
  | s :: _ => parameters_ordered s = true
  | [] => False
  end.
Proof.
  destruct (file_sigs loader_file) as [|s l] eqn:E; [vm_compute in E; discriminate E|].
  apply (signatures_ordered loader_file s).
  - unfold loader_file, repository; in_list.
  - rewrite E. left. reflexivity.
Defined.

(** ** The loader *)

(** What mw.loader.implement takes is what a module declarator returns: the
    declarator takes no argument and returns a tuple whose elements have
    the names, in order, and the optionality of the parameters of
    implement, each of the type of the parameter, or of that type or
    null. *)
Theorem implement_takes_declarator_result (s d : sig) :
  In s (signatures repository mw_loader_implement) ->
  In d (call_signatures repository module_declarator) ->
  sig_params d = []
  /\ map elem_label (tuple_elements (sig_result d))
     = map (fun p => Some (param_name p)) (sig_params s)
  /\ map elem_optional (tuple_elements (sig_result d))
     = map (fun p => is_optional (param_kind p)) (sig_params s)
  /\ Forall2 (fun e p =>
                elem_type e = param_type p
                \/ elem_type e = TUnion [param_type p; TKw "null"])
       (tuple_elements (sig_result d)) (sig_params s)
  /\ map param_name (sig_params s)
     = ["module"; "script"; "style"; "messages"; "templates"; "deprecationWarning"]
  /\ map sig_params (signatures repository ["mw"; "loader"; "impl"])
     = [[Param "declarator" Required (TRef ["ModuleDeclarator"] [])]].
Proof.
  intros Hs Hd. vm_compute in Hs, Hd.
  destruct Hs as [<- | []]. destruct Hd as [<- | []].
  do 3 (split; [reflexivity|]). split.
  { repeat (constructor; [first [left; reflexivity | right; reflexivity]|]). constructor. }
  split; vm_compute; reflexivity.
Qed.

Lemma implement_takes_declarator_result_witness :
  match signatures repository mw_loader_implement,
        call_signatures repository module_declarator with
  | s :: _, d :: _ =>
      map elem_label (tuple_elements (sig_result d))
      = map (fun p => Some (param_name p)) (sig_params s)
  | _, _ => False
  end.
Proof.
  destruct (signatures repository mw_loader_implement) as [|s ls] eqn:Es;
    [vm_compute in Es; discriminate Es|].
  destruct (call_signatures repository module_declarator) as [|d ld] eqn:Ed;
    [vm_compute in Ed; discriminate Ed|].
  destruct (implement_takes_declarator_result s d) as (_ & H & _).
  - rewrite Es. left. reflexivity.
  - rewrite Ed. left. reflexivity.
  - exact H.
Defined.

(** The two forms of mw.loader.register agree: the form that takes an
    array takes tuples whose elements have the optionality and, after the
    first (module in a tuple, modules as a parameter), the names, in order,
    of the parameters of the form that takes one module, and their types,
    but for the dependencies, which in a tuple can also be numbers. *)
Theorem register_forms_agree (one many : sig) (tuple : ty) :
  signatures repository mw_loader_register = [one; many] ->
  map param_type (sig_params many) = [TRef ["Array"] [tuple]] ->
  map elem_label (tuple_elements tuple)
  = Some "module" :: map (fun p => Some (param_name p)) (tl (sig_params one))
  /\ map param_name (firstn 1 (sig_params one)) = ["modules"]
  /\ map elem_optional (tuple_elements tuple)
     = map (fun p => is_optional (param_kind p)) (sig_params one)
  /\ Forall2 (fun e p =>
                elem_type e = param_type p
                \/ (param_name p = "dependencies"
                    /\ param_type p = TArray (TKw "string")
                    /\ elem_type e = TRef ["Array"] [TUnion [TKw "string"; TKw "number"]]))
       (tuple_elements tuple) (sig_params one)
  /\ sig_result one = TKw "void" /\ sig_result many = TKw "void".
Proof.
  intros E T. vm_compute in E. injection E as <- <-.
  vm_compute in T. injection T as <-.
  do 3 (split; [reflexivity|]). split.
  { repeat (constructor;
            [first [left; reflexivity | right; repeat split; reflexivity]|]).
    constructor. }
  split; reflexivity.
Qed.

Lemma register_forms_agree_witness :
  match signatures repository mw_loader_register with
  | [one; many] =>
      match map param_type (sig_params many) with
      | [TRef _ [tuple]] =>
          map elem_optional (tuple_elements tuple)
          = map (fun p => is_optional (param_kind p)) (sig_params one)
      | _ => False
      end
  | _ => False
  end.
Proof.
  destruct (signatures repository mw_loader_register) as [|one [|many [|x l]]] eqn:E;
    try (vm_compute in E; discriminate E).
  pose proof E as E'. vm_compute in E'. injection E' as E1 E2.
  destruct (map param_type (sig_params many)) as [|t [|u l]] eqn:T;
    try (rewrite <- E2 in T; vm_compute in T; discriminate T).
  rewrite <- E2 in T. vm_compute in T. injection T as <-.
  edestruct (register_forms_agree one many) as (_ & _ & H & _);
    [exact E | rewrite <- E2; vm_compute; reflexivity | exact H].
Defined.
(** ** The API client *)

Lemma admits_alias_literals (fs : list file) (ns : list string) (n : nat) (name : string)
    (t : ty) (ls : list string) (s : string) :
  alias_of fs (ns ++ [name]) = Some t -> literal_values t = Some ls ->
  admits fs ns (3 + n) (TRef [name] []) s = Some (mem s ls).
Proof.
  intros A L. change (3 + n) with (S (S (S n))).
  rewrite (admits_alias _ _ _ _ _ _ A). now apply admits_literal_values.
Qed.

(** No token type is a legacy token type: the overloads of the token
    methods that take the one and the other never both apply. *)
Theorem token_types_disjoint (s : string) (n : nat) :
  admits repository mw_Api (3 + n) (TRef ["TokenType"] []) s = Some true ->
  admits repository mw_Api (3 + n) (TRef ["LegacyTokenType"] []) s = Some false.
Proof.
  rewrite (admits_alias_literals repository mw_Api n "TokenType" _
             ["createaccount"; "csrf"; "deleteglobalaccount"; "login"; "patrol"; "rollback";
              "setglobalaccountstatus"; "userrights"; "watch"] s)
    by (vm_compute; reflexivity).
  rewrite (admits_alias_literals repository mw_Api n "LegacyTokenType" _
             ["block"; "delete"; "edit"; "email"; "import"; "move"; "options"; "protect";
              "unblock"] s)
    by (vm_compute; reflexivity).
  intros H. members H.
  each_of H; reflexivity.
Qed.

Lemma token_types_disjoint_witness :
  admits repository mw_Api 3 (TRef ["LegacyTokenType"] []) "csrf" = Some false.
Proof. apply (token_types_disjoint "csrf" 0). vm_compute. reflexivity. Defined.

(** Each of postWithToken, getToken and badToken of mw.Api has three
    overloads, which differ in the type of the token only: a token type, a
    legacy token type, any string, in this order; the overload for the
    legacy token types, and it alone, is marked as deprecated. *)
Theorem token_overloads (m : string) :
  In m token_methods ->
  map (fun sd => (first_param_type (fst sd), deprecated (snd sd)))
    (class_methods repository mw_Api m)
  = [(Some (TRef ["Api"; "TokenType"] []), false);
     (Some (TRef ["Api"; "LegacyTokenType"] []), true);
     (Some (TKw "string"), false)]
  /\ exists rest result,
       map (fun sd => (tl (sig_params (fst sd)), sig_result (fst sd)))
         (class_methods repository mw_Api m)
       = [(rest, result); (rest, result); (rest, result)].
Proof.
  intros H. unfold token_methods in H. cbv [In] in H.
  each_of H; (split; [vm_compute; reflexivity|]); eexists; eexists; vm_compute; reflexivity.
Qed.

Lemma token_overloads_witness :
  map (fun sd => deprecated (snd sd)) (class_methods repository mw_Api "getToken")
  = [false; true; false].
Proof.
  destruct (token_overloads "getToken") as [H _].
  - right. left. reflexivity.
  - apply (f_equal (map snd)) in H. rewrite map_map in H. exact H.
Defined.

(** The values of the assert parameter of the API are those of the type
    Assert, and what an asserted user asserts is among them, bot left
    out. *)
Theorem assert_values (p u : ty) (s : string) (n : nat) :
  In p (property_types repository (mw_Api ++ ["Params"]) "assert") ->
  In u (property_types repository (mw_Api ++ ["AssertUser"]) "assert") ->
  (admits repository mw_Api (3 + n) p s = Some true
   <-> admits repository mw_Api (3 + n) (TRef ["Assert"] []) s = Some true)
  /\ (admits repository mw_Api (3 + n) u s = Some true ->
      admits repository mw_Api (3 + n) p s = Some true)
  /\ admits repository mw_Api (3 + n) u "bot" = Some false
  /\ admits repository mw_Api (3 + n) p "bot" = Some true.
Proof.
  intros Hp Hu. vm_compute in Hp, Hu. destruct Hp as [<- | []]. destruct Hu as [<- | []].
  rewrite (admits_alias_literals repository mw_Api n "Assert" _ ["anon"; "bot"; "user"] s)
    by (vm_compute; reflexivity).
  change (3 + n) with (S (S (S n))).
  rewrite !(fun x => admits_literal_values repository mw_Api (S n)
                       (TUnion [TLit "user"; TLit "bot"; TLit "anon"])
                       ["user"; "bot"; "anon"] x eq_refl).
  rewrite !(fun x => admits_literal_values repository mw_Api (S n)
                       (TUnion [TLit "anon"; TLit "user"]) ["anon"; "user"] x eq_refl).
  split; [|split; [|split; reflexivity]].
  - split; intros H; members H; each_of H; reflexivity.
  - intros H; members H; each_of H; reflexivity.
Qed.

Lemma assert_values_witness :
  match property_types repository (mw_Api ++ ["Params"]) "assert",
        property_types repository (mw_Api ++ ["AssertUser"]) "assert" with
  | p :: _, u :: _ =>
      admits repository mw_Api 3 u "bot" = Some false
      /\ admits repository mw_Api 3 p "bot" = Some true
  | _, _ => False
  end.
Proof.
  destruct (property_types repository (mw_Api ++ ["Params"]) "assert") as [|p lp] eqn:Ep;
    [vm_compute in Ep; discriminate Ep|].
  destruct (property_types repository (mw_Api ++ ["AssertUser"]) "assert") as [|u lu] eqn:Eu;
    [vm_compute in Eu; discriminate Eu|].
  destruct (assert_values p u "bot" 0) as (_ & _ & H1 & H2).
  - rewrite Ep. left. reflexivity.
  - rewrite Eu. left. reflexivity.
  - split; [exact H1 | exact H2].
Defined.

Lemma inherited_own (fs : list file) (ns : list string) (k : nat) (i n : string) (t : ty) :
  property_type n (flat_map interface_members (lookup fs (ns ++ [i]))) = Some t ->
  inherited_property fs ns (S k) i n = Some t.
Proof. intros H. cbn [inherited_property]. now rewrite H. Qed.

Lemma inherited_parent (fs : list file) (ns : list string) (k : nat) (i n p : string)
    (ps : list string) (t : ty) :
  property_type n (flat_map interface_members (lookup fs (ns ++ [i]))) = None ->
  parents fs (ns ++ [i]) = p :: ps ->
  inherited_property fs ns k p n = Some t ->
  inherited_property fs ns (S k) i n = Some t.
Proof.
  intros H P T. cbn [inherited_property]. rewrite H.
  fold (parents fs (ns ++ [i])). rewrite P. now rewrite T.
Qed.

(** The results of an edit are told apart by their property result, which
    each of them has, of its own or from the interface it extends: Failure
    for a failure, Success for the two kinds of success. *)
Theorem edit_result_discriminated (e m : ty) (n : nat) :
  alias_of repository (mw_Api ++ ["EditResult"]) = Some e -> In m (union_members e) ->
  exists i r,
    m = TRef [i] []
    /\ inherited_property repository mw_Api (2 + n) i "result" = Some (TLit r)
    /\ (r = "Failure" /\ i = "EditFailureResult"
        \/ r = "Success" /\ i <> "EditFailureResult").
Proof.
  intros E Hm. vm_compute in E. injection E as <-. cbv [union_members In] in Hm.
  change (2 + n) with (S (S n)).
  destruct Hm as [<- | [<- | [<- | []]]].
  - exists "EditFailureResult", "Failure". split; [reflexivity|]. split.
    + apply inherited_own. vm_compute. reflexivity.
    + left. now split.
  - exists "EditNoChangeResult", "Success". split; [reflexivity|]. split.
    + apply (inherited_parent _ _ _ _ _ "EditSuccessResult" []);
        [vm_compute; reflexivity | vm_compute; reflexivity|].
      apply inherited_own. vm_compute. reflexivity.
    + right. split; [reflexivity | discriminate].
  - exists "EditChangedResult", "Success". split; [reflexivity|]. split.
    + apply (inherited_parent _ _ _ _ _ "EditSuccessResult" []);
        [vm_compute; reflexivity | vm_compute; reflexivity|].
      apply inherited_own. vm_compute. reflexivity.
    + right. split; [reflexivity | discriminate].
Qed.

Lemma edit_result_discriminated_witness :
  inherited_property repository mw_Api 2 "EditChangedResult" "result" = Some (TLit "Success").
Proof.
  destruct (edit_result_discriminated
              (TUnion [TRef ["EditFailureResult"] []; TRef ["EditNoChangeResult"] [];
                       TRef ["EditChangedResult"] []])
              (TRef ["EditChangedResult"] []) 0) as (i & r & Hm & Hr & Hc).
  - vm_compute. reflexivity.
  - right. right. left. reflexivity.
  - injection Hm as <-. destruct Hc as [[_ N] | [-> _]]; [discriminate N | exact Hr].
Defined.

(** ** Notifications, months, highlighting *)

(** The values of the option autoHideSeconds of a notification are the
    names of the properties of mw.notification.autoHideSeconds, of which
    the option is a key. *)
Theorem auto_hide_keys (t c : ty) (s : string) (n : nat) :
  In t (property_types repository notification_options "autoHideSeconds") ->
  In c (const_types repository auto_hide_seconds) ->
  (admits repository ["mw"; "Notification"] (2 + n) t s = Some true
   <-> In s (member_names_of (object_members c)))
  /\ forall k, In k (member_names_of (object_members c)) ->
       property_type k (object_members c) = Some (TKw "number").
Proof.
  intros Ht Hc. vm_compute in Ht, Hc. destruct Ht as [<- | []]. destruct Hc as [<- | []].
  change (2 + n) with (S (S n)).
  rewrite (admits_literal_values _ _ n _ ["long"; "short"] s) by reflexivity.
  split.
  - split.
    + intros H. members H.
      each_of H; vm_compute; tauto.
    + intros H. vm_compute in H. destruct H as [<- | [<- | []]]; reflexivity.
  - intros k H. vm_compute in H. destruct H as [<- | [<- | []]]; reflexivity.
Qed.

Lemma auto_hide_keys_witness :
  match property_types repository notification_options "autoHideSeconds",
        const_types repository auto_hide_seconds with
  | t :: _, c :: _ =>
      admits repository ["mw"; "Notification"] 2 t "long" = Some true
      <-> In "long" (member_names_of (object_members c))
  | _, _ => False
  end.
Proof.
  destruct (property_types repository notification_options "autoHideSeconds")
    as [|t lt] eqn:Et; [vm_compute in Et; discriminate Et|].
  destruct (const_types repository auto_hide_seconds) as [|c lc] eqn:Ec;
    [vm_compute in Ec; discriminate Ec|].
  destruct (auto_hide_keys t c "long" 0) as [H _].
  - rewrite Et. left. reflexivity.
  - rewrite Ec. left. reflexivity.
  - exact H.
Defined.

(** The months of mw.language are declared twice, as a constant with an
    object type and as a namespace of constants: the two declare the same
    names with the same types, and the keys of the property keys are the
    other three names. *)
Theorem months_declared_alike (c : ty) :
  In c (const_types repository mw_language_months) ->
  map (fun x => (fst (fst x), snd x)) (shape_of (object_members c))
  = namespace_consts repository mw_language_months
  /\ match property_type "keys" (object_members c) with
     | Some r => option_map literals (record_keys r)
     | None => None
     end
     = Some (filter (fun k => negb (String.eqb k "keys")) (member_names_of (object_members c))).
Proof.
  intros H. vm_compute in H. destruct H as [<- | []]. split; vm_compute; reflexivity.
Qed.

Lemma months_declared_alike_witness :
  match const_types repository mw_language_months with
  | c :: _ =>
      map (fun x => (fst (fst x), snd x)) (shape_of (object_members c))
      = namespace_consts repository mw_language_months
  | [] => False
  end.
Proof.
  destruct (const_types repository mw_language_months) as [|c l] eqn:E;
    [vm_compute in E; discriminate E|].
  destruct (months_declared_alike c) as [H _]; [rewrite E; left; reflexivity | exact H].
Defined.

(** Every value of the option method of highlightText names a method of
    $.highlightText that takes a node and a string; innerHighlight, which
    takes a pattern, is not among them. *)
Theorem highlight_methods (s : string) (n : nat) :
  admits repository highlight_text (3 + n) (TRef ["Method"] []) s = Some true ->
  (exists g, method_sigs repository highlight_text s = [g]
             /\ map param_kind (sig_params g) = [Required; Required]
             /\ map param_type (tl (sig_params g)) = [TKw "string"])
  /\ s <> "innerHighlight"
  /\ property_types repository (highlight_text ++ ["Options"]) "method"
     = [TRef ["Method"] []].
Proof.
  rewrite (admits_alias_literals repository highlight_text n "Method" _
             ["prefixHighlight"; "prefixPlusComboHighlight"; "splitAndHighlight"] s)
    by (vm_compute; reflexivity).
  intros H. members H.
  each_of H; (split; [eexists; split; [vm_compute; reflexivity | split; reflexivity]|]);
    (split; [discriminate | vm_compute; reflexivity]).
Qed.

Lemma highlight_methods_witness :
  exists g, method_sigs repository highlight_text "splitAndHighlight" = [g]
            /\ map param_type (tl (sig_params g)) = [TKw "string"].
Proof.
  destruct (highlight_methods "splitAndHighlight" 0) as ((g & Hg & _ & Ht) & _);
    [vm_compute; reflexivity | exists g; split; [exact Hg | exact Ht]].
Defined.
(** ** Aliases with a parameter *)

Lemma one_or_more_declaration :
  alias_declaration repository (mw_Api ++ ["OneOrMore"])
  = Some (["T"], TUnion [TRef ["T"] []; TArray (TRef ["T"] [])])
  /\ alias_declaration repository ["mw"; "TypeOrArray"]
     = Some (["T"], TUnion [TRef ["T"] []; TArray (TRef ["T"] [])]).
Proof. split; vm_compute; reflexivity. Qed.

(** OneOrMore of the API and TypeOrArray of the utility types stand for
    the same type at every argument: the argument or an array of it.  At a
    type of string literals, the strings of OneOrMore are those literals:
    the two ways in which the script prints a parameter with several
    values, OneOrMore and a name with its array, mean the same. *)
Theorem one_or_more_expands (t : ty) :
  instantiate repository (mw_Api ++ ["OneOrMore"]) [t] = Some (TUnion [t; TArray t])
  /\ instantiate repository ["mw"; "TypeOrArray"] [t] = Some (TUnion [t; TArray t])
  /\ forall (ls : list string) (s : string) (n : nat),
       literal_values t = Some ls ->
       admits repository mw_Api (3 + n) (TUnion [t; TArray t]) s = Some (mem s ls).
Proof.
  destruct one_or_more_declaration as [A B].
  unfold instantiate. rewrite A, B. cbn [length Nat.eqb combine subst map all_some assoc
                                         String.eqb Ascii.eqb Bool.eqb option_map].
  do 2 (split; [reflexivity|]). intros ls s n L.
  change (admits repository mw_Api (3 + n) (TUnion [t; TArray t]) s)
    with (any_true [admits repository mw_Api (S (S n)) t s; Some false]).
  rewrite (admits_literal_values _ _ n t ls s L).
  cbn [any_true]. now destruct (mem s ls).
Qed.

Lemma one_or_more_expands_witness :
  instantiate repository (mw_Api ++ ["OneOrMore"]) [TKw "number"]
  = Some (TUnion [TKw "number"; TArray (TKw "number")])
  /\ instantiate repository ["mw"; "TypeOrArray"] [TRef ["JQuery"] []]
     = Some (TUnion [TRef ["JQuery"] []; TArray (TRef ["JQuery"] [])])
  /\ admits repository mw_Api 3
       (TUnion [TLit "large-tables"; TArray (TLit "large-tables")]) "large-tables"
     = Some true.
Proof.
  split; [exact (proj1 (one_or_more_expands (TKw "number")))|].
  split; [exact (proj1 (proj2 (one_or_more_expands (TRef ["JQuery"] []))))|].
  exact (proj2 (proj2 (one_or_more_expands (TLit "large-tables")))
           ["large-tables"] "large-tables" 0 eq_refl).
Defined.

(** ** The options of a notification *)

(** Both ways of notifying take, as their optional options, a value of
    the type of the property options of the Notification that results, a
    partial set of options, while the defaults of mw.notification are a
    full set. *)
Theorem notify_options_kept (g : sig) :
  In g (signatures repository mw_notify ++ signatures repository mw_notification_notify) ->
  map param_type (tl (sig_params g)) = property_types repository mw_Notification "options"
  /\ property_types repository mw_Notification "options"
     = [TRef ["Partial"] [TRef ["Notification"; "Options"] []]]
  /\ const_types repository ["mw"; "notification"; "defaults"]
     = [TRef ["Notification"; "Options"] []]
  /\ forallb (fun m => match m with MProp _ false _ _ => true | _ => false end)
       (flat_map interface_members (lookup repository notification_options)) = true.
Proof.
  intros H. vm_compute in H. each_of H; repeat split.
Qed.

Lemma notify_options_kept_witness :
  match signatures repository mw_notification_notify with
  | g :: _ =>
      map param_type (tl (sig_params g)) = property_types repository mw_Notification "options"
  | [] => False
  end.
Proof.
  destruct (signatures repository mw_notification_notify) as [|g l] eqn:E;
    [vm_compute in E; discriminate E|].
  destruct (notify_options_kept g) as [H _]; [|exact H].
  apply in_or_app. right. rewrite E. left. reflexivity.
Defined.

(** ** The tools of the manifest *)

(** Every command that the manifest runs, in its scripts, its commit hook
    and its rule for staged files, is a development dependency of the
    package and not a dependency of those who install it; the entry point
    of the types is among the published files. *)
Theorem manifest_tools_declared (c : string) :
  In c (commands package_json) ->
  In c (keys (field "devDependencies" package_json))
  /\ ~ In c (map snd (declared_dependencies package_json))
  /\ (forall e, field "types" package_json = Some (JString e) ->
        In e (strings (field "files" package_json))).
Proof.
  intros H. vm_compute in H.
  assert (forall e, field "types" package_json = Some (JString e) ->
                    In e (strings (field "files" package_json))) as T.
  { intros e E. vm_compute in E. injection E as <-. vm_compute. tauto. }
  each_of H; (split; [vm_compute; tauto|]); (split; [|exact T]);
    vm_compute; intros [N|[N|[N|[]]]]; discriminate N.
Qed.

Lemma manifest_tools_declared_witness :
  In "tsd" (keys (field "devDependencies" package_json)).
Proof.
  destruct (manifest_tools_declared "tsd") as [H _]; [left; reflexivity | exact H].
Defined.
